(** * qbittorrent: a shallow embedding of the Web API client

    The development follows the Go package [qbittorrent].  The package exists
    in two revisions, and both are embedded:

    - [SidClient] is [client.go]: the session cookie is kept in the [sid]
      field of the client and attached to every request by [makeRequest];
    - [CtxClient] is the revision with context-accepting methods ([...Ctx])
      and their deprecated wrappers, where the session cookie is left to the
      cookie jar of the HTTP client.

    The Go standard library is not part of the package.  Its operations are
    modelled first, each under the name it has in Go with [_] for the dot:
    [strings_Split], [url_Values_Encode], [io_ReadAll], [http_Client_Do], ...
    The remote service and the JSON syntax checker are interfaces
    ([RoundTripper], [JSONSyntax]); concrete instances used to run the model
    are given at the end of the definitions. *)

From Stdlib Require Import ZArith String Ascii List Lia DecimalString SpecFloat.
From stdpp Require Import base option list gmap strings sorting.

Set Default Proof Using "Type".

(** ** Go values *)

(** A Go [error] is represented by its message ([err.Error()]). *)
Abbreviation error := string.

(** The pair [(value, err)] returned by a Go function. *)
Inductive result (A : Type) : Type :=
  | Ok (a : A)
  | Err (e : error).
Arguments Ok {A} a.
Arguments Err {A} e.

Definition is_Ok {A} (r : result A) : bool :=
  match r with Ok _ => true | Err _ => false end.

Definition is_Err {A} (r : result A) : bool :=
  match r with Ok _ => false | Err _ => true end.

(** Characters that cannot be written inside a string literal. *)
Definition dquote : string := String "034"%char EmptyString.
Definition CRLF : string := String "013"%char (String "010"%char EmptyString).

(** ** Package strconv and fmt *)

(** [strconv.Itoa], also the verb [%d]. *)
Definition strconv_Itoa (n : Z) : string := NilZero.string_of_int (Z.to_int n).

(** The verb [%t]. *)
Definition fmt_bool (b : bool) : string := if b then "true" else "false".

(** [float64] values are IEEE 754 binary64 data: [S754_finite s m e] is
    [(-1)^s * m * 2^e]. *)
Definition float64 := spec_float.

(** [x > 0] on [float64]: false on NaN. *)
Definition float64_gt0 (x : float64) : bool := SFltb (S754_zero false) x.

(** [m * 2^e * 100] rounded to the nearest integer, ties to even. *)
Definition scale100_round (m : positive) (e : Z) : Z :=
  let n := (Z.pos m * 100)%Z in
  if (0 <=? e)%Z then (n * 2 ^ e)%Z
  else
    let d := (2 ^ (- e))%Z in
    let q := (n / d)%Z in
    let r := (n mod d)%Z in
    if (d <? 2 * r)%Z then (q + 1)%Z
    else if ((2 * r =? d)%Z && Z.odd q)%bool then (q + 1)%Z
    else q.

Definition two_digits (n : Z) : string :=
  strconv_Itoa (n / 10) +:+ strconv_Itoa (n mod 10).

(** The verb [%.2f]: the exact value, correctly rounded to two decimals. *)
Definition fmt_2f (x : float64) : string :=
  match x with
  | S754_nan => "NaN"
  | S754_infinity false => "+Inf"
  | S754_infinity true => "-Inf"
  | S754_zero s => (if s then "-" else "") +:+ "0.00"
  | S754_finite s m e =>
      let q := scale100_round m e in
      (if s then "-" else "") +:+ strconv_Itoa (q / 100) +:+ "." +:+ two_digits (q mod 100)
  end.

(** ** Package strings *)

Definition strings_HasSuffix (s suffix : string) : bool :=
  let n := String.length s in
  let k := String.length suffix in
  (k <=? n)%nat && String.eqb (substring (n - k) k s) suffix.

Definition strings_TrimSuffix (s suffix : string) : string :=
  if strings_HasSuffix s suffix
  then substring 0 (String.length s - String.length suffix) s
  else s.

Definition strings_Join (elems : list string) (sep : string) : string :=
  String.concat sep elems.

Fixpoint strings_HasPrefix (s prefix : string) {struct prefix} : bool :=
  match prefix, s with
  | EmptyString, _ => true
  | String a prefix', String b s' => Ascii.eqb a b && strings_HasPrefix s' prefix'
  | String _ _, EmptyString => false
  end.

(** [split_from sep skip acc s]: [acc] holds, reversed, the bytes of the
    piece being read; [skip] bytes of a separator found earlier are still to
    be passed over. *)
Fixpoint split_from (sep : string) (skip : nat) (acc : string) (s : string) : list string :=
  match s with
  | EmptyString => [String.rev acc]
  | String c s' =>
      match skip with
      | S k => split_from sep k acc s'
      | O =>
          if strings_HasPrefix s sep
          then String.rev acc :: split_from sep (String.length sep - 1) EmptyString s'
          else split_from sep 0 (String c acc) s'
      end
  end.

(** [strings.Split] for a non-empty separator: the pieces between the
    occurrences of [sep], one more than there are occurrences. *)
Definition strings_Split (s sep : string) : list string := split_from sep 0 EmptyString s.

(** ** Package net/url *)

Definition hex_digit (n : N) : ascii :=
  match String.get (N.to_nat n) "0123456789ABCDEF" with
  | Some c => c
  | None => "0"%char
  end.

Definition is_unreserved (c : ascii) : bool :=
  let n := N_of_ascii c in
  ((65 <=? n) && (n <=? 90) || (97 <=? n) && (n <=? 122) || (48 <=? n) && (n <=? 57)
   || (n =? 45) || (n =? 95) || (n =? 46) || (n =? 126))%N.

(** [url.QueryEscape]: letters, digits and [-_.~] stay, a space becomes [+],
    any other byte becomes [%XX]. *)
Fixpoint url_QueryEscape (s : string) : string :=
  match s with
  | EmptyString => EmptyString
  | String c s' =>
      if is_unreserved c then String c (url_QueryEscape s')
      else if Ascii.eqb c " "%char then String "+"%char (url_QueryEscape s')
      else
        let n := N_of_ascii c in
        String "%"%char (String (hex_digit (n / 16)) (String (hex_digit (n mod 16))
          (url_QueryEscape s')))
  end.

(** [url.Values] is [map[string][]string]. *)
Abbreviation url_Values := (gmap string (list string)).

Definition url_Values_Set (key value : string) (v : url_Values) : url_Values :=
  <[key := [value]]> v.

Definition key_le (x y : string * list string) : Prop := String.leb x.1 y.1 = true.

#[global] Instance key_le_dec x y : Decision (key_le x y).
Proof. unfold key_le. apply _. Defined.

Definition encode_key (kv : string * list string) : list string :=
  map (fun x => url_QueryEscape kv.1 +:+ "=" +:+ url_QueryEscape x) kv.2.

(** [Values.Encode]: [key=value] pairs joined by [&], keys sorted. *)
Definition url_Values_Encode (v : url_Values) : string :=
  strings_Join (flat_map encode_key (merge_sort key_le (map_to_list v))) "&".

(** A parsed URL.  [Origin] is the text before the path (scheme and
    authority); escaping inside the path is not modelled. *)
Record url_URL := mkURL {
  Origin : string;
  Path : string;
  RawQuery : string;
}.

Definition is_control (c : ascii) : bool :=
  let n := N_of_ascii c in ((n <? 32) || (n =? 127))%N.

Fixpoint has_control (s : string) : bool :=
  match s with
  | EmptyString => false
  | String c s' => is_control c || has_control s'
  end.

Definition cut (sep : string) (s : string) : string * string :=
  match String.index 0 sep s with
  | Some i => (substring 0 i s, substring (i + String.length sep) (String.length s) s)
  | None => (s, EmptyString)
  end.

(** [url.Parse], for the addresses a client is configured with: an optional
    [scheme://authority], a path, an optional query; the fragment is dropped.
    A control character, or a colon in the first path segment of an address
    without scheme, is an error. *)
Definition url_Parse (rawURL : string) : result url_URL :=
  if has_control rawURL then Err "net/url: invalid control character in URL"
  else
    let nofrag := (cut "#" rawURL).1 in
    let (rest, query) := cut "?" nofrag in
    match String.index 0 "://" rest with
    | Some i =>
        let after := substring (i + 3) (String.length rest) rest in
        match String.index 0 "/" after with
        | Some j =>
            Ok (mkURL (substring 0 (i + 3 + j) rest)
                      (substring j (String.length after) after) query)
        | None => Ok (mkURL rest EmptyString query)
        end
    | None =>
        match String.index 0 ":" (cut "/" rest).1 with
        | Some _ => Err "first path segment in URL cannot contain colon"
        | None => Ok (mkURL EmptyString rest query)
        end
    end.

Definition url_URL_String (u : url_URL) : string :=
  Origin u +:+ Path u +:+ (if String.eqb (RawQuery u) "" then "" else "?" +:+ RawQuery u).

(** ** Package mime/multipart *)

Inductive Part : Type :=
  | FormFile (fieldname filename content : string)
  | FormField (fieldname value : string).

(** The writer: the parts written so far, in order. *)
Definition multipart_Writer := list Part.

Definition multipart_NewWriter : multipart_Writer := [].

(** [CreateFormFile] followed by [io.Copy] of the data into the part.  The
    underlying writer is a [bytes.Buffer], whose writes do not fail. *)
Definition multipart_CreateFormFile (fieldname filename content : string)
    (w : multipart_Writer) : result multipart_Writer :=
  Ok (w ++ [FormFile fieldname filename content]).

Definition multipart_WriteField (fieldname value : string) (w : multipart_Writer)
    : multipart_Writer :=
  w ++ [FormField fieldname value].

Fixpoint escapeQuotes (s : string) : string :=
  match s with
  | EmptyString => EmptyString
  | String c s' =>
      if (Ascii.eqb c "\"%char || Ascii.eqb c "034"%char)%bool
      then String "\"%char (String c (escapeQuotes s'))
      else String c (escapeQuotes s')
  end.

Definition part_bytes (p : Part) : string :=
  match p with
  | FormFile f n c =>
      "Content-Disposition: form-data; name=" +:+ dquote +:+ escapeQuotes f +:+ dquote
      +:+ "; filename=" +:+ dquote +:+ escapeQuotes n +:+ dquote +:+ CRLF
      +:+ "Content-Type: application/octet-stream" +:+ CRLF +:+ CRLF +:+ c
  | FormField f v =>
      "Content-Disposition: form-data; name=" +:+ dquote +:+ escapeQuotes f +:+ dquote
      +:+ CRLF +:+ CRLF +:+ v
  end.

Fixpoint parts_bytes (boundary : string) (first : bool) (ps : list Part) : string :=
  match ps with
  | [] => EmptyString
  | p :: ps' =>
      (if first then "" else CRLF) +:+ "--" +:+ boundary +:+ CRLF +:+ part_bytes p
      +:+ parts_bytes boundary false ps'
  end.

(** The bytes in the buffer after [writer.Close()]. *)
Definition multipart_bytes (boundary : string) (w : multipart_Writer) : string :=
  parts_bytes boundary true w +:+ CRLF +:+ "--" +:+ boundary +:+ "--" +:+ CRLF.

Definition multipart_FormDataContentType (boundary : string) : string :=
  "multipart/form-data; boundary=" +:+ boundary.

(** What [req.ParseMultipartForm] recovers: the values of a form field, in
    order, and the files of a file field. *)
Definition form_values (name : string) (w : multipart_Writer) : list string :=
  omap (fun p => match p with
                 | FormField f v => if String.eqb f name then Some v else None
                 | FormFile _ _ _ => None
                 end) w.

Definition form_files (name : string) (w : multipart_Writer) : list (string * string) :=
  omap (fun p => match p with
                 | FormFile f n c => if String.eqb f name then Some (n, c) else None
                 | FormField _ _ => None
                 end) w.

(** ** Package time *)

Inductive Location : Type := LocNil | Local.

(** [time.Time] without monotonic reading: [wall] holds the nanoseconds,
    [ext] the seconds since January 1, year 1. *)
Record time_Time := mkTime {
  wall : Z;
  ext : Z;
  loc : Location;
}.

(** [time.Time{}] *)
Definition time_zero : time_Time := mkTime 0 0 LocNil.

(** Arithmetic of [int64]: wrap-around. *)
Definition int64 (z : Z) : Z := ((z + 2 ^ 63) mod 2 ^ 64 - 2 ^ 63)%Z.

Definition in_int64 (z : Z) : Prop := (- 2 ^ 63 <= z < 2 ^ 63)%Z.

Definition unixToInternal : Z := 62135596800.
Definition internalToUnix : Z := (- unixToInternal)%Z.

(** [time.Unix(sec, nsec)] *)
Definition time_Unix (sec nsec : Z) : time_Time :=
  let '(sec, nsec) :=
    if ((nsec <? 0) || (1000000000 <=? nsec))%Z then
      let n := (nsec ÷ 1000000000)%Z in
      let sec := int64 (sec + n) in
      let nsec := (nsec - n * 1000000000)%Z in
      if (nsec <? 0)%Z then (int64 (sec - 1), (nsec + 1000000000)%Z) else (sec, nsec)
    else (sec, nsec) in
  mkTime nsec (int64 (sec + unixToInternal)) Local.

Definition Time_sec (t : time_Time) : Z := ext t.
Definition Time_nsec (t : time_Time) : Z := Z.land (wall t) (2 ^ 30 - 1).

(** [t.Unix()] *)
Definition Time_Unix (t : time_Time) : Z := int64 (Time_sec t + internalToUnix).

(** [t.IsZero()] *)
Definition Time_IsZero (t : time_Time) : bool :=
  ((Time_sec t =? 0) && (Time_nsec t =? 0))%Z.

(** [t.Equal(u)] *)
Definition Time_Equal (t u : time_Time) : bool :=
  ((Time_sec t =? Time_sec u) && (Time_nsec t =? Time_nsec u))%Z.

(** ** Package io: readers *)

(** An [io.Reader] is a mutable object: [pending] are the bytes not yet
    read, [failure] the error a read ends with instead of [io.EOF], and
    [drains] counts how often the reader was read to its end. *)
Record Reader := mkReader {
  pending : string;
  failure : option error;
  drains : nat;
}.

(** [strings.NewReader(s)], [bytes.NewReader(b)], a filled [bytes.Buffer]. *)
Definition strings_NewReader (s : string) : Reader := mkReader s None 0.

Definition Reader_drained (r : Reader) : Reader :=
  mkReader EmptyString (failure r) (S (drains r)).

(** [io.ReadAll(r)]: the value returned, and the reader afterwards. *)
Definition io_ReadAll (r : Reader) : result string * Reader :=
  (match failure r with
   | Some e => Err e
   | None => Ok (pending r)
   end, Reader_drained r).

(** ** Package context *)

(** [context.Background()] is never done.  Whether a cancellable context
    (one made by [WithCancel], [WithTimeout] or [WithDeadline]) is done at a
    given moment is a fact of the world the client runs in. *)
Inductive Context : Type :=
  | Background
  | Cancellable (id : nat).

(** ** Package net/http *)

Definition http_StatusOK : Z := 200.
Definition http_StatusForbidden : Z := 403.

Record http_Request := mkRequest {
  ReqCtx : Context;
  Method : string;
  URL : url_URL;
  ContentType : string;                 (* header Content-Type, empty when not set *)
  Cookies : list (string * string);     (* header Cookie *)
  Body : option string;                 (* nil, or the bytes of the body *)
}.

Record http_Response := mkResponse {
  StatusCode : Z;
  SetCookies : list (string * string);  (* resp.Cookies(): the Set-Cookie headers *)
  RespBody : string;                    (* the bytes resp.Body delivers *)
  RespBodyErr : option error;           (* the error reading resp.Body ends with *)
}.

(** [io.ReadAll(resp.Body)] *)
Definition Response_ReadAll (resp : http_Response) : string * option error :=
  (RespBody resp, RespBodyErr resp).

(** [http.RoundTripper]: the transport of the HTTP client, together with the
    remote service behind it.  [World] is everything outside the client. *)
Class RoundTripper := {
  World : Type;
  RoundTrip : http_Request -> World -> result http_Response * World;
  cancelled : World -> nat -> bool;
}.

Definition Context_done `{RoundTripper} (w : World) (ctx : Context) : bool :=
  match ctx with
  | Background => false
  | Cancellable id => cancelled w id
  end.

(** The network as the client sees it: the world, and a record of every
    request handed to the transport together with the world it was sent in. *)
Record Net `{RoundTripper} := mkNet {
  world : World;
  sent : list (World * http_Request);
}.
Arguments mkNet {_} _ _.

(** The answer the transport gave to a recorded request. *)
Definition answer `{RoundTripper} (e : World * http_Request) : result http_Response :=
  (RoundTrip e.2 e.1).1.

(** A cookie jar for one origin: name and value, oldest first. *)
Definition CookieJar := list (string * string).

Fixpoint jar_set (c : string * string) (jar : CookieJar) : CookieJar :=
  match jar with
  | [] => [c]
  | d :: jar' => if String.eqb d.1 c.1 then c :: jar' else d :: jar_set c jar'
  end.

Definition jar_SetCookies (cs : list (string * string)) (jar : CookieJar) : CookieJar :=
  fold_left (fun j c => jar_set c j) cs jar.

Fixpoint jar_get (name : string) (jar : CookieJar) : option string :=
  match jar with
  | [] => None
  | d :: jar' => if String.eqb d.1 name then Some d.2 else jar_get name jar'
  end.

(** [http.Client]: only its cookie jar matters here ([nil] when absent). *)
Record http_Client := mkHttpClient {
  Jar : option CookieJar;
}.

Definition Client_send_request (hc : http_Client) (req : http_Request) : http_Request :=
  match Jar hc with
  | Some jar =>
      mkRequest (ReqCtx req) (Method req) (URL req) (ContentType req)
                (Cookies req ++ jar) (Body req)
  | None => req
  end.

Definition Client_store_cookies (hc : http_Client) (r : result http_Response) : http_Client :=
  match Jar hc, r with
  | Some jar, Ok resp => mkHttpClient (Some (jar_SetCookies (SetCookies resp) jar))
  | _, _ => hc
  end.

(** [client.Do(req)]: the cookies of the jar are added to the request, the
    transport is asked, the cookies of the response go to the jar. *)
Definition http_Client_Do `{RoundTripper} (hc : http_Client) (req : http_Request) (n : Net)
    : result http_Response * http_Client * Net :=
  let req' := Client_send_request hc req in
  let '(r, w') := RoundTrip req' (world n) in
  (r, Client_store_cookies hc r, mkNet w' (sent n ++ [(world n, req')])).

Definition is_token_char (c : ascii) : bool :=
  let n := N_of_ascii c in
  ((32 <? n) && (n <? 127))%N
  && negb (existsb (N.eqb n) [34; 40; 41; 44; 47; 58; 59; 60; 61; 62; 63; 64; 91; 92; 93; 123; 125]%N).

Fixpoint all_token (s : string) : bool :=
  match s with
  | EmptyString => true
  | String c s' => is_token_char c && all_token s'
  end.

(** [http.NewRequestWithContext(ctx, method, u.String(), body)], for a URL [u]
    that [url.Parse] produced: printing and parsing it again gives [u] back,
    so the only error left is an invalid method. *)
Definition http_NewRequestWithContext (ctx : Context) (method : string) (u : url_URL)
    (body : option string) : result http_Request :=
  let method := if String.eqb method "" then "GET" else method in
  if all_token method
  then Ok (mkRequest ctx method u EmptyString [] body)
  else Err ("net/http: invalid method " +:+ dquote +:+ method +:+ dquote).

(** [http.NewRequest] uses the background context. *)
Definition http_NewRequest (method : string) (u : url_URL) (body : option string)
    : result http_Request :=
  http_NewRequestWithContext Background method u body.

Definition Request_set_ContentType (ct : string) (req : http_Request) : http_Request :=
  mkRequest (ReqCtx req) (Method req) (URL req) ct (Cookies req) (Body req).

(** [req.AddCookie(&http.Cookie{Name: name, Value: value})] *)
Definition Request_AddCookie (name value : string) (req : http_Request) : http_Request :=
  mkRequest (ReqCtx req) (Method req) (URL req) (ContentType req)
            (Cookies req ++ [(name, value)]) (Body req).

Definition Request_set_RawQuery (q : string) (req : http_Request) : http_Request :=
  mkRequest (ReqCtx req) (Method req) (mkURL (Origin (URL req)) (Path (URL req)) q)
            (ContentType req) (Cookies req) (Body req).

(** ** Package encoding/json *)

(** A JSON document.  A number keeps its literal. *)
Unset Elimination Schemes.
Inductive json : Type :=
  | JNull
  | JBool (b : bool)
  | JNumber (literal : string)
  | JString (s : string)
  | JArray (elems : list json)
  | JObject (members : list (string * json)).
Set Elimination Schemes.

(** The syntax of JSON is the library's.  The one fact used about it: the
    empty input is not a JSON document. *)
Class JSONSyntax := {
  json_parse : string -> result json;
  json_parse_empty : json_parse "" = Err "unexpected end of JSON input";
}.

(** What decoding into a Go value ends with: the value, an error, or a
    run-time panic. *)
Inductive decoded (A : Type) : Type :=
  | Decoded (a : A)
  | DecodeErr (e : error)
  | DecodePanic (msg : string).
Arguments Decoded {A} a.
Arguments DecodeErr {A} e.
Arguments DecodePanic {A} msg.

Definition nil_dereference : string :=
  "runtime error: invalid memory address or nil pointer dereference".

Definition ascii_lower (c : ascii) : ascii :=
  let n := N_of_ascii c in
  if ((65 <=? n) && (n <=? 90))%N then ascii_of_N (n + 32) else c.

Fixpoint string_lower (s : string) : string :=
  match s with
  | EmptyString => EmptyString
  | String c s' => String (ascii_lower c) (string_lower s')
  end.

(** The member of an object that goes to the field named [name]: the key is
    the name, up to the case of letters; the last such member counts. *)
Definition member (name : string) (ms : list (string * json)) : option json :=
  snd <$> last (filter (fun kv => string_lower kv.1 = string_lower name) ms).

Fixpoint digits_value (s : string) (acc : Z) : option Z :=
  match s with
  | EmptyString => Some acc
  | String c s' =>
      let n := N_of_ascii c in
      if ((48 <=? n) && (n <=? 57))%N
      then digits_value s' (acc * 10 + Z.of_N (n - 48))%Z
      else None
  end.

(** The value of a number literal as an [int64]: no fraction, no exponent,
    within range. *)
Definition literal_int64 (lit : string) : option Z :=
  let v :=
    match lit with
    | EmptyString => None
    | String "-" ds => if String.eqb ds "" then None else Z.opp <$> digits_value ds 0
    | _ => digits_value lit 0
    end in
  v ≫= fun z => if ((- 2 ^ 63 <=? z) && (z <? 2 ^ 63))%Z then Some z else None.

Definition type_error (what target : string) : error :=
  "json: cannot unmarshal " +:+ what +:+ " into Go value of type " +:+ target.

Definition json_kind (j : json) : string :=
  match j with
  | JNull => "null" | JBool _ => "bool" | JNumber _ => "number"
  | JString _ => "string" | JArray _ => "array" | JObject _ => "object"
  end.

(** Storing a member into a field that holds [cur]: an absent member and
    [null] leave the field as it is. *)
Definition store_string (cur : string) (j : option json) : result string :=
  match j with
  | None | Some JNull => Ok cur
  | Some (JString s) => Ok s
  | Some j => Err (type_error (json_kind j) "string")
  end.

Definition store_int64 (cur : Z) (j : option json) : result Z :=
  match j with
  | None | Some JNull => Ok cur
  | Some (JNumber lit) =>
      match literal_int64 lit with
      | Some z => Ok z
      | None => Err (type_error ("number " +:+ lit) "int64")
      end
  | Some j => Err (type_error (json_kind j) "int64")
  end.

Definition store_bool (cur : bool) (j : option json) : result bool :=
  match j with
  | None | Some JNull => Ok cur
  | Some (JBool b) => Ok b
  | Some j => Err (type_error (json_kind j) "bool")
  end.

Definition result_bind {A B} (r : result A) (f : A -> result B) : result B :=
  match r with
  | Ok a => f a
  | Err e => Err e
  end.

Notation "x <-? r ; k" := (result_bind r (fun x => k))
  (at level 100, r at next level, right associativity).

Definition decoded_of_result {A} (r : result A) : decoded A :=
  match r with
  | Ok a => Decoded a
  | Err e => DecodeErr e
  end.

(** Decoding the elements of an array (or the values of an object) one after
    the other: the first error or panic ends it. *)
Fixpoint decode_each {A B} (f : A -> decoded B) (l : list A) : decoded (list B) :=
  match l with
  | [] => Decoded []
  | x :: l' =>
      match f x with
      | Decoded y =>
          match decode_each f l' with
          | Decoded ys => Decoded (y :: ys)
          | DecodeErr e => DecodeErr e
          | DecodePanic m => DecodePanic m
          end
      | DecodeErr e => DecodeErr e
      | DecodePanic m => DecodePanic m
      end
  end.

(** * The package: types and decoding shared by both revisions *)

Definition InfoHash := string.

(** A Go slice is [nil] ([None]) or holds elements ([Some l], also when [l]
    is empty). *)
Definition slice (A : Type) := option (list A).

Definition slice_elems {A} (s : slice A) : list A := default [] s.

(** [TorrentInfo].  Of the fields decoded by their struct tag alone, those
    without a role in the client's own code are represented by [Name],
    [Hash], [Category], [State], [Size], [AddedOn] and [AutoTMM]. *)
Module TorrentInfo.
Record t := mk {
  AddedOn : Z;
  AutoTMM : bool;
  Category : string;
  Hash : InfoHash;
  Name : string;
  Size : Z;
  State : string;
  Tags : slice string;
}.
Definition zero : t := mk 0 false "" "" "" 0 "" None.
Definition set_Tags (tags : slice string) (x : t) : t :=
  mk (AddedOn x) (AutoTMM x) (Category x) (Hash x) (Name x) (Size x) (State x) tags.
End TorrentInfo.

(** [TorrentsProperties]: the four timestamps, and of the fields decoded by
    their struct tag alone [Comment], [Hash], [Name], [PieceSize],
    [SavePath], [TotalSize] and [Private]. *)
Module TorrentsProperties.
Record t := mk {
  AdditionDate : time_Time;
  Comment : string;
  CompletionDate : time_Time;
  CreationDate : time_Time;
  Hash : InfoHash;
  LastSeen : time_Time;
  Name : string;
  PieceSize : Z;
  Private : bool;
  SavePath : string;
  TotalSize : Z;
}.
Definition zero : t :=
  mk time_zero "" time_zero time_zero "" time_zero "" 0 false "" 0.
Definition set_dates (a c cr l : time_Time) (x : t) : t :=
  mk a (Comment x) c cr (Hash x) l (Name x) (PieceSize x) (Private x) (SavePath x)
     (TotalSize x).
End TorrentsProperties.

Module TrackerInfo.
Record t := mk {
  URL : string;
  Status : Z;
  Tier : Z;
  NumPeers : Z;
  Msg : string;
}.
Definition zero : t := mk "" 0 0 0 "".
End TrackerInfo.

(** [MainData], with [FullUpdate], [Rid], [Tags] and [Torrents]. *)
Module MainData.
Record t := mk {
  FullUpdate : bool;
  Rid : Z;
  Tags : slice string;
  Torrents : gmap string TorrentInfo.t;
}.
Definition zero : t := mk false 0 None ∅.
End MainData.

(** [TorrentPeers], with [FullUpdate], [Rid], [ShowFlags] and, of each
    peer, [Client], [IP] and [Port]. *)
Module TorrentPeer.
Record t := mk {
  Client : string;
  IP : string;
  Port : Z;
}.
Definition zero : t := mk "" "" 0.
End TorrentPeer.

Module TorrentPeers.
Record t := mk {
  FullUpdate : bool;
  Peers : gmap string TorrentPeer.t;
  Rid : Z;
  ShowFlags : bool;
}.
Definition zero : t := mk false ∅ 0 false.
End TorrentPeers.

(** [TorrentsAddParams] *)
Module TorrentsAddParams.
Record t := mk {
  Torrents : list string;      (* raw torrent data *)
  URLs : list string;
  SavePath : string;
  Cookie : string;
  Category : string;
  Tags : string;
  SkipCheck : bool;
  Paused : bool;
  RootFolder : option bool;    (* *bool *)
  Rename : string;
  UpLimit : Z;
  DlLimit : Z;
  RatioLimit : float64;
  SeedingTime : Z;
  AutoTMM : bool;
  Sequential : bool;
  FirstLast : bool;
}.
Definition zero : t :=
  mk [] [] "" "" "" "" false false None "" 0 0 (S754_zero false) 0 false false false.
End TorrentsAddParams.

(** [TorrentsInfoParams] *)
Module TorrentsInfoParams.
Record t := mk {
  Filter : string;
  Category : string;
  Tag : string;
  Sort : string;
  Reverse : bool;
  Limit : Z;
  Offset : Z;
  Hashes : list string;
}.
Definition zero : t := mk "" "" "" "" false 0 0 [].
End TorrentsInfoParams.

(** [unixTimeOrZero] *)
Definition unixTimeOrZero (value : Z) : time_Time :=
  if (value =? -1)%Z then time_zero else time_Unix value 0.

Section Decoding.
Context `{JSONSyntax}.

(** [json.Unmarshal(data, &aux)] inside [TorrentsProperties.UnmarshalJSON],
    on the parsed document: [aux] points to a struct with the four integer
    fields and the fields of [*t].  The document [null] sets the pointer
    [aux] to [nil] ([None]). *)
Definition Unmarshal_TorrentsProperties_aux (j : json) (t : TorrentsProperties.t)
    : result (option (Z * Z * Z * Z * TorrentsProperties.t)) :=
  match j with
  | JNull => Ok None
  | JObject ms =>
      additionDate <-? store_int64 0 (member "addition_date" ms);
      completionDate <-? store_int64 0 (member "completion_date" ms);
      creationDate <-? store_int64 0 (member "creation_date" ms);
      lastSeen <-? store_int64 0 (member "last_seen" ms);
      comment <-? store_string (TorrentsProperties.Comment t) (member "comment" ms);
      hash <-? store_string (TorrentsProperties.Hash t) (member "hash" ms);
      name <-? store_string (TorrentsProperties.Name t) (member "name" ms);
      pieceSize <-? store_int64 (TorrentsProperties.PieceSize t) (member "piece_size" ms);
      private <-? store_bool (TorrentsProperties.Private t) (member "private" ms);
      savePath <-? store_string (TorrentsProperties.SavePath t) (member "save_path" ms);
      totalSize <-? store_int64 (TorrentsProperties.TotalSize t) (member "total_size" ms);
      Ok (Some (additionDate, completionDate, creationDate, lastSeen,
                TorrentsProperties.mk (TorrentsProperties.AdditionDate t) comment
                  (TorrentsProperties.CompletionDate t) (TorrentsProperties.CreationDate t)
                  hash (TorrentsProperties.LastSeen t) name pieceSize private savePath
                  totalSize))
  | j => Err (type_error (json_kind j) "struct")
  end.

(** [TorrentsProperties.UnmarshalJSON], after the syntax of [data] has
    been checked. *)
Definition TorrentsProperties_UnmarshalJSON_value (j : json) (t : TorrentsProperties.t)
    : decoded TorrentsProperties.t :=
  match Unmarshal_TorrentsProperties_aux j t with
  | Err err => DecodeErr err
  | Ok None => DecodePanic nil_dereference
  | Ok (Some (additionDate, completionDate, creationDate, lastSeen, t)) =>
      Decoded (TorrentsProperties.set_dates
                 (unixTimeOrZero additionDate)
                 (unixTimeOrZero completionDate)
                 (unixTimeOrZero creationDate)
                 (unixTimeOrZero lastSeen) t)
  end.

Definition TorrentsProperties_UnmarshalJSON (data : string) (t : TorrentsProperties.t)
    : decoded TorrentsProperties.t :=
  match json_parse data with
  | Err err => DecodeErr err
  | Ok j => TorrentsProperties_UnmarshalJSON_value j t
  end.

(** [json.Unmarshal(data, &aux)] inside [TorrentInfo.UnmarshalJSON]. *)
Definition Unmarshal_TorrentInfo_aux (j : json) (t : TorrentInfo.t)
    : result (option (string * TorrentInfo.t)) :=
  match j with
  | JNull => Ok None
  | JObject ms =>
      rawTags <-? store_string "" (member "tags" ms);
      addedOn <-? store_int64 (TorrentInfo.AddedOn t) (member "added_on" ms);
      autoTMM <-? store_bool (TorrentInfo.AutoTMM t) (member "auto_tmm" ms);
      category <-? store_string (TorrentInfo.Category t) (member "category" ms);
      hash <-? store_string (TorrentInfo.Hash t) (member "hash" ms);
      name <-? store_string (TorrentInfo.Name t) (member "name" ms);
      size <-? store_int64 (TorrentInfo.Size t) (member "size" ms);
      state <-? store_string (TorrentInfo.State t) (member "state" ms);
      Ok (Some (rawTags,
                TorrentInfo.mk addedOn autoTMM category hash name size state
                  (TorrentInfo.Tags t)))
  | j => Err (type_error (json_kind j) "struct")
  end.

(** [TorrentInfo.UnmarshalJSON], after the syntax of [data] has been
    checked. *)
Definition TorrentInfo_UnmarshalJSON_value (j : json) (t : TorrentInfo.t)
    : decoded TorrentInfo.t :=
  match Unmarshal_TorrentInfo_aux j t with
  | Err err => DecodeErr err
  | Ok None => DecodePanic nil_dereference
  | Ok (Some (rawTags, t)) =>
      if String.eqb rawTags ""
      then Decoded (TorrentInfo.set_Tags (Some []) t)
      else Decoded (TorrentInfo.set_Tags (Some (strings_Split rawTags ",")) t)
  end.

Definition TorrentInfo_UnmarshalJSON (data : string) (t : TorrentInfo.t)
    : decoded TorrentInfo.t :=
  match json_parse data with
  | Err err => DecodeErr err
  | Ok j => TorrentInfo_UnmarshalJSON_value j t
  end.

(** [json.Unmarshal(respData, &props)] with [var props TorrentsProperties] *)
Definition Unmarshal_TorrentsProperties (data : string) : decoded TorrentsProperties.t :=
  TorrentsProperties_UnmarshalJSON data TorrentsProperties.zero.

(** [json.Unmarshal(respData, &torrents)] with [var torrents []TorrentInfo] *)
Definition Unmarshal_TorrentInfos (data : string) : decoded (slice TorrentInfo.t) :=
  match json_parse data with
  | Err err => DecodeErr err
  | Ok JNull => Decoded None
  | Ok (JArray elems) =>
      match decode_each (fun j => TorrentInfo_UnmarshalJSON_value j TorrentInfo.zero) elems with
      | Decoded l => Decoded (Some l)
      | DecodeErr e => DecodeErr e
      | DecodePanic m => DecodePanic m
      end
  | Ok j => DecodeErr (type_error (json_kind j) "[]qbittorrent.TorrentInfo")
  end.

Definition TrackerInfo_value (j : json) : result TrackerInfo.t :=
  match j with
  | JNull => Ok TrackerInfo.zero
  | JObject ms =>
      url <-? store_string "" (member "url" ms);
      status <-? store_int64 0 (member "status" ms);
      tier <-? store_int64 0 (member "tier" ms);
      numPeers <-? store_int64 0 (member "num_peers" ms);
      msg <-? store_string "" (member "msg" ms);
      Ok (TrackerInfo.mk url status tier numPeers msg)
  | j => Err (type_error (json_kind j) "qbittorrent.TrackerInfo")
  end.

(** [json.Unmarshal(respData, &trackers)] with [var trackers []TrackerInfo] *)
Definition Unmarshal_TrackerInfos (data : string) : result (slice TrackerInfo.t) :=
  j <-? json_parse data;
  match j with
  | JNull => Ok None
  | JArray elems =>
      (fix go (l : list json) : result (slice TrackerInfo.t) :=
         match l with
         | [] => Ok (Some [])
         | x :: l' => y <-? TrackerInfo_value x; ys <-? go l'; Ok (Some (y :: slice_elems ys))
         end) elems
  | j => Err (type_error (json_kind j) "[]qbittorrent.TrackerInfo")
  end.

Definition strings_value (j : option json) : result (slice string) :=
  match j with
  | None | Some JNull => Ok None
  | Some (JArray elems) =>
      (fix go (l : list json) : result (slice string) :=
         match l with
         | [] => Ok (Some [])
         | x :: l' => y <-? store_string "" (Some x); ys <-? go l'; Ok (Some (y :: slice_elems ys))
         end) elems
  | Some j => Err (type_error (json_kind j) "[]string")
  end.

(** [json.Unmarshal(respData, &tags)] with [var tags []string] *)
Definition Unmarshal_strings (data : string) : result (slice string) :=
  j <-? json_parse data;
  strings_value (Some j).

(** The values of a JSON object decoded into a Go map. *)
Definition decode_map {B} (f : json -> decoded B) (j : option json)
    : decoded (gmap string B) :=
  match j with
  | None | Some JNull => Decoded ∅
  | Some (JObject ms) =>
      match decode_each (fun kv => match f kv.2 with
                                   | Decoded b => Decoded (kv.1, b)
                                   | DecodeErr e => DecodeErr e
                                   | DecodePanic m => DecodePanic m
                                   end) ms with
      | Decoded l => Decoded (fold_left (fun m kv => <[kv.1 := kv.2]> m) l ∅)
      | DecodeErr e => DecodeErr e
      | DecodePanic m => DecodePanic m
      end
  | Some j => DecodeErr (type_error (json_kind j) "map")
  end.

(** [json.Unmarshal(resp, &result)] with [var result MainData] *)
Definition Unmarshal_MainData (data : string) : decoded MainData.t :=
  match json_parse data with
  | Err err => DecodeErr err
  | Ok JNull => Decoded MainData.zero
  | Ok (JObject ms) =>
      match decode_map (fun j => TorrentInfo_UnmarshalJSON_value j TorrentInfo.zero)
              (member "torrents" ms) with
      | Decoded torrents =>
          decoded_of_result
            (fullUpdate <-? store_bool false (member "full_update" ms);
             rid <-? store_int64 0 (member "rid" ms);
             tags <-? strings_value (member "tags" ms);
             Ok (MainData.mk fullUpdate rid tags torrents))
      | DecodeErr e => DecodeErr e
      | DecodePanic m => DecodePanic m
      end
  | Ok j => DecodeErr (type_error (json_kind j) "qbittorrent.MainData")
  end.

Definition TorrentPeer_value (j : json) : decoded TorrentPeer.t :=
  match j with
  | JNull => Decoded TorrentPeer.zero
  | JObject ms =>
      decoded_of_result
        (client <-? store_string "" (member "client" ms);
         ip <-? store_string "" (member "ip" ms);
         port <-? store_int64 0 (member "port" ms);
         Ok (TorrentPeer.mk client ip port))
  | j => DecodeErr (type_error (json_kind j) "qbittorrent.TorrentPeer")
  end.

(** [json.Unmarshal(resp, &result)] with [var result TorrentPeers] *)
Definition Unmarshal_TorrentPeers (data : string) : decoded TorrentPeers.t :=
  match json_parse data with
  | Err err => DecodeErr err
  | Ok JNull => Decoded TorrentPeers.zero
  | Ok (JObject ms) =>
      match decode_map TorrentPeer_value (member "peers" ms) with
      | Decoded peers =>
          decoded_of_result
            (fullUpdate <-? store_bool false (member "full_update" ms);
             rid <-? store_int64 0 (member "rid" ms);
             showFlags <-? store_bool false (member "show_flags" ms);
             Ok (TorrentPeers.mk fullUpdate peers rid showFlags))
      | DecodeErr e => DecodeErr e
      | DecodePanic m => DecodePanic m
      end
  | Ok j => DecodeErr (type_error (json_kind j) "qbittorrent.TorrentPeers")
  end.
End Decoding.

(** * Running the client *)

(** A call of a method of the client ends in one of three ways: it returns
    a value, it panics, or it does not end within the given number of nested
    calls of [doRequest].  Each time the state it has reached is kept. *)
Inductive outcome (S A : Type) : Type :=
  | Returns (a : A) (s : S)
  | Panics (msg : string) (s : S)
  | OutOfFuel (s : S).
Arguments Returns {S A} a s.
Arguments Panics {S A} msg s.
Arguments OutOfFuel {S A} s.

Definition final_state {S A} (o : outcome S A) : S :=
  match o with
  | Returns _ s | Panics _ s | OutOfFuel s => s
  end.

Definition M (S A : Type) : Type := S -> outcome S A.

Definition ret {S A} (a : A) : M S A := fun s => Returns a s.

Definition bind {S A B} (m : M S A) (k : A -> M S B) : M S B :=
  fun s =>
    match m s with
    | Returns a s' => k a s'
    | Panics msg s' => Panics msg s'
    | OutOfFuel s' => OutOfFuel s'
    end.

Definition panic {S A} (msg : string) : M S A := fun s => Panics msg s.

Notation "x <- m ;; k" := (bind m (fun x => k))
  (at level 100, m at next level, right associativity).

(** The state a call runs in: the client object [c] points to, the readers
    that exist, and the network. *)
Record State `{RoundTripper} (C : Type) := mkState {
  self : C;
  readers : list Reader;
  net : Net;
}.
Arguments mkState {_ C} _ _ _.
Arguments self {_ C} _.
Arguments readers {_ C} _.
Arguments net {_ C} _.

(** The address of a reader. *)
Abbreviation addr := nat.

Section Primitives.
Context `{RoundTripper} `{JSONSyntax} {C : Type}.

Definition get_self : M (State C) C := fun s => Returns (self s) s.

(** A new reader on the given bytes. *)
Definition new_reader (data : string) : M (State C) addr :=
  fun s =>
    Returns (length (readers s))
            (mkState (self s) (readers s ++ [strings_NewReader data]) (net s)).

(** [io.ReadAll(body)] *)
Definition read_all (a : addr) : M (State C) (result string) :=
  fun s =>
    match readers s !! a with
    | Some r =>
        let '(res, r') := io_ReadAll r in
        Returns res (mkState (self s) (<[a := r']> (readers s)) (net s))
    | None => Panics nil_dereference s
    end.

(** The request modifiers [opts] of the request helpers, applied in
    order. *)
Fixpoint apply_opts (opts : list (http_Request -> result http_Request))
    (req : http_Request) : result http_Request :=
  match opts with
  | [] => Ok req
  | opt :: opts' => req' <-? opt req; apply_opts opts' req'
  end.

(** [withQuery].  A [nil] map of values encodes like the empty one. *)
Definition withQuery (query : url_Values) (req : http_Request) : result http_Request :=
  Ok (Request_set_RawQuery (url_Values_Encode query) req).

(** A decoded value, or the decoder's error in the given wrapping; a panic
    of the decoder is a panic of the caller. *)
Definition decode_step {A} (d : decoded A) (wrap : error -> error) : M (State C) (result A) :=
  match d with
  | Decoded a => ret (Ok a)
  | DecodeErr e => ret (Err (wrap e))
  | DecodePanic msg => panic msg
  end.

(** The loop over [torrents] and their tags that fills [tagSet], and the
    loop over [tagSet] that fills [tags].  The order in which Go ranges
    over a map is not fixed; [elements] stands for it. *)
Definition collect_tags (torrents : slice TorrentInfo.t) : slice string :=
  let tagSet : gset string :=
    list_to_set (flat_map (fun t => slice_elems (TorrentInfo.Tags t)) (slice_elems torrents)) in
  match elements tagSet with
  | [] => None
  | l => Some l
  end.
End Primitives.

(** ** The multipart form of the add call

    The loop over [params.Torrents], the loop over [params.URLs] and the
    block of optional fields are the same text in [TorrentsAddParams] of
    [client.go] and in [buildTorrentAddForm] of the other revision. *)

Fixpoint add_torrent_files (i : nat) (torrents : list string) (writer : multipart_Writer)
    : result multipart_Writer :=
  match torrents with
  | [] => Ok writer
  | torrentData :: rest =>
      match multipart_CreateFormFile "torrents"
              ("torrent" +:+ strconv_Itoa (Z.of_nat i) +:+ ".torrent") torrentData writer with
      | Err err => Err ("CreateFormFile error: " +:+ err)
      | Ok writer => add_torrent_files (S i) rest writer
      end
  end.

Definition add_urls (urls : list string) (writer : multipart_Writer) : multipart_Writer :=
  fold_left (fun w url => multipart_WriteField "urls" url w) urls writer.

(** [if cond { _ = writer.WriteField(name, value) }] *)
Definition write_if (cond : bool) (name value : string) (writer : multipart_Writer)
    : multipart_Writer :=
  if cond then multipart_WriteField name value writer else writer.

Definition nonempty (s : string) : bool := negb (String.eqb s "").

Definition add_other_fields (params : TorrentsAddParams.t) (writer : multipart_Writer)
    : multipart_Writer :=
  let writer := write_if (nonempty (TorrentsAddParams.SavePath params))
                  "savepath" (TorrentsAddParams.SavePath params) writer in
  let writer := write_if (nonempty (TorrentsAddParams.Cookie params))
                  "cookie" (TorrentsAddParams.Cookie params) writer in
  let writer := write_if (nonempty (TorrentsAddParams.Category params))
                  "category" (TorrentsAddParams.Category params) writer in
  let writer := write_if (nonempty (TorrentsAddParams.Tags params))
                  "tags" (TorrentsAddParams.Tags params) writer in
  let writer := write_if (TorrentsAddParams.SkipCheck params) "skip_checking" "true" writer in
  let writer := write_if (TorrentsAddParams.Paused params) "paused" "true" writer in
  let writer := match TorrentsAddParams.RootFolder params with
                | Some b => multipart_WriteField "root_folder" (fmt_bool b) writer
                | None => writer
                end in
  let writer := write_if (nonempty (TorrentsAddParams.Rename params))
                  "rename" (TorrentsAddParams.Rename params) writer in
  let writer := write_if (0 <? TorrentsAddParams.UpLimit params)%Z
                  "upLimit" (strconv_Itoa (TorrentsAddParams.UpLimit params)) writer in
  let writer := write_if (0 <? TorrentsAddParams.DlLimit params)%Z
                  "dlLimit" (strconv_Itoa (TorrentsAddParams.DlLimit params)) writer in
  let writer := write_if (float64_gt0 (TorrentsAddParams.RatioLimit params))
                  "ratioLimit" (fmt_2f (TorrentsAddParams.RatioLimit params)) writer in
  let writer := write_if (0 <? TorrentsAddParams.SeedingTime params)%Z
                  "seedingTimeLimit" (strconv_Itoa (TorrentsAddParams.SeedingTime params))
                  writer in
  let writer := write_if (TorrentsAddParams.AutoTMM params) "autoTMM" "true" writer in
  let writer := write_if (TorrentsAddParams.Sequential params)
                  "sequentialDownload" "true" writer in
  let writer := write_if (TorrentsAddParams.FirstLast params)
                  "firstLastPiecePrio" "true" writer in
  writer.

(** The parts in the writer when [writer.Close()] is reached. *)
Definition torrent_add_parts (params : TorrentsAddParams.t) : result multipart_Writer :=
  writer <-? add_torrent_files 0 (TorrentsAddParams.Torrents params) multipart_NewWriter;
  Ok (add_other_fields params (add_urls (TorrentsAddParams.URLs params) writer)).

(** The query of the list call: the same text in [TorrentsInfo] of
    [client.go] and in [buildTorrentsInfoQuery]. *)
Definition set_if (cond : bool) (key value : string) (query : url_Values) : url_Values :=
  if cond then url_Values_Set key value query else query.

Definition buildTorrentsInfoQuery (params : TorrentsInfoParams.t) : url_Values :=
  let query : url_Values := ∅ in
  let query := set_if (nonempty (TorrentsInfoParams.Filter params))
                 "filter" (TorrentsInfoParams.Filter params) query in
  let query := set_if (nonempty (TorrentsInfoParams.Category params))
                 "category" (TorrentsInfoParams.Category params) query in
  let query := set_if (nonempty (TorrentsInfoParams.Tag params))
                 "tag" (TorrentsInfoParams.Tag params) query in
  let query := set_if (nonempty (TorrentsInfoParams.Sort params))
                 "sort" (TorrentsInfoParams.Sort params) query in
  let query := set_if (TorrentsInfoParams.Reverse params) "reverse" "true" query in
  let query := set_if (0 <? TorrentsInfoParams.Limit params)%Z
                 "limit" (strconv_Itoa (TorrentsInfoParams.Limit params)) query in
  let query := set_if (negb (TorrentsInfoParams.Offset params =? 0)%Z)
                 "offset" (strconv_Itoa (TorrentsInfoParams.Offset params)) query in
  let query := set_if (negb (length (TorrentsInfoParams.Hashes params) =? 0)%nat)
                 "hashes" (strings_Join (TorrentsInfoParams.Hashes params) "|") query in
  query.

Definition form_urlencoded : string := "application/x-www-form-urlencoded".
Definition login_endpoint : string := "/api/v2/auth/login".

(** ** The endpoint methods as data

    One constructor per endpoint method, with its arguments, and one type
    for what the methods return besides the error. *)
Inductive Call : Type :=
  | CallAuthLogin
  | CallTorrentsExport (hash : string)
  | CallTorrentsAddParams (boundary : string) (params : TorrentsAddParams.t)
  | CallTorrentsAdd (boundary torrentFile fileData : string)
  | CallTorrentsDelete (infohash : string)
  | CallSetForceStart (hash : string) (value : bool)
  | CallTorrentsDownload (infohash : string)
  | CallTorrentsInfo (params : list (option TorrentsInfoParams.t))
  | CallTorrentsTrackers (hash : string)
  | CallTorrentsProperties (hash : string)
  | CallTorrentsAddTags (hashes tags : string)
  | CallTorrentsRemoveTags (hashes tags : string)
  | CallTorrentsGetTags (hashes : string)
  | CallTorrentsGetAllTags
  | CallTorrentsCreateTags (tags : string)
  | CallTorrentsDeleteTags (tags : string)
  | CallSyncMainData (rid : Z)
  | CallSyncTorrentPeers (hash : string) (rid : Z).

Inductive Value : Type :=
  | VNone
  | VBytes (b : string)
  | VTorrents (l : slice TorrentInfo.t)
  | VTrackers (l : slice TrackerInfo.t)
  | VProperties (p : TorrentsProperties.t)
  | VTags (l : slice string)
  | VMainData (d : MainData.t)
  | VTorrentPeers (p : TorrentPeers.t).

Definition result_map {A B} (f : A -> B) (r : result A) : result B :=
  match r with
  | Ok a => Ok (f a)
  | Err e => Err e
  end.

Definition returning {S A} (f : A -> Value) (m : M S (result A)) : M S (result Value) :=
  r <- m;; ret (result_map f r).

(** The methods whose result is decoded from a JSON response. *)
Definition expects_json (c : Call) : bool :=
  match c with
  | CallTorrentsInfo _ | CallTorrentsTrackers _ | CallTorrentsProperties _
  | CallTorrentsGetTags _ | CallTorrentsGetAllTags | CallSyncMainData _
  | CallSyncTorrentPeers _ _ => true
  | _ => false
  end.

(** * Revision [client.go]: the session cookie in the client *)

Module SidClient.

Record Client := mkClient {
  username : string;
  password : string;
  client : http_Client;
  baseURL : string;
  sid : string;
}.

Definition set_client (hc : http_Client) (c : Client) : Client :=
  mkClient (username c) (password c) hc (baseURL c) (sid c).

Definition set_sid (v : string) (c : Client) : Client :=
  mkClient (username c) (password c) (client c) (baseURL c) v.

Section Methods.
Context `{RoundTripper} `{JSONSyntax}.

Abbreviation St := (State Client).

(** [c.client.Do(req)] *)
Definition Do (req : http_Request) : M St (result http_Response) :=
  fun s =>
    let '(r, hc, n) := http_Client_Do (client (self s)) req (net s) in
    Returns r (mkState (set_client hc (self s)) (readers s) n).

(** [c.sid = cookie.Value], under the lock *)
Definition store_sid (v : string) : M St unit :=
  fun s => Returns tt (mkState (set_sid v (self s)) (readers s) (net s)).

(** The closure [makeRequest] of [doRequest]. *)
Definition makeRequest (method : string) (apiURL : url_URL) (bodyBuffer : option string)
    (contentType : string) (opts : list (http_Request -> result http_Request))
    : M St (result http_Request) :=
  c <- get_self;;
  match http_NewRequest method apiURL bodyBuffer with
  | Err err => ret (Err ("NewRequest error: " +:+ err))
  | Ok req =>
      let req := if nonempty contentType then Request_set_ContentType contentType req
                 else req in
      let req := if nonempty (sid c) then Request_AddCookie "SID" (sid c) req else req in
      ret (apply_opts opts req)
  end.

(** The body of [AuthLogin], with [doPostResponse] as a parameter:
    [AuthLogin] and [doRequest] call each other. *)
Definition AuthLogin_body
    (doPostResponse : string -> option addr -> string -> M St (result http_Response))
    : M St (result unit) :=
  c <- get_self;;
  let data : url_Values := ∅ in
  let data := url_Values_Set "username" (username c) data in
  let data := url_Values_Set "password" (password c) data in
  body <- new_reader (url_Values_Encode data);;
  r <- doPostResponse login_endpoint (Some body) form_urlencoded;;
  match r with
  | Err err => ret (Err ("AuthLogin error: " +:+ err))
  | Ok resp =>
      if negb (StatusCode resp =? http_StatusOK)%Z then
        let respBody := (Response_ReadAll resp).1 in
        ret (Err ("AuthLogin error (" +:+ strconv_Itoa (StatusCode resp) +:+ "): "
                  +:+ respBody))
      else
        match jar_get "SID" (SetCookies resp) with
        | Some v => _ <- store_sid v;; ret (Ok tt)
        | None => ret (Ok tt)
        end
  end.

(** [doRequest].  [fuel] bounds the depth of the calls of [doRequest]
    inside [AuthLogin] inside [doRequest]. *)
Fixpoint doRequest (fuel : nat) (method endpoint : string) (body : option addr)
    (contentType : string) (opts : list (http_Request -> result http_Request))
    {struct fuel} : M St (result http_Response) :=
  match fuel with
  | O => fun s => OutOfFuel s
  | S fuel' =>
      c <- get_self;;
      match url_Parse (baseURL c) with
      | Err err => ret (Err ("failed to parse base URL: " +:+ err))
      | Ok apiURL =>
          let apiURL := mkURL (Origin apiURL)
                              (strings_TrimSuffix (Path apiURL) "/" +:+ endpoint)
                              (RawQuery apiURL) in
          rb <- match body with
                | Some b =>
                    r <- read_all b;;
                    ret match r with
                        | Ok bytes => Ok (Some bytes)
                        | Err err => Err ("failed to read request body: " +:+ err)
                        end
                | None => ret (Ok None)
                end;;
          match rb with
          | Err err => ret (Err err)
          | Ok bodyBuffer =>
              r <- makeRequest method apiURL bodyBuffer contentType opts;;
              match r with
              | Err err => ret (Err err)
              | Ok req =>
                  r <- Do req;;
                  match r with
                  | Err err => ret (Err err)
                  | Ok resp =>
                      if (StatusCode resp =? http_StatusForbidden)%Z then
                        r <- AuthLogin_body
                               (fun endpoint body contentType =>
                                  doRequest fuel' "POST" endpoint body contentType []);;
                        match r with
                        | Err err => ret (Err ("re-authentication failed: " +:+ err))
                        | Ok _ =>
                            r <- makeRequest method apiURL bodyBuffer contentType opts;;
                            match r with
                            | Err err => ret (Err err)
                            | Ok req => Do req
                            end
                        end
                      else ret (Ok resp)
                  end
              end
          end
      end
  end.

Definition doPostResponse (fuel : nat) (endpoint : string) (body : option addr)
    (contentType : string) : M St (result http_Response) :=
  doRequest fuel "POST" endpoint body contentType [].

Definition AuthLogin (fuel : nat) : M St (result unit) :=
  AuthLogin_body (doPostResponse fuel).

Definition doPost (fuel : nat) (endpoint : string) (body : option addr)
    (contentType : string) : M St (result string) :=
  r <- doPostResponse fuel endpoint body contentType;;
  match r with
  | Err err => ret (Err err)
  | Ok resp =>
      match Response_ReadAll resp with
      | (_, Some err) => ret (Err err)
      | (respBody, None) =>
          if negb (StatusCode resp =? http_StatusOK)%Z then
            ret (Err ("POST error (" +:+ strconv_Itoa (StatusCode resp) +:+ "): "
                      +:+ respBody))
          else ret (Ok respBody)
      end
  end.

Definition doPostValues (fuel : nat) (endpoint : string) (data : url_Values)
    : M St (result string) :=
  body <- new_reader (url_Values_Encode data);;
  doPost fuel endpoint (Some body) form_urlencoded.

Definition doGet (fuel : nat) (endpoint : string) (query : url_Values)
    : M St (result string) :=
  r <- doRequest fuel "GET" endpoint None "" [withQuery query];;
  match r with
  | Err err => ret (Err err)
  | Ok resp =>
      if negb (StatusCode resp =? http_StatusOK)%Z then
        let respBody := (Response_ReadAll resp).1 in
        ret (Err ("unexpected response code: " +:+ strconv_Itoa (StatusCode resp)
                  +:+ ", response: " +:+ respBody))
      else
        match Response_ReadAll resp with
        | (_, Some err) => ret (Err ("ReadAll error: " +:+ err))
        | (responseData, None) => ret (Ok responseData)
        end
  end.

Definition TorrentsExport (fuel : nat) (hash : string) : M St (result string) :=
  let params := url_Values_Set "hash" hash ∅ in
  doPostValues fuel "/api/v2/torrents/export" params.

(** [boundary] is the boundary [multipart.NewWriter] draws at random. *)
Definition TorrentsAddParams (fuel : nat) (boundary : string)
    (params : TorrentsAddParams.t) : M St (result unit) :=
  match torrent_add_parts params with
  | Err err => ret (Err err)
  | Ok writer =>
      body <- new_reader (multipart_bytes boundary writer);;
      r <- doPost fuel "/api/v2/torrents/add" (Some body)
             (multipart_FormDataContentType boundary);;
      match r with
      | Err err => ret (Err ("TorrentsAdd error: " +:+ err))
      | Ok _ => ret (Ok tt)
      end
  end.

Definition TorrentsAdd (fuel : nat) (boundary : string) (torrentFile fileData : string)
    : M St (result unit) :=
  let params :=
    TorrentsAddParams.mk [fileData] [] "" "" "" "" true false None "" 0 0
      (S754_zero false) 0 false false false in
  TorrentsAddParams fuel boundary params.

Definition TorrentsDelete (fuel : nat) (infohash : string) : M St (result unit) :=
  let data : url_Values := ∅ in
  let data := url_Values_Set "hashes" infohash data in
  let data := url_Values_Set "deleteFiles" "true" data in
  r <- doPostValues fuel "/api/v2/torrents/delete" data;;
  match r with
  | Err err => ret (Err ("TorrentsDelete error: " +:+ err))
  | Ok _ => ret (Ok tt)
  end.

Definition SetForceStart (fuel : nat) (hash : string) (value : bool) : M St (result unit) :=
  let data : url_Values := ∅ in
  let data := url_Values_Set "hashes" hash data in
  let data := url_Values_Set "value" (fmt_bool value) data in
  r <- doPostValues fuel "/api/v2/torrents/setForceStart" data;;
  match r with
  | Err err => ret (Err ("SetForceStart error: " +:+ err))
  | Ok _ => ret (Ok tt)
  end.

Definition TorrentsDownload (fuel : nat) (infohash : string) : M St (result string) :=
  doGet fuel "/api/v2/torrents/file" {[ "hashes" := [infohash] ]}.

(** [params] is the variadic argument: a list of pointers. *)
Definition TorrentsInfo (fuel : nat) (params : list (option TorrentsInfoParams.t))
    : M St (result (slice TorrentInfo.t)) :=
  let query : url_Values :=
    match params with
    | Some p :: _ => buildTorrentsInfoQuery p
    | _ => ∅
    end in
  r <- doGet fuel "/api/v2/torrents/info" query;;
  match r with
  | Err err => ret (Err err)
  | Ok respData =>
      decode_step (Unmarshal_TorrentInfos respData)
        (fun err => "failed to decode response: " +:+ err)
  end.

Definition TorrentsTrackers (fuel : nat) (hash : string)
    : M St (result (slice TrackerInfo.t)) :=
  let params := url_Values_Set "hash" hash ∅ in
  r <- doGet fuel "/api/v2/torrents/trackers" params;;
  match r with
  | Err err => ret (Err ("TorrentsTrackers error: " +:+ err))
  | Ok respData =>
      match Unmarshal_TrackerInfos respData with
      | Err err => ret (Err ("failed to decode trackers response: " +:+ err))
      | Ok trackers => ret (Ok trackers)
      end
  end.

Definition TorrentsProperties (fuel : nat) (hash : string)
    : M St (result TorrentsProperties.t) :=
  let params := url_Values_Set "hash" hash ∅ in
  r <- doGet fuel "/api/v2/torrents/properties" params;;
  match r with
  | Err err => ret (Err ("TorrentsProperties error: " +:+ err))
  | Ok respData =>
      if (String.length respData =? 0)%nat then
        ret (Err "TorrentsProperties error: empty response")
      else
        decode_step (Unmarshal_TorrentsProperties respData)
          (fun err => "failed to decode properties response: " +:+ err)
  end.

Definition TorrentsAddTags (fuel : nat) (hashes tags : string) : M St (result unit) :=
  let data : url_Values := ∅ in
  let data := url_Values_Set "hashes" hashes data in
  let data := url_Values_Set "tags" tags data in
  r <- doPostValues fuel "/api/v2/torrents/addTags" data;;
  match r with
  | Err err => ret (Err ("AddTags error: " +:+ err))
  | Ok _ => ret (Ok tt)
  end.

Definition TorrentsRemoveTags (fuel : nat) (hashes tags : string) : M St (result unit) :=
  let data : url_Values := ∅ in
  let data := url_Values_Set "hashes" hashes data in
  let data := url_Values_Set "tags" tags data in
  r <- doPostValues fuel "/api/v2/torrents/removeTags" data;;
  match r with
  | Err err => ret (Err ("RemoveTags error: " +:+ err))
  | Ok _ => ret (Ok tt)
  end.

Definition TorrentsGetTags (fuel : nat) (hashes : string) : M St (result (slice string)) :=
  let params :=
    TorrentsInfoParams.mk "" "" "" "" false 0 0 [hashes] in
  r <- TorrentsInfo fuel [Some params];;
  match r with
  | Err err => ret (Err ("TorrentsGetTags error: " +:+ err))
  | Ok torrents => ret (Ok (collect_tags torrents))
  end.

Definition TorrentsGetAllTags (fuel : nat) : M St (result (slice string)) :=
  r <- doGet fuel "/api/v2/torrents/tags" ∅;;
  match r with
  | Err err => ret (Err ("GetAllTags error: " +:+ err))
  | Ok respData =>
      match Unmarshal_strings respData with
      | Err err => ret (Err ("failed to decode tags response: " +:+ err))
      | Ok tags => ret (Ok tags)
      end
  end.

Definition TorrentsCreateTags (fuel : nat) (tags : string) : M St (result unit) :=
  let data := url_Values_Set "tags" tags ∅ in
  r <- doPostValues fuel "/api/v2/torrents/createTags" data;;
  match r with
  | Err err => ret (Err ("CreateTags error: " +:+ err))
  | Ok _ => ret (Ok tt)
  end.

Definition TorrentsDeleteTags (fuel : nat) (tags : string) : M St (result unit) :=
  let data := url_Values_Set "tags" tags ∅ in
  r <- doPostValues fuel "/api/v2/torrents/deleteTags" data;;
  match r with
  | Err err => ret (Err ("DeleteTags error: " +:+ err))
  | Ok _ => ret (Ok tt)
  end.

Definition SyncMainData (fuel : nat) (rid : Z) : M St (result MainData.t) :=
  let params := url_Values_Set "rid" (strconv_Itoa rid) ∅ in
  r <- doGet fuel "/api/v2/sync/maindata" params;;
  match r with
  | Err err => ret (Err err)
  | Ok resp =>
      decode_step (Unmarshal_MainData resp)
        (fun err => "failed to decode response: " +:+ err)
  end.

Definition SyncTorrentPeers (fuel : nat) (hash : string) (rid : Z)
    : M St (result TorrentPeers.t) :=
  let params : url_Values := ∅ in
  let params := url_Values_Set "rid" (strconv_Itoa rid) params in
  let params := url_Values_Set "hash" hash params in
  r <- doGet fuel "/api/v2/sync/torrentPeers" params;;
  match r with
  | Err err => ret (Err err)
  | Ok resp =>
      decode_step (Unmarshal_TorrentPeers resp)
        (fun err => "failed to decode response: " +:+ err)
  end.

(** [NewClient]: [httpClient] is the optional client ([http.DefaultClient],
    which has no jar, when absent).  The state is returned with the new
    client in it. *)
Definition NewClient (fuel : nat) (username password baseURL : string)
    (httpClient : option http_Client) : M St (result unit) :=
  fun s =>
    let client := default (mkHttpClient None) httpClient in
    let qbClient := mkClient username password client baseURL "" in
    let s := mkState qbClient (readers s) (net s) in
    if (nonempty username && nonempty password)%bool then
      match AuthLogin fuel s with
      | Returns (Err err) s' => Returns (Err ("AuthLogin error: " +:+ err)) s'
      | o => o
      end
    else Returns (Ok tt) s.

(** Each endpoint method, by its [Call]. *)
Definition call (fuel : nat) (c : Call) : M St (result Value) :=
  match c with
  | CallAuthLogin => returning (fun _ => VNone) (AuthLogin fuel)
  | CallTorrentsExport hash => returning VBytes (TorrentsExport fuel hash)
  | CallTorrentsAddParams boundary params =>
      returning (fun _ => VNone) (TorrentsAddParams fuel boundary params)
  | CallTorrentsAdd boundary torrentFile fileData =>
      returning (fun _ => VNone) (TorrentsAdd fuel boundary torrentFile fileData)
  | CallTorrentsDelete infohash => returning (fun _ => VNone) (TorrentsDelete fuel infohash)
  | CallSetForceStart hash value =>
      returning (fun _ => VNone) (SetForceStart fuel hash value)
  | CallTorrentsDownload infohash => returning VBytes (TorrentsDownload fuel infohash)
  | CallTorrentsInfo params => returning VTorrents (TorrentsInfo fuel params)
  | CallTorrentsTrackers hash => returning VTrackers (TorrentsTrackers fuel hash)
  | CallTorrentsProperties hash => returning VProperties (TorrentsProperties fuel hash)
  | CallTorrentsAddTags hashes tags =>
      returning (fun _ => VNone) (TorrentsAddTags fuel hashes tags)
  | CallTorrentsRemoveTags hashes tags =>
      returning (fun _ => VNone) (TorrentsRemoveTags fuel hashes tags)
  | CallTorrentsGetTags hashes => returning VTags (TorrentsGetTags fuel hashes)
  | CallTorrentsGetAllTags => returning VTags (TorrentsGetAllTags fuel)
  | CallTorrentsCreateTags tags => returning (fun _ => VNone) (TorrentsCreateTags fuel tags)
  | CallTorrentsDeleteTags tags => returning (fun _ => VNone) (TorrentsDeleteTags fuel tags)
  | CallSyncMainData rid => returning VMainData (SyncMainData fuel rid)
  | CallSyncTorrentPeers hash rid =>
      returning VTorrentPeers (SyncTorrentPeers fuel hash rid)
  end.
End Methods.
End SidClient.

(** * Revision with contexts: the session cookie in the cookie jar *)

Module CtxClient.

Record Client := mkClient {
  username : string;
  password : string;
  client : http_Client;
  baseURL : string;
}.

Definition set_client (hc : http_Client) (c : Client) : Client :=
  mkClient (username c) (password c) hc (baseURL c).

(** [wrapAPIError] *)
Definition wrapAPIError (operation : string) (err : error) : error :=
  operation +:+ " error: " +:+ err.

(** [buildTorrentAddForm]: the bytes of the form and its content type. *)
Definition buildTorrentAddForm (boundary : string) (params : TorrentsAddParams.t)
    : result (string * string) :=
  writer <-? torrent_add_parts params;
  Ok (multipart_bytes boundary writer, multipart_FormDataContentType boundary).

Section Methods.
Context `{RoundTripper} `{JSONSyntax}.

Abbreviation St := (State Client).

(** [c.client.Do(req)] *)
Definition Do (req : http_Request) : M St (result http_Response) :=
  fun s =>
    let '(r, hc, n) := http_Client_Do (client (self s)) req (net s) in
    Returns r (mkState (set_client hc (self s)) (readers s) n).

(** The closure [makeRequest] of [doRequestCtx]. *)
Definition makeRequest (ctx : Context) (method : string) (apiURL : url_URL)
    (bodyBuffer : option string) (contentType : string)
    (opts : list (http_Request -> result http_Request)) : M St (result http_Request) :=
  match http_NewRequestWithContext ctx method apiURL bodyBuffer with
  | Err err => ret (Err ("NewRequest error: " +:+ err))
  | Ok req =>
      let req := if nonempty contentType then Request_set_ContentType contentType req
                 else req in
      ret (apply_opts opts req)
  end.

(** The body of [AuthLoginCtx], with [doPostResponseCtx] as a parameter:
    [AuthLoginCtx] and [doRequestCtx] call each other. *)
Definition AuthLoginCtx_body
    (doPostResponseCtx : Context -> string -> option addr -> string ->
                         M St (result http_Response))
    (ctx : Context) : M St (result unit) :=
  c <- get_self;;
  let data : url_Values := ∅ in
  let data := url_Values_Set "username" (username c) data in
  let data := url_Values_Set "password" (password c) data in
  body <- new_reader (url_Values_Encode data);;
  r <- doPostResponseCtx ctx login_endpoint (Some body) form_urlencoded;;
  match r with
  | Err err => ret (Err (wrapAPIError "AuthLogin" err))
  | Ok resp =>
      if negb (StatusCode resp =? http_StatusOK)%Z then
        let respBody := (Response_ReadAll resp).1 in
        ret (Err ("AuthLogin error (" +:+ strconv_Itoa (StatusCode resp) +:+ "): "
                  +:+ respBody))
      else ret (Ok tt)
  end.

(** [doRequestCtx].  [fuel] bounds the depth of the calls of
    [doRequestCtx] inside [AuthLoginCtx] inside [doRequestCtx]. *)
Fixpoint doRequestCtx (fuel : nat) (ctx : Context) (method endpoint : string)
    (body : option addr) (contentType : string)
    (opts : list (http_Request -> result http_Request))
    {struct fuel} : M St (result http_Response) :=
  match fuel with
  | O => fun s => OutOfFuel s
  | S fuel' =>
      c <- get_self;;
      match url_Parse (baseURL c) with
      | Err err => ret (Err ("failed to parse base URL: " +:+ err))
      | Ok apiURL =>
          let apiURL := mkURL (Origin apiURL)
                              (strings_TrimSuffix (Path apiURL) "/" +:+ endpoint)
                              (RawQuery apiURL) in
          rb <- match body with
                | Some b =>
                    r <- read_all b;;
                    ret match r with
                        | Ok bytes => Ok (Some bytes)
                        | Err err => Err ("failed to read request body: " +:+ err)
                        end
                | None => ret (Ok None)
                end;;
          match rb with
          | Err err => ret (Err err)
          | Ok bodyBuffer =>
              r <- makeRequest ctx method apiURL bodyBuffer contentType opts;;
              match r with
              | Err err => ret (Err err)
              | Ok req =>
                  r <- Do req;;
                  match r with
                  | Err err => ret (Err err)
                  | Ok resp =>
                      if (StatusCode resp =? http_StatusForbidden)%Z then
                        r <- AuthLoginCtx_body
                               (fun ctx endpoint body contentType =>
                                  doRequestCtx fuel' ctx "POST" endpoint body contentType [])
                               ctx;;
                        match r with
                        | Err err => ret (Err ("re-authentication failed: " +:+ err))
                        | Ok _ =>
                            r <- makeRequest ctx method apiURL bodyBuffer contentType opts;;
                            match r with
                            | Err err => ret (Err err)
                            | Ok req => Do req
                            end
                        end
                      else ret (Ok resp)
                  end
              end
          end
      end
  end.

Definition doRequest (fuel : nat) (method endpoint : string) (body : option addr)
    (contentType : string) (opts : list (http_Request -> result http_Request))
    : M St (result http_Response) :=
  doRequestCtx fuel Background method endpoint body contentType opts.

Definition doPostResponseCtx (fuel : nat) (ctx : Context) (endpoint : string)
    (body : option addr) (contentType : string) : M St (result http_Response) :=
  doRequestCtx fuel ctx "POST" endpoint body contentType [].

Definition doPostResponse (fuel : nat) (endpoint : string) (body : option addr)
    (contentType : string) : M St (result http_Response) :=
  doPostResponseCtx fuel Background endpoint body contentType.

Definition AuthLoginCtx (fuel : nat) (ctx : Context) : M St (result unit) :=
  AuthLoginCtx_body (doPostResponseCtx fuel) ctx.

Definition AuthLogin (fuel : nat) : M St (result unit) :=
  AuthLoginCtx fuel Background.

Definition doPostCtx (fuel : nat) (ctx : Context) (endpoint : string) (body : option addr)
    (contentType : string) : M St (result string) :=
  r <- doPostResponseCtx fuel ctx endpoint body contentType;;
  match r with
  | Err err => ret (Err err)
  | Ok resp =>
      match Response_ReadAll resp with
      | (_, Some err) => ret (Err err)
      | (respBody, None) =>
          if negb (StatusCode resp =? http_StatusOK)%Z then
            ret (Err ("POST error (" +:+ strconv_Itoa (StatusCode resp) +:+ "): "
                      +:+ respBody))
          else ret (Ok respBody)
      end
  end.

Definition doPost (fuel : nat) (endpoint : string) (body : option addr)
    (contentType : string) : M St (result string) :=
  doPostCtx fuel Background endpoint body contentType.

Definition doPostValuesCtx (fuel : nat) (ctx : Context) (endpoint : string)
    (data : url_Values) : M St (result string) :=
  body <- new_reader (url_Values_Encode data);;
  doPostCtx fuel ctx endpoint (Some body) form_urlencoded.

Definition doPostValues (fuel : nat) (endpoint : string) (data : url_Values)
    : M St (result string) :=
  doPostValuesCtx fuel Background endpoint data.

Definition doGetCtx (fuel : nat) (ctx : Context) (endpoint : string) (query : url_Values)
    : M St (result string) :=
  r <- doRequestCtx fuel ctx "GET" endpoint None "" [withQuery query];;
  match r with
  | Err err => ret (Err err)
  | Ok resp =>
      if negb (StatusCode resp =? http_StatusOK)%Z then
        let respBody := (Response_ReadAll resp).1 in
        ret (Err ("unexpected response code: " +:+ strconv_Itoa (StatusCode resp)
                  +:+ ", response: " +:+ respBody))
      else
        match Response_ReadAll resp with
        | (_, Some err) => ret (Err ("ReadAll error: " +:+ err))
        | (responseData, None) => ret (Ok responseData)
        end
  end.

Definition doGet (fuel : nat) (endpoint : string) (query : url_Values)
    : M St (result string) :=
  doGetCtx fuel Background endpoint query.

Definition TorrentsExportCtx (fuel : nat) (ctx : Context) (hash : string)
    : M St (result string) :=
  let params := url_Values_Set "hash" hash ∅ in
  doPostValuesCtx fuel ctx "/api/v2/torrents/export" params.

Definition TorrentsExport (fuel : nat) (hash : string) : M St (result string) :=
  TorrentsExportCtx fuel Background hash.

(** [boundary] is the boundary [multipart.NewWriter] draws at random. *)
Definition TorrentsAddParamsCtx (fuel : nat) (boundary : string) (ctx : Context)
    (params : TorrentsAddParams.t) : M St (result unit) :=
  match buildTorrentAddForm boundary params with
  | Err err => ret (Err err)
  | Ok (bytes, contentType) =>
      body <- new_reader bytes;;
      r <- doPostCtx fuel ctx "/api/v2/torrents/add" (Some body) contentType;;
      match r with
      | Err err => ret (Err (wrapAPIError "TorrentsAdd" err))
      | Ok _ => ret (Ok tt)
      end
  end.

Definition TorrentsAddParams (fuel : nat) (boundary : string)
    (params : TorrentsAddParams.t) : M St (result unit) :=
  TorrentsAddParamsCtx fuel boundary Background params.

Definition TorrentsAddCtx (fuel : nat) (boundary : string) (ctx : Context)
    (torrentFile fileData : string) : M St (result unit) :=
  let params :=
    TorrentsAddParams.mk [fileData] [] "" "" "" "" true false None "" 0 0
      (S754_zero false) 0 false false false in
  TorrentsAddParamsCtx fuel boundary ctx params.

Definition TorrentsAdd (fuel : nat) (boundary : string) (torrentFile fileData : string)
    : M St (result unit) :=
  TorrentsAddCtx fuel boundary Background torrentFile fileData.

Definition TorrentsDeleteCtx (fuel : nat) (ctx : Context) (infohash : string)
    : M St (result unit) :=
  let data : url_Values := ∅ in
  let data := url_Values_Set "hashes" infohash data in
  let data := url_Values_Set "deleteFiles" "true" data in
  r <- doPostValuesCtx fuel ctx "/api/v2/torrents/delete" data;;
  match r with
  | Err err => ret (Err (wrapAPIError "TorrentsDelete" err))
  | Ok _ => ret (Ok tt)
  end.

Definition TorrentsDelete (fuel : nat) (infohash : string) : M St (result unit) :=
  TorrentsDeleteCtx fuel Background infohash.

Definition SetForceStartCtx (fuel : nat) (ctx : Context) (hash : string) (value : bool)
    : M St (result unit) :=
  let data : url_Values := ∅ in
  let data := url_Values_Set "hashes" hash data in
  let data := url_Values_Set "value" (fmt_bool value) data in
  r <- doPostValuesCtx fuel ctx "/api/v2/torrents/setForceStart" data;;
  match r with
  | Err err => ret (Err (wrapAPIError "SetForceStart" err))
  | Ok _ => ret (Ok tt)
  end.

Definition SetForceStart (fuel : nat) (hash : string) (value : bool) : M St (result unit) :=
  SetForceStartCtx fuel Background hash value.

Definition TorrentsDownloadCtx (fuel : nat) (ctx : Context) (infohash : string)
    : M St (result string) :=
  doGetCtx fuel ctx "/api/v2/torrents/file" {[ "hashes" := [infohash] ]}.

Definition TorrentsDownload (fuel : nat) (infohash : string) : M St (result string) :=
  TorrentsDownloadCtx fuel Background infohash.

(** [params] is the variadic argument: a list of pointers. *)
Definition TorrentsInfoCtx (fuel : nat) (ctx : Context)
    (params : list (option TorrentsInfoParams.t)) : M St (result (slice TorrentInfo.t)) :=
  let query : url_Values :=
    match params with
    | Some p :: _ => buildTorrentsInfoQuery p
    | _ => ∅
    end in
  r <- doGetCtx fuel ctx "/api/v2/torrents/info" query;;
  match r with
  | Err err => ret (Err err)
  | Ok respData =>
      decode_step (Unmarshal_TorrentInfos respData)
        (fun err => "failed to decode response: " +:+ err)
  end.

Definition TorrentsInfo (fuel : nat) (params : list (option TorrentsInfoParams.t))
    : M St (result (slice TorrentInfo.t)) :=
  TorrentsInfoCtx fuel Background params.

Definition TorrentsTrackersCtx (fuel : nat) (ctx : Context) (hash : string)
    : M St (result (slice TrackerInfo.t)) :=
  let params := url_Values_Set "hash" hash ∅ in
  r <- doGetCtx fuel ctx "/api/v2/torrents/trackers" params;;
  match r with
  | Err err => ret (Err (wrapAPIError "TorrentsTrackers" err))
  | Ok respData =>
      match Unmarshal_TrackerInfos respData with
      | Err err => ret (Err ("failed to decode trackers response: " +:+ err))
      | Ok trackers => ret (Ok trackers)
      end
  end.

Definition TorrentsTrackers (fuel : nat) (hash : string)
    : M St (result (slice TrackerInfo.t)) :=
  TorrentsTrackersCtx fuel Background hash.

Definition TorrentsPropertiesCtx (fuel : nat) (ctx : Context) (hash : string)
    : M St (result TorrentsProperties.t) :=
  let params := url_Values_Set "hash" hash ∅ in
  r <- doGetCtx fuel ctx "/api/v2/torrents/properties" params;;
  match r with
  | Err err => ret (Err (wrapAPIError "TorrentsProperties" err))
  | Ok respData =>
      if (String.length respData =? 0)%nat then
        ret (Err "TorrentsProperties error: empty response")
      else
        decode_step (Unmarshal_TorrentsProperties respData)
          (fun err => "failed to decode properties response: " +:+ err)
  end.

Definition TorrentsProperties (fuel : nat) (hash : string)
    : M St (result TorrentsProperties.t) :=
  TorrentsPropertiesCtx fuel Background hash.

Definition doTagOperationCtx (fuel : nat) (ctx : Context)
    (operation endpoint hashes tags : string) : M St (result unit) :=
  let data : url_Values := ∅ in
  let data := set_if (nonempty hashes) "hashes" hashes data in
  let data := url_Values_Set "tags" tags data in
  r <- doPostValuesCtx fuel ctx endpoint data;;
  match r with
  | Err err => ret (Err (wrapAPIError operation err))
  | Ok _ => ret (Ok tt)
  end.

Definition TorrentsAddTagsCtx (fuel : nat) (ctx : Context) (hashes tags : string)
    : M St (result unit) :=
  doTagOperationCtx fuel ctx "AddTags" "/api/v2/torrents/addTags" hashes tags.

Definition TorrentsAddTags (fuel : nat) (hashes tags : string) : M St (result unit) :=
  TorrentsAddTagsCtx fuel Background hashes tags.

Definition TorrentsRemoveTagsCtx (fuel : nat) (ctx : Context) (hashes tags : string)
    : M St (result unit) :=
  doTagOperationCtx fuel ctx "RemoveTags" "/api/v2/torrents/removeTags" hashes tags.

Definition TorrentsRemoveTags (fuel : nat) (hashes tags : string) : M St (result unit) :=
  TorrentsRemoveTagsCtx fuel Background hashes tags.

Definition TorrentsGetTagsCtx (fuel : nat) (ctx : Context) (hashes : string)
    : M St (result (slice string)) :=
  let params :=
    TorrentsInfoParams.mk "" "" "" "" false 0 0 [hashes] in
  r <- TorrentsInfoCtx fuel ctx [Some params];;
  match r with
  | Err err => ret (Err (wrapAPIError "TorrentsGetTags" err))
  | Ok torrents => ret (Ok (collect_tags torrents))
  end.

Definition TorrentsGetTags (fuel : nat) (hashes : string) : M St (result (slice string)) :=
  TorrentsGetTagsCtx fuel Background hashes.

Definition TorrentsGetAllTagsCtx (fuel : nat) (ctx : Context)
    : M St (result (slice string)) :=
  r <- doGetCtx fuel ctx "/api/v2/torrents/tags" ∅;;
  match r with
  | Err err => ret (Err (wrapAPIError "GetAllTags" err))
  | Ok respData =>
      match Unmarshal_strings respData with
      | Err err => ret (Err ("failed to decode tags response: " +:+ err))
      | Ok tags => ret (Ok tags)
      end
  end.

Definition TorrentsGetAllTags (fuel : nat) : M St (result (slice string)) :=
  TorrentsGetAllTagsCtx fuel Background.

Definition TorrentsCreateTagsCtx (fuel : nat) (ctx : Context) (tags : string)
    : M St (result unit) :=
  doTagOperationCtx fuel ctx "CreateTags" "/api/v2/torrents/createTags" "" tags.

Definition TorrentsCreateTags (fuel : nat) (tags : string) : M St (result unit) :=
  TorrentsCreateTagsCtx fuel Background tags.

Definition TorrentsDeleteTagsCtx (fuel : nat) (ctx : Context) (tags : string)
    : M St (result unit) :=
  doTagOperationCtx fuel ctx "DeleteTags" "/api/v2/torrents/deleteTags" "" tags.

Definition TorrentsDeleteTags (fuel : nat) (tags : string) : M St (result unit) :=
  TorrentsDeleteTagsCtx fuel Background tags.

Definition SyncMainDataCtx (fuel : nat) (ctx : Context) (rid : Z)
    : M St (result MainData.t) :=
  let params := url_Values_Set "rid" (strconv_Itoa rid) ∅ in
  r <- doGetCtx fuel ctx "/api/v2/sync/maindata" params;;
  match r with
  | Err err => ret (Err err)
  | Ok resp =>
      decode_step (Unmarshal_MainData resp)
        (fun err => "failed to decode response: " +:+ err)
  end.

Definition SyncMainData (fuel : nat) (rid : Z) : M St (result MainData.t) :=
  SyncMainDataCtx fuel Background rid.

Definition SyncTorrentPeersCtx (fuel : nat) (ctx : Context) (hash : string) (rid : Z)
    : M St (result TorrentPeers.t) :=
  let params : url_Values := ∅ in
  let params := url_Values_Set "rid" (strconv_Itoa rid) params in
  let params := url_Values_Set "hash" hash params in
  r <- doGetCtx fuel ctx "/api/v2/sync/torrentPeers" params;;
  match r with
  | Err err => ret (Err err)
  | Ok resp =>
      decode_step (Unmarshal_TorrentPeers resp)
        (fun err => "failed to decode response: " +:+ err)
  end.

Definition SyncTorrentPeers (fuel : nat) (hash : string) (rid : Z)
    : M St (result TorrentPeers.t) :=
  SyncTorrentPeersCtx fuel Background hash rid.

(** [NewClient]: a client without cookie jar is given an empty one.  The
    state is returned with the new client in it. *)
Definition NewClient (fuel : nat) (username password baseURL : string)
    (httpClient : option http_Client) : M St (result unit) :=
  fun s =>
    let client := default (mkHttpClient (Some [])) httpClient in
    let client := match Jar client with
                  | None => mkHttpClient (Some [])
                  | Some _ => client
                  end in
    let qbClient := mkClient username password client baseURL in
    let s := mkState qbClient (readers s) (net s) in
    if (nonempty username && nonempty password)%bool then
      match AuthLogin fuel s with
      | Returns (Err err) s' => Returns (Err ("AuthLogin error: " +:+ err)) s'
      | o => o
      end
    else Returns (Ok tt) s.
(** The context-accepting form of each endpoint method. *)
Definition callCtx (fuel : nat) (ctx : Context) (c : Call) : M St (result Value) :=
  match c with
  | CallAuthLogin => returning (fun _ => VNone) (AuthLoginCtx fuel ctx)
  | CallTorrentsExport hash => returning VBytes (TorrentsExportCtx fuel ctx hash)
  | CallTorrentsAddParams boundary params =>
      returning (fun _ => VNone) (TorrentsAddParamsCtx fuel boundary ctx params)
  | CallTorrentsAdd boundary torrentFile fileData =>
      returning (fun _ => VNone) (TorrentsAddCtx fuel boundary ctx torrentFile fileData)
  | CallTorrentsDelete infohash =>
      returning (fun _ => VNone) (TorrentsDeleteCtx fuel ctx infohash)
  | CallSetForceStart hash value =>
      returning (fun _ => VNone) (SetForceStartCtx fuel ctx hash value)
  | CallTorrentsDownload infohash => returning VBytes (TorrentsDownloadCtx fuel ctx infohash)
  | CallTorrentsInfo params => returning VTorrents (TorrentsInfoCtx fuel ctx params)
  | CallTorrentsTrackers hash => returning VTrackers (TorrentsTrackersCtx fuel ctx hash)
  | CallTorrentsProperties hash =>
      returning VProperties (TorrentsPropertiesCtx fuel ctx hash)
  | CallTorrentsAddTags hashes tags =>
      returning (fun _ => VNone) (TorrentsAddTagsCtx fuel ctx hashes tags)
  | CallTorrentsRemoveTags hashes tags =>
      returning (fun _ => VNone) (TorrentsRemoveTagsCtx fuel ctx hashes tags)
  | CallTorrentsGetTags hashes => returning VTags (TorrentsGetTagsCtx fuel ctx hashes)
  | CallTorrentsGetAllTags => returning VTags (TorrentsGetAllTagsCtx fuel ctx)
  | CallTorrentsCreateTags tags =>
      returning (fun _ => VNone) (TorrentsCreateTagsCtx fuel ctx tags)
  | CallTorrentsDeleteTags tags =>
      returning (fun _ => VNone) (TorrentsDeleteTagsCtx fuel ctx tags)
  | CallSyncMainData rid => returning VMainData (SyncMainDataCtx fuel ctx rid)
  | CallSyncTorrentPeers hash rid =>
      returning VTorrentPeers (SyncTorrentPeersCtx fuel ctx hash rid)
  end.

(** The deprecated form of each endpoint method. *)
Definition call (fuel : nat) (c : Call) : M St (result Value) :=
  match c with
  | CallAuthLogin => returning (fun _ => VNone) (AuthLogin fuel)
  | CallTorrentsExport hash => returning VBytes (TorrentsExport fuel hash)
  | CallTorrentsAddParams boundary params =>
      returning (fun _ => VNone) (TorrentsAddParams fuel boundary params)
  | CallTorrentsAdd boundary torrentFile fileData =>
      returning (fun _ => VNone) (TorrentsAdd fuel boundary torrentFile fileData)
  | CallTorrentsDelete infohash => returning (fun _ => VNone) (TorrentsDelete fuel infohash)
  | CallSetForceStart hash value =>
      returning (fun _ => VNone) (SetForceStart fuel hash value)
  | CallTorrentsDownload infohash => returning VBytes (TorrentsDownload fuel infohash)
  | CallTorrentsInfo params => returning VTorrents (TorrentsInfo fuel params)
  | CallTorrentsTrackers hash => returning VTrackers (TorrentsTrackers fuel hash)
  | CallTorrentsProperties hash => returning VProperties (TorrentsProperties fuel hash)
  | CallTorrentsAddTags hashes tags =>
      returning (fun _ => VNone) (TorrentsAddTags fuel hashes tags)
  | CallTorrentsRemoveTags hashes tags =>
      returning (fun _ => VNone) (TorrentsRemoveTags fuel hashes tags)
  | CallTorrentsGetTags hashes => returning VTags (TorrentsGetTags fuel hashes)
  | CallTorrentsGetAllTags => returning VTags (TorrentsGetAllTags fuel)
  | CallTorrentsCreateTags tags => returning (fun _ => VNone) (TorrentsCreateTags fuel tags)
  | CallTorrentsDeleteTags tags => returning (fun _ => VNone) (TorrentsDeleteTags fuel tags)
  | CallSyncMainData rid => returning VMainData (SyncMainData fuel rid)
  | CallSyncTorrentPeers hash rid =>
      returning VTorrentPeers (SyncTorrentPeers fuel hash rid)
  end.
End Methods.
End CtxClient.

(** * Instances used to run the model *)

(** ** A reference reader of JSON

    Objects, arrays, strings with the one-character escapes, number
    literals, [true], [false] and [null].  The escape [\u] is not read. *)

Definition is_ws (c : ascii) : bool :=
  let n := N_of_ascii c in ((n =? 32) || (n =? 9) || (n =? 10) || (n =? 13))%N.

Fixpoint skip_ws (s : string) : string :=
  match s with
  | String c s' => if is_ws c then skip_ws s' else s
  | EmptyString => s
  end.

Definition unescape (c : ascii) : option ascii :=
  let n := N_of_ascii c in
  if (n =? 34)%N then Some c                      (* quote *)
  else if (n =? 92)%N then Some c                 (* backslash *)
  else if (n =? 47)%N then Some c                 (* slash *)
  else if (n =? 98)%N then Some "008"%char        (* b *)
  else if (n =? 102)%N then Some "012"%char       (* f *)
  else if (n =? 110)%N then Some "010"%char       (* n *)
  else if (n =? 114)%N then Some "013"%char       (* r *)
  else if (n =? 116)%N then Some "009"%char       (* t *)
  else None.

(** The rest of a string literal, after its opening quote. *)
Fixpoint lex_string (s : string) (acc : string) : option (string * string) :=
  match s with
  | EmptyString => None
  | String c s' =>
      if (N_of_ascii c =? 34)%N then Some (String.rev acc, s')
      else if (N_of_ascii c <? 32)%N then None
      else if (N_of_ascii c =? 92)%N then
        match s' with
        | String e s'' =>
            match unescape e with
            | Some x => lex_string s'' (String x acc)
            | None => None
            end
        | EmptyString => None
        end
      else lex_string s' (String c acc)
  end.

Definition is_digit (c : ascii) : bool :=
  let n := N_of_ascii c in ((48 <=? n) && (n <=? 57))%N.

Definition is_number_char (c : ascii) : bool :=
  let n := N_of_ascii c in
  (is_digit c || (n =? 45) || (n =? 43) || (n =? 46) || (n =? 101) || (n =? 69))%N.

Fixpoint lex_number (s : string) (acc : string) : string * string :=
  match s with
  | String c s' => if is_number_char c then lex_number s' (String c acc) else (String.rev acc, s)
  | EmptyString => (String.rev acc, s)
  end.

Definition drop_prefix (p s : string) : option string :=
  if String.prefix p s then Some (substring (String.length p) (String.length s) s) else None.

Inductive parse_mode : Type := PValue | PElems | PMembers.

Inductive parsed : Type :=
  | RValue (j : json)
  | RElems (l : list json)
  | RMembers (l : list (string * json)).

Fixpoint parse (fuel : nat) (m : parse_mode) (s : string) : option (parsed * string) :=
  match fuel with
  | O => None
  | S fuel' =>
      match m, skip_ws s with
      | _, EmptyString => None
      | PValue, String c r =>
          let n := N_of_ascii c in
          if (n =? 110)%N then r' ← drop_prefix "ull" r; Some (RValue JNull, r')
          else if (n =? 116)%N then r' ← drop_prefix "rue" r; Some (RValue (JBool true), r')
          else if (n =? 102)%N then r' ← drop_prefix "alse" r; Some (RValue (JBool false), r')
          else if (n =? 34)%N then
            '(str, r') ← lex_string r EmptyString; Some (RValue (JString str), r')
          else if (n =? 91)%N then
            match skip_ws r with
            | String "]" r' => Some (RValue (JArray []), r')
            | _ =>
                match parse fuel' PElems r with
                | Some (RElems l, r') => Some (RValue (JArray l), r')
                | _ => None
                end
            end
          else if (n =? 123)%N then
            match skip_ws r with
            | String "}" r' => Some (RValue (JObject []), r')
            | _ =>
                match parse fuel' PMembers r with
                | Some (RMembers l, r') => Some (RValue (JObject l), r')
                | _ => None
                end
            end
          else if (is_digit c || (n =? 45)%N)%bool then
            let '(lit, r') := lex_number (String c r) EmptyString in
            Some (RValue (JNumber lit), r')
          else None
      | PElems, s =>
          match parse fuel' PValue s with
          | Some (RValue j, r) =>
              match skip_ws r with
              | String "," r' =>
                  match parse fuel' PElems r' with
                  | Some (RElems l, r'') => Some (RElems (j :: l), r'')
                  | _ => None
                  end
              | String "]" r' => Some (RElems [j], r')
              | _ => None
              end
          | _ => None
          end
      | PMembers, String c r =>
          if (N_of_ascii c =? 34)%N then
            '(key, r) ← lex_string r EmptyString;
            match skip_ws r with
            | String ":" r =>
                match parse fuel' PValue r with
                | Some (RValue j, r) =>
                    match skip_ws r with
                    | String "," r' =>
                        match parse fuel' PMembers r' with
                        | Some (RMembers l, r'') => Some (RMembers ((key, j) :: l), r'')
                        | _ => None
                        end
                    | String "}" r' => Some (RMembers [(key, j)], r')
                    | _ => None
                    end
                | _ => None
                end
            | _ => None
            end
          else None
      end
  end.

Definition reference_parse (data : string) : result json :=
  if String.eqb (skip_ws data) "" then Err "unexpected end of JSON input"
  else
    match parse (S (String.length data)) PValue data with
    | Some (RValue j, rest) =>
        if String.eqb (skip_ws rest) "" then Ok j
        else Err "invalid character after top-level value"
    | _ => Err "invalid JSON"
    end.

#[global] Instance reference_json : JSONSyntax :=
  {| json_parse := reference_parse; json_parse_empty := eq_refl |}.

(** A JSON text written with ['] for the quote. *)
Fixpoint js (s : string) : string :=
  match s with
  | EmptyString => EmptyString
  | String c s' => String (if Ascii.eqb c "'"%char then "034"%char else c) (js s')
  end.

(** ** Mock services

    The world of a mock is a clock: the number of requests handled so far.
    The context [Cancellable k] is done from the moment the clock shows [k];
    the mock transport answers a request whose context is done with the
    context's error, as [http.Transport] does, and hands any other request
    to the handler. *)

Definition mock_transport (handler : http_Request -> result http_Response) : RoundTripper :=
  {| World := nat;
     RoundTrip req w :=
       match ReqCtx req with
       | Cancellable k =>
           if (k <=? w)%nat then (Err "context canceled", S w) else (handler req, S w)
       | Background => (handler req, S w)
       end;
     cancelled w k := (k <=? w)%nat |}.

Definition respond (status : Z) (body : string) : result http_Response :=
  Ok (mkResponse status [] body None).

Definition session_id : string := "test-session-id".

Definition login_response : result http_Response :=
  Ok (mkResponse 200 [("SID", session_id)] "Ok." None).

Definition is_login (req : http_Request) : bool :=
  String.eqb (Path (URL req)) login_endpoint.

(** Answers by path, as the table [endpointResponses] of the tests does;
    a path not in the table is not found. *)
Definition by_path (table : list (string * (Z * string))) (req : http_Request)
    : result http_Response :=
  match list_find (fun e => String.eqb e.1 (Path (URL req)) = true) table with
  | Some (_, (_, (status, body))) =>
      if (is_login req && (status =? 200)%Z)%bool
      then Ok (mkResponse status [("SID", session_id)] body None)
      else respond status body
  | None => respond 404 "Not Found"
  end.

(** A service with sessions: the login sets the cookie [SID]; any other
    request is answered by [content] when it carries that cookie, and is
    forbidden otherwise. *)
Definition with_session (content : http_Request -> result http_Response)
    (req : http_Request) : result http_Response :=
  if is_login req then login_response
  else if bool_decide (("SID", session_id) ∈ Cookies req) then content req
  else respond 403 "Forbidden".

(** A service that forbids everything, the login too. *)
Definition forbid_all (req : http_Request) : result http_Response :=
  respond 403 "Forbidden".

Definition start `{RoundTripper} {C} (c : C) (w : World) : State C :=
  mkState c [] (mkNet w []).

(** The requests recorded after those of [s0]. *)
Definition new_requests `{RoundTripper} {C} (s0 s : State C) : list (World * http_Request) :=
  drop (length (sent (net s0))) (sent (net s)).

(** * Vocabulary of the statements *)

(** The run ended: it returned or panicked. *)
Definition ends {S A} (o : outcome S A) : Prop :=
  match o with OutOfFuel _ => False | _ => True end.

(** [m] does what [m'] does wherever [m'] ends. *)
Definition agree {S A} (m m' : M S A) : Prop := forall s, ends (m' s) -> m s = m' s.

(** Weakest preconditions: [Q] holds of the value and state [m] returns
    with, [I] of the state it is abandoned in. *)
Definition wp {S A} (m : M S A) (Q : A -> S -> Prop) (I : S -> Prop) (s : S) : Prop :=
  match m s with
  | Returns a s' => Q a s'
  | Panics _ s' | OutOfFuel s' => I s'
  end.


(** The instant a timestamp field holds for the wire value [v]. *)
Definition stamp_of (v : Z) (tm : time_Time) : Prop :=
  (v = (-1)%Z -> tm = time_zero /\ Time_IsZero tm = true /\ Time_Equal tm (time_Unix 0 0) = false)
  /\ (v <> (-1)%Z -> tm = time_Unix v 0 /\ Time_Unix tm = v /\ Time_nsec tm = 0%Z).

(** A tag with no comma in it. *)
Fixpoint no_comma (s : string) : bool :=
  match s with
  | EmptyString => true
  | String c s' => negb (Ascii.eqb c ","%char) && no_comma s'
  end.

(** What the form holds for the field [name], given the parameters. *)
Definition field_if (cond : bool) (value : string) : list string :=
  if cond then [value] else [].

(** The values the add form holds under [name]. *)
Definition expected_fields (p : TorrentsAddParams.t) (name : string) : list string :=
  if String.eqb name "urls" then TorrentsAddParams.URLs p
  else if String.eqb name "savepath" then
    field_if (nonempty (TorrentsAddParams.SavePath p)) (TorrentsAddParams.SavePath p)
  else if String.eqb name "cookie" then
    field_if (nonempty (TorrentsAddParams.Cookie p)) (TorrentsAddParams.Cookie p)
  else if String.eqb name "category" then
    field_if (nonempty (TorrentsAddParams.Category p)) (TorrentsAddParams.Category p)
  else if String.eqb name "tags" then
    field_if (nonempty (TorrentsAddParams.Tags p)) (TorrentsAddParams.Tags p)
  else if String.eqb name "skip_checking" then
    field_if (TorrentsAddParams.SkipCheck p) "true"
  else if String.eqb name "paused" then field_if (TorrentsAddParams.Paused p) "true"
  else if String.eqb name "root_folder" then
    match TorrentsAddParams.RootFolder p with Some b => [fmt_bool b] | None => [] end
  else if String.eqb name "rename" then
    field_if (nonempty (TorrentsAddParams.Rename p)) (TorrentsAddParams.Rename p)
  else if String.eqb name "upLimit" then
    field_if (0 <? TorrentsAddParams.UpLimit p)%Z (strconv_Itoa (TorrentsAddParams.UpLimit p))
  else if String.eqb name "dlLimit" then
    field_if (0 <? TorrentsAddParams.DlLimit p)%Z (strconv_Itoa (TorrentsAddParams.DlLimit p))
  else if String.eqb name "ratioLimit" then
    field_if (float64_gt0 (TorrentsAddParams.RatioLimit p))
             (fmt_2f (TorrentsAddParams.RatioLimit p))
  else if String.eqb name "seedingTimeLimit" then
    field_if (0 <? TorrentsAddParams.SeedingTime p)%Z
             (strconv_Itoa (TorrentsAddParams.SeedingTime p))
  else if String.eqb name "autoTMM" then field_if (TorrentsAddParams.AutoTMM p) "true"
  else if String.eqb name "sequentialDownload" then
    field_if (TorrentsAddParams.Sequential p) "true"
  else if String.eqb name "firstLastPiecePrio" then
    field_if (TorrentsAddParams.FirstLast p) "true"
  else [].


(** The parameters of the test with every parameter set. *)
Definition all_set : TorrentsAddParams.t :=
  TorrentsAddParams.mk ["test torrent data"] [] "/downloads" "" "tv" "hd,x265" true true
    (Some false) "renamed_torrent" 1048576 2097152 (S754_finite false 5 (-1)) 1440
    true true true.

(** Parameters with negative limits. *)
Definition negative_limits : TorrentsAddParams.t :=
  TorrentsAddParams.mk [] ["magnet:?xt=urn:btih:123"] "" "" "" "" false false None ""
    (-1) 0 (S754_finite true 1 0) (-2) false false false.

(** The address of an endpoint: [baseURL.Path] without its final slash,
    then the endpoint. *)
Definition api_url (base : url_URL) (endpoint : string) : url_URL :=
  mkURL (Origin base) (strings_TrimSuffix (Path base) "/" +:+ endpoint) (RawQuery base).

(** The form [AuthLogin] posts. *)
Definition login_form (username password : string) : string :=
  url_Values_Encode (url_Values_Set "password" password (url_Values_Set "username" username ∅)).

(** Two requests that differ at most in their cookies. *)
Definition same_attempt (r1 r2 : http_Request) : Prop :=
  ReqCtx r1 = ReqCtx r2 /\ Method r1 = Method r2 /\ URL r1 = URL r2
  /\ ContentType r1 = ContentType r2 /\ Body r1 = Body r2.

(** The transport answered the recorded request with [status]. *)
Definition answered `{RoundTripper} (e : World * http_Request) (status : Z) : Prop :=
  exists resp, answer e = Ok resp /\ StatusCode resp = status.

(** The request modifiers leave the context of the request alone. *)
Definition keeps_ctx (opts : list (http_Request -> result http_Request)) : Prop :=
  forall req req', apply_opts opts req = Ok req' -> ReqCtx req' = ReqCtx req.

Section Cancel.
Context `{RoundTripper}.

(** The transport answers a request whose context is done with an error. *)
Definition honours_cancellation : Prop :=
  forall req w, Context_done w (ReqCtx req) = true -> is_Err (RoundTrip req w).1 = true.

(** No request recorded since [s0] was sent while [ctx] was done. *)
Definition clean {C} (ctx : Context) (s0 s : State C) : Prop :=
  exists new, sent (net s) = sent (net s0) ++ new
              /\ Forall (fun e => Context_done e.1 ctx = false) new.

(** The world in which the answer to a recorded request is complete. *)
Definition completed (e : World * http_Request) : World := (RoundTrip e.2 e.1).2.

(** The context was done when the request was sent, or by the time the
    answer to it was complete: it ended before the request or during it. *)
Definition cut_short (ctx : Context) (e : World * http_Request) : Prop :=
  Context_done e.1 ctx = true \/ Context_done (completed e) ctx = true.

(** The body of a response cannot be read to its end when the context of
    the request is done by the time the response is complete: the
    transport closes the connection under the reader. *)
Definition aborts_in_flight : Prop :=
  forall req w resp,
    (RoundTrip req w).1 = Ok resp ->
    Context_done (RoundTrip req w).2 (ReqCtx req) = true ->
    RespBodyErr resp <> None.
End Cancel.

(** What a method hands to [doRequest]: method, endpoint, bytes of the body,
    content type, request modifiers. *)
Record wire := mkWire {
  wire_method : string;
  wire_endpoint : string;
  wire_body : option string;
  wire_contentType : string;
  wire_opts : list (http_Request -> result http_Request);
}.

Definition post_form (endpoint : string) (data : url_Values) : wire :=
  mkWire "POST" endpoint (Some (url_Values_Encode data)) form_urlencoded [].

Definition get_query (endpoint : string) (query : url_Values) : wire :=
  mkWire "GET" endpoint None "" [withQuery query].

Definition info_query (params : list (option TorrentsInfoParams.t)) : url_Values :=
  match params with
  | Some p :: _ => buildTorrentsInfoQuery p
  | _ => ∅
  end.

(** The request modifiers of the methods: queries. *)
Definition query_opts (opts : list (http_Request -> result http_Request)) : Prop :=
  exists qs, opts = map withQuery qs.

(** The error of each method that decodes JSON, for an empty body. *)
Definition empty_body_error (c : Call) : error :=
  match c with
  | CallTorrentsProperties _ => "TorrentsProperties error: empty response"
  | CallTorrentsTrackers _ =>
      "failed to decode trackers response: unexpected end of JSON input"
  | CallTorrentsGetAllTags => "failed to decode tags response: unexpected end of JSON input"
  | CallTorrentsGetTags _ =>
      "TorrentsGetTags error: failed to decode response: unexpected end of JSON input"
  | _ => "failed to decode response: unexpected end of JSON input"
  end.

(** A response with status 200 and nothing in its body. *)
Definition empty_success (resp : http_Response) : Prop :=
  StatusCode resp = http_StatusOK /\ RespBody resp = "" /\ RespBodyErr resp = None.

(** The endpoint of the deletion, and the form every deletion posts. *)
Definition delete_endpoint : string := "/api/v2/torrents/delete".

Definition delete_form (infohash : string) : string :=
  "deleteFiles=true&hashes=" +:+ url_QueryEscape infohash.

(** The value a jar holds under [name] once the cookies [cs] have been
    stored over [held]. *)
Definition cookie_value (name : string) (cs : list (string * string))
    (held : option string) : option string :=
  fold_left (fun acc c => if String.eqb c.1 name then Some c.2 else acc) cs held.

(** The service answers every request with "forbidden", the login too. *)
Definition always_forbidden `{RoundTripper} : Prop :=
  forall req w, exists resp,
    (RoundTrip req w).1 = Ok resp /\ StatusCode resp = http_StatusForbidden.

Module CtxSpec.
Import CtxClient.

(** The request [makeRequest] builds. *)
Definition build (ctx : Context) (method : string) (apiURL : url_URL)
    (bodyBuffer : option string) (contentType : string)
    (opts : list (http_Request -> result http_Request)) : result http_Request :=
  match http_NewRequestWithContext ctx method apiURL bodyBuffer with
  | Err err => Err ("NewRequest error: " +:+ err)
  | Ok req =>
      apply_opts opts (if nonempty contentType then Request_set_ContentType contentType req
                       else req)
  end.

(** [req] is what the client puts on the wire for the given attempt. *)
Definition sent_for (c : Client) (ctx : Context) (method endpoint : string)
    (bodyBuffer : option string) (contentType : string)
    (opts : list (http_Request -> result http_Request)) (req : http_Request) : Prop :=
  exists base hc req0,
    url_Parse (baseURL c) = Ok base
    /\ build ctx method (api_url base endpoint) bodyBuffer contentType opts = Ok req0
    /\ req = Client_send_request hc req0.

Definition login_sent (c : Client) (ctx : Context) (req : http_Request) : Prop :=
  sent_for c ctx "POST" login_endpoint (Some (login_form (username c) (password c)))
           form_urlencoded [] req.

Section S.
Context `{RoundTripper}.

Definition same_config (s0 s : State Client) : Prop :=
  username (self s) = username (self s0)
  /\ password (self s) = password (self s0)
  /\ baseURL (self s) = baseURL (self s0).

(** What a call of [doRequestCtx] started in [s0] has done when it is in [s]. *)
Record doRequest_inv (ctx : Context) (method endpoint : string) (body : option addr)
    (contentType : string) (opts : list (http_Request -> result http_Request))
    (s0 s : State Client) : Prop := {
  inv_config : same_config s0 s;
  inv_sent : exists new,
    sent (net s) = sent (net s0) ++ new
    /\ Forall (fun e => sent_for (self s0) ctx method endpoint
                          (body ≫= fun a => pending <$> readers s0 !! a)
                          contentType opts e.2
                        \/ login_sent (self s0) ctx e.2) new
    /\ (new <> [] -> forall a rd, body = Some a -> readers s0 !! a = Some rd ->
          failure rd = None /\ readers s !! a = Some (Reader_drained rd));
  inv_readers_len : length (readers s0) <= length (readers s);
  inv_readers_other : forall i, i < length (readers s0) -> body <> Some i ->
    readers s !! i = readers s0 !! i;
  inv_reader_body : forall a rd, body = Some a -> readers s0 !! a = Some rd ->
    readers s !! a = Some rd \/ readers s !! a = Some (Reader_drained rd);
}.

(** The result and the state of [c.client.Do(req)]. *)
Definition Do_result (req : http_Request) (s : State Client) : result http_Response :=
  (RoundTrip (Client_send_request (client (self s)) req) (world (net s))).1.

Definition Do_state (req : http_Request) (s : State Client) : State Client :=
  mkState
    (set_client (Client_store_cookies (client (self s)) (Do_result req s)) (self s))
    (readers s)
    (mkNet (RoundTrip (Client_send_request (client (self s)) req) (world (net s))).2
           (sent (net s) ++ [(world (net s), Client_send_request (client (self s)) req)])).

(** [doRequestCtx] from the first [makeRequest] on. *)
Definition attempt (fuel : nat) (ctx : Context) (method : string) (apiURL : url_URL)
    (bodyBuffer : option string) (contentType : string)
    (opts : list (http_Request -> result http_Request))
    : M (State Client) (result http_Response) :=
  r <- makeRequest ctx method apiURL bodyBuffer contentType opts;;
  match r with
  | Err err => ret (Err err)
  | Ok req =>
      r <- Do req;;
      match r with
      | Err err => ret (Err err)
      | Ok resp =>
          if (StatusCode resp =? http_StatusForbidden)%Z then
            r <- AuthLoginCtx fuel ctx;;
            match r with
            | Err err => ret (Err ("re-authentication failed: " +:+ err))
            | Ok _ =>
                r <- makeRequest ctx method apiURL bodyBuffer contentType opts;;
                match r with
                | Err err => ret (Err err)
                | Ok req => Do req
                end
            end
          else ret (Ok resp)
      end
  end.

(** [doRequestCtx] up to the first [makeRequest]: the body is read. *)
Definition read_body (body : option addr) : M (State Client) (result (option string)) :=
  match body with
  | Some b =>
      r <- read_all b;;
      ret match r with
          | Ok bytes => Ok (Some bytes)
          | Err err => Err ("failed to read request body: " +:+ err)
          end
  | None => ret (Ok None)
  end.

(** The reader on the body has been read, and it did not fail. *)
Definition ready (body : option addr) (s0 s : State Client) : Prop :=
  forall a rd, body = Some a -> readers s0 !! a = Some rd ->
    failure rd = None /\ readers s !! a = Some (Reader_drained rd).


Definition login_never_forbidden (c : Client) : Prop :=
  forall base req w resp,
    url_Parse (baseURL c) = Ok base ->
    Path (URL req) = Path (api_url base login_endpoint) ->
    (RoundTrip req w).1 = Ok resp ->
    StatusCode resp <> http_StatusForbidden.

Definition login_request (ctx : Context) (base : url_URL) (c : Client) : http_Request :=
  mkRequest ctx "POST" (api_url base login_endpoint) form_urlencoded []
            (Some (login_form (username c) (password c))).

(** What [AuthLoginCtx] makes of the answer to the login request. *)
Definition login_result (r : result http_Response) : result unit :=
  match r with
  | Err err => Err (wrapAPIError "AuthLogin" err)
  | Ok resp =>
      if negb (StatusCode resp =? http_StatusOK)%Z then
        Err ("AuthLogin error (" +:+ strconv_Itoa (StatusCode resp) +:+ "): "
             +:+ RespBody resp)
      else Ok tt
  end.

(** The state in which the login request is sent: the reader on the form
    has been made and read. *)
Definition login_state (s : State Client) : State Client :=
  mkState (self s)
    (readers s ++ [Reader_drained (strings_NewReader
                                     (login_form (username (self s)) (password (self s))))])
    (net s).

(** The state in which [AuthLoginCtx] calls [doRequestCtx]: the reader on
    the form has been made. *)
Definition login_start (s : State Client) : State Client :=
  mkState (self s)
    (readers s ++ [strings_NewReader (login_form (username (self s)) (password (self s)))])
    (net s).

(** What [doRequestCtx] does after the re-authentication, [o] being the
    outcome of the login's own call of [doRequestCtx] and [req] the
    request to send again. *)
Definition after_login (req : http_Request)
    (o : outcome (State Client) (result http_Response))
    : outcome (State Client) (result http_Response) :=
  match o with
  | Returns (Ok resp) s =>
      if negb (StatusCode resp =? http_StatusOK)%Z
      then Returns (Err ("re-authentication failed: "
                         +:+ ("AuthLogin error (" +:+ strconv_Itoa (StatusCode resp)
                              +:+ "): " +:+ (Response_ReadAll resp).1))) s
      else Returns (Do_result req s) (Do_state req s)
  | Returns (Err err) s =>
      Returns (Err ("re-authentication failed: " +:+ wrapAPIError "AuthLogin" err)) s
  | Panics msg s => Panics msg s
  | OutOfFuel s => OutOfFuel s
  end.

(** What [doRequestCtx] returns when the context ended before or during
    one of its requests: an error, or the response to its last request,
    complete only after the context was done. *)
Definition ended_late (ctx : Context) (r : result http_Response) (s' : State Client)
    : Prop :=
  match r with
  | Err _ => True
  | Ok resp =>
      exists req w,
        ReqCtx req = ctx
        /\ RoundTrip req w = (Ok resp, world (net s'))
        /\ Context_done (world (net s')) ctx = true
  end.
End S.

(** What each method hands to [doRequestCtx]. *)
Definition add_wire (boundary : string) (params : TorrentsAddParams.t) : result wire :=
  match CtxClient.buildTorrentAddForm boundary params with
  | Err err => Err err
  | Ok (bytes, contentType) =>
      Ok (mkWire "POST" "/api/v2/torrents/add" (Some bytes) contentType [])
  end.

Definition call_wire (c : Call) (cl : Client) : result wire :=
  match c with
  | CallAuthLogin =>
      Ok (mkWire "POST" login_endpoint (Some (login_form (username cl) (password cl)))
                 form_urlencoded [])
  | CallTorrentsExport hash =>
      Ok (post_form "/api/v2/torrents/export" (url_Values_Set "hash" hash ∅))
  | CallTorrentsAddParams boundary params => add_wire boundary params
  | CallTorrentsAdd boundary _ fileData =>
      add_wire boundary
        (TorrentsAddParams.mk [fileData] [] "" "" "" "" true false None "" 0 0
           (S754_zero false) 0 false false false)
  | CallTorrentsDelete infohash =>
      Ok (post_form "/api/v2/torrents/delete"
            (url_Values_Set "deleteFiles" "true" (url_Values_Set "hashes" infohash ∅)))
  | CallSetForceStart hash value =>
      Ok (post_form "/api/v2/torrents/setForceStart"
            (url_Values_Set "value" (fmt_bool value) (url_Values_Set "hashes" hash ∅)))
  | CallTorrentsDownload infohash =>
      Ok (get_query "/api/v2/torrents/file" {[ "hashes" := [infohash] ]})
  | CallTorrentsInfo params => Ok (get_query "/api/v2/torrents/info" (info_query params))
  | CallTorrentsTrackers hash =>
      Ok (get_query "/api/v2/torrents/trackers" (url_Values_Set "hash" hash ∅))
  | CallTorrentsProperties hash =>
      Ok (get_query "/api/v2/torrents/properties" (url_Values_Set "hash" hash ∅))
  | CallTorrentsAddTags hashes tags =>
      Ok (post_form "/api/v2/torrents/addTags"
            (url_Values_Set "tags" tags (set_if (nonempty hashes) "hashes" hashes ∅)))
  | CallTorrentsRemoveTags hashes tags =>
      Ok (post_form "/api/v2/torrents/removeTags"
            (url_Values_Set "tags" tags (set_if (nonempty hashes) "hashes" hashes ∅)))
  | CallTorrentsGetTags hashes =>
      Ok (get_query "/api/v2/torrents/info"
            (buildTorrentsInfoQuery (TorrentsInfoParams.mk "" "" "" "" false 0 0 [hashes])))
  | CallTorrentsGetAllTags => Ok (get_query "/api/v2/torrents/tags" ∅)
  | CallTorrentsCreateTags tags =>
      Ok (post_form "/api/v2/torrents/createTags"
            (url_Values_Set "tags" tags (set_if (nonempty "") "hashes" "" ∅)))
  | CallTorrentsDeleteTags tags =>
      Ok (post_form "/api/v2/torrents/deleteTags"
            (url_Values_Set "tags" tags (set_if (nonempty "") "hashes" "" ∅)))
  | CallSyncMainData rid =>
      Ok (get_query "/api/v2/sync/maindata" (url_Values_Set "rid" (strconv_Itoa rid) ∅))
  | CallSyncTorrentPeers hash rid =>
      Ok (get_query "/api/v2/sync/torrentPeers"
            (url_Values_Set "hash" hash (url_Values_Set "rid" (strconv_Itoa rid) ∅)))
  end.

Section Calls.
Context `{RoundTripper} `{JSONSyntax}.

(** The state in which a method calls [doRequestCtx], and the reader it
    passes. *)
Definition wire_start (w : wire) (s0 : State Client) : State Client :=
  match wire_body w with
  | Some bytes => mkState (self s0) (readers s0 ++ [strings_NewReader bytes]) (net s0)
  | None => s0
  end.

Definition wire_reader (w : wire) (s0 : State Client) : option addr :=
  match wire_body w with
  | Some _ => Some (length (readers s0))
  | None => None
  end.

(** The call of [doRequestCtx] a method makes, after the reader on the
    body has been made. *)
Definition transport (fuel : nat) (ctx : Context) (w : wire) (s0 : State Client)
    : outcome (State Client) (result http_Response) :=
  match wire_body w with
  | Some bytes =>
      doRequestCtx fuel ctx (wire_method w) (wire_endpoint w)
        (Some (length (readers s0))) (wire_contentType w) (wire_opts w)
        (mkState (self s0) (readers s0 ++ [strings_NewReader bytes]) (net s0))
  | None =>
      doRequestCtx fuel ctx (wire_method w) (wire_endpoint w) None
        (wire_contentType w) (wire_opts w) s0
  end.

(** A method does nothing to the state but through [doRequestCtx], and
    turns an error of [doRequestCtx] into an error. *)
Definition factors {A} (o : outcome (State Client) (result A))
    (t : outcome (State Client) (result http_Response)) : Prop :=
  match t with
  | Returns (Ok _) s' => final_state o = s'
  | Returns (Err _) s' => exists err, o = Returns (Err err) s'
  | Panics msg s' => o = Panics msg s'
  | OutOfFuel s' => o = OutOfFuel s'
  end.

End Calls.
End CtxSpec.

Module SidSpec.
Import SidClient.

(** The request [makeRequest] builds when the client holds the cookie [sid]. *)
Definition build (sid : string) (method : string) (apiURL : url_URL)
    (bodyBuffer : option string) (contentType : string)
    (opts : list (http_Request -> result http_Request)) : result http_Request :=
  match http_NewRequest method apiURL bodyBuffer with
  | Err err => Err ("NewRequest error: " +:+ err)
  | Ok req =>
      let req := if nonempty contentType then Request_set_ContentType contentType req
                 else req in
      let req := if nonempty sid then Request_AddCookie "SID" sid req else req in
      apply_opts opts req
  end.

(** [req] is what the client puts on the wire for the given attempt. *)
Definition sent_for (c : Client) (method endpoint : string)
    (bodyBuffer : option string) (contentType : string)
    (opts : list (http_Request -> result http_Request)) (req : http_Request) : Prop :=
  exists base hc sid req0,
    url_Parse (baseURL c) = Ok base
    /\ build sid method (api_url base endpoint) bodyBuffer contentType opts = Ok req0
    /\ req = Client_send_request hc req0.

Definition login_sent (c : Client) (req : http_Request) : Prop :=
  sent_for c "POST" login_endpoint (Some (login_form (username c) (password c)))
           form_urlencoded [] req.

Section S.
Context `{RoundTripper}.

Definition same_config (s0 s : State Client) : Prop :=
  username (self s) = username (self s0)
  /\ password (self s) = password (self s0)
  /\ baseURL (self s) = baseURL (self s0).

(** What a call of [doRequest] started in [s0] has done when it is in [s]. *)
Record doRequest_inv (method endpoint : string) (body : option addr)
    (contentType : string) (opts : list (http_Request -> result http_Request))
    (s0 s : State Client) : Prop := {
  inv_config : same_config s0 s;
  inv_sent : exists new,
    sent (net s) = sent (net s0) ++ new
    /\ Forall (fun e => sent_for (self s0) method endpoint
                          (body ≫= fun a => pending <$> readers s0 !! a)
                          contentType opts e.2
                        \/ login_sent (self s0) e.2) new
    /\ (new <> [] -> forall a rd, body = Some a -> readers s0 !! a = Some rd ->
          failure rd = None /\ readers s !! a = Some (Reader_drained rd));
  inv_readers_len : length (readers s0) <= length (readers s);
  inv_readers_other : forall i, i < length (readers s0) -> body <> Some i ->
    readers s !! i = readers s0 !! i;
  inv_reader_body : forall a rd, body = Some a -> readers s0 !! a = Some rd ->
    readers s !! a = Some rd \/ readers s !! a = Some (Reader_drained rd);
}.

(** The result and the state of [c.client.Do(req)]. *)
Definition Do_result (req : http_Request) (s : State Client) : result http_Response :=
  (RoundTrip (Client_send_request (client (self s)) req) (world (net s))).1.

Definition Do_state (req : http_Request) (s : State Client) : State Client :=
  mkState
    (set_client (Client_store_cookies (client (self s)) (Do_result req s)) (self s))
    (readers s)
    (mkNet (RoundTrip (Client_send_request (client (self s)) req) (world (net s))).2
           (sent (net s) ++ [(world (net s), Client_send_request (client (self s)) req)])).

(** [doRequest] from the first [makeRequest] on. *)
Definition attempt (fuel : nat) (method : string) (apiURL : url_URL)
    (bodyBuffer : option string) (contentType : string)
    (opts : list (http_Request -> result http_Request))
    : M (State Client) (result http_Response) :=
  r <- makeRequest method apiURL bodyBuffer contentType opts;;
  match r with
  | Err err => ret (Err err)
  | Ok req =>
      r <- Do req;;
      match r with
      | Err err => ret (Err err)
      | Ok resp =>
          if (StatusCode resp =? http_StatusForbidden)%Z then
            r <- AuthLogin fuel;;
            match r with
            | Err err => ret (Err ("re-authentication failed: " +:+ err))
            | Ok _ =>
                r <- makeRequest method apiURL bodyBuffer contentType opts;;
                match r with
                | Err err => ret (Err err)
                | Ok req => Do req
                end
            end
          else ret (Ok resp)
      end
  end.

(** [doRequest] up to the first [makeRequest]: the body is read. *)
Definition read_body (body : option addr) : M (State Client) (result (option string)) :=
  match body with
  | Some b =>
      r <- read_all b;;
      ret match r with
          | Ok bytes => Ok (Some bytes)
          | Err err => Err ("failed to read request body: " +:+ err)
          end
  | None => ret (Ok None)
  end.

Definition ready (body : option addr) (s0 s : State Client) : Prop :=
  forall a rd, body = Some a -> readers s0 !! a = Some rd ->
    failure rd = None /\ readers s !! a = Some (Reader_drained rd).

(** The state after [c.sid = cookie.Value]. *)
Definition sid_state (v : string) (s : State Client) : State Client :=
  mkState (set_sid v (self s)) (readers s) (net s).
(** The service never answers the login with "forbidden". *)
Definition login_never_forbidden (c : Client) : Prop :=
  forall base req w resp,
    url_Parse (baseURL c) = Ok base ->
    Path (URL req) = Path (api_url base login_endpoint) ->
    (RoundTrip req w).1 = Ok resp ->
    StatusCode resp <> http_StatusForbidden.

(** The login request of a client: it carries the cookie the client holds. *)
Definition login_request (base : url_URL) (c : Client) : http_Request :=
  mkRequest Background "POST" (api_url base login_endpoint) form_urlencoded
            (if nonempty (sid c) then [("SID", sid c)] else [])
            (Some (login_form (username c) (password c))).

(** What [AuthLogin] makes of the answer to the login request. *)
Definition login_result (r : result http_Response) : result unit :=
  match r with
  | Err err => Err ("AuthLogin error: " +:+ err)
  | Ok resp =>
      if negb (StatusCode resp =? http_StatusOK)%Z then
        Err ("AuthLogin error (" +:+ strconv_Itoa (StatusCode resp) +:+ "): "
             +:+ RespBody resp)
      else Ok tt
  end.

(** The cookie [AuthLogin] keeps from the answer to the login request. *)
Definition login_cookie (r : result http_Response) : option string :=
  match r with
  | Ok resp =>
      if (StatusCode resp =? http_StatusOK)%Z then jar_get "SID" (SetCookies resp) else None
  | Err _ => None
  end.

Definition login_store (r : result http_Response) (s : State Client) : State Client :=
  match login_cookie r with
  | Some v => sid_state v s
  | None => s
  end.

(** The state in which the login request is sent: the reader on the form
    has been made and read. *)
Definition login_state (s : State Client) : State Client :=
  mkState (self s)
    (readers s ++ [Reader_drained (strings_NewReader
                                     (login_form (username (self s)) (password (self s))))])
    (net s).
End S.
(** What each method hands to [doRequest]. *)
Definition add_wire (boundary : string) (params : TorrentsAddParams.t) : result wire :=
  match torrent_add_parts params with
  | Err err => Err err
  | Ok writer =>
      Ok (mkWire "POST" "/api/v2/torrents/add" (Some (multipart_bytes boundary writer))
                 (multipart_FormDataContentType boundary) [])
  end.

Definition call_wire (c : Call) (cl : Client) : result wire :=
  match c with
  | CallAuthLogin =>
      Ok (mkWire "POST" login_endpoint (Some (login_form (username cl) (password cl)))
                 form_urlencoded [])
  | CallTorrentsExport hash =>
      Ok (post_form "/api/v2/torrents/export" (url_Values_Set "hash" hash ∅))
  | CallTorrentsAddParams boundary params => add_wire boundary params
  | CallTorrentsAdd boundary _ fileData =>
      add_wire boundary
        (TorrentsAddParams.mk [fileData] [] "" "" "" "" true false None "" 0 0
           (S754_zero false) 0 false false false)
  | CallTorrentsDelete infohash =>
      Ok (post_form "/api/v2/torrents/delete"
            (url_Values_Set "deleteFiles" "true" (url_Values_Set "hashes" infohash ∅)))
  | CallSetForceStart hash value =>
      Ok (post_form "/api/v2/torrents/setForceStart"
            (url_Values_Set "value" (fmt_bool value) (url_Values_Set "hashes" hash ∅)))
  | CallTorrentsDownload infohash =>
      Ok (get_query "/api/v2/torrents/file" {[ "hashes" := [infohash] ]})
  | CallTorrentsInfo params => Ok (get_query "/api/v2/torrents/info" (info_query params))
  | CallTorrentsTrackers hash =>
      Ok (get_query "/api/v2/torrents/trackers" (url_Values_Set "hash" hash ∅))
  | CallTorrentsProperties hash =>
      Ok (get_query "/api/v2/torrents/properties" (url_Values_Set "hash" hash ∅))
  | CallTorrentsAddTags hashes tags =>
      Ok (post_form "/api/v2/torrents/addTags"
            (url_Values_Set "tags" tags (url_Values_Set "hashes" hashes ∅)))
  | CallTorrentsRemoveTags hashes tags =>
      Ok (post_form "/api/v2/torrents/removeTags"
            (url_Values_Set "tags" tags (url_Values_Set "hashes" hashes ∅)))
  | CallTorrentsGetTags hashes =>
      Ok (get_query "/api/v2/torrents/info"
            (buildTorrentsInfoQuery (TorrentsInfoParams.mk "" "" "" "" false 0 0 [hashes])))
  | CallTorrentsGetAllTags => Ok (get_query "/api/v2/torrents/tags" ∅)
  | CallTorrentsCreateTags tags =>
      Ok (post_form "/api/v2/torrents/createTags" (url_Values_Set "tags" tags ∅))
  | CallTorrentsDeleteTags tags =>
      Ok (post_form "/api/v2/torrents/deleteTags" (url_Values_Set "tags" tags ∅))
  | CallSyncMainData rid =>
      Ok (get_query "/api/v2/sync/maindata" (url_Values_Set "rid" (strconv_Itoa rid) ∅))
  | CallSyncTorrentPeers hash rid =>
      Ok (get_query "/api/v2/sync/torrentPeers"
            (url_Values_Set "hash" hash (url_Values_Set "rid" (strconv_Itoa rid) ∅)))
  end.

Section Calls.
Context `{RoundTripper} `{JSONSyntax}.

(** The state in which a method calls [doRequest], and the reader it
    passes. *)
Definition wire_start (w : wire) (s0 : State Client) : State Client :=
  match wire_body w with
  | Some bytes => mkState (self s0) (readers s0 ++ [strings_NewReader bytes]) (net s0)
  | None => s0
  end.

Definition wire_reader (w : wire) (s0 : State Client) : option addr :=
  match wire_body w with
  | Some _ => Some (length (readers s0))
  | None => None
  end.

(** The call of [doRequest] a method makes, after the reader on the body
    has been made. *)
Definition transport (fuel : nat) (w : wire) (s0 : State Client)
    : outcome (State Client) (result http_Response) :=
  match wire_body w with
  | Some bytes =>
      doRequest fuel (wire_method w) (wire_endpoint w)
        (Some (length (readers s0))) (wire_contentType w) (wire_opts w)
        (mkState (self s0) (readers s0 ++ [strings_NewReader bytes]) (net s0))
  | None =>
      doRequest fuel (wire_method w) (wire_endpoint w) None
        (wire_contentType w) (wire_opts w) s0
  end.

(** A method does nothing to the state but through [doRequest] (the login
    apart, which may store the cookie), and turns an error of [doRequest]
    into an error. *)
Definition factors {A} (o : outcome (State Client) (result A))
    (t : outcome (State Client) (result http_Response)) : Prop :=
  match t with
  | Returns (Ok resp) s' =>
      final_state o = s' \/ exists v, final_state o = sid_state v s'
  | Returns (Err _) s' => exists err, o = Returns (Err err) s'
  | Panics msg s' => o = Panics msg s'
  | OutOfFuel s' => o = OutOfFuel s'
  end.
End Calls.
End SidSpec.

(** * Samples *)

(** What [AuthLogin] returns for the answer [r] to the login request: the
    body of the answer is not looked at unless the status is not 200. *)
Definition login_verdict (r : result http_Response) : result unit :=
  match r with
  | Err err => Err ("AuthLogin error: " +:+ err)
  | Ok resp =>
      if (StatusCode resp =? http_StatusOK)%Z then Ok tt
      else Err ("AuthLogin error (" +:+ strconv_Itoa (StatusCode resp) +:+ "): "
                +:+ RespBody resp)
  end.

(** What one call of the request pipeline leaves behind: the requests [new]
    it sent, and its result [r].  [is_login] recognises the login request. *)
Definition retried_once `{RoundTripper} (is_login : http_Request -> Prop)
    (new : list (World * http_Request)) (r : result http_Response) : Prop :=
  match new with
  | [] => is_Err r = true
  | [e1] => r = answer e1 /\ ~ answered e1 http_StatusForbidden
  | [e1; e2] =>
      answered e1 http_StatusForbidden
      /\ is_login e2.2
      /\ ~ answered e2 http_StatusOK
      /\ exists err, r = Err ("re-authentication failed: " +:+ err)
  | [e1; e2; e3] =>
      answered e1 http_StatusForbidden
      /\ is_login e2.2
      /\ answered e2 http_StatusOK
      /\ same_attempt e1.2 e3.2
      /\ r = answer e3
  | _ => False
  end.

(** ** Sample clients and services *)

Definition sid_client : SidClient.Client :=
  SidClient.mkClient "admin" "secret" (mkHttpClient None) "http://localhost:8080" "".

Definition ctx_client : CtxClient.Client :=
  CtxClient.mkClient "admin" "secret" (mkHttpClient (Some [])) "http://localhost:8080".

Definition info_endpoint : string := "/api/v2/torrents/info".

Definition properties_endpoint : string := "/api/v2/torrents/properties".

(** A service with sessions that has two torrents, and answers the
    properties call with an empty body. *)
Definition session_service : RoundTripper :=
  mock_transport
    (with_session
       (by_path [(info_endpoint,
                  (200%Z, js "[{'name':'a','tags':'x,y'},{'name':'b','tags':''}]"));
                 (delete_endpoint, (200%Z, ""));
                 (properties_endpoint, (200%Z, ""))])).

(** A service that forbids the list call and rejects the credentials. *)
Definition rejecting_service : RoundTripper :=
  mock_transport
    (by_path [(info_endpoint, (403%Z, "Forbidden")); (login_endpoint, (401%Z, "Unauthorized"))]).

(** A service that answers every request with status 200 and the body
    [Fails.], and sets no cookie. *)
Definition failing_login_service : RoundTripper :=
  mock_transport (fun _ => respond 200 "Fails.").

(** A service that forbids everything, whatever the context of the
    request. *)
Definition forbidding_service : RoundTripper :=
  {| World := nat;
     RoundTrip req w := (forbid_all req, S w);
     cancelled _ _ := false |}.

(** The paths of the recorded requests. *)
Definition paths `{RoundTripper} (l : list (World * http_Request)) : list string :=
  map (fun e => Path (URL e.2)) l.

(** ** Sample payloads *)

Definition tagged_torrent : string := js "{'name':'ubuntu','tags':'linux,iso,lts'}".

Definition untagged_torrent : string := js "{'name':'ubuntu','tags':''}".

Definition dated_properties : string :=
  js "{'save_path':'/downloads','addition_date':1700000000,'creation_date':-1}".

(** A state of the sample client with one reader, on a form. *)
Definition with_reader `{RoundTripper} {C} (c : C) (w : World) (bytes : string) : State C :=
  mkState c [strings_NewReader bytes] (mkNet w []).

(** The first request of the sample deletion. *)
Definition sample_delete_request : http_Request :=
  mkRequest Background "POST" (mkURL "http://localhost:8080" "/api/v2/torrents/delete" "")
            form_urlencoded [] (Some "deleteFiles=true&hashes=abc").

(** The sample client with a reader on a force-start form, before the
    session service. *)
Definition force_start_state : @State session_service SidClient.Client :=
  @with_reader session_service _ sid_client 0%nat "hashes=abc&value=true".

(** ** A transport on which a context can end while a request is in flight *)

(** The answer that broke off because the context of its request ended:
    the status line and the headers have arrived, the body has not. *)
Definition interrupted (r : result http_Response) : result http_Response :=
  match r with
  | Ok resp =>
      Ok (mkResponse (StatusCode resp) (SetCookies resp) "" (Some "context canceled"))
  | Err err => Err err
  end.

(** As [mock_transport], but an answer takes the tick of the clock it is
    sent in: the context [Cancellable k] sent at [k - 1] ends while the
    answer is in flight, and the body of the answer cannot be read. *)
Definition slow_transport (handler : http_Request -> result http_Response) : RoundTripper :=
  {| World := nat;
     RoundTrip req w :=
       match ReqCtx req with
       | Cancellable k =>
           if (k <=? w)%nat then (Err "context canceled", S w)
           else if (k <=? S w)%nat then (interrupted (handler req), S w)
           else (handler req, S w)
       | Background => (handler req, S w)
       end;
     cancelled w k := (k <=? w)%nat |}.

(** The session service behind the slow transport. *)
Definition slow_session_service : RoundTripper :=
  slow_transport
    (with_session
       (by_path [(info_endpoint,
                  (200%Z, js "[{'name':'a','tags':'x,y'},{'name':'b','tags':''}]"))])).

(** A service without sessions behind the slow transport: it answers the
    list call at once. *)
Definition slow_open_service : RoundTripper :=
  slow_transport
    (by_path [(info_endpoint, (200%Z, js "[{'name':'a','tags':'x,y'}]"));
              (login_endpoint, (200%Z, "Ok."))]).

(** The sample client of the context revision with a reader on a
    force-start form, before the session service. *)
Definition force_start_state_ctx : @State session_service CtxClient.Client :=
  @with_reader session_service _ ctx_client 0%nat "hashes=abc&value=true".

(** The sample client with a reader that fails before its end. *)
Definition broken_form_state : @State session_service SidClient.Client :=
  @mkState session_service _ sid_client [mkReader "hashes=" (Some "unexpected EOF") 0]
    (@mkNet session_service 0%nat []).

(** The request of the list call made with the context [Cancellable 1]. *)
Definition cancellable_list_request : http_Request :=
  mkRequest (Cancellable 1) "GET" (mkURL "http://localhost:8080" "/api/v2/torrents/info" "")
            "" [] None.

(** * Further vocabulary *)

(** The name under which a method reports an error of the layer below: the
    text before [" error: "], or nothing when the method hands the error on
    as it is. *)
Definition error_prefix (c : Call) : string :=
  match c with
  | CallAuthLogin => ""
  | CallTorrentsExport _ | CallTorrentsDownload _ | CallTorrentsInfo _
  | CallSyncMainData _ | CallSyncTorrentPeers _ _ => ""
  | CallTorrentsAddParams _ _ | CallTorrentsAdd _ _ _ => "TorrentsAdd error: "
  | CallTorrentsDelete _ => "TorrentsDelete error: "
  | CallSetForceStart _ _ => "SetForceStart error: "
  | CallTorrentsTrackers _ => "TorrentsTrackers error: "
  | CallTorrentsProperties _ => "TorrentsProperties error: "
  | CallTorrentsAddTags _ _ => "AddTags error: "
  | CallTorrentsRemoveTags _ _ => "RemoveTags error: "
  | CallTorrentsGetTags _ => "TorrentsGetTags error: "
  | CallTorrentsGetAllTags => "GetAllTags error: "
  | CallTorrentsCreateTags _ => "CreateTags error: "
  | CallTorrentsDeleteTags _ => "DeleteTags error: "
  end.

(** The error of [AuthLogin], [doPost] and [doGet] for a response whose
    status is not 200. *)
Definition status_error (c : Call) (resp : http_Response) : error :=
  match c with
  | CallAuthLogin =>
      "AuthLogin error (" +:+ strconv_Itoa (StatusCode resp) +:+ "): " +:+ RespBody resp
  | CallTorrentsExport _ | CallTorrentsAddParams _ _ | CallTorrentsAdd _ _ _
  | CallTorrentsDelete _ | CallSetForceStart _ _ | CallTorrentsAddTags _ _
  | CallTorrentsRemoveTags _ _ | CallTorrentsCreateTags _ | CallTorrentsDeleteTags _ =>
      "POST error (" +:+ strconv_Itoa (StatusCode resp) +:+ "): " +:+ RespBody resp
  | _ =>
      "unexpected response code: " +:+ strconv_Itoa (StatusCode resp)
      +:+ ", response: " +:+ RespBody resp
  end.

(** What a method that decodes nothing returns for a response with status
    200: the bytes of the body, or nothing. *)
Definition plain_value (c : Call) (resp : http_Response) : Value :=
  match c with
  | CallTorrentsExport _ | CallTorrentsDownload _ => VBytes (RespBody resp)
  | _ => VNone
  end.

(** The service cannot be reached: the transport fails on every request. *)
Definition unreachable `{RoundTripper} : Prop :=
  forall req w, is_Err (RoundTrip req w).1 = true.

(** What [NewClient] returns for the answer to its login: the error of
    [AuthLogin] is wrapped once more. *)
Definition construction_verdict (r : result http_Response) : result unit :=
  match login_verdict r with
  | Ok _ => Ok tt
  | Err err => Err ("AuthLogin error: " +:+ err)
  end.

(** The HTTP client [NewClient] of the context revision settles on: the one
    given, with an empty cookie jar when it has none. *)
Definition with_jar (httpClient : option http_Client) : http_Client :=
  match httpClient with
  | Some (mkHttpClient (Some jar)) => mkHttpClient (Some jar)
  | _ => mkHttpClient (Some [])
  end.

(** The values the query of the list call holds under [key]. *)
Definition expected_query (p : TorrentsInfoParams.t) (key : string) : option (list string) :=
  if String.eqb key "filter" then
    if nonempty (TorrentsInfoParams.Filter p) then Some [TorrentsInfoParams.Filter p] else None
  else if String.eqb key "category" then
    if nonempty (TorrentsInfoParams.Category p) then Some [TorrentsInfoParams.Category p]
    else None
  else if String.eqb key "tag" then
    if nonempty (TorrentsInfoParams.Tag p) then Some [TorrentsInfoParams.Tag p] else None
  else if String.eqb key "sort" then
    if nonempty (TorrentsInfoParams.Sort p) then Some [TorrentsInfoParams.Sort p] else None
  else if String.eqb key "reverse" then
    if TorrentsInfoParams.Reverse p then Some ["true"] else None
  else if String.eqb key "limit" then
    if (0 <? TorrentsInfoParams.Limit p)%Z
    then Some [strconv_Itoa (TorrentsInfoParams.Limit p)] else None
  else if String.eqb key "offset" then
    if (TorrentsInfoParams.Offset p =? 0)%Z then None
    else Some [strconv_Itoa (TorrentsInfoParams.Offset p)]
  else if String.eqb key "hashes" then
    match TorrentsInfoParams.Hashes p with
    | [] => None
    | hashes => Some [strings_Join hashes "|"]
    end
  else None.

(** The name of the [i]-th file of the add form. *)
Definition torrent_filename (i : nat) : string :=
  "torrent" +:+ strconv_Itoa (Z.of_nat i) +:+ ".torrent".

(** The cookie [makeRequest] of [client.go] attaches for the session [sid]. *)
Definition sid_cookies (sid : string) : list (string * string) :=
  if nonempty sid then [("SID", sid)] else [].

(** The cookies of the jar of an HTTP client. *)
Definition jar_cookies (hc : http_Client) : list (string * string) :=
  default [] (Jar hc).

(** The calls that add or remove tags without naming a torrent. *)
Definition tags_without_hashes (c : Call) : bool :=
  match c with
  | CallTorrentsAddTags hashes _ | CallTorrentsRemoveTags hashes _ => negb (nonempty hashes)
  | _ => false
  end.

(** ** Further samples *)

(** A service that fails on every request with status 500. *)
Definition broken_service : RoundTripper :=
  mock_transport (fun _ => respond 500 "Internal Server Error").

Definition export_endpoint : string := "/api/v2/torrents/export".

(** A service without sessions that exports one torrent file. *)
Definition export_service : RoundTripper :=
  mock_transport (by_path [(export_endpoint, (200%Z, "d4:infod4:name1:aee"))]).

(** A service that cannot be reached: no request gets a response. *)
Definition down_service : RoundTripper :=
  mock_transport (fun _ => Err "connection refused").

(** Clients configured with an address without scheme, which [url.Parse]
    refuses. *)
Definition sid_client_without_scheme : SidClient.Client :=
  SidClient.mkClient "admin" "secret" (mkHttpClient None) "127.0.0.1:8080" "".

Definition ctx_client_without_scheme : CtxClient.Client :=
  CtxClient.mkClient "admin" "secret" (mkHttpClient (Some [])) "127.0.0.1:8080".

(** The login request of [NewClient]: the new client holds no session. *)
Definition first_login (base : url_URL) (username password : string) : http_Request :=
  mkRequest Background "POST" (api_url base login_endpoint) form_urlencoded []
            (Some (login_form username password)).

(** Parameters of the list call with a negative limit and a negative
    offset. *)
Definition negative_window : TorrentsInfoParams.t :=
  TorrentsInfoParams.mk "downloading" "" "" "" false (-5) (-1) ["a"; "b"].

(** The parameters [TorrentsGetTags] hands to the list call. *)
Definition tags_params (hashes : string) : TorrentsInfoParams.t :=
  TorrentsInfoParams.mk "" "" "" "" false 0 0 [hashes].

(** The two parts of the form of [TorrentsAdd]. *)
Definition single_torrent_parts (fileData : string) : multipart_Writer :=
  [FormFile "torrents" "torrent0.torrent" fileData; FormField "skip_checking" "true"].

(** The login request the sample client of [client.go] sends to the
    session service when it holds no session. *)
Definition sample_login_request : http_Request :=
  mkRequest Background "POST" (mkURL "http://localhost:8080" "/api/v2/auth/login" "")
            form_urlencoded [] (Some "password=secret&username=admin").

(** ** The wire format of the methods *)

(** The endpoint of each method. *)
Definition expected_endpoint (c : Call) : string :=
  match c with
  | CallAuthLogin => "/api/v2/auth/login"
  | CallTorrentsExport _ => "/api/v2/torrents/export"
  | CallTorrentsAddParams _ _ | CallTorrentsAdd _ _ _ => "/api/v2/torrents/add"
  | CallTorrentsDelete _ => "/api/v2/torrents/delete"
  | CallSetForceStart _ _ => "/api/v2/torrents/setForceStart"
  | CallTorrentsDownload _ => "/api/v2/torrents/file"
  | CallTorrentsInfo _ | CallTorrentsGetTags _ => "/api/v2/torrents/info"
  | CallTorrentsTrackers _ => "/api/v2/torrents/trackers"
  | CallTorrentsProperties _ => "/api/v2/torrents/properties"
  | CallTorrentsAddTags _ _ => "/api/v2/torrents/addTags"
  | CallTorrentsRemoveTags _ _ => "/api/v2/torrents/removeTags"
  | CallTorrentsGetAllTags => "/api/v2/torrents/tags"
  | CallTorrentsCreateTags _ => "/api/v2/torrents/createTags"
  | CallTorrentsDeleteTags _ => "/api/v2/torrents/deleteTags"
  | CallSyncMainData _ => "/api/v2/sync/maindata"
  | CallSyncTorrentPeers _ _ => "/api/v2/sync/torrentPeers"
  end.

(** The methods that read: they send a GET with a query and no body.  The
    other methods send a POST with a body. *)
Definition is_get (c : Call) : bool :=
  match c with
  | CallTorrentsDownload _ | CallTorrentsInfo _ | CallTorrentsTrackers _
  | CallTorrentsProperties _ | CallTorrentsGetTags _ | CallTorrentsGetAllTags
  | CallSyncMainData _ | CallSyncTorrentPeers _ _ => true
  | _ => false
  end.

(** One field of a form or of a query. *)
Definition key_value (key value : string) : string := key +:+ "=" +:+ url_QueryEscape value.

(** The text of the form or of the query of each method but the addition of
    torrents, whose form is multipart.  [empty_hashes] tells whether the
    addition and the removal of tags send the field "hashes" when it is
    empty, as [client.go] does. *)
Definition expected_text (empty_hashes : bool) (username password : string) (c : Call)
    : option string :=
  match c with
  | CallAuthLogin => Some (key_value "password" password +:+ "&" +:+ key_value "username" username)
  | CallTorrentsExport hash => Some (key_value "hash" hash)
  | CallTorrentsAddParams _ _ | CallTorrentsAdd _ _ _ => None
  | CallTorrentsDelete infohash => Some ("deleteFiles=true&" +:+ key_value "hashes" infohash)
  | CallSetForceStart hash value =>
      Some (key_value "hashes" hash +:+ "&value=" +:+ fmt_bool value)
  | CallTorrentsDownload infohash => Some (key_value "hashes" infohash)
  | CallTorrentsInfo params => Some (url_Values_Encode (info_query params))
  | CallTorrentsTrackers hash | CallTorrentsProperties hash => Some (key_value "hash" hash)
  | CallTorrentsAddTags hashes tags | CallTorrentsRemoveTags hashes tags =>
      if (empty_hashes || nonempty hashes)%bool
      then Some (key_value "hashes" hashes +:+ "&" +:+ key_value "tags" tags)
      else Some (key_value "tags" tags)
  | CallTorrentsGetTags hashes => Some (key_value "hashes" hashes)
  | CallTorrentsGetAllTags => Some ""
  | CallTorrentsCreateTags tags | CallTorrentsDeleteTags tags => Some (key_value "tags" tags)
  | CallSyncMainData rid => Some (key_value "rid" (strconv_Itoa rid))
  | CallSyncTorrentPeers hash rid =>
      Some (key_value "hash" hash +:+ "&" +:+ key_value "rid" (strconv_Itoa rid))
  end.

(** What the first request of a method looks like. *)
Definition carries (c : Call) (base : url_URL) (text : string) (req : http_Request) : Prop :=
  Path (URL req) = Path (api_url base (expected_endpoint c))
  /\ if is_get c
     then Method req = "GET" /\ RawQuery (URL req) = text /\ Body req = None
     else Method req = "POST" /\ ContentType req = form_urlencoded /\ Body req = Some text.

(** The error of each method that decodes JSON, for a body that is not a
    JSON document: the error [err] of the decoder in the wrapping of the
    method. *)
Definition syntax_error (c : Call) (err : error) : error :=
  match c with
  | CallTorrentsProperties _ => "failed to decode properties response: " +:+ err
  | CallTorrentsTrackers _ => "failed to decode trackers response: " +:+ err
  | CallTorrentsGetAllTags => "failed to decode tags response: " +:+ err
  | CallTorrentsGetTags _ => "TorrentsGetTags error: failed to decode response: " +:+ err
  | _ => "failed to decode response: " +:+ err
  end.

(** A service that answers every request with a page of HTML. *)
Definition proxy_service : RoundTripper :=
  mock_transport (fun _ => respond 200 "<html>Bad Gateway</html>").

(** The error of [doPost] and [doGet] when the body of a response with
    status 200 cannot be read to its end, [err] being the error of the
    reader. *)
Definition read_error (c : Call) (err : error) : error :=
  if is_get c then "ReadAll error: " +:+ err else err.

(** A service whose responses break off: status 200, and a body that
    ends with an error. *)
Definition truncating_service : RoundTripper :=
  mock_transport (fun _ => Ok (mkResponse 200 [] "[{" (Some "unexpected EOF"))).

(** * Numbers, strings and forms *)

Lemma int64_id z : in_int64 z -> int64 z = z.
Proof.
  unfold in_int64, int64. change (2 ^ 63)%Z with 9223372036854775808%Z.
  change (2 ^ 64)%Z with 18446744073709551616%Z. intros Hz.
  rewrite Z.mod_small; lia.
Qed.

Lemma int64_range z : in_int64 (int64 z).
Proof.
  unfold in_int64, int64. change (2 ^ 63)%Z with 9223372036854775808%Z.
  change (2 ^ 64)%Z with 18446744073709551616%Z.
  pose proof (Z.mod_pos_bound (z + 9223372036854775808) 18446744073709551616). lia.
Qed.

Lemma int64_add_sub z c : in_int64 z -> int64 (int64 (z + c) - c) = z.
Proof.
  unfold in_int64, int64. change (2 ^ 63)%Z with 9223372036854775808%Z.
  change (2 ^ 64)%Z with 18446744073709551616%Z. intros Hz.
  replace (((z + c + 9223372036854775808) mod 18446744073709551616 - 9223372036854775808 - c + 9223372036854775808))%Z
    with (((z + c + 9223372036854775808) mod 18446744073709551616 - c))%Z by lia.
  rewrite Zminus_mod_idemp_l.
  replace (z + c + 9223372036854775808 - c)%Z with (z + 9223372036854775808)%Z by lia.
  rewrite Z.mod_small; lia.
Qed.
Lemma time_Unix_0 v : time_Unix v 0 = mkTime 0 (int64 (v + unixToInternal)) Local.
Proof. reflexivity. Qed.

Lemma unixTimeOrZero_stamp v : in_int64 v -> stamp_of v (unixTimeOrZero v).
Proof.
  intros Hv. unfold stamp_of, unixTimeOrZero. split.
  - intros ->. simpl. repeat split; reflexivity.
  - intros Hne. destruct (Z.eqb_spec v (-1)) as [|_]; [contradiction|].
    rewrite time_Unix_0. repeat split.
    unfold Time_Unix, Time_sec, internalToUnix; simpl ext.
    rewrite <- Z.sub_opp_r, Z.opp_involutive. by apply int64_add_sub.
Qed.

Lemma literal_int64_range lit z : literal_int64 lit = Some z -> in_int64 z.
Proof.
  unfold literal_int64. intros H.
  apply bind_Some in H as (v & _ & H).
  destruct (_ && _)%bool eqn:E; [|discriminate]. injection H as <-.
  apply andb_prop in E as [E1 E2]. unfold in_int64. lia.
Qed.

Lemma store_int64_range cur j v : in_int64 cur -> store_int64 cur j = Ok v -> in_int64 v.
Proof.
  intros Hc. unfold store_int64.
  destruct j as [[]|]; try discriminate; try (intros [= <-]; done).
  destruct (literal_int64 literal) eqn:E; [|discriminate].
  intros [= <-]. by eapply literal_int64_range.
Qed.

Lemma in_int64_0 : in_int64 0.
Proof. unfold in_int64. lia. Qed.

Ltac bind_ok H :=
  match type of H with
  | result_bind ?r _ = _ =>
      let E := fresh "E" in
      destruct r eqn:E; simpl in H; [|discriminate]
  end.

Lemma TorrentsProperties_dates `{JSONSyntax} (data : string) (t r : TorrentsProperties.t) :
  TorrentsProperties_UnmarshalJSON data t = Decoded r ->
  exists ms a c cr l,
    json_parse data = Ok (JObject ms)
    /\ store_int64 0 (member "addition_date" ms) = Ok a
    /\ store_int64 0 (member "completion_date" ms) = Ok c
    /\ store_int64 0 (member "creation_date" ms) = Ok cr
    /\ store_int64 0 (member "last_seen" ms) = Ok l
    /\ stamp_of a (TorrentsProperties.AdditionDate r)
    /\ stamp_of c (TorrentsProperties.CompletionDate r)
    /\ stamp_of cr (TorrentsProperties.CreationDate r)
    /\ stamp_of l (TorrentsProperties.LastSeen r).
Proof.
  unfold TorrentsProperties_UnmarshalJSON, TorrentsProperties_UnmarshalJSON_value.
  destruct (json_parse data) as [j|] eqn:Ej; [|discriminate].
  destruct (Unmarshal_TorrentsProperties_aux j t) as [[[[[[a c] cr] l] t']|]|] eqn:Eaux;
    try discriminate.
  intros [= <-].
  destruct j; try discriminate. simpl in Eaux.
  do 11 bind_ok Eaux. injection Eaux as <- <- <- <- <-.
  assert (forall k v, store_int64 0 (member k members) = Ok v ->
                      stamp_of v (unixTimeOrZero v)) as Hs.
  { intros k v Hv. apply unixTimeOrZero_stamp.
    eapply store_int64_range; eauto using in_int64_0. }
  exists members, a0, a1, a2, a3.
  do 5 (split; [first [reflexivity|assumption]|]).
  split; [|split; [|split]]; simpl; eauto.
Qed.

Lemma append_cons c (s t : string) : String c s +:+ t = String c (s +:+ t).
Proof. reflexivity. Qed.

Lemma append_nil_l (t : string) : "" +:+ t = t.
Proof. reflexivity. Qed.

Lemma append_assoc' (a b c : string) : (a +:+ b) +:+ c = a +:+ (b +:+ c).
Proof. induction a as [|x a IH]; [done|]. by rewrite !append_cons, IH. Qed.

Lemma append_nil_r (a : string) : a +:+ "" = a.
Proof. induction a as [|x a IH]; [done|]. by rewrite append_cons, IH. Qed.

Lemma rev_app_append (a b : string) : String.rev_app a b = String.rev a +:+ b.
Proof.
  unfold String.rev. revert b. induction a as [|x a IH]; intros b; [done|].
  simpl. rewrite IH, (IH (String x "")), append_assoc'. done.
Qed.

Lemma rev_cons c (acc : string) : String.rev (String c acc) = String.rev acc +:+ String c "".
Proof. unfold String.rev at 1. simpl. apply rev_app_append. Qed.

Lemma split_from_cons c s acc :
  split_from "," 0 acc (String c s)
  = if Ascii.eqb "," c then String.rev acc :: split_from "," 0 EmptyString s
    else split_from "," 0 (String c acc) s.
Proof. cbn [split_from strings_HasPrefix String.length Nat.sub]. by rewrite andb_true_r. Qed.

Lemma split_from_plain s acc :
  no_comma s = true -> split_from "," 0 acc s = [String.rev acc +:+ s].
Proof.
  revert acc. induction s as [|c s IH]; intros acc Hs.
  - simpl. by rewrite append_nil_r.
  - simpl in Hs. apply andb_prop in Hs as [Hc Hs].
    rewrite split_from_cons, Ascii.eqb_sym.
    destruct (Ascii.eqb c ","); [discriminate|].
    rewrite IH by done. by rewrite rev_cons, append_assoc'.
Qed.

Lemma split_from_comma s acc rest :
  no_comma s = true ->
  split_from "," 0 acc (s +:+ String "," rest)
  = (String.rev acc +:+ s) :: split_from "," 0 EmptyString rest.
Proof.
  revert acc. induction s as [|c s IH]; intros acc Hs.
  - rewrite append_nil_l, append_nil_r. by rewrite split_from_cons.
  - simpl in Hs. apply andb_prop in Hs as [Hc Hs].
    rewrite append_cons, split_from_cons, Ascii.eqb_sym.
    destruct (Ascii.eqb c ","); [discriminate|].
    rewrite IH by done. by rewrite rev_cons, append_assoc'.
Qed.

Lemma Split_Join (items : list string) :
  items <> [] -> forallb no_comma items = true ->
  strings_Split (strings_Join items ",") "," = items.
Proof.
  unfold strings_Split, strings_Join.
  induction items as [|x items IH]; [done|]. intros _ Hall.
  simpl in Hall. apply andb_prop in Hall as [Hx Hall].
  destruct items as [|y items].
  - simpl. by rewrite split_from_plain.
  - change (String.concat "," (x :: y :: items))
      with (x +:+ String "," (String.concat "," (y :: items))).
    rewrite split_from_comma by done. 
    f_equal. apply IH; done.
Qed.

Lemma TorrentInfo_tags_value `{JSONSyntax} (j : json) (t r : TorrentInfo.t) :
  TorrentInfo_UnmarshalJSON_value j t = Decoded r ->
  exists ms raw,
    j = JObject ms
    /\ store_string "" (member "tags" ms) = Ok raw
    /\ (raw = "" -> TorrentInfo.Tags r = Some [])
    /\ (forall items,
          items <> [] -> forallb no_comma items = true ->
          raw = strings_Join items "," -> raw <> "" ->
          TorrentInfo.Tags r = Some items
          /\ length (slice_elems (TorrentInfo.Tags r)) = length items).
Proof.
  unfold TorrentInfo_UnmarshalJSON_value.
  destruct (Unmarshal_TorrentInfo_aux j t) as [[[raw t']|]|] eqn:Eaux; try discriminate.
  destruct j; try discriminate. simpl in Eaux.
  destruct (store_string "" (member "tags" members)) as [raw'|] eqn:Eraw; [|discriminate].
  simpl in Eaux.
  repeat match type of Eaux with
         | result_bind ?x _ = _ => destruct x; simpl in Eaux; [|discriminate]
         end.
  injection Eaux as <- <-.
  intros Hr. exists members, raw'. split; [done|]. split; [done|]. split.
  - intros ->. simpl in Hr. by injection Hr as <-.
  - intros items Hne Hnc -> Hraw.
    destruct (String.eqb_spec (strings_Join items ",") ""); [done|].
    injection Hr as <-. simpl. rewrite Split_Join by done. done.
Qed.

Lemma form_values_app name w1 w2 :
  form_values name (w1 ++ w2) = form_values name w1 ++ form_values name w2.
Proof. unfold form_values. apply omap_app. Qed.

Lemma form_values_write_if name cond f v w :
  form_values name (write_if cond f v w)
  = form_values name w ++ field_if (cond && String.eqb name f) v.
Proof.
  unfold write_if, multipart_WriteField, field_if. rewrite (String.eqb_sym name f).
  destruct cond; cbn [andb]; [|by rewrite app_nil_r].
  rewrite form_values_app. cbn [form_values omap list_omap]. by destruct (String.eqb f name).
Qed.

Lemma form_values_WriteField name f v w :
  form_values name (multipart_WriteField f v w)
  = form_values name w ++ field_if (String.eqb name f) v.
Proof. apply (form_values_write_if name true). Qed.

Lemma form_values_add_urls name urls w :
  form_values name (add_urls urls w)
  = form_values name w ++ (if String.eqb name "urls" then urls else []).
Proof.
  unfold add_urls. revert w. induction urls as [|u urls IH]; intros w; cbn [fold_left].
  - destruct (String.eqb name "urls"); by rewrite app_nil_r.
  - rewrite IH, form_values_WriteField, <- app_assoc. f_equal.
    unfold field_if. by destruct (String.eqb name "urls").
Qed.

Lemma form_values_add_torrent_files name ts i w w' :
  add_torrent_files i ts w = Ok w' -> form_values name w' = form_values name w.
Proof.
  revert i w. induction ts as [|t ts IH]; intros i w; simpl.
  - by intros [= <-].
  - intros Hw. apply IH in Hw. rewrite Hw, form_values_app. simpl. apply app_nil_r.
Qed.

Lemma add_torrent_files_Ok ts i w : exists w', add_torrent_files i ts w = Ok w'.
Proof. revert i w. induction ts as [|t ts IH]; intros i w; simpl; eauto. Qed.
Lemma field_if_false v : field_if false v = [].
Proof. reflexivity. Qed.
Lemma field_if_andb_true c v : field_if (c && true) v = field_if c v.
Proof. by rewrite andb_true_r. Qed.
Lemma field_if_andb_false c v : field_if (c && false) v = [].
Proof. by rewrite andb_false_r. Qed.

Ltac field_case name lit :=
  let E := fresh "E" in
  destruct (String.eqb name lit) eqn:E;
  [ rewrite ?field_if_andb_true, ?field_if_andb_false, ?field_if_false, ?app_nil_r;
    apply String.eqb_eq in E; subst name;
    cbn [String.eqb Ascii.eqb Bool.eqb andb];
    rewrite ?field_if_andb_true, ?field_if_andb_false, ?field_if_false, ?app_nil_r;
    reflexivity
  | rewrite ?field_if_andb_false, ?app_nil_r ].

Lemma form_values_parts (p : TorrentsAddParams.t) (w : multipart_Writer) (name : string) :
  torrent_add_parts p = Ok w -> form_values name w = expected_fields p name.
Proof.
  unfold torrent_add_parts.
  destruct (add_torrent_files 0 (TorrentsAddParams.Torrents p) multipart_NewWriter)
    as [w0|] eqn:E0; simpl; [|discriminate].
  intros [= <-].
  apply (form_values_add_torrent_files name) in E0.
  change (form_values name multipart_NewWriter) with (@nil string) in E0.
  unfold add_other_fields.
  assert (forall w, form_values name
            match TorrentsAddParams.RootFolder p with
            | Some b => multipart_WriteField "root_folder" (fmt_bool b) w
            | None => w
            end
          = form_values name w ++
            (if String.eqb name "root_folder"
             then match TorrentsAddParams.RootFolder p with Some b => [fmt_bool b] | None => [] end
             else [])) as Hroot.
  { intros w. destruct (TorrentsAddParams.RootFolder p).
    - rewrite form_values_WriteField. unfold field_if. done.
    - destruct (String.eqb name "root_folder"); by rewrite app_nil_r. }
  rewrite !form_values_write_if, Hroot, !form_values_write_if, form_values_add_urls, E0.
  unfold expected_fields. cbn [app].
  field_case name "urls". field_case name "savepath". field_case name "cookie".
  field_case name "category". field_case name "tags". field_case name "skip_checking".
  field_case name "paused". field_case name "root_folder". field_case name "rename".
  field_case name "upLimit". field_case name "dlLimit". field_case name "ratioLimit".
  field_case name "seedingTimeLimit". field_case name "autoTMM".
  field_case name "sequentialDownload". field_case name "firstLastPiecePrio".
  reflexivity.
Qed.

Lemma digit_length a : (0 <= a < 10)%Z -> String.length (strconv_Itoa a) = 1%nat.
Proof.
  intros Ha.
  assert (a = 0 \/ a = 1 \/ a = 2 \/ a = 3 \/ a = 4 \/ a = 5 \/ a = 6 \/ a = 7 \/ a = 8 \/ a = 9)%Z
    as Hc by lia.
  repeat (destruct Hc as [->|Hc]; [reflexivity|]). subst. reflexivity.
Qed.

Lemma length_append (a b : string) :
  String.length (a +:+ b) = (String.length a + String.length b)%nat.
Proof.
  induction a as [|x a IH]; [done|].
  change (String x a +:+ b) with (String x (a +:+ b)). cbn [String.length]. by rewrite IH.
Qed.

Lemma two_digits_length n : (0 <= n < 100)%Z -> String.length (two_digits n) = 2%nat.
Proof.
  intros Hn. unfold two_digits.
  rewrite length_append, !digit_length; [done| |].
  - apply Z.mod_pos_bound. lia.
  - split; [apply Z.div_pos; lia|apply Z.div_lt_upper_bound; lia].
Qed.

Lemma torrent_add_parts_fields (p : TorrentsAddParams.t) :
  exists w,
    torrent_add_parts p = Ok w
    /\ (forall name, form_values name w = expected_fields p name)
    /\ (forall m e,
          fmt_2f (S754_finite false m e)
          = strconv_Itoa (scale100_round m e / 100) +:+ "." +:+
            two_digits (scale100_round m e mod 100)
          /\ String.length (two_digits (scale100_round m e mod 100)) = 2%nat).
Proof.
  destruct (add_torrent_files_Ok (TorrentsAddParams.Torrents p) 0 multipart_NewWriter)
    as [w0 Hw0].
  eexists. split; [|split].
  - unfold torrent_add_parts. rewrite Hw0. reflexivity.
  - intros name. apply form_values_parts. unfold torrent_add_parts. by rewrite Hw0.
  - intros m e. split; [reflexivity|].
    apply two_digits_length, Z.mod_pos_bound. lia.
Qed.
Example all_parameters :
  exists w, torrent_add_parts all_set = Ok w
    /\ map (fun n => form_values n w)
         ["savepath"; "category"; "tags"; "skip_checking"; "paused"; "root_folder"; "rename";
          "upLimit"; "dlLimit"; "ratioLimit"; "seedingTimeLimit"; "autoTMM";
          "sequentialDownload"; "firstLastPiecePrio"; "cookie"]
       = [["/downloads"]; ["tv"]; ["hd,x265"]; ["true"]; ["true"]; ["false"];
          ["renamed_torrent"]; ["1048576"]; ["2097152"]; ["2.50"]; ["1440"]; ["true"];
          ["true"]; ["true"]; []].
Proof. eexists. split; vm_compute; reflexivity. Qed.


Lemma delete_form_encoded infohash :
  url_Values_Encode (url_Values_Set "deleteFiles" "true" (url_Values_Set "hashes" infohash ∅))
  = delete_form infohash.
Proof.
  unfold url_Values_Encode, url_Values_Set, delete_form.
  replace (map_to_list (<["deleteFiles":=["true"]]> (<["hashes":=[infohash]]> (∅ : url_Values))))
    with [("deleteFiles", ["true"]); ("hashes", [infohash])] by (by vm_compute).
  vm_compute merge_sort. reflexivity.
Qed.

Lemma append_cancel_l (p a b : string) : p +:+ a = p +:+ b -> a = b.
Proof.
  induction p as [|c p IH]; [by rewrite !append_nil_l|].
  rewrite !append_cons. intros [= E]. by apply IH.
Qed.

Lemma api_url_endpoint base e1 e2 :
  Path (api_url base e1) = Path (api_url base e2) -> e1 = e2.
Proof. apply append_cancel_l. Qed.

Lemma jar_get_set name c jar :
  jar_get name (jar_set c jar) = if String.eqb c.1 name then Some c.2 else jar_get name jar.
Proof.
  induction jar as [|d jar IH]; cbn; [done|].
  destruct (String.eqb_spec d.1 c.1) as [E|E]; cbn.
  - rewrite E. by destruct (String.eqb_spec c.1 name).
  - rewrite IH. destruct (String.eqb_spec d.1 name) as [E'|E']; [|done].
    destruct (String.eqb_spec c.1 name); [congruence|done].
Qed.

Lemma jar_get_SetCookies name cs jar :
  jar_get name (jar_SetCookies cs jar) = cookie_value name cs (jar_get name jar).
Proof.
  unfold jar_SetCookies, cookie_value. revert jar.
  induction cs as [|c cs IH]; intros jar; cbn; [done|].
  by rewrite IH, jar_get_set.
Qed.

Lemma cookie_value_idem name cs held :
  cookie_value name cs (cookie_value name cs held) = cookie_value name cs held.
Proof.
  unfold cookie_value. induction cs as [|c cs IH] using rev_ind; [done|].
  rewrite !fold_left_app. cbn. destruct (String.eqb c.1 name); [done|].
  exact IH.
Qed.

(** Storing the cookies of a response twice is storing them once. *)
Lemma jar_SetCookies_twice name cs jar :
  jar_get name (jar_SetCookies cs (jar_SetCookies cs jar))
  = jar_get name (jar_SetCookies cs jar).
Proof. by rewrite !jar_get_SetCookies, cookie_value_idem. Qed.

Lemma nonempty_true s : nonempty s = true <-> s <> "".
Proof.
  unfold nonempty. destruct (String.eqb_spec s ""); cbn; split; congruence.
Qed.

Lemma nonempty_false s : nonempty s = false <-> s = "".
Proof.
  unfold nonempty. destruct (String.eqb_spec s ""); cbn; split; congruence.
Qed.

Lemma lookup_set_if (cond : bool) (key value k : string) (query : url_Values) :
  set_if cond key value query !! k
  = if (cond && String.eqb key k)%bool then Some [value] else query !! k.
Proof.
  unfold set_if, url_Values_Set. destruct cond; cbn; [|done].
  destruct (String.eqb_spec key k) as [->|Hne].
  - by rewrite lookup_insert_eq.
  - by rewrite lookup_insert_ne.
Qed.

Ltac query_key :=
  cbn; rewrite ?andb_false_r, ?andb_true_r; cbn;
  repeat case_match; simplify_eq; done.

Lemma buildTorrentsInfoQuery_lookup (p : TorrentsInfoParams.t) (key : string) :
  buildTorrentsInfoQuery p !! key = expected_query p key.
Proof.
  unfold buildTorrentsInfoQuery, expected_query. cbv zeta.
  rewrite !lookup_set_if, lookup_empty.
  rewrite !(String.eqb_sym key).
  destruct (String.eqb_spec "filter" key) as [<-|]; [query_key|].
  destruct (String.eqb_spec "category" key) as [<-|]; [query_key|].
  destruct (String.eqb_spec "tag" key) as [<-|]; [query_key|].
  destruct (String.eqb_spec "sort" key) as [<-|]; [query_key|].
  destruct (String.eqb_spec "reverse" key) as [<-|]; [query_key|].
  destruct (String.eqb_spec "limit" key) as [<-|]; [query_key|].
  destruct (String.eqb_spec "offset" key) as [<-|]; [query_key|].
  destruct (String.eqb_spec "hashes" key) as [<-|]; [query_key|].
  by rewrite !andb_false_r.
Qed.

(** ** The tags of a list of torrents *)

Lemma collect_tags_elems (torrents : slice TorrentInfo.t) (tag : string) :
  tag ∈ slice_elems (collect_tags torrents)
  <-> exists t, t ∈ slice_elems torrents /\ tag ∈ slice_elems (TorrentInfo.Tags t).
Proof.
  unfold collect_tags. cbv zeta.
  set (tagSet := list_to_set _ : gset string).
  assert (slice_elems (match elements tagSet with [] => None | l => Some l end)
          = elements tagSet) as -> by (by destruct (elements tagSet)).
  rewrite elem_of_elements. unfold tagSet. rewrite elem_of_list_to_set.
  rewrite list_elem_of_In, in_flat_map. setoid_rewrite <- list_elem_of_In. done.
Qed.

Lemma collect_tags_NoDup (torrents : slice TorrentInfo.t) :
  NoDup (slice_elems (collect_tags torrents)).
Proof.
  unfold collect_tags. cbv zeta.
  set (tagSet := list_to_set _ : gset string).
  assert (slice_elems (match elements tagSet with [] => None | l => Some l end)
          = elements tagSet) as -> by (by destruct (elements tagSet)).
  apply NoDup_elements.
Qed.

Lemma collect_tags_nil (torrents : slice TorrentInfo.t) :
  collect_tags torrents = None
  <-> forall t, t ∈ slice_elems torrents -> slice_elems (TorrentInfo.Tags t) = [].
Proof.
  split.
  - intros Hn t Ht. destruct (slice_elems (TorrentInfo.Tags t)) as [|tag l] eqn:Htags; [done|].
    assert (tag ∈ slice_elems (collect_tags torrents)) as Hin.
    { apply collect_tags_elems. exists t. split; [done|]. rewrite Htags. by left. }
    rewrite Hn in Hin. by apply elem_of_nil in Hin.
  - intros Hall. destruct (collect_tags torrents) as [l|] eqn:Hc; [|done].
    assert (l <> []) as Hne.
    { unfold collect_tags in Hc. cbv zeta in Hc. destruct (elements _); by simplify_eq. }
    destruct l as [|tag l]; [done|].
    assert (tag ∈ slice_elems (collect_tags torrents)) as Hin.
    { rewrite Hc. by left. }
    apply collect_tags_elems in Hin as (t & Ht & Htag).
    rewrite (Hall t Ht) in Htag. by apply elem_of_nil in Htag.
Qed.

(** ** The files of the add form *)

Lemma form_files_app name w1 w2 :
  form_files name (w1 ++ w2) = form_files name w1 ++ form_files name w2.
Proof. unfold form_files. apply omap_app. Qed.

Lemma form_files_write_if name cond f v w :
  form_files name (write_if cond f v w) = form_files name w.
Proof.
  unfold write_if, multipart_WriteField. destruct cond; [|done].
  rewrite form_files_app. cbn. apply app_nil_r.
Qed.

Lemma form_files_add_urls name urls w : form_files name (add_urls urls w) = form_files name w.
Proof.
  unfold add_urls. revert w. induction urls as [|u urls IH]; intros w; cbn [fold_left]; [done|].
  rewrite IH. apply (form_files_write_if name true).
Qed.

Lemma form_files_add_other_fields name p w :
  form_files name (add_other_fields p w) = form_files name w.
Proof.
  unfold add_other_fields. cbv zeta. rewrite !form_files_write_if.
  destruct (TorrentsAddParams.RootFolder p).
  - rewrite (form_files_write_if name true). by rewrite !form_files_write_if.
  - by rewrite !form_files_write_if.
Qed.

Lemma add_torrent_files_parts ts i w :
  add_torrent_files i ts w
  = Ok (w ++ imap (fun j data => FormFile "torrents" (torrent_filename (i + j)) data) ts).
Proof.
  revert i w. induction ts as [|t ts IH]; intros i w; cbn [add_torrent_files imap].
  - by rewrite app_nil_r.
  - unfold multipart_CreateFormFile. rewrite IH, <- app_assoc. cbn [app].
    rewrite Nat.add_0_r. do 3 f_equal. apply imap_ext. intros j d _. cbn.
    by rewrite Nat.add_succ_r.
Qed.

Lemma form_files_imap name i ts :
  form_files name (imap (fun j data => FormFile "torrents" (torrent_filename (i + j)) data) ts)
  = if String.eqb name "torrents"
    then imap (fun j data => (torrent_filename (i + j), data)) ts
    else [].
Proof.
  revert i. induction ts as [|t ts IH]; intros i.
  - cbn. by destruct (String.eqb name "torrents").
  - rewrite !imap_cons.
    rewrite (imap_ext _ (fun j data => FormFile "torrents" (torrent_filename (S i + j)) data))
      by (intros j d _; cbn; by rewrite Nat.add_succ_r).
    rewrite (imap_ext (_ ∘ S) (fun j data => (torrent_filename (S i + j), data)))
      by (intros j d _; cbn; by rewrite Nat.add_succ_r).
    change (form_files name (?x :: ?l)) with (form_files name ([x] ++ l)).
    rewrite form_files_app, IH. unfold form_files at 1. cbn [omap list_omap].
    rewrite (String.eqb_sym "torrents" name).
    by destruct (String.eqb name "torrents").
Qed.

Lemma form_files_torrents (p : TorrentsAddParams.t) (w : multipart_Writer) (name : string) :
  torrent_add_parts p = Ok w ->
  form_files name w
  = if String.eqb name "torrents"
    then imap (fun i data => (torrent_filename i, data)) (TorrentsAddParams.Torrents p)
    else [].
Proof.
  unfold torrent_add_parts. rewrite add_torrent_files_parts. cbn [result_bind].
  intros [= <-]. rewrite form_files_add_other_fields, form_files_add_urls.
  cbn [multipart_NewWriter app]. apply (form_files_imap name 0).
Qed.

(** ** Splitting and joining again *)

Lemma no_comma_app (a b : string) : no_comma (a +:+ b) = no_comma a && no_comma b.
Proof.
  induction a as [|c a IH]; [by rewrite append_nil_l|].
  rewrite append_cons. cbn [no_comma]. by rewrite IH, andb_assoc.
Qed.

Lemma Join_cons (x y : string) (l : list string) :
  strings_Join (x :: y :: l) "," = x +:+ "," +:+ strings_Join (y :: l) ",".
Proof. reflexivity. Qed.

Lemma split_from_shape s :
  forall acc, exists x l, split_from "," 0 acc s = x :: l.
Proof.
  induction s as [|c s IH]; intros acc; [by eexists _, _|].
  rewrite split_from_cons. destruct (Ascii.eqb "," c); [by eexists _, _|apply IH].
Qed.

Lemma Join_split_from s :
  forall acc,
    no_comma (String.rev acc) = true ->
    strings_Join (split_from "," 0 acc s) "," = String.rev acc +:+ s
    /\ forallb no_comma (split_from "," 0 acc s) = true.
Proof.
  induction s as [|c s IH]; intros acc Hacc.
  - cbn [split_from forallb strings_Join String.concat].
    by rewrite append_nil_r, Hacc.
  - rewrite split_from_cons. destruct (Ascii.eqb_spec "," c) as [<-|Hne].
    + destruct (IH EmptyString eq_refl) as [Hj Hn].
      destruct (split_from_shape s EmptyString) as (x & l & Hx).
      rewrite Hx in Hj, Hn |- *. rewrite Join_cons, Hj.
      cbn [forallb] in Hn |- *. rewrite Hacc, Hn. split; [|done].
      change (String.rev "") with "". by rewrite append_nil_l.
    + destruct (IH (String c acc)) as [Hj Hn].
      { rewrite rev_cons, no_comma_app, Hacc. cbn.
        destruct (Ascii.eqb_spec c ","); [congruence|done]. }
      split; [|done]. rewrite Hj, rev_cons, append_assoc'. by rewrite append_cons, append_nil_l.
Qed.

(** [strings.Split] loses nothing: joining the pieces gives the text back,
    and no piece holds a comma. *)
Lemma Join_Split (s : string) :
  strings_Join (strings_Split s ",") "," = s
  /\ forallb no_comma (strings_Split s ",") = true.
Proof.
  destruct (Join_split_from s EmptyString eq_refl) as [Hj Hn]. split; [|done].
  unfold strings_Split. rewrite Hj. change (String.rev "") with "". apply append_nil_l.
Qed.

Lemma TorrentInfo_tags_joined `{JSONSyntax} (data : string) (t r : TorrentInfo.t) :
  TorrentInfo_UnmarshalJSON data t = Decoded r ->
  exists ms raw tags,
    json_parse data = Ok (JObject ms)
    /\ store_string "" (member "tags" ms) = Ok raw
    /\ TorrentInfo.Tags r = Some tags
    /\ strings_Join tags "," = raw
    /\ forallb no_comma tags = true
    /\ (tags = [] <-> raw = "").
Proof.
  unfold TorrentInfo_UnmarshalJSON.
  destruct (json_parse data) as [j|]; [|done].
  unfold TorrentInfo_UnmarshalJSON_value.
  destruct (Unmarshal_TorrentInfo_aux j t) as [[[raw t']|]|] eqn:Eaux; try discriminate.
  destruct j; try discriminate. simpl in Eaux.
  destruct (store_string "" (member "tags" members)) as [raw'|] eqn:Eraw; [|discriminate].
  simpl in Eaux.
  repeat match type of Eaux with
         | result_bind ?x _ = _ => destruct x; simpl in Eaux; [|discriminate]
         end.
  injection Eaux as <- <-.
  intros Hr. exists members, raw'.
  destruct (String.eqb_spec raw' "") as [->|Hne]; injection Hr as <-.
  - exists []. by repeat split.
  - exists (strings_Split raw' ","). destruct (Join_Split raw') as [Hj Hn].
    do 2 (split; [done|]). split; [done|]. split; [done|]. split; [done|].
    split; [|done]. intros Hnil. rewrite Hnil in Hj. by cbn in Hj.
Qed.

Lemma Client_send_request_cookies hc req :
  Cookies (Client_send_request hc req) = Cookies req ++ jar_cookies hc.
Proof.
  unfold Client_send_request, jar_cookies. destruct (Jar hc); cbn; [done|].
  by rewrite app_nil_r.
Qed.

Lemma tags_form_encoded hashes tags :
  url_Values_Encode (url_Values_Set "tags" tags (url_Values_Set "hashes" hashes ∅))
  = "hashes=" +:+ url_QueryEscape hashes +:+ "&tags=" +:+ url_QueryEscape tags.
Proof.
  unfold url_Values_Encode, url_Values_Set.
  replace (map_to_list (<["tags":=[tags]]> (<["hashes":=[hashes]]> (∅ : url_Values))))
    with [("tags", [tags]); ("hashes", [hashes])] by (by vm_compute).
  vm_compute merge_sort. cbn [flat_map encode_key map app fst snd].
  unfold strings_Join. cbn [String.concat url_QueryEscape].
  by rewrite !append_assoc'.
Qed.

Lemma tags_only_form_encoded tags :
  url_Values_Encode (url_Values_Set "tags" tags ∅) = "tags=" +:+ url_QueryEscape tags.
Proof.
  unfold url_Values_Encode, url_Values_Set.
  replace (map_to_list (<["tags":=[tags]]> (∅ : url_Values)))
    with [("tags", [tags])] by (by vm_compute).
  vm_compute merge_sort. reflexivity.
Qed.

Lemma apply_queries_last qs req req' :
  apply_opts (map withQuery qs) req = Ok req' ->
  Method req' = Method req
  /\ RawQuery (URL req') = match last qs with
                           | Some q => url_Values_Encode q
                           | None => RawQuery (URL req)
                           end.
Proof.
  revert req. induction qs as [|q qs IH]; intros req.
  - by intros [= ->].
  - rewrite last_cons. cbn [map apply_opts withQuery result_bind]. intros Hq.
    destruct (IH _ Hq) as [Hm Hr]. split; [done|].
    rewrite Hr. by destruct (last qs).
Qed.

Lemma encode_one key value :
  url_Values_Encode (url_Values_Set key value ∅)
  = url_QueryEscape key +:+ "=" +:+ url_QueryEscape value.
Proof.
  unfold url_Values_Encode, url_Values_Set.
  rewrite insert_empty, map_to_list_singleton. reflexivity.
Qed.

Lemma encode_singleton key value :
  url_Values_Encode {[ key := [value] ]}
  = url_QueryEscape key +:+ "=" +:+ url_QueryEscape value.
Proof. unfold url_Values_Encode. rewrite map_to_list_singleton. reflexivity. Qed.

Lemma login_form_text username password :
  login_form username password
  = key_value "password" password +:+ "&" +:+ key_value "username" username.
Proof.
  unfold login_form, url_Values_Encode, url_Values_Set, key_value.
  replace (map_to_list (<["password":=[password]]> (<["username":=[username]]> (∅ : url_Values))))
    with [("username", [username]); ("password", [password])] by (by vm_compute).
  vm_compute merge_sort. cbn [flat_map encode_key map app fst snd].
  unfold strings_Join. cbn [String.concat url_QueryEscape].
  by rewrite !append_assoc'.
Qed.

Lemma force_start_form_text hash value :
  url_Values_Encode (url_Values_Set "value" (fmt_bool value) (url_Values_Set "hashes" hash ∅))
  = key_value "hashes" hash +:+ "&value=" +:+ fmt_bool value.
Proof.
  unfold url_Values_Encode, url_Values_Set, key_value.
  replace (map_to_list (<["value":=[fmt_bool value]]> (<["hashes":=[hash]]> (∅ : url_Values))))
    with [("value", [fmt_bool value]); ("hashes", [hash])] by (by vm_compute).
  destruct value; vm_compute merge_sort; cbn [flat_map encode_key map app fst snd];
    unfold strings_Join; cbn [String.concat url_QueryEscape];
    by rewrite !append_assoc'.
Qed.

Lemma peers_query_text hash rid :
  url_Values_Encode (url_Values_Set "hash" hash (url_Values_Set "rid" rid ∅))
  = key_value "hash" hash +:+ "&" +:+ key_value "rid" rid.
Proof.
  unfold url_Values_Encode, url_Values_Set, key_value.
  replace (map_to_list (<["hash":=[hash]]> (<["rid":=[rid]]> (∅ : url_Values))))
    with [("rid", [rid]); ("hash", [hash])] by (by vm_compute).
  vm_compute merge_sort. cbn [flat_map encode_key map app fst snd].
  unfold strings_Join. cbn [String.concat url_QueryEscape].
  by rewrite !append_assoc'.
Qed.

Lemma tags_query_text hashes :
  url_Values_Encode (buildTorrentsInfoQuery (TorrentsInfoParams.mk "" "" "" "" false 0 0 [hashes]))
  = key_value "hashes" hashes.
Proof.
  change (buildTorrentsInfoQuery _) with (url_Values_Set "hashes" (strings_Join [hashes] "|") ∅).
  by rewrite encode_one.
Qed.

Lemma encode_empty : url_Values_Encode ∅ = "".
Proof. reflexivity. Qed.

Lemma length_nonempty (s : string) : s <> "" -> (String.length s =? 0)%nat = false.
Proof. by destruct s. Qed.

(** * Running *)

Section Bind.
Context {S A B : Type}.
Lemma bind_Returns (m : M S A) (k : A -> M S B) s a s' :
  m s = Returns a s' -> bind m k s = k a s'.
Proof. unfold bind. by intros ->. Qed.
Lemma bind_Panics (m : M S A) (k : A -> M S B) s msg s' :
  m s = Panics msg s' -> bind m k s = Panics msg s'.
Proof. unfold bind. by intros ->. Qed.
Lemma bind_OutOfFuel (m : M S A) (k : A -> M S B) s s' :
  m s = OutOfFuel s' -> bind m k s = OutOfFuel s'.
Proof. unfold bind. by intros ->. Qed.
Lemma bind_ends (m : M S A) (k : A -> M S B) s : ends (bind m k s) -> ends (m s).
Proof. unfold bind. by destruct (m s). Qed.
Lemma bind_ext (m m' : M S A) (k k' : A -> M S B) s :
  m s = m' s -> (forall a s', m s = Returns a s' -> k a s' = k' a s') ->
  bind m k s = bind m' k' s.
Proof. unfold bind. intros <- Hk. destruct (m s); auto. Qed.
End Bind.

Lemma agree_refl {S A} (m : M S A) : agree m m.
Proof. by intros s _. Qed.

Lemma agree_bind {S A B} (m m' : M S A) (k k' : A -> M S B) :
  agree m m' -> (forall a, agree (k a) (k' a)) -> agree (bind m k) (bind m' k').
Proof.
  intros Hm Hk s Hends. unfold bind in *.
  rewrite Hm by (by destruct (m' s)).
  destruct (m' s); try done. by apply Hk.
Qed.

Ltac agree_step IH :=
  first
    [ apply agree_refl
    | apply IH
    | apply agree_bind; [|intros ?]
    | match goal with
      | |- agree (match ?x with _ => _ end) _ => destruct x
      | |- agree (if ?b then _ else _) _ => destruct b
      end ].


Lemma wp_ret {S A} (a : A) (Q : A -> S -> Prop) I s : Q a s -> wp (ret a) Q I s.
Proof. done. Qed.

Lemma wp_bind {S A B} (m : M S A) (k : A -> M S B) Q I s :
  wp m (fun a s' => wp (k a) Q I s') I s -> wp (bind m k) Q I s.
Proof. unfold wp, bind. by destruct (m s). Qed.

Lemma wp_mono {S A} (m : M S A) (Q Q' : A -> S -> Prop) (I I' : S -> Prop) s :
  wp m Q I s -> (forall a s', Q a s' -> Q' a s') -> (forall s', I s' -> I' s') ->
  wp m Q' I' s.
Proof. unfold wp. destruct (m s); auto. Qed.

Lemma wp_final {S A} (m : M S A) (R : S -> Prop) s :
  wp m (fun _ s' => R s') R s <-> R (final_state (m s)).
Proof. unfold wp. by destruct (m s). Qed.

(** * The client with contexts *)

Module CtxProofs.
Import CtxClient CtxSpec.
Section S.
Context `{RoundTripper}.


Lemma fuel_step fuel :
  forall ctx method endpoint body ct opts,
    agree (doRequestCtx (S fuel) ctx method endpoint body ct opts)
          (doRequestCtx fuel ctx method endpoint body ct opts).
Proof.
  induction fuel as [|fuel IH]; intros ctx method endpoint body ct opts; [by intros s|].
  change (doRequestCtx (S (S fuel))) with (fun ctx => doRequestCtx (S (S fuel)) ctx).
  cbn beta.
  unfold doRequestCtx at 1; fold doRequestCtx.
  unfold doRequestCtx at 2; fold doRequestCtx.
  cbv zeta. unfold AuthLoginCtx_body.
  repeat agree_step IH.
Qed.

Lemma fuel_mono fuel more ctx method endpoint body ct opts s :
  ends (doRequestCtx fuel ctx method endpoint body ct opts s) ->
  doRequestCtx (more + fuel) ctx method endpoint body ct opts s
  = doRequestCtx fuel ctx method endpoint body ct opts s.
Proof.
  intros Hends. induction more as [|more IH]; [done|].
  cbn [Nat.add]. rewrite fuel_step; [done|]. by rewrite IH.
Qed.

Lemma doRequestCtx_0 ctx method endpoint body ct opts s :
  doRequestCtx 0 ctx method endpoint body ct opts s = OutOfFuel s.
Proof. reflexivity. Qed.

Lemma doRequestCtx_S fuel ctx method endpoint body ct opts :
  doRequestCtx (S fuel) ctx method endpoint body ct opts
  = (c <- get_self;;
     match url_Parse (baseURL c) with
     | Err err => ret (Err ("failed to parse base URL: " +:+ err))
     | Ok base =>
         rb <- read_body body;;
         match rb with
         | Err err => ret (Err err)
         | Ok bodyBuffer =>
             attempt fuel ctx method (api_url base endpoint) bodyBuffer ct opts
         end
     end).
Proof. reflexivity. Qed.

Lemma AuthLoginCtx_unfold fuel ctx :
  AuthLoginCtx fuel ctx
  = (c <- get_self;;
     body <- new_reader (login_form (username c) (password c));;
     r <- doRequestCtx fuel ctx "POST" login_endpoint (Some body) form_urlencoded [];;
     match r with
     | Err err => ret (Err (wrapAPIError "AuthLogin" err))
     | Ok resp =>
         if negb (StatusCode resp =? http_StatusOK)%Z then
           ret (Err ("AuthLogin error (" +:+ strconv_Itoa (StatusCode resp) +:+ "): "
                     +:+ (Response_ReadAll resp).1))
         else ret (Ok tt)
     end).
Proof. reflexivity. Qed.

Lemma makeRequest_build ctx method apiURL bodyBuffer ct opts (s : State Client) :
  makeRequest ctx method apiURL bodyBuffer ct opts s
  = Returns (build ctx method apiURL bodyBuffer ct opts) s.
Proof.
  unfold makeRequest, build.
  by destruct (http_NewRequestWithContext ctx method apiURL bodyBuffer).
Qed.

Lemma Do_unfold req (s : State Client) :
  Do req s = Returns (Do_result req s) (Do_state req s).
Proof.
  unfold Do, Do_state, Do_result, http_Client_Do.
  by destruct (RoundTrip (Client_send_request (client (self s)) req) (world (net s))).
Qed.


Lemma sent_for_config c c' ctx method endpoint bodyBuffer ct opts req :
  baseURL c = baseURL c' ->
  sent_for c ctx method endpoint bodyBuffer ct opts req ->
  sent_for c' ctx method endpoint bodyBuffer ct opts req.
Proof. unfold sent_for. by intros <-. Qed.

Lemma login_sent_config c c' ctx req :
  username c = username c' -> password c = password c' -> baseURL c = baseURL c' ->
  login_sent c ctx req -> login_sent c' ctx req.
Proof. unfold login_sent. intros <- <- Hb. by apply sent_for_config. Qed.

Lemma inv_refl ctx method endpoint body ct opts s0 :
  doRequest_inv ctx method endpoint body ct opts s0 s0.
Proof.
  split; try done.
  - exists []. by rewrite app_nil_r.
  - auto.
Qed.

Lemma inv_Do ctx method endpoint body ct opts base req s0 s1 :
  url_Parse (baseURL (self s0)) = Ok base ->
  build ctx method (api_url base endpoint)
        (body ≫= fun a => pending <$> readers s0 !! a) ct opts = Ok req ->
  doRequest_inv ctx method endpoint body ct opts s0 s1 ->
  ready body s0 s1 ->
  doRequest_inv ctx method endpoint body ct opts s0 (Do_state req s1)
  /\ ready body s0 (Do_state req s1).
Proof.
  intros Hbase Hreq [Hcfg (new & Hsent & Hall & Hnew) Hlen Hoth Hbody] Hready.
  split; [split|]; try done.
  exists (new ++ [(world (net s1), Client_send_request (client (self s1)) req)]).
  simpl. rewrite Hsent, <- app_assoc. split; [done|]. split.
  - apply Forall_app. split; [done|]. apply Forall_singleton. left.
    by exists base, (client (self s1)), req.
  - intros _. apply Hready.
Qed.

Lemma inv_login ctx method endpoint body ct opts s0 s2 s4 :
  doRequest_inv ctx method endpoint body ct opts s0 s2 ->
  ready body s0 s2 ->
  doRequest_inv ctx "POST" login_endpoint (Some (length (readers s2))) form_urlencoded []
    (mkState (self s2)
       (readers s2 ++ [strings_NewReader (login_form (username (self s2))
                                                     (password (self s2)))])
       (net s2)) s4 ->
  doRequest_inv ctx method endpoint body ct opts s0 s4 /\ ready body s0 s4.
Proof.
  intros [Hcfg (new & Hsent & Hall & Hnew) Hlen Hoth Hbody] Hready
         [Hcfg' (new' & Hsent' & Hall' & Hnew') Hlen' Hoth' Hbody'].
  destruct Hcfg as (Hu & Hp & Hb). destruct Hcfg' as (Hu' & Hp' & Hb'). simpl in *.
  assert (forall i, i < length (readers s2) ->
                    readers s4 !! i = readers s2 !! i) as Hkeep.
  { intros i Hi. rewrite Hoth'.
    - by apply lookup_app_l.
    - rewrite length_app. lia.
    - intros [= E]. lia. }
  assert (ready body s0 s4) as Hready4.
  { intros a rd Ha Hrd. destruct (Hready a rd Ha Hrd) as [Hf Hd]. split; [done|].
    rewrite Hkeep; [done|]. by apply lookup_lt_Some in Hd. }
  split; [split|done].
  - repeat split; congruence.
  - exists (new ++ new'). rewrite Hsent', Hsent, <- app_assoc. split; [done|]. split.
    + apply Forall_app. split; [done|].
      eapply Forall_impl; [exact Hall'|]. intros e He. right.
      assert (login_sent (self s2) ctx e.2) as Hl.
      { destruct He as [He|He]; [|done]. unfold login_sent.
        cbn [mbind option_bind] in He.
        rewrite lookup_app_r, Nat.sub_diag in He by done. exact He. }
      eapply login_sent_config; [..|exact Hl]; done.
    + intros _. apply Hready4.
  - rewrite length_app in Hlen'. simpl in Hlen'. lia.
  - intros i Hi Hne. rewrite Hkeep by lia. by apply Hoth.
  - intros a rd Ha Hrd. right. by apply Hready4.
Qed.

Lemma inv_read ctx method endpoint a ct opts rd s0 :
  readers s0 !! a = Some rd ->
  doRequest_inv ctx method endpoint (Some a) ct opts s0
    (mkState (self s0) (<[a := Reader_drained rd]> (readers s0)) (net s0)).
Proof.
  intros Ha. pose proof (lookup_lt_Some _ _ _ Ha) as Hlt.
  split; simpl; try done.
  - exists []. by rewrite app_nil_r.
  - by rewrite length_insert.
  - intros i _ Hne. apply list_lookup_insert_ne. intros E. apply Hne. by rewrite E.
  - intros a' rd' [= <-] Hrd'. right.
    rewrite list_lookup_insert_eq by done. congruence.
Qed.

Lemma attempt_inv fuel ctx method endpoint body ct opts base s0 s1 :
  (forall ctx method endpoint body ct opts s0,
      doRequest_inv ctx method endpoint body ct opts s0
        (final_state (doRequestCtx fuel ctx method endpoint body ct opts s0))) ->
  url_Parse (baseURL (self s0)) = Ok base ->
  doRequest_inv ctx method endpoint body ct opts s0 s1 ->
  ready body s0 s1 ->
  doRequest_inv ctx method endpoint body ct opts s0
    (final_state (attempt fuel ctx method (api_url base endpoint)
                    (body ≫= fun a => pending <$> readers s0 !! a) ct opts s1)).
Proof.
  intros IH Hbase Hinv1 Hready1. unfold attempt.
  unfold bind at 1. rewrite makeRequest_build.
  destruct (build ctx method (api_url base endpoint) _ ct opts) as [req|] eqn:Hreq;
    [|exact Hinv1].
  unfold bind at 1. rewrite Do_unfold.
  destruct (inv_Do _ _ _ _ _ _ _ _ _ _ Hbase Hreq Hinv1 Hready1) as [Hinv2 Hready2].
  destruct (Do_result req s1) as [resp|]; [|exact Hinv2].
  destruct (StatusCode resp =? http_StatusForbidden)%Z; [|exact Hinv2].
  unfold bind at 1. rewrite AuthLoginCtx_unfold.
  unfold bind at 1, get_self. unfold bind at 1, new_reader. unfold bind at 1.
  match goal with
  | |- context [doRequestCtx fuel ctx "POST" login_endpoint ?b form_urlencoded [] ?s3] =>
      pose proof (IH ctx "POST" login_endpoint b form_urlencoded [] s3) as Hin;
      destruct (doRequestCtx fuel ctx "POST" login_endpoint b form_urlencoded [] s3)
        as [r s4|msg s4|s4]
  end; cbn [final_state] in Hin;
    destruct (inv_login _ _ _ _ _ _ _ _ _ Hinv2 Hready2 Hin) as [Hinv4 Hready4];
    try exact Hinv4.
  destruct r as [resp'|err]; [|exact Hinv4].
  destruct (negb (StatusCode resp' =? http_StatusOK)%Z); [exact Hinv4|].
  cbn [ret]. unfold bind at 1. rewrite makeRequest_build, Hreq, Do_unfold.
  by destruct (inv_Do _ _ _ _ _ _ _ _ _ _ Hbase Hreq Hinv4 Hready4).
Qed.

Lemma doRequestCtx_inv fuel :
  forall ctx method endpoint body ct opts s0,
    doRequest_inv ctx method endpoint body ct opts s0
      (final_state (doRequestCtx fuel ctx method endpoint body ct opts s0)).
Proof.
  induction fuel as [|fuel IH]; intros ctx method endpoint body ct opts s0.
  { apply inv_refl. }
  rewrite doRequestCtx_S. unfold bind at 1, get_self.
  destruct (url_Parse (baseURL (self s0))) as [base|] eqn:Hbase; [|apply inv_refl].
  unfold bind at 1. destruct body as [a|]; unfold read_body.
  - unfold bind at 1, read_all.
    destruct (readers s0 !! a) as [rd|] eqn:Ha; [|apply inv_refl].
    unfold io_ReadAll. pose proof (inv_read ctx method endpoint a ct opts rd s0 Ha) as Hinv1.
    destruct (failure rd) eqn:Hf; cbn [ret]; [exact Hinv1|].
    replace (Some (pending rd)) with (Some a ≫= fun a => pending <$> readers s0 !! a)
      by (cbn; by rewrite Ha).
    apply attempt_inv; [exact IH|done|done|].
    intros a' rd' [= <-] Hrd'. assert (rd' = rd) as -> by congruence. split; [done|].
    simpl. apply list_lookup_insert_eq. by apply lookup_lt_Some in Ha.
  - cbn [ret]. change (@None string) with (@None addr ≫= fun a => pending <$> readers s0 !! a).
    apply attempt_inv; [exact IH|done|apply inv_refl|by intros a rd].
Qed.

Lemma build_login ctx base u p :
  build ctx "POST" (api_url base login_endpoint) (Some (login_form u p)) form_urlencoded []
  = Ok (mkRequest ctx "POST" (api_url base login_endpoint) form_urlencoded []
          (Some (login_form u p))).
Proof. reflexivity. Qed.

Lemma send_Path hc req : URL (Client_send_request hc req) = URL req.
Proof. unfold Client_send_request. by destruct (Jar hc). Qed.

Lemma login_step fuel ctx base (s : State Client) :
  url_Parse (baseURL (self s)) = Ok base ->
  login_never_forbidden (self s) ->
  AuthLoginCtx (S fuel) ctx s
  = Returns (login_result (Do_result (login_request ctx base (self s)) (login_state s)))
            (Do_state (login_request ctx base (self s)) (login_state s)).
Proof.
  intros Hbase HNF. rewrite AuthLoginCtx_unfold.
  unfold bind at 1, get_self. unfold bind at 1, new_reader. unfold bind at 1.
  rewrite doRequestCtx_S. unfold bind at 1, get_self. cbn [self]. rewrite Hbase.
  unfold bind at 1, read_body. unfold bind at 1, read_all. cbn [readers].
  rewrite lookup_app_r, Nat.sub_diag by done. cbn [lookup list_lookup io_ReadAll failure strings_NewReader pending ret].
  unfold attempt. unfold bind at 1. rewrite makeRequest_build, build_login.
  unfold bind at 1. rewrite Do_unfold.
  cbn [self net].
  replace (<[length (readers s):=_]> _) with (readers (login_state s)).
  2:{ unfold login_state. cbn [readers]. 
      by rewrite insert_app_r_alt, Nat.sub_diag by done. }
  change (mkState (self s) (readers (login_state s)) (net s)) with (login_state s).
  fold (login_request ctx base (self s)).
  destruct (Do_result (login_request ctx base (self s)) (login_state s)) as [resp|err] eqn:Hr;
    [|reflexivity].
  assert (StatusCode resp <> http_StatusForbidden) as Hnf.
  { eapply HNF; [exact Hbase| |exact Hr]. by rewrite send_Path. }
  destruct (Z.eqb_spec (StatusCode resp) http_StatusForbidden); [done|].
  cbn [ret login_result Response_ReadAll fst].
  by destruct (negb (StatusCode resp =? http_StatusOK)%Z).
Qed.

Lemma new_requests_app {C} (s0 s : State C) new :
  sent (net s) = sent (net s0) ++ new -> new_requests s0 s = new.
Proof. unfold new_requests. intros ->. apply drop_app_length. Qed.

Lemma same_attempt_send hc hc' req :
  same_attempt (Client_send_request hc req) (Client_send_request hc' req).
Proof. unfold Client_send_request. by destruct (Jar hc), (Jar hc'). Qed.

Lemma login_never_forbidden_config c c' :
  baseURL c = baseURL c' -> login_never_forbidden c -> login_never_forbidden c'.
Proof. unfold login_never_forbidden. by intros <-. Qed.

Lemma retry_once_ctx fuel ctx method endpoint body ct opts (s0 : State Client) :
  login_never_forbidden (self s0) ->
  (forall a, body = Some a -> is_Some (readers s0 !! a)) ->
  exists r s',
    doRequestCtx (S (S fuel)) ctx method endpoint body ct opts s0 = Returns r s'
    /\ match new_requests s0 s' with
       | [] => is_Err r = true
       | [e1] => r = answer e1 /\ ~ answered e1 http_StatusForbidden
       | [e1; e2] =>
           answered e1 http_StatusForbidden
           /\ login_sent (self s0) ctx e2.2
           /\ ~ answered e2 http_StatusOK
           /\ exists err, r = Err ("re-authentication failed: " +:+ err)
       | [e1; e2; e3] =>
           answered e1 http_StatusForbidden
           /\ login_sent (self s0) ctx e2.2
           /\ answered e2 http_StatusOK
           /\ same_attempt e1.2 e3.2
           /\ r = answer e3
       | _ => False
       end.
Proof.
  intros HNF Hvalid. rewrite doRequestCtx_S. unfold bind at 1, get_self.
  destruct (url_Parse (baseURL (self s0))) as [base|] eqn:Hbase.
  2:{ eexists _, _. split; [reflexivity|].
      rewrite (new_requests_app _ _ []) by (by rewrite app_nil_r). done. }
  unfold bind at 1.
  assert (exists rb s1, read_body body s0 = Returns rb s1
                        /\ self s1 = self s0 /\ net s1 = net s0) as (rb & s1 & -> & Hself & Hnet).
  { unfold read_body. destruct body as [a|]; [|by eexists _, _].
    destruct (Hvalid a eq_refl) as [rd Hrd].
    unfold bind, read_all. rewrite Hrd. unfold io_ReadAll. by eexists _, _. }
  destruct rb as [bodyBuffer|err].
  2:{ eexists _, _. split; [reflexivity|].
      rewrite (new_requests_app _ _ []) by (by rewrite app_nil_r, ?Hnet). done. }
  unfold attempt. unfold bind at 1. rewrite makeRequest_build.
  destruct (build ctx method (api_url base endpoint) bodyBuffer ct opts) as [req|err] eqn:Hreq.
  2:{ eexists _, _. split; [reflexivity|].
      rewrite (new_requests_app _ _ []) by (by rewrite app_nil_r, ?Hnet). done. }
  unfold bind at 1. rewrite Do_unfold.
  set (e1 := (world (net s1), Client_send_request (client (self s1)) req)).
  assert (sent (net (Do_state req s1)) = sent (net s0) ++ [e1]) as Hsent2.
  { cbn. unfold e1. by rewrite Hnet. }
  change (Do_result req s1) with (answer e1).
  destruct (answer e1) as [resp|err] eqn:Hr1.
  2:{ eexists _, _. split; [reflexivity|]. rewrite (new_requests_app _ _ [e1]) by done.
      split; [by rewrite Hr1|]. intros (resp & Hresp & _). congruence. }
  destruct (Z.eqb_spec (StatusCode resp) http_StatusForbidden) as [H403|Hne].
  2:{ eexists _, _. split; [reflexivity|]. rewrite (new_requests_app _ _ [e1]) by done.
      split; [by rewrite Hr1|]. intros (resp' & Hresp & H403). congruence. }
  assert (answered e1 http_StatusForbidden) as Ha1 by (by exists resp).
  unfold bind at 1.
  set (s2 := Do_state req s1).
  assert (baseURL (self s2) = baseURL (self s0)) as Hb2 by (cbn; by rewrite Hself).
  rewrite (login_step fuel ctx base s2);
    [|by rewrite Hb2|by eapply login_never_forbidden_config; [symmetry; exact Hb2|]].
  set (lreq := login_request ctx base (self s2)).
  set (e2 := (world (net (login_state s2)),
              Client_send_request (client (self (login_state s2))) lreq)).
  assert (sent (net (Do_state lreq (login_state s2))) = sent (net s0) ++ [e1; e2]) as Hsent3.
  { cbn. cbn in Hsent2. rewrite Hsent2, <- app_assoc. done. }
  assert (login_sent (self s0) ctx e2.2) as Hl2.
  { exists base, (client (self (login_state s2))), lreq. split; [done|]. split; [|done].
    unfold lreq, login_request. cbn. by rewrite Hself. }
  change (Do_result lreq (login_state s2)) with (answer e2).
  destruct (answer e2) as [resp2|err2] eqn:Hr2.
  2:{ eexists _, _. split; [reflexivity|]. rewrite (new_requests_app _ _ [e1; e2]) by done.
      split; [done|]. split; [done|]. split; [|by eexists].
      intros (resp' & Hresp & _). congruence. }
  cbn [login_result].
  destruct (Z.eqb_spec (StatusCode resp2) http_StatusOK) as [H200|Hne2]; cbn [negb].
  2:{ eexists _, _. split; [reflexivity|]. rewrite (new_requests_app _ _ [e1; e2]) by done.
      split; [done|]. split; [done|]. split; [|by eexists].
      intros (resp' & Hresp & H200). congruence. }
  unfold bind at 1. rewrite makeRequest_build, Hreq, Do_unfold.
  set (s4 := Do_state lreq (login_state s2)).
  set (e3 := (world (net s4), Client_send_request (client (self s4)) req)).
  eexists _, _. split; [reflexivity|].
  rewrite (new_requests_app _ _ [e1; e2; e3]).
  2:{ cbn. cbn in Hsent3. rewrite Hsent3, <- app_assoc. done. }
  split; [done|]. split; [done|]. split; [by exists resp2|]. split; [|done].
  apply same_attempt_send.
Qed.

Lemma keeps_ctx_nil : keeps_ctx [].
Proof. intros req req' [= <-]. done. Qed.

Lemma keeps_ctx_withQuery q : keeps_ctx [withQuery q].
Proof. intros req req' [= <-]. done. Qed.

Lemma build_ctx ctx method apiURL bodyBuffer ct opts req :
  keeps_ctx opts -> build ctx method apiURL bodyBuffer ct opts = Ok req -> ReqCtx req = ctx.
Proof.
  intros Hk. unfold build, http_NewRequestWithContext.
  destruct (all_token _); [|done]. intros Hb. apply Hk in Hb. rewrite Hb.
  by destruct (nonempty ct).
Qed.

Lemma send_ctx hc req : ReqCtx (Client_send_request hc req) = ReqCtx req.
Proof. unfold Client_send_request. by destruct (Jar hc). Qed.

Lemma Do_Ok_not_done ctx req (s : State Client) resp :
  honours_cancellation -> ReqCtx req = ctx -> Do_result req s = Ok resp ->
  Context_done (world (net s)) ctx = false.
Proof.
  intros Hh <- Hr. destruct (Context_done _ _) eqn:Hd; [|done].
  specialize (Hh (Client_send_request (client (self s)) req) (world (net s))).
  rewrite send_ctx in Hh. specialize (Hh Hd). unfold Do_result in Hr. by rewrite Hr in Hh.
Qed.

Lemma clean_refl {C} ctx (s : State C) : clean ctx s s.
Proof. exists []. by rewrite app_nil_r. Qed.

Lemma clean_Do ctx req (s0 s : State Client) :
  clean ctx s0 s -> Context_done (world (net s)) ctx = false ->
  clean ctx s0 (Do_state req s).
Proof.
  intros (new & Hs & Hall) Hd. eexists. cbn. rewrite Hs, <- app_assoc. split; [done|].
  apply Forall_app. split; [done|]. by apply Forall_singleton.
Qed.

Lemma clean_trans {C} ctx (s0 s1 s2 : State C) :
  clean ctx s0 s1 -> clean ctx s1 s2 -> clean ctx s0 s2.
Proof.
  intros (n1 & H1 & A1) (n2 & H2 & A2). exists (n1 ++ n2).
  rewrite H2, H1, <- app_assoc. split; [done|]. by apply Forall_app.
Qed.

Lemma read_body_net body (s0 : State Client) rb s1 :
  read_body body s0 = Returns rb s1 -> self s1 = self s0 /\ net s1 = net s0.
Proof.
  unfold read_body. destruct body as [a|]; [|by intros [= <- <-]].
  unfold bind, read_all. destruct (readers s0 !! a); [|done].
  unfold io_ReadAll. cbn. by intros [= <- <-].
Qed.

Lemma doRequestCtx_clean fuel :
  honours_cancellation ->
  forall ctx method endpoint body ct opts (s0 : State Client) resp s',
    keeps_ctx opts ->
    doRequestCtx fuel ctx method endpoint body ct opts s0 = Returns (Ok resp) s' ->
    clean ctx s0 s'.
Proof.
  intros Hh. induction fuel as [|fuel IH];
    intros ctx method endpoint body ct opts s0 resp s' Hk Hrun; [done|].
  rewrite doRequestCtx_S in Hrun. unfold bind at 1, get_self in Hrun.
  destruct (url_Parse (baseURL (self s0))) as [base|]; [|done].
  unfold bind at 1 in Hrun.
  destruct (read_body body s0) as [rb s1| |] eqn:Hrb; try done.
  apply read_body_net in Hrb as [Hself Hnet].
  destruct rb as [bodyBuffer|]; [|done].
  unfold attempt in Hrun. unfold bind at 1 in Hrun. rewrite makeRequest_build in Hrun.
  destruct (build ctx method (api_url base endpoint) bodyBuffer ct opts) as [req|] eqn:Hreq;
    [|done].
  pose proof (build_ctx _ _ _ _ _ _ _ Hk Hreq) as Hctx.
  unfold bind at 1 in Hrun. rewrite Do_unfold in Hrun.
  destruct (Do_result req s1) as [resp1|] eqn:Hr1; [|done].
  assert (clean ctx s0 (Do_state req s1)) as Hc2.
  { apply clean_Do; [|by eapply Do_Ok_not_done].
    exists []. by rewrite app_nil_r, Hnet. }
  destruct (StatusCode resp1 =? http_StatusForbidden)%Z.
  2:{ by injection Hrun as <- <-. }
  unfold bind at 1 in Hrun. rewrite AuthLoginCtx_unfold in Hrun.
  unfold bind at 1, get_self in Hrun. unfold bind at 1, new_reader in Hrun.
  unfold bind at 1 in Hrun.
  match type of Hrun with
  | context [doRequestCtx fuel ctx "POST" login_endpoint ?b form_urlencoded [] ?s3] =>
      destruct (doRequestCtx fuel ctx "POST" login_endpoint b form_urlencoded [] s3)
        as [[resp'|] s4| |] eqn:Hlogin; try done
  end.
  apply IH in Hlogin; [|apply keeps_ctx_nil].
  destruct (negb (StatusCode resp' =? http_StatusOK)%Z); [done|].
  cbn [ret] in Hrun. unfold bind at 1 in Hrun. rewrite makeRequest_build, Hreq in Hrun.
  rewrite Do_unfold in Hrun. injection Hrun as Hres <-.
  assert (clean ctx s0 s4) as Hc4.
  { eapply clean_trans; [exact Hc2|]. destruct Hlogin as (new & Hs & Hall). by exists new. }
  apply clean_Do; [done|]. by eapply Do_Ok_not_done.
Qed.

Lemma doRequestCtx_cancelled fuel ctx method endpoint body ct opts (s0 : State Client) :
  honours_cancellation -> keeps_ctx opts ->
  (forall a, body = Some a -> is_Some (readers s0 !! a)) ->
  Context_done (world (net s0)) ctx = true ->
  exists err s', doRequestCtx (S fuel) ctx method endpoint body ct opts s0
                 = Returns (Err err) s'.
Proof.
  intros Hh Hk Hvalid Hdone. rewrite doRequestCtx_S. unfold bind at 1, get_self.
  destruct (url_Parse (baseURL (self s0))) as [base|]; [|by eexists _, _].
  unfold bind at 1.
  assert (exists rb s1, read_body body s0 = Returns rb s1) as (rb & s1 & Hrb).
  { unfold read_body. destruct body as [a|]; [|by eexists _, _].
    destruct (Hvalid a eq_refl) as [rd Hrd].
    unfold bind, read_all. rewrite Hrd. unfold io_ReadAll. by eexists _, _. }
  rewrite Hrb. apply read_body_net in Hrb as [Hself Hnet].
  destruct rb as [bodyBuffer|]; [|by eexists _, _].
  unfold attempt. unfold bind at 1. rewrite makeRequest_build.
  destruct (build ctx method (api_url base endpoint) bodyBuffer ct opts) as [req|] eqn:Hreq;
    [|by eexists _, _].
  unfold bind at 1. rewrite Do_unfold.
  destruct (Do_result req s1) as [resp1|] eqn:Hr1; [|by eexists _, _].
  eapply Do_Ok_not_done in Hr1; [|done|by eapply build_ctx]. rewrite Hnet in Hr1. congruence.
Qed.

Lemma AuthLoginCtx_grows fuel ctx (s : State Client) :
  exists new, sent (net (final_state (AuthLoginCtx fuel ctx s))) = sent (net s) ++ new.
Proof.
  rewrite AuthLoginCtx_unfold.
  unfold bind at 1, get_self. unfold bind at 1, new_reader. unfold bind at 1.
  match goal with
  | |- context [doRequestCtx fuel ctx "POST" login_endpoint ?b form_urlencoded [] ?s3] =>
      destruct (doRequestCtx_inv fuel ctx "POST" login_endpoint b form_urlencoded [] s3)
        as [_ (new & Hsent & _) _ _ _];
      destruct (doRequestCtx fuel ctx "POST" login_endpoint b form_urlencoded [] s3)
        as [[resp|err] s4|msg s4|s4]
  end; cbn [final_state] in Hsent; cbn [net] in Hsent;
    try destruct (negb (StatusCode resp =? http_StatusOK)%Z); by exists new.
Qed.

Lemma attempt_first fuel ctx method apiURL bodyBuffer ct opts req (s1 : State Client) :
  build ctx method apiURL bodyBuffer ct opts = Ok req ->
  exists rest,
    sent (net (final_state (attempt fuel ctx method apiURL bodyBuffer ct opts s1)))
    = sent (net s1) ++ (world (net s1), Client_send_request (client (self s1)) req) :: rest.
Proof.
  intros Hreq. unfold attempt. unfold bind at 1. rewrite makeRequest_build, Hreq.
  unfold bind at 1. rewrite Do_unfold.
  set (e1 := (world (net s1), Client_send_request (client (self s1)) req)).
  set (s2 := Do_state req s1).
  assert (sent (net s2) = sent (net s1) ++ [e1]) as Hs2 by done.
  destruct (Do_result req s1) as [resp|err]; [|by exists []].
  destruct (StatusCode resp =? http_StatusForbidden)%Z; [|by exists []].
  unfold bind at 1.
  destruct (AuthLoginCtx_grows fuel ctx s2) as [new Hnew].
  destruct (AuthLoginCtx fuel ctx s2) as [[[]|err] s4|msg s4|s4]; cbn [final_state] in Hnew;
    try (exists new; cbn [final_state ret]; by rewrite Hnew, Hs2, <- app_assoc).
  unfold bind at 1. rewrite makeRequest_build, Hreq, Do_unfold. cbn [final_state].
  exists (new ++ [(world (net s4), Client_send_request (client (self s4)) req)]).
  cbn. rewrite Hnew, Hs2, <- !app_assoc. done.
Qed.

Lemma doRequestCtx_first fuel ctx method endpoint body ct opts (s0 : State Client) base req :
  url_Parse (baseURL (self s0)) = Ok base ->
  (forall a, body = Some a -> exists rd, readers s0 !! a = Some rd /\ failure rd = None) ->
  build ctx method (api_url base endpoint)
        (body ≫= fun a => pending <$> readers s0 !! a) ct opts = Ok req ->
  exists rest,
    new_requests s0 (final_state (doRequestCtx (S fuel) ctx method endpoint body ct opts s0))
    = (world (net s0), Client_send_request (client (self s0)) req) :: rest.
Proof.
  intros Hbase Hbody Hreq. rewrite doRequestCtx_S. unfold bind at 1, get_self.
  rewrite Hbase. unfold bind at 1.
  assert (exists s1, read_body body s0
                     = Returns (Ok (body ≫= fun a => pending <$> readers s0 !! a)) s1
                     /\ self s1 = self s0 /\ net s1 = net s0) as (s1 & -> & Hself & Hnet).
  { unfold read_body. destruct body as [a|]; [|by eexists].
    destruct (Hbody a eq_refl) as (rd & Hrd & Hf).
    unfold bind, read_all. rewrite Hrd. unfold io_ReadAll. rewrite Hf. cbn. rewrite Hrd.
    by eexists. }
  destruct (attempt_first fuel ctx method (api_url base endpoint) _ ct opts req s1 Hreq)
    as [rest Hrest].
  exists rest. apply new_requests_app. by rewrite Hrest, Hnet, Hself.
Qed.

(** With a service that forbids the login, [AuthLoginCtx] and [doRequestCtx]
    call each other for as long as there is fuel: one login request for
    each unit of it. *)
Lemma AuthLoginCtx_forbidden fuel :
  always_forbidden ->
  forall ctx (s : State Client) base,
    url_Parse (baseURL (self s)) = Ok base ->
    exists s', AuthLoginCtx fuel ctx s = OutOfFuel s'
               /\ length (new_requests s s') = fuel.
Proof.
  intros Hf. induction fuel as [|fuel IH]; intros ctx s base Hbase.
  { rewrite AuthLoginCtx_unfold.
    unfold bind at 1, get_self. unfold bind at 1, new_reader. unfold bind at 1.
    rewrite doRequestCtx_0. eexists. split; [reflexivity|].
    unfold new_requests. cbn. by rewrite drop_all. }
  rewrite AuthLoginCtx_unfold.
  unfold bind at 1, get_self. unfold bind at 1, new_reader. unfold bind at 1.
  rewrite doRequestCtx_S. unfold bind at 1, get_self. cbn [self]. rewrite Hbase.
  unfold bind at 1, read_body. unfold bind at 1, read_all. cbn [readers].
  rewrite lookup_app_r, Nat.sub_diag by done.
  cbn [lookup list_lookup io_ReadAll failure strings_NewReader pending ret].
  unfold attempt. unfold bind at 1. rewrite makeRequest_build, build_login.
  unfold bind at 1. rewrite Do_unfold.
  match goal with |- context [Do_result ?r ?st] =>
    set (req := r); set (s1 := st) end.
  destruct (Hf (Client_send_request (client (self s1)) req) (world (net s1)))
    as (resp & Hresp & H403).
  unfold Do_result at 1. rewrite Hresp, H403. cbn [Z.eqb http_StatusForbidden Pos.eqb].
  unfold bind at 1.
  destruct (IH ctx (Do_state req s1) base) as (s' & Hs' & Hlen).
  { cbn. exact Hbase. }
  destruct (AuthLoginCtx_grows fuel ctx (Do_state req s1)) as [new Hnew].
  rewrite Hs' in Hnew |- *. cbn [final_state] in Hnew.
  eexists. split; [reflexivity|].
  rewrite (new_requests_app _ _ _ Hnew) in Hlen.
  rewrite (new_requests_app s s' ((world (net s1), Client_send_request (client (self s1)) req)
                                    :: new)).
  - cbn. by rewrite Hlen.
  - rewrite Hnew. cbn. by rewrite <- app_assoc.
Qed.

Lemma login_result_verdict r : login_result r = login_verdict r.
Proof.
  destruct r as [resp|err]; [|done]. cbn.
  by destruct (StatusCode resp =? http_StatusOK)%Z.
Qed.

(** [AuthLoginCtx]: one request, its verdict, and the cookies kept by the
    jar. *)
Lemma AuthLoginCtx_once fuel ctx base (s : State Client) :
  url_Parse (baseURL (self s)) = Ok base ->
  login_never_forbidden (self s) ->
  exists s',
    AuthLoginCtx (S fuel) ctx s
    = Returns (login_verdict
                 (answer (world (net s),
                          Client_send_request (client (self s))
                            (login_request ctx base (self s))))) s'
    /\ new_requests s s'
       = [(world (net s),
           Client_send_request (client (self s)) (login_request ctx base (self s)))]
    /\ client (self s')
       = Client_store_cookies (client (self s))
           (answer (world (net s),
                    Client_send_request (client (self s))
                      (login_request ctx base (self s)))).
Proof.
  intros Hbase HNF. rewrite (login_step fuel ctx base s Hbase HNF).
  rewrite login_result_verdict. eexists. split; [reflexivity|]. split.
  - by apply new_requests_app.
  - reflexivity.
Qed.

Lemma apply_queries qs req req' :
  apply_opts (map withQuery qs) req = Ok req' ->
  ReqCtx req' = ReqCtx req /\ Method req' = Method req
  /\ Path (URL req') = Path (URL req) /\ Origin (URL req') = Origin (URL req)
  /\ ContentType req' = ContentType req
  /\ Cookies req' = Cookies req /\ Body req' = Body req.
Proof.
  revert req. induction qs as [|q qs IH]; intros req; cbn.
  - by intros [= ->].
  - intros Hq. by destruct (IH _ Hq) as (-> & -> & -> & -> & -> & -> & ->).
Qed.

Lemma query_opts_keeps_ctx opts : query_opts opts -> keeps_ctx opts.
Proof. intros [qs ->] req req' Hq. by destruct (apply_queries _ _ _ Hq). Qed.

Lemma build_queries ctx method apiURL bodyBuffer ct qs req :
  build ctx method apiURL bodyBuffer ct (map withQuery qs) = Ok req ->
  ReqCtx req = ctx /\ Path (URL req) = Path apiURL /\ ContentType req = ct
  /\ Cookies req = [] /\ Body req = bodyBuffer.
Proof.
  unfold build, http_NewRequestWithContext.
  destruct (all_token _); [|done]. intros Hq.
  destruct (apply_queries _ _ _ Hq) as (-> & _ & -> & _ & -> & -> & ->).
  by destruct ct.
Qed.

Lemma sent_for_fields c ctx method endpoint bodyBuffer ct opts req base :
  query_opts opts ->
  url_Parse (baseURL c) = Ok base ->
  sent_for c ctx method endpoint bodyBuffer ct opts req ->
  ReqCtx req = ctx /\ Path (URL req) = Path (api_url base endpoint)
  /\ ContentType req = ct /\ Body req = bodyBuffer.
Proof.
  intros [qs ->] Hbase (base' & hc & req0 & Hbase' & Hbuild & ->).
  assert (base' = base) as -> by congruence.
  destruct (build_queries _ _ _ _ _ _ _ Hbuild) as (Hc & Hp & Hct & _ & Hb).
  unfold Client_send_request. by destruct (Jar hc).
Qed.

Lemma sent_for_parsed c ctx method endpoint bodyBuffer ct opts req :
  sent_for c ctx method endpoint bodyBuffer ct opts req ->
  exists base, url_Parse (baseURL c) = Ok base.
Proof. intros (base & _ & _ & Hbase & _). by exists base. Qed.

(** The reader on the body is read once at most, and before any request
    is sent; every request that is not a login carries what was read. *)
Lemma doRequestCtx_body_once fuel ctx method endpoint a ct qs (s0 : State Client) rd :
  readers s0 !! a = Some rd ->
  (readers (final_state (doRequestCtx fuel ctx method endpoint (Some a) ct
                           (map withQuery qs) s0)) !! a = Some rd
   \/ readers (final_state (doRequestCtx fuel ctx method endpoint (Some a) ct
                             (map withQuery qs) s0)) !! a = Some (Reader_drained rd))
  /\ (new_requests s0 (final_state (doRequestCtx fuel ctx method endpoint (Some a) ct
                                      (map withQuery qs) s0)) <> [] ->
      failure rd = None
      /\ readers (final_state (doRequestCtx fuel ctx method endpoint (Some a) ct
                                 (map withQuery qs) s0)) !! a = Some (Reader_drained rd))
  /\ Forall (fun e => Body e.2 = Some (pending rd) \/ login_sent (self s0) ctx e.2)
            (new_requests s0 (final_state (doRequestCtx fuel ctx method endpoint (Some a) ct
                                             (map withQuery qs) s0))).
Proof.
  intros Hrd.
  destruct (doRequestCtx_inv fuel ctx method endpoint (Some a) ct (map withQuery qs) s0)
    as [_ (new & Hsent & Hall & Hnew) _ _ Hbody].
  rewrite (new_requests_app _ _ _ Hsent). split; [by apply Hbody|]. split.
  - intros Hne. by apply Hnew.
  - eapply Forall_impl; [exact Hall|]. intros e [Hs|Hl]; [left|by right].
    cbn in Hs. rewrite Hrd in Hs. cbn in Hs.
    destruct (sent_for_parsed _ _ _ _ _ _ _ _ Hs) as [base Hbase].
    by destruct (sent_for_fields _ _ _ _ _ _ _ _ _ ltac:(by exists qs) Hbase Hs)
      as (_ & _ & _ & Hb).
Qed.

Lemma doRequestCtx_bad_base fuel ctx method endpoint body ct opts (s0 : State Client) e :
  url_Parse (baseURL (self s0)) = Err e ->
  doRequestCtx (S fuel) ctx method endpoint body ct opts s0
  = Returns (Err ("failed to parse base URL: " +:+ e)) s0.
Proof.
  intros Hbase. rewrite doRequestCtx_S. unfold bind at 1, get_self. by rewrite Hbase.
Qed.

Lemma doRequestCtx_unreachable fuel ctx method endpoint body ct opts (s0 : State Client) :
  unreachable ->
  (forall a, body = Some a -> is_Some (readers s0 !! a)) ->
  exists err s',
    doRequestCtx (S fuel) ctx method endpoint body ct opts s0 = Returns (Err err) s'
    /\ length (new_requests s0 s') <= 1.
Proof.
  intros Hu Hvalid. rewrite doRequestCtx_S. unfold bind at 1, get_self.
  destruct (url_Parse (baseURL (self s0))) as [base|] eqn:Hbase.
  2:{ eexists _, _. split; [reflexivity|].
      rewrite (new_requests_app _ _ []) by (by rewrite app_nil_r). cbn. lia. }
  unfold bind at 1.
  assert (exists rb s1, read_body body s0 = Returns rb s1 /\ net s1 = net s0)
    as (rb & s1 & -> & Hnet).
  { unfold read_body. destruct body as [a|]; [|by eexists _, _].
    destruct (Hvalid a eq_refl) as [rd Hrd].
    unfold bind, read_all. rewrite Hrd. unfold io_ReadAll. by eexists _, _. }
  destruct rb as [bodyBuffer|err].
  2:{ eexists _, _. split; [reflexivity|].
      rewrite (new_requests_app _ _ []) by (by rewrite app_nil_r, ?Hnet). cbn. lia. }
  unfold attempt. unfold bind at 1. rewrite makeRequest_build.
  destruct (build ctx method (api_url base endpoint) bodyBuffer ct opts) as [req|err].
  2:{ eexists _, _. split; [reflexivity|].
      rewrite (new_requests_app _ _ []) by (by rewrite app_nil_r, ?Hnet). cbn. lia. }
  unfold bind at 1. rewrite Do_unfold.
  pose proof (Hu (Client_send_request (client (self s1)) req) (world (net s1))) as Herr.
  unfold Do_result at 1.
  destruct (RoundTrip (Client_send_request (client (self s1)) req) (world (net s1))).1
    as [resp|err]; [discriminate Herr|].
  eexists _, _. split; [reflexivity|].
  rewrite (new_requests_app _ _ [(world (net s1), Client_send_request (client (self s1)) req)]).
  - cbn. lia.
  - cbn. by rewrite Hnet.
Qed.

Lemma NewClient_with_jar httpClient :
  match Jar (default (mkHttpClient (Some [])) httpClient) with
  | None => mkHttpClient (Some [])
  | Some _ => default (mkHttpClient (Some [])) httpClient
  end = with_jar httpClient.
Proof. by destruct httpClient as [[[jar|]]|]. Qed.

Lemma ctx_NewClient_no_credentials fuel username password baseURL httpClient
    (s : State Client) :
  username = "" \/ password = "" ->
  NewClient fuel username password baseURL httpClient s
  = Returns (Ok tt)
      (mkState (mkClient username password (with_jar httpClient) baseURL)
               (readers s) (net s)).
Proof.
  intros Hc. unfold NewClient. cbv zeta. rewrite NewClient_with_jar.
  replace (nonempty username && nonempty password) with false; [done|].
  symmetry. apply andb_false_iff.
  destruct Hc as [->| ->]; [by left|by right].
Qed.

Lemma ctx_NewClient_login fuel username password baseURL httpClient (s : State Client) base :
  username <> "" -> password <> "" ->
  url_Parse baseURL = Ok base ->
  login_never_forbidden (mkClient username password (with_jar httpClient) baseURL) ->
  exists s',
    NewClient (S fuel) username password baseURL httpClient s
    = Returns (construction_verdict
                 (answer (world (net s),
                          Client_send_request (with_jar httpClient)
                            (mkRequest Background "POST" (api_url base login_endpoint)
                               form_urlencoded []
                               (Some (login_form username password)))))) s'
    /\ new_requests s s'
       = [(world (net s),
           Client_send_request (with_jar httpClient)
             (mkRequest Background "POST" (api_url base login_endpoint)
                form_urlencoded [] (Some (login_form username password))))]
    /\ is_Some (Jar (client (self s'))).
Proof.
  intros Hu Hp Hbase HNF. unfold NewClient. cbv zeta. rewrite NewClient_with_jar.
  apply nonempty_true in Hu, Hp. rewrite Hu, Hp. cbn [andb].
  set (c0 := mkClient username password (with_jar httpClient) baseURL).
  unfold AuthLogin.
  destruct (AuthLoginCtx_once fuel Background base (mkState c0 (readers s) (net s)) Hbase HNF)
    as (s' & Hr & Hnew & Hjar).
  rewrite Hr. exists s'. cbn in Hnew, Hjar |- *. unfold construction_verdict.
  split; [|split; [exact Hnew|]].
  - by destruct (login_verdict _) as [[]|err].
  - rewrite Hjar. unfold Client_store_cookies.
    destruct httpClient as [[[jar|]]|]; cbn; by destruct (answer _).
Qed.

Lemma call_wire_build c cl w ctx apiURL :
  call_wire c cl = Ok w ->
  exists req,
    build ctx (wire_method w) apiURL (wire_body w) (wire_contentType w) (wire_opts w)
    = Ok req.
Proof.
  destruct c; cbv beta iota delta [call_wire add_wire];
    try (destruct (buildTorrentAddForm _ _) as [[? ?]|]; [|discriminate]);
    intros [= <-]; by eexists.
Qed.

Lemma call_wire_total c cl : exists w, call_wire c cl = Ok w.
Proof.
  destruct c; cbv beta iota delta [call_wire add_wire buildTorrentAddForm]; eauto;
    match goal with
    | |- context [torrent_add_parts ?p] =>
        destruct (torrent_add_parts_fields p) as (w & -> & _); cbn; eauto
    end.
Qed.

Lemma build_wire ctx method apiURL bodyBuffer ct qs req :
  build ctx method apiURL bodyBuffer ct (map withQuery qs) = Ok req ->
  Method req = (if String.eqb method "" then "GET" else method)
  /\ RawQuery (URL req) = match last qs with
                          | Some q => url_Values_Encode q
                          | None => RawQuery apiURL
                          end.
Proof.
  unfold build, http_NewRequestWithContext.
  destruct (all_token _); [|done]. intros Hq.
  destruct (apply_queries_last _ _ _ Hq) as [-> ->].
  by destruct (nonempty ct).
Qed.

(** [AuthLoginCtx] ends where its call of [doRequestCtx] ends. *)
Lemma AuthLoginCtx_final fuel ctx (s : State Client) :
  final_state (AuthLoginCtx fuel ctx s)
  = final_state (doRequestCtx fuel ctx "POST" login_endpoint (Some (length (readers s)))
                   form_urlencoded []
                   (mkState (self s)
                      (readers s ++ [strings_NewReader (login_form (username (self s))
                                                                   (password (self s)))])
                      (net s))).
Proof.
  rewrite AuthLoginCtx_unfold.
  unfold bind at 1, get_self. unfold bind at 1, new_reader. unfold bind at 1.
  match goal with
  | |- context [doRequestCtx fuel ctx "POST" login_endpoint ?b form_urlencoded [] ?s3] =>
      destruct (doRequestCtx fuel ctx "POST" login_endpoint b form_urlencoded [] s3)
        as [[resp|err] s4|msg s4|s4]
  end; try done.
  by destruct (negb (StatusCode resp =? http_StatusOK)%Z).
Qed.

(** What [AuthLoginCtx] sends are logins; it keeps the configuration of the
    client and the readers that were there. *)
Lemma AuthLoginCtx_requests fuel ctx (s : State Client) :
  exists new,
    sent (net (final_state (AuthLoginCtx fuel ctx s))) = sent (net s) ++ new
    /\ Forall (fun e => login_sent (self s) ctx e.2) new
    /\ same_config s (final_state (AuthLoginCtx fuel ctx s))
    /\ (forall i, i < length (readers s) ->
          readers (final_state (AuthLoginCtx fuel ctx s)) !! i = readers s !! i).
Proof.
  rewrite AuthLoginCtx_final.
  match goal with
  | |- context [doRequestCtx fuel ctx "POST" login_endpoint ?b form_urlencoded [] ?s3] =>
      destruct (doRequestCtx_inv fuel ctx "POST" login_endpoint b form_urlencoded [] s3)
        as [Hcfg (new & Hsent & Hall & _) _ Hoth _]
  end.
  cbn [net readers self] in Hsent, Hoth, Hall.
  exists new. split; [exact Hsent|]. split; [|split].
  - eapply Forall_impl; [exact Hall|]. intros e [He|He]; [|exact He].
    unfold login_sent. cbn [mbind option_bind] in He.
    rewrite lookup_app_r, Nat.sub_diag in He by done. exact He.
  - exact Hcfg.
  - intros i Hi. rewrite Hoth; [by apply lookup_app_l|rewrite length_app; lia|].
    intros [= E]. lia.
Qed.

(** The requests of [doRequestCtx] from the first [makeRequest] on: the
    request, the logins of the re-authentication, and the request again if
    the re-authentication succeeded.  The readers that were there are not
    touched. *)
Lemma attempt_trace fuel ctx method apiURL bodyBuffer ct opts req (s1 : State Client) out :
  build ctx method apiURL bodyBuffer ct opts = Ok req ->
  attempt fuel ctx method apiURL bodyBuffer ct opts s1 = out ->
  exists logins retried,
    new_requests s1 (final_state out)
    = (world (net s1), Client_send_request (client (self s1)) req) :: logins ++ retried
    /\ Forall (fun e => login_sent (self s1) ctx e.2) logins
    /\ (retried = []
        \/ exists e3, retried = [e3]
                      /\ same_attempt (Client_send_request (client (self s1)) req) e3.2)
    /\ (forall i, i < length (readers s1) ->
          readers (final_state out) !! i = readers s1 !! i)
    /\ (forall r s', out = Returns r s' ->
          (~ answered (world (net s1), Client_send_request (client (self s1)) req)
               http_StatusForbidden
           /\ logins = [] /\ retried = []
           /\ r = answer (world (net s1), Client_send_request (client (self s1)) req))
          \/ (answered (world (net s1), Client_send_request (client (self s1)) req)
                http_StatusForbidden
              /\ ((retried = []
                   /\ exists err, r = Err ("re-authentication failed: " +:+ err))
                  \/ exists e3, retried = [e3] /\ r = answer e3))).
Proof.
  intros Hreq. unfold attempt. unfold bind at 1. rewrite makeRequest_build, Hreq.
  unfold bind at 1. rewrite Do_unfold.
  set (e1 := (world (net s1), Client_send_request (client (self s1)) req)).
  set (s2 := Do_state req s1).
  assert (sent (net s2) = sent (net s1) ++ [e1]) as Hs2 by done.
  change (Do_result req s1) with (answer e1).
  destruct (answer e1) as [resp|err] eqn:Hans.
  2:{ intros <-. exists [], []. cbn [final_state ret]. split; [by apply new_requests_app|].
      split; [done|]. split; [by left|]. split; [done|].
      intros r s' [= <- <-]. left. split; [|done].
      intros (resp & Hr & _). congruence. }
  destruct (Z.eqb_spec (StatusCode resp) http_StatusForbidden) as [H403|Hne].
  2:{ intros <-. exists [], []. cbn [final_state ret]. split; [by apply new_requests_app|].
      split; [done|]. split; [by left|]. split; [done|].
      intros r s' [= <- <-]. left. split; [|done].
      intros (resp' & Hr & Hst). congruence. }
  assert (answered e1 http_StatusForbidden) as Hfor by (by exists resp).
  unfold bind at 1.
  destruct (AuthLoginCtx_requests fuel ctx s2) as (new & Hnew & Hall & Hcfg & Hrd).
  assert (Forall (fun e => login_sent (self s1) ctx e.2) new) as Hall1.
  { eapply Forall_impl; [exact Hall|]. intros e He.
    eapply login_sent_config; [..|exact He]; done. }
  destruct (AuthLoginCtx fuel ctx s2) as [[[]|err] s4|msg s4|s4];
    cbn [final_state] in Hnew, Hrd.
  2,3,4: intros <-; exists new, []; cbn [final_state ret]; rewrite app_nil_r;
    (split; [apply new_requests_app; by rewrite Hnew, Hs2, <- app_assoc|]);
    (split; [done|]); (split; [by left|]); (split; [exact Hrd|]);
    intros r s'; try done; intros [= <- <-]; right; (split; [done|]); left;
    (split; [done|by eexists]).
  unfold bind at 1. rewrite makeRequest_build, Hreq, Do_unfold. intros <-.
  cbn [final_state].
  set (e3 := (world (net s4), Client_send_request (client (self s4)) req)).
  exists new, [e3]. split; [|split; [done|split; [|split]]].
  - apply new_requests_app. cbn. rewrite Hnew, Hs2, <- !app_assoc. done.
  - right. exists e3. split; [done|]. apply same_attempt_send.
  - exact Hrd.
  - intros r s' [= <- <-]. right. split; [done|]. right. by exists e3.
Qed.

(** [doRequestCtx] reads the body it is given, once, if the base address
    parses, whatever happens next. *)
Lemma doRequestCtx_reads fuel ctx method endpoint a ct opts (s0 : State Client) rd base :
  readers s0 !! a = Some rd ->
  url_Parse (baseURL (self s0)) = Ok base ->
  readers (final_state (doRequestCtx (S fuel) ctx method endpoint (Some a) ct opts s0)) !! a
  = Some (Reader_drained rd).
Proof.
  intros Hrd Hbase. pose proof (lookup_lt_Some _ _ _ Hrd) as Hlt.
  rewrite doRequestCtx_S. unfold bind at 1, get_self. rewrite Hbase.
  unfold bind at 1, read_body. unfold bind at 1, read_all. rewrite Hrd.
  unfold io_ReadAll. cbn [ret].
  set (s1 := mkState (self s0) (<[a:=Reader_drained rd]> (readers s0)) (net s0)).
  assert (readers s1 !! a = Some (Reader_drained rd)) as Hs1.
  { by apply list_lookup_insert_eq. }
  destruct (failure rd); [exact Hs1|].
  destruct (build ctx method (api_url base endpoint) (Some (pending rd)) ct opts)
    as [req|err] eqn:Hreq.
  - destruct (attempt_trace fuel _ _ _ _ _ _ _ s1 _ Hreq eq_refl)
      as (_ & _ & _ & _ & _ & Hkeep & _).
    rewrite Hkeep; [exact Hs1|]. by apply lookup_lt_Some in Hs1.
  - unfold attempt. unfold bind at 1. rewrite makeRequest_build, Hreq. exact Hs1.
Qed.

(** A body that cannot be read: the error names the cause, and nothing is
    sent. *)
Lemma doRequestCtx_read_failure fuel ctx method endpoint a ct opts (s0 : State Client)
    rd base err :
  readers s0 !! a = Some rd ->
  url_Parse (baseURL (self s0)) = Ok base ->
  failure rd = Some err ->
  exists s',
    doRequestCtx (S fuel) ctx method endpoint (Some a) ct opts s0
    = Returns (Err ("failed to read request body: " +:+ err)) s'
    /\ new_requests s0 s' = [].
Proof.
  intros Hrd Hbase Hf.
  rewrite doRequestCtx_S. unfold bind at 1, get_self. rewrite Hbase.
  unfold bind at 1, read_body. unfold bind at 1, read_all. rewrite Hrd.
  unfold io_ReadAll. rewrite Hf. cbn [ret]. eexists. split; [reflexivity|].
  apply new_requests_app. cbn. by rewrite app_nil_r.
Qed.

(** The requests of one call of [doRequestCtx] whose body can be read: the
    request with what was read, the logins of the re-authentication, and
    the same request again if the re-authentication succeeded. *)
Lemma doRequestCtx_trace fuel ctx method endpoint body ct opts (s0 : State Client)
    base req out :
  url_Parse (baseURL (self s0)) = Ok base ->
  (forall a, body = Some a -> exists rd, readers s0 !! a = Some rd /\ failure rd = None) ->
  build ctx method (api_url base endpoint)
        (body ≫= fun a => pending <$> readers s0 !! a) ct opts = Ok req ->
  doRequestCtx (S fuel) ctx method endpoint body ct opts s0 = out ->
  exists logins retried,
    new_requests s0 (final_state out)
    = (world (net s0), Client_send_request (client (self s0)) req) :: logins ++ retried
    /\ Forall (fun e => login_sent (self s0) ctx e.2) logins
    /\ (retried = []
        \/ exists e3, retried = [e3]
                      /\ same_attempt (Client_send_request (client (self s0)) req) e3.2)
    /\ (forall r s', out = Returns r s' ->
          (~ answered (world (net s0), Client_send_request (client (self s0)) req)
               http_StatusForbidden
           /\ logins = [] /\ retried = []
           /\ r = answer (world (net s0), Client_send_request (client (self s0)) req))
          \/ (answered (world (net s0), Client_send_request (client (self s0)) req)
                http_StatusForbidden
              /\ ((retried = []
                   /\ exists err, r = Err ("re-authentication failed: " +:+ err))
                  \/ exists e3, retried = [e3] /\ r = answer e3))).
Proof.
  intros Hbase Hbody Hreq. rewrite doRequestCtx_S. unfold bind at 1, get_self.
  rewrite Hbase. unfold bind at 1.
  assert (exists s1, read_body body s0
                     = Returns (Ok (body ≫= fun a => pending <$> readers s0 !! a)) s1
                     /\ self s1 = self s0 /\ net s1 = net s0) as (s1 & -> & Hself & Hnet).
  { unfold read_body. destruct body as [a|]; [|by eexists].
    destruct (Hbody a eq_refl) as (rd & Hrd & Hf).
    unfold bind, read_all. rewrite Hrd. unfold io_ReadAll. rewrite Hf. cbn. rewrite Hrd.
    by eexists. }
  intros Hout.
  destruct (attempt_trace fuel _ _ _ _ _ _ _ _ _ Hreq Hout)
    as (logins & retried & Hnew & Hall & Hret & _ & Hres).
  rewrite Hself, Hnet in Hnew, Hres. rewrite Hself in Hall, Hret.
  exists logins, retried. split; [|done].
  rewrite <- Hnew. unfold new_requests. by rewrite Hnet.
Qed.

(** At a service that forbids everything, the pipeline sends its request
    and then one login for each unit of fuel that is left, and does not
    return. *)
Lemma doRequestCtx_forbidden fuel ctx method endpoint body ct opts (s0 : State Client)
    base req :
  always_forbidden ->
  url_Parse (baseURL (self s0)) = Ok base ->
  (forall a, body = Some a -> exists rd, readers s0 !! a = Some rd /\ failure rd = None) ->
  build ctx method (api_url base endpoint)
        (body ≫= fun a => pending <$> readers s0 !! a) ct opts = Ok req ->
  exists s' logins,
    doRequestCtx (S fuel) ctx method endpoint body ct opts s0 = OutOfFuel s'
    /\ new_requests s0 s'
       = (world (net s0), Client_send_request (client (self s0)) req) :: logins
    /\ length logins = fuel
    /\ Forall (fun e => login_sent (self s0) ctx e.2) logins.
Proof.
  intros Hf Hbase Hbody Hreq. rewrite doRequestCtx_S. unfold bind at 1, get_self.
  rewrite Hbase. unfold bind at 1.
  assert (exists s1, read_body body s0
                     = Returns (Ok (body ≫= fun a => pending <$> readers s0 !! a)) s1
                     /\ self s1 = self s0 /\ net s1 = net s0) as (s1 & -> & Hself & Hnet).
  { unfold read_body. destruct body as [a|]; [|by eexists].
    destruct (Hbody a eq_refl) as (rd & Hrd & Hfl).
    unfold bind, read_all. rewrite Hrd. unfold io_ReadAll. rewrite Hfl. cbn. rewrite Hrd.
    by eexists. }
  unfold attempt. unfold bind at 1. rewrite makeRequest_build, Hreq.
  unfold bind at 1. rewrite Do_unfold.
  destruct (Hf (Client_send_request (client (self s1)) req) (world (net s1)))
    as (resp & Hresp & H403).
  unfold Do_result at 1. rewrite Hresp, H403.
  set (s2 := Do_state req s1).
  cbn [Z.eqb http_StatusForbidden Pos.eqb]. unfold bind at 1.
  destruct (AuthLoginCtx_forbidden fuel Hf ctx s2 base) as (s' & Hs' & Hlen).
  { cbn. by rewrite Hself. }
  destruct (AuthLoginCtx_requests fuel ctx s2) as (new & Hnew & Hall & _).
  rewrite Hs' in Hnew |- *. cbn [final_state] in Hnew.
  rewrite (new_requests_app _ _ _ Hnew) in Hlen.
  exists s', new. split; [reflexivity|]. split; [|split; [exact Hlen|]].
  - apply new_requests_app. rewrite Hnew. cbn. rewrite <- app_assoc, Hnet, Hself. done.
  - eapply Forall_impl; [exact Hall|]. intros e He.
    eapply login_sent_config; [..|exact He]; cbn; by rewrite Hself.
Qed.

(** Up to the first [makeRequest], [doRequestCtx] does the same whatever
    the fuel, and sends nothing. *)
Lemma doRequestCtx_prefix ctx method endpoint body ct opts (s0 : State Client) :
  (exists base bodyBuffer s1,
      net s1 = net s0
      /\ forall fuel,
           doRequestCtx (S fuel) ctx method endpoint body ct opts s0
           = attempt fuel ctx method (api_url base endpoint) bodyBuffer ct opts s1)
  \/ (exists o,
         net (final_state o) = net s0
         /\ match o with Returns (Ok _) _ | OutOfFuel _ => False | _ => True end
         /\ forall fuel, doRequestCtx (S fuel) ctx method endpoint body ct opts s0 = o).
Proof.
  destruct (url_Parse (baseURL (self s0))) as [base|err] eqn:Hbase.
  2:{ right. eexists. split; [|split]; [| |intros fuel; rewrite doRequestCtx_S;
        unfold bind at 1, get_self; rewrite Hbase; reflexivity]; done. }
  destruct (read_body body s0) as [[bodyBuffer|err] s1|msg s1|s1] eqn:Hrb.
  - left. exists base, bodyBuffer, s1. split; [by apply read_body_net in Hrb as [_ ?]|].
    intros fuel. rewrite doRequestCtx_S. unfold bind at 1, get_self. rewrite Hbase.
    unfold bind at 1. by rewrite Hrb.
  - right. exists (Returns (Err err) s1).
    split; [by apply read_body_net in Hrb as [_ ?]|]. split; [done|].
    intros fuel. rewrite doRequestCtx_S. unfold bind at 1, get_self. rewrite Hbase.
    unfold bind at 1. by rewrite Hrb.
  - right. exists (Panics msg s1).
    assert (s1 = s0) as ->.
    { unfold read_body in Hrb. destruct body as [a|]; [|done].
      unfold bind, read_all in Hrb. destruct (readers s0 !! a); [done|].
      by injection Hrb as _ <-. }
    split; [done|]. split; [done|].
    intros fuel. rewrite doRequestCtx_S. unfold bind at 1, get_self. rewrite Hbase.
    unfold bind at 1. by rewrite Hrb.
  - exfalso. unfold read_body in Hrb. destruct body as [a|]; [|done].
    unfold bind, read_all in Hrb. by destruct (readers s0 !! a).
Qed.

(** [AuthLoginCtx] does with more fuel what it does with less, if it
    ends. *)
Lemma AuthLoginCtx_step fuel ctx (s : State Client) :
  ends (AuthLoginCtx fuel ctx s) -> AuthLoginCtx (S fuel) ctx s = AuthLoginCtx fuel ctx s.
Proof.
  rewrite !AuthLoginCtx_unfold.
  unfold bind at 1 3, get_self. unfold bind at 1 3, new_reader. unfold bind at 1 2.
  intros Hends. rewrite fuel_step; [done|].
  match goal with
  | |- ends (doRequestCtx ?f ?c ?m ?e ?b ?ct ?o ?s3) =>
      by destruct (doRequestCtx f c m e b ct o s3)
  end.
Qed.

Lemma Do_pair req (s : State Client) :
  RoundTrip (Client_send_request (client (self s)) req) (world (net s))
  = (Do_result req s, world (net (Do_state req s))).
Proof. unfold Do_result, Do_state. cbn. by destruct (RoundTrip _ _). Qed.

Lemma Do_cut_short ctx req (s : State Client) :
  honours_cancellation -> ReqCtx req = ctx ->
  cut_short ctx (world (net s), Client_send_request (client (self s)) req) ->
  ended_late ctx (Do_result req s) (Do_state req s).
Proof.
  intros Hh Hctx Hcut. destruct (Do_result req s) as [resp|err] eqn:Hr; [|done].
  pose proof (Do_Ok_not_done ctx req s resp Hh Hctx Hr) as Hlive.
  destruct Hcut as [Hcut|Hcut]; cbn in Hcut; [congruence|].
  exists (Client_send_request (client (self s)) req), (world (net s)).
  split; [by rewrite send_ctx|]. split; [by rewrite Do_pair, Hr|].
  unfold completed in Hcut. cbn in Hcut. by rewrite Do_pair in Hcut.
Qed.

Lemma attempt_unfold fuel ctx method apiURL bodyBuffer ct opts req (s1 : State Client) :
  build ctx method apiURL bodyBuffer ct opts = Ok req ->
  attempt fuel ctx method apiURL bodyBuffer ct opts s1
  = match Do_result req s1 with
    | Err err => Returns (Err err) (Do_state req s1)
    | Ok resp =>
        if (StatusCode resp =? http_StatusForbidden)%Z
        then after_login req
               (doRequestCtx fuel ctx "POST" login_endpoint (Some (length (readers s1)))
                  form_urlencoded [] (login_start (Do_state req s1)))
        else Returns (Ok resp) (Do_state req s1)
    end.
Proof.
  intros Hreq. unfold attempt. unfold bind at 1. rewrite makeRequest_build, Hreq.
  unfold bind at 1. rewrite Do_unfold.
  destruct (Do_result req s1) as [resp|err]; [|done].
  destruct (StatusCode resp =? http_StatusForbidden)%Z; [|done].
  unfold bind at 1. rewrite AuthLoginCtx_unfold.
  unfold bind at 1, get_self. unfold bind at 1, new_reader. unfold bind at 1.
  change (mkState (self (Do_state req s1)) _ (net (Do_state req s1)))
    with (login_start (Do_state req s1)).
  change (length (readers (Do_state req s1))) with (length (readers s1)).
  destruct (doRequestCtx fuel ctx "POST" login_endpoint (Some (length (readers s1)))
              form_urlencoded [] (login_start (Do_state req s1)))
    as [[resp'|err'] s4|msg s4|s4]; try done.
  unfold after_login. destruct (negb (StatusCode resp' =? http_StatusOK)%Z); [done|].
  cbn [ret]. unfold bind at 1. by rewrite makeRequest_build, Hreq, Do_unfold.
Qed.

(** The context ended before or during a request of [doRequestCtx]: with a
    unit of fuel more, [doRequestCtx] returns, and what it returns is an
    error or a response that was cut short. *)
Lemma attempt_cut_short fuel ctx method apiURL bodyBuffer ct opts (s1 : State Client) e :
  honours_cancellation ->
  (forall a (s3 : State Client) e,
      is_Some (readers s3 !! a) ->
      e ∈ new_requests s3
            (final_state (doRequestCtx fuel ctx "POST" login_endpoint
                            (Some a) form_urlencoded [] s3)) ->
      cut_short ctx e ->
      exists r s', doRequestCtx (S fuel) ctx "POST" login_endpoint
                     (Some a) form_urlencoded [] s3 = Returns r s'
                   /\ ended_late ctx r s') ->
  keeps_ctx opts ->
  e ∈ new_requests s1 (final_state (attempt fuel ctx method apiURL bodyBuffer ct opts s1)) ->
  cut_short ctx e ->
  exists r s', attempt (S fuel) ctx method apiURL bodyBuffer ct opts s1 = Returns r s'
               /\ ended_late ctx r s'.
Proof.
  intros Hh IH Hk.
  destruct (build ctx method apiURL bodyBuffer ct opts) as [req|err] eqn:Hreq.
  2:{ unfold attempt. unfold bind at 1. rewrite makeRequest_build, Hreq. cbn.
      unfold new_requests. rewrite drop_all. by intros ?%elem_of_nil. }
  pose proof (build_ctx _ _ _ _ _ _ _ Hk Hreq) as Hctx.
  rewrite (attempt_unfold fuel _ _ _ _ _ _ _ s1 Hreq),
    (attempt_unfold (S fuel) _ _ _ _ _ _ _ s1 Hreq).
  set (e1 := (world (net s1), Client_send_request (client (self s1)) req)).
  set (s2 := Do_state req s1).
  assert (sent (net s2) = sent (net s1) ++ [e1]) as Hs2 by done.
  pose proof (Do_cut_short ctx req s1 Hh Hctx) as Hfirst. fold e1 s2 in Hfirst.
  destruct (Do_result req s1) as [resp|err] eqn:Hr1.
  2:{ intros _ _. by (eexists _, _; split). }
  destruct (StatusCode resp =? http_StatusForbidden)%Z.
  2:{ cbn [final_state]. rewrite (new_requests_app s1 s2 [e1]) by done.
      intros ->%list_elem_of_singleton Hcut. eexists _, _. split; [done|]. by apply Hfirst. }
  set (a := length (readers s1)). set (s3 := login_start s2).
  assert (is_Some (readers s3 !! a)) as Ha.
  { subst a s3 s2. cbn. rewrite lookup_app_r, Nat.sub_diag by done. by eexists. }
  specialize (IH a s3).
  destruct (doRequestCtx_inv fuel ctx "POST" login_endpoint (Some a) form_urlencoded [] s3)
    as [_ (new & Hsent & _) _ _ _].
  pose proof (new_requests_app _ _ _ Hsent) as Hnew.
  pose proof (fuel_step fuel ctx "POST" login_endpoint (Some a) form_urlencoded [] s3)
    as Hstep.
  assert (forall e, e ∈ e1 :: new -> cut_short ctx e ->
            exists r s', doRequestCtx (S fuel) ctx "POST" login_endpoint
                           (Some a) form_urlencoded [] s3
                         = Returns r s' /\ ended_late ctx r s') as Hin.
  { intros e' [->|He']%elem_of_cons Hcut.
    - specialize (Hfirst Hcut). destruct Hfirst as (req0 & w0 & _ & _ & Hdone).
      destruct (doRequestCtx_cancelled fuel ctx "POST" login_endpoint
                  (Some a) form_urlencoded [] s3 Hh keeps_ctx_nil)
        as (err & s' & ->); [|done|by (eexists _, _; split)].
      by intros a' [= <-].
    - apply (IH e'); [done| |done]. by rewrite Hnew. }
  assert (forall r s', ended_late ctx r s' ->
            exists r' s'', after_login req (Returns r s') = Returns r' s''
                           /\ ended_late ctx r' s'') as Hlate.
  { intros r s' Hl. unfold after_login. destruct r as [resp'|err]; [|by (eexists _, _; split)].
    destruct (negb (StatusCode resp' =? http_StatusOK)%Z); [by (eexists _, _; split)|].
    destruct Hl as (_ & _ & _ & _ & Hdone).
    destruct (Do_result req s') as [resp3|err3] eqn:Hr3; [|by (eexists _, _; split)].
    apply (Do_Ok_not_done ctx) in Hr3; [congruence|done..]. }
  intros He Hcut.
  destruct (doRequestCtx fuel ctx "POST" login_endpoint (Some a) form_urlencoded [] s3)
    as [[resp'|err'] s4|msg s4|s4] eqn:Hl1; cbn [final_state] in Hsent, Hnew.
  2,3,4: cbn [after_login final_state] in He;
    rewrite (new_requests_app s1 s4 (e1 :: new)) in He
      by (rewrite Hsent; cbn; by rewrite <- app_assoc);
    destruct (Hin e He Hcut) as (r & s' & -> & Hl); by apply Hlate.
  assert (doRequestCtx (S fuel) ctx "POST" login_endpoint (Some a) form_urlencoded [] s3
          = Returns (Ok resp') s4) as Hrun2.
  { by apply Hstep. }
  rewrite Hrun2. rewrite Hrun2 in Hin.
  unfold after_login in He |- *.
  destruct (negb (StatusCode resp' =? http_StatusOK)%Z) eqn:H200.
  { by (eexists _, _; split). }
  cbn [final_state] in He.
  set (e3 := (world (net s4), Client_send_request (client (self s4)) req)).
  rewrite (new_requests_app s1 (Do_state req s4) ((e1 :: new) ++ [e3])) in He
    by (cbn; rewrite Hsent; cbn; by rewrite <- !app_assoc).
  apply elem_of_app in He as [He| ->%list_elem_of_singleton].
  - destruct (Hin e He Hcut) as (r & s' & Hrun & Hl). injection Hrun as <- <-.
    destruct (Hlate _ _ Hl) as (r' & s'' & Hal & Hl'). unfold after_login in Hal.
    rewrite H200 in Hal. by eexists _, _.
  - eexists _, _. split; [reflexivity|]. by apply Do_cut_short.
Qed.

Lemma doRequestCtx_cut_short fuel :
  honours_cancellation ->
  forall ctx method endpoint body ct opts (s0 : State Client) e,
    keeps_ctx opts ->
    e ∈ new_requests s0
          (final_state (doRequestCtx fuel ctx method endpoint body ct opts s0)) ->
    cut_short ctx e ->
    exists r s', doRequestCtx (S fuel) ctx method endpoint body ct opts s0 = Returns r s'
                 /\ ended_late ctx r s'.
Proof.
  intros Hh. induction fuel as [|fuel IH];
    intros ctx method endpoint body ct opts s0 e Hk He Hcut.
  { rewrite doRequestCtx_0 in He. unfold new_requests in He. cbn in He.
    rewrite drop_all in He. by apply elem_of_nil in He. }
  destruct (doRequestCtx_prefix ctx method endpoint body ct opts s0)
    as [(base & bodyBuffer & s1 & Hnet & Hrun)|(o & Hnet & Ho & Hrun)].
  - rewrite Hrun in He |- *.
    assert (new_requests s0 = new_requests s1) as Hn.
    { unfold new_requests. by rewrite Hnet. }
    rewrite Hn in He.
    eapply attempt_cut_short; try done.
    intros a s3 e' _ He' Hcut'. by eapply IH; [apply keeps_ctx_nil|..].
  - rewrite Hrun in He. unfold new_requests in He. rewrite Hnet, drop_all in He.
    by apply elem_of_nil in He.
Qed.
End S.

Section Calls.
Context `{RoundTripper} `{JSONSyntax}.

Lemma callCtx_factors fuel ctx c (s0 : State Client) :
  match call_wire c (self s0) with
  | Err _ => exists err, callCtx fuel ctx c s0 = Returns (Err err) s0
  | Ok w => factors (callCtx fuel ctx c s0) (transport fuel ctx w s0)
  end.
Proof.
  destruct c;
    cbv beta iota zeta delta
      [callCtx call_wire add_wire post_form get_query transport
       wire_body wire_method wire_endpoint wire_contentType wire_opts
       returning AuthLoginCtx AuthLoginCtx_body TorrentsExportCtx
       TorrentsAddCtx TorrentsAddParamsCtx TorrentsDeleteCtx SetForceStartCtx
       TorrentsDownloadCtx TorrentsGetTagsCtx TorrentsInfoCtx TorrentsTrackersCtx
       TorrentsPropertiesCtx TorrentsAddTagsCtx TorrentsRemoveTagsCtx
       TorrentsGetAllTagsCtx TorrentsCreateTagsCtx TorrentsDeleteTagsCtx
       doTagOperationCtx SyncMainDataCtx SyncTorrentPeersCtx
       doPostValuesCtx doPostCtx doGetCtx doPostResponseCtx info_query login_form
       bind get_self new_reader decode_step panic ret factors];
    try (match goal with |- context [buildTorrentAddForm ?b ?p] =>
           destruct (buildTorrentAddForm b p) as [[? ?]|]; [|by eexists] end);
    match goal with
    | |- context [doRequestCtx ?f ?c ?m ?e ?b ?ct ?o ?s] =>
        destruct (doRequestCtx f c m e b ct o s) as [[resp|err] s'|msg s'|s']
    end;
    repeat case_match; simplify_eq; cbn [final_state]; eauto.
Qed.
Lemma call_is_callCtx fuel c : call fuel c = callCtx fuel Background c.
Proof. by destruct c. Qed.

Lemma call_wire_opts c cl w : call_wire c cl = Ok w -> query_opts (wire_opts w).
Proof.
  destruct c; cbn; unfold add_wire; repeat case_match; intros [= <-];
    first [by exists [] | by eexists [_]].
Qed.

Lemma transport_unfold fuel ctx w s0 :
  transport fuel ctx w s0
  = doRequestCtx fuel ctx (wire_method w) (wire_endpoint w) (wire_reader w s0)
      (wire_contentType w) (wire_opts w) (wire_start w s0).
Proof. unfold transport, wire_reader, wire_start. by destruct (wire_body w). Qed.

Lemma wire_start_self w s0 : self (wire_start w s0) = self s0.
Proof. unfold wire_start. by destruct (wire_body w). Qed.

Lemma wire_start_net w s0 : net (wire_start w s0) = net s0.
Proof. unfold wire_start. by destruct (wire_body w). Qed.

Lemma wire_reader_valid w s0 a :
  wire_reader w s0 = Some a -> is_Some (readers (wire_start w s0) !! a).
Proof.
  unfold wire_reader, wire_start. destruct (wire_body w); [|done]. intros [= <-].
  cbn. rewrite lookup_app_r, Nat.sub_diag by done. by eexists.
Qed.

Lemma wire_reader_pending w s0 :
  (wire_reader w s0 ≫= fun a => pending <$> readers (wire_start w s0) !! a) = wire_body w.
Proof.
  unfold wire_reader, wire_start. destruct (wire_body w); [|done].
  cbn. by rewrite lookup_app_r, Nat.sub_diag by done.
Qed.

Lemma callCtx_final fuel ctx c s0 :
  final_state (callCtx fuel ctx c s0)
  = match call_wire c (self s0) with
    | Ok w => final_state (transport fuel ctx w s0)
    | Err _ => s0
    end.
Proof.
  pose proof (callCtx_factors fuel ctx c s0) as Hf.
  destruct (call_wire c (self s0)) as [w|]; [|by destruct Hf as [err ->]].
  unfold factors in Hf.
  destruct (transport fuel ctx w s0) as [[resp|err] s'|msg s'|s']; try by rewrite Hf.
  by destruct Hf as [err' ->].
Qed.

(** Every request a method sends is the one its endpoint asks for, or a
    login. *)
Lemma callCtx_requests fuel ctx c s0 :
  match call_wire c (self s0) with
  | Ok w =>
      Forall (fun e => sent_for (self s0) ctx (wire_method w) (wire_endpoint w) (wire_body w)
                         (wire_contentType w) (wire_opts w) e.2
                       \/ login_sent (self s0) ctx e.2)
             (new_requests s0 (final_state (callCtx fuel ctx c s0)))
  | Err _ => new_requests s0 (final_state (callCtx fuel ctx c s0)) = []
  end.
Proof.
  rewrite callCtx_final. destruct (call_wire c (self s0)) as [w|].
  2:{ unfold new_requests. by rewrite drop_all. }
  rewrite transport_unfold.
  destruct (doRequestCtx_inv fuel ctx (wire_method w) (wire_endpoint w) (wire_reader w s0)
              (wire_contentType w) (wire_opts w) (wire_start w s0))
    as [_ (new & Hsent & Hall & _) _ _ _].
  rewrite wire_start_net in Hsent. rewrite (new_requests_app _ _ _ Hsent).
  by rewrite wire_reader_pending, wire_start_self in Hall.
Qed.

(** A method that returns a value sent no request while its context was
    done. *)
Lemma callCtx_clean fuel ctx c s0 v s' :
  honours_cancellation ->
  callCtx fuel ctx c s0 = Returns (Ok v) s' -> clean ctx s0 s'.
Proof.
  intros Hh Hc. pose proof (callCtx_factors fuel ctx c s0) as Hf.
  destruct (call_wire c (self s0)) as [w|] eqn:Hw.
  2:{ destruct Hf as [err Hf]. congruence. }
  unfold factors in Hf. rewrite transport_unfold in Hf.
  destruct (doRequestCtx fuel ctx (wire_method w) (wire_endpoint w) (wire_reader w s0)
              (wire_contentType w) (wire_opts w) (wire_start w s0))
    as [[resp|err] s1|msg s1|s1] eqn:Ht.
  - rewrite Hc in Hf. cbn in Hf. subst s1.
    apply (doRequestCtx_clean fuel Hh) in Ht;
      [|by eapply query_opts_keeps_ctx, call_wire_opts].
    unfold clean in *. by rewrite wire_start_net in Ht.
  - destruct Hf as [err' Hf]. congruence.
  - congruence.
  - congruence.
Qed.

(** A method called with a context that is done returns an error. *)
Lemma callCtx_cancelled fuel ctx c s0 :
  honours_cancellation ->
  Context_done (world (net s0)) ctx = true ->
  exists err s', callCtx (S fuel) ctx c s0 = Returns (Err err) s'.
Proof.
  intros Hh Hdone. pose proof (callCtx_factors (S fuel) ctx c s0) as Hf.
  destruct (call_wire c (self s0)) as [w|] eqn:Hw.
  2:{ destruct Hf as [err Hf]. by eexists _, _. }
  unfold factors in Hf. rewrite transport_unfold in Hf.
  destruct (doRequestCtx_cancelled fuel ctx (wire_method w) (wire_endpoint w)
              (wire_reader w s0) (wire_contentType w) (wire_opts w) (wire_start w s0) Hh)
    as (err & s1 & Ht).
  - by eapply query_opts_keeps_ctx, call_wire_opts.
  - apply wire_reader_valid.
  - by rewrite wire_start_net.
  - rewrite Ht in Hf. destruct Hf as [err' Hf]. by eexists _, _.
Qed.

Lemma callCtx_empty_body fuel ctx c (s0 : State Client) w resp s' :
  expects_json c = true ->
  call_wire c (self s0) = Ok w ->
  transport fuel ctx w s0 = Returns (Ok resp) s' ->
  empty_success resp ->
  callCtx fuel ctx c s0 = Returns (Err (empty_body_error c)) s'.
Proof.
  intros Hj Hw Ht (Hs & Hb & He).
  destruct resp as [status cookies body bodyErr]. cbn in Hs, Hb, He. subst.
  destruct c; try discriminate Hj; injection Hw as <-;
    cbv beta iota zeta delta
      [transport get_query wire_body wire_method wire_endpoint wire_contentType wire_opts
       info_query] in Ht;
    cbv beta iota zeta delta
      [callCtx returning TorrentsGetTagsCtx TorrentsInfoCtx TorrentsTrackersCtx
       TorrentsPropertiesCtx TorrentsGetAllTagsCtx SyncMainDataCtx SyncTorrentPeersCtx
       doGetCtx bind];
    rewrite Ht;
    cbn [StatusCode Response_ReadAll RespBody RespBodyErr negb Z.eqb http_StatusOK
         Pos.eqb String.length Nat.eqb ret fst snd];
    unfold Unmarshal_TorrentInfos, Unmarshal_TrackerInfos, Unmarshal_strings,
      Unmarshal_MainData, Unmarshal_TorrentPeers, result_bind;
    rewrite ?json_parse_empty; reflexivity.
Qed.

Lemma callCtx_delete_requests fuel ctx c (s0 : State Client) base e :
  url_Parse (baseURL (self s0)) = Ok base ->
  e ∈ new_requests s0 (final_state (callCtx fuel ctx c s0)) ->
  Path (URL e.2) = Path (api_url base delete_endpoint) ->
  exists infohash, c = CallTorrentsDelete infohash /\ Body e.2 = Some (delete_form infohash).
Proof.
  intros Hbase He Hpath. pose proof (callCtx_requests fuel ctx c s0) as Hall.
  destruct (call_wire c (self s0)) as [w|] eqn:Hw.
  2:{ rewrite Hall in He. by apply elem_of_nil in He. }
  rewrite Forall_forall in Hall. destruct (Hall e He) as [Hs|Hl].
  - destruct (sent_for_fields _ _ _ _ _ _ _ _ _ (call_wire_opts _ _ _ Hw) Hbase Hs)
      as (_ & Hp & _ & Hb).
    rewrite Hp in Hpath. apply api_url_endpoint in Hpath.
    destruct c; cbn in Hw; unfold add_wire in Hw; repeat case_match; simplify_eq;
      try discriminate Hpath.
    eexists. split; [done|]. rewrite Hb. cbn. by rewrite delete_form_encoded.
  - destruct (sent_for_fields _ _ _ _ _ _ _ _ _ ltac:(by exists []) Hbase Hl) as (_ & Hp & _).
    rewrite Hp in Hpath. by apply api_url_endpoint in Hpath.
Qed.

Lemma wire_reader_sound w (s0 : State Client) a :
  wire_reader w s0 = Some a ->
  exists rd, readers (wire_start w s0) !! a = Some rd /\ failure rd = None.
Proof.
  unfold wire_reader, wire_start. destruct (wire_body w); [|done]. intros [= <-].
  cbn. rewrite lookup_app_r, Nat.sub_diag by done. by eexists.
Qed.

(** The first request of a method is the one its endpoint asks for. *)
Lemma callCtx_first fuel ctx c (s0 : State Client) w base req :
  call_wire c (self s0) = Ok w ->
  url_Parse (baseURL (self s0)) = Ok base ->
  build ctx (wire_method w) (api_url base (wire_endpoint w)) (wire_body w)
        (wire_contentType w) (wire_opts w) = Ok req ->
  exists rest,
    new_requests s0 (final_state (callCtx (S fuel) ctx c s0))
    = (world (net s0), Client_send_request (client (self s0)) req) :: rest.
Proof.
  intros Hw Hbase Hreq. rewrite callCtx_final, Hw, transport_unfold.
  destruct (doRequestCtx_first fuel ctx (wire_method w) (wire_endpoint w) (wire_reader w s0)
              (wire_contentType w) (wire_opts w) (wire_start w s0) base req) as [rest Hrest].
  - by rewrite wire_start_self.
  - apply wire_reader_sound.
  - by rewrite wire_reader_pending.
  - exists rest. unfold new_requests in *.
    by rewrite wire_start_net, wire_start_self in Hrest.
Qed.

Lemma final_state_returning {S A} (f : A -> Value) (m : M S (result A)) s :
  final_state (returning f m s) = final_state (m s).
Proof. unfold returning, bind. by destruct (m s). Qed.

(** Every request of a method carries the context of the call. *)
Lemma callCtx_requests_ctx fuel ctx c (s0 : State Client) :
  Forall (fun e => ReqCtx e.2 = ctx)
         (new_requests s0 (final_state (callCtx fuel ctx c s0))).
Proof.
  pose proof (callCtx_requests fuel ctx c s0) as Hall.
  destruct (call_wire c (self s0)) as [w|] eqn:Hw; [|by rewrite Hall].
  eapply Forall_impl; [exact Hall|]. intros e [Hs|Hl].
  - destruct (sent_for_parsed _ _ _ _ _ _ _ _ Hs) as [base Hbase].
    by destruct (sent_for_fields _ _ _ _ _ _ _ _ _ (call_wire_opts _ _ _ Hw) Hbase Hs).
  - destruct (sent_for_parsed _ _ _ _ _ _ _ _ Hl) as [base Hbase].
    by destruct (sent_for_fields _ _ _ _ _ _ _ _ _ ltac:(by exists []) Hbase Hl).
Qed.

Ltac callCtx_unfold :=
  cbv beta iota zeta delta
    [callCtx returning AuthLoginCtx AuthLoginCtx_body TorrentsExportCtx
     TorrentsAddCtx TorrentsAddParamsCtx TorrentsDeleteCtx SetForceStartCtx
     TorrentsDownloadCtx TorrentsGetTagsCtx TorrentsInfoCtx TorrentsTrackersCtx
     TorrentsPropertiesCtx TorrentsAddTagsCtx TorrentsRemoveTagsCtx
     TorrentsGetAllTagsCtx TorrentsCreateTagsCtx TorrentsDeleteTagsCtx
     doTagOperationCtx SyncMainDataCtx SyncTorrentPeersCtx
     doPostValuesCtx doPostCtx doGetCtx doPostResponseCtx info_query login_form
     bind get_self new_reader ret set_if nonempty negb String.eqb].

Ltac wire_unfold H :=
  cbv beta iota zeta delta
    [transport post_form get_query wire_body wire_method wire_endpoint
     wire_contentType wire_opts info_query login_form
     set_if nonempty negb String.eqb] in H.

Lemma callCtx_status_error fuel ctx c (s0 : State Client) w resp s' :
  call_wire c (self s0) = Ok w ->
  transport fuel ctx w s0 = Returns (Ok resp) s' ->
  StatusCode resp <> http_StatusOK ->
  RespBodyErr resp = None ->
  callCtx fuel ctx c s0 = Returns (Err (error_prefix c +:+ status_error c resp)) s'.
Proof.
  intros Hw Ht Hs He. apply Z.eqb_neq in Hs.
  destruct resp as [status cookies body bodyErr]. cbn in Hs, He. subst bodyErr.
  destruct c; cbv beta iota delta [call_wire add_wire] in Hw;
    try (match type of Hw with
         | context [buildTorrentAddForm ?b ?p] =>
             destruct (buildTorrentAddForm b p) as [[bytes ct]|] eqn:Hform;
             [|discriminate Hw]
         end);
    injection Hw as <-; wire_unfold Ht; callCtx_unfold; rewrite ?Hform;
    cbv beta iota zeta delta [bind new_reader ret get_self];
    rewrite Ht;
    cbn [StatusCode Response_ReadAll RespBody RespBodyErr fst snd ret];
    rewrite Hs; reflexivity.
Qed.

Lemma callCtx_plain_success fuel ctx c (s0 : State Client) w resp s' :
  expects_json c = false ->
  call_wire c (self s0) = Ok w ->
  transport fuel ctx w s0 = Returns (Ok resp) s' ->
  StatusCode resp = http_StatusOK ->
  RespBodyErr resp = None ->
  callCtx fuel ctx c s0 = Returns (Ok (plain_value c resp)) s'.
Proof.
  intros Hj Hw Ht Hs He.
  destruct resp as [status cookies body bodyErr]. cbn in Hs, He. subst status bodyErr.
  destruct c; try discriminate Hj; cbv beta iota delta [call_wire add_wire] in Hw;
    try (match type of Hw with
         | context [buildTorrentAddForm ?b ?p] =>
             destruct (buildTorrentAddForm b p) as [[bytes ct]|] eqn:Hform;
             [|discriminate Hw]
         end);
    injection Hw as <-; wire_unfold Ht; callCtx_unfold; rewrite ?Hform;
    cbv beta iota zeta delta [bind new_reader ret get_self];
    rewrite Ht; reflexivity.
Qed.

Lemma callCtx_bad_base fuel ctx c (s0 : State Client) e :
  url_Parse (baseURL (self s0)) = Err e ->
  exists err s',
    callCtx (S fuel) ctx c s0 = Returns (Err err) s' /\ new_requests s0 s' = [].
Proof.
  intros Hbase. pose proof (callCtx_factors (S fuel) ctx c s0) as Hf.
  destruct (call_wire c (self s0)) as [w|] eqn:Hw.
  2:{ destruct Hf as [err Hf]. eexists _, _. split; [exact Hf|].
      apply new_requests_app. by rewrite app_nil_r. }
  unfold factors in Hf. rewrite transport_unfold in Hf.
  rewrite (doRequestCtx_bad_base _ _ _ _ _ _ _ _ e) in Hf by (by rewrite wire_start_self).
  destruct Hf as [err Hf]. eexists _, _. split; [exact Hf|].
  apply new_requests_app. by rewrite wire_start_net, app_nil_r.
Qed.

Lemma callCtx_unreachable fuel ctx c (s0 : State Client) :
  unreachable ->
  exists err s',
    callCtx (S fuel) ctx c s0 = Returns (Err err) s' /\ length (new_requests s0 s') <= 1.
Proof.
  intros Hu. pose proof (callCtx_factors (S fuel) ctx c s0) as Hf.
  destruct (call_wire c (self s0)) as [w|] eqn:Hw.
  2:{ destruct Hf as [err Hf]. eexists _, _. split; [exact Hf|].
      rewrite (new_requests_app _ _ []) by (by rewrite app_nil_r). cbn. lia. }
  unfold factors in Hf. rewrite transport_unfold in Hf.
  destruct (doRequestCtx_unreachable fuel ctx (wire_method w) (wire_endpoint w)
              (wire_reader w s0) (wire_contentType w) (wire_opts w) (wire_start w s0) Hu
              (wire_reader_valid w s0)) as (err & s' & Ht & Hlen).
  rewrite Ht in Hf. destruct Hf as [err' Hf]. eexists _, _. split; [exact Hf|].
  unfold new_requests in *. by rewrite wire_start_net in Hlen.
Qed.

Lemma TorrentsInfoCtx_first fuel ctx params (s0 : State Client) base :
  url_Parse (baseURL (self s0)) = Ok base ->
  exists rest,
    new_requests s0 (final_state (TorrentsInfoCtx (S fuel) ctx params s0))
    = (world (net s0),
       Client_send_request (client (self s0))
         (mkRequest ctx "GET"
            (mkURL (Origin base) (Path (api_url base "/api/v2/torrents/info"))
                   (url_Values_Encode (info_query params)))
            "" [] None)) :: rest.
Proof.
  intros Hbase.
  rewrite <- (final_state_returning VTorrents).
  change (returning _ _ s0) with (callCtx (S fuel) ctx (CallTorrentsInfo params) s0).
  by eapply callCtx_first.
Qed.

(** The first request of a method carries the cookies of the jar, and no
    other. *)
Lemma callCtx_first_cookies fuel ctx c (s0 : State Client) w base :
  call_wire c (self s0) = Ok w ->
  url_Parse (baseURL (self s0)) = Ok base ->
  exists e rest,
    new_requests s0 (final_state (callCtx (S fuel) ctx c s0)) = e :: rest
    /\ Cookies e.2 = jar_cookies (client (self s0)).
Proof.
  intros Hw Hbase.
  destruct (call_wire_build c (self s0) w ctx (api_url base (wire_endpoint w)) Hw)
    as [req Hreq].
  destruct (callCtx_first fuel ctx c s0 w base req Hw Hbase Hreq) as [rest Hrest].
  eexists _, rest. split; [exact Hrest|]. cbn [snd].
  rewrite Client_send_request_cookies.
  destruct (call_wire_opts _ _ _ Hw) as [qs Hqs]. rewrite Hqs in Hreq.
  by destruct (build_queries _ _ _ _ _ _ _ Hreq) as (_ & _ & _ & -> & _).
Qed.

(** After a login answered with status 200, the first request of the next
    method carries, under each name, the value the answer set last, or else
    the value the jar held. *)
Lemma loginCtx_then_call fuel fuel' ctx ctx' base (s : State Client) resp jar :
  url_Parse (baseURL (self s)) = Ok base ->
  login_never_forbidden (self s) ->
  Jar (client (self s)) = Some jar ->
  answer (world (net s),
          Client_send_request (client (self s)) (login_request ctx base (self s))) = Ok resp ->
  StatusCode resp = http_StatusOK ->
  exists s1,
    AuthLoginCtx (S fuel) ctx s = Returns (Ok tt) s1
    /\ forall c w,
        call_wire c (self s1) = Ok w ->
        exists e rest,
          new_requests s1 (final_state (callCtx (S fuel') ctx' c s1)) = e :: rest
          /\ forall name,
              jar_get name (Cookies e.2)
              = cookie_value name (SetCookies resp) (jar_get name jar).
Proof.
  intros Hbase HNF Hjar Hans H200.
  rewrite (login_step fuel ctx base s Hbase HNF).
  change (Do_result (login_request ctx base (self s)) (login_state s))
    with (answer (world (net s),
                  Client_send_request (client (self s)) (login_request ctx base (self s)))).
  rewrite Hans. unfold login_result.
  rewrite H200. cbn [Z.eqb http_StatusOK Pos.eqb negb].
  eexists. split; [reflexivity|].
  intros c w Hw.
  destruct (callCtx_first_cookies fuel' ctx' c _ w base Hw) as (e & rest & Hnew & Hc).
  { exact Hbase. }
  exists e, rest. split; [exact Hnew|]. intros name. rewrite Hc.
  cbn. unfold Do_result. cbn.
  change (RoundTrip _ _).1
    with (answer (world (net s),
                  Client_send_request (client (self s)) (login_request ctx base (self s)))).
  rewrite Hans. unfold Client_store_cookies, jar_cookies. rewrite Hjar. cbn.
  apply jar_get_SetCookies.
Qed.

(** The first request of each method carries the form or the query of the
    method. *)
Lemma callCtx_carries fuel ctx c (s0 : State Client) base text :
  url_Parse (baseURL (self s0)) = Ok base ->
  expected_text false (username (self s0)) (password (self s0)) c = Some text ->
  exists e rest,
    new_requests s0 (final_state (callCtx (S fuel) ctx c s0)) = e :: rest
    /\ ReqCtx e.2 = ctx
    /\ carries c base text e.2.
Proof.
  intros Hbase Htext.
  destruct (call_wire_total c (self s0)) as [w Hw].
  destruct (call_wire_build c (self s0) w ctx (api_url base (wire_endpoint w)) Hw)
    as [req Hreq].
  destruct (callCtx_first fuel ctx c s0 w base req Hw Hbase Hreq) as [rest Hrest].
  eexists _, rest. split; [exact Hrest|]. cbn [snd].
  assert (ReqCtx req = ctx /\ carries c base text req) as Hgoal.
  2:{ unfold carries, Client_send_request in *. by destruct (Jar _), (is_get c). }
  unfold carries.
  destruct c; cbn in Htext; try discriminate Htext;
    cbv beta iota delta [call_wire] in Hw; injection Hw as <-;
    cbv beta iota delta [post_form get_query wire_method wire_endpoint wire_body
                         wire_contentType wire_opts] in Hreq;
    match type of Hreq with
    | build _ _ _ _ _ [] = _ =>
        destruct (build_queries _ _ _ _ _ [] _ Hreq) as (Hc & Hp & Hct & _ & Hb);
        destruct (build_wire _ _ _ _ _ [] _ Hreq) as [Hm Hr]
    | build _ _ _ _ _ [withQuery ?q] = _ =>
        destruct (build_queries _ _ _ _ _ [q] _ Hreq) as (Hc & Hp & Hct & _ & Hb);
        destruct (build_wire _ _ _ _ _ [q] _ Hreq) as [Hm Hr]
    end;
    cbn [is_get expected_endpoint last] in *;
    rewrite ?login_form_text, ?encode_one, ?encode_singleton, ?delete_form_encoded,
      ?force_start_form_text, ?peers_query_text, ?tags_query_text, ?encode_empty in *;
    repeat case_match; simplify_eq; try done.
Qed.

(** A body that is not a JSON document is an error of every method that
    decodes. *)
Lemma callCtx_syntax_error fuel ctx c (s0 : State Client) w resp s' err :
  expects_json c = true ->
  call_wire c (self s0) = Ok w ->
  transport fuel ctx w s0 = Returns (Ok resp) s' ->
  StatusCode resp = http_StatusOK ->
  RespBodyErr resp = None ->
  RespBody resp <> "" ->
  json_parse (RespBody resp) = Err err ->
  callCtx fuel ctx c s0 = Returns (Err (syntax_error c err)) s'.
Proof.
  intros Hj Hw Ht Hs He Hb Hp.
  destruct resp as [status cookies body bodyErr]. cbn in Hs, Hb, He, Hp. subst.
  apply length_nonempty in Hb.
  destruct c; try discriminate Hj; injection Hw as <-;
    cbv beta iota zeta delta
      [transport get_query wire_body wire_method wire_endpoint wire_contentType wire_opts
       info_query] in Ht;
    cbv beta iota zeta delta
      [callCtx returning TorrentsGetTagsCtx TorrentsInfoCtx TorrentsTrackersCtx
       TorrentsPropertiesCtx TorrentsGetAllTagsCtx SyncMainDataCtx SyncTorrentPeersCtx
       doGetCtx bind];
    rewrite Ht;
    cbn [StatusCode Response_ReadAll RespBody RespBodyErr negb Z.eqb http_StatusOK
         Pos.eqb ret fst snd];
    rewrite ?Hb;
    unfold Unmarshal_TorrentInfos, Unmarshal_TrackerInfos, Unmarshal_strings,
      Unmarshal_MainData, Unmarshal_TorrentPeers, Unmarshal_TorrentsProperties,
      TorrentsProperties_UnmarshalJSON, result_bind;
    rewrite ?Hp; reflexivity.
Qed.

(** A response with status 200 whose body cannot be read is an error of
    every method but the login. *)
Lemma callCtx_read_error fuel ctx c (s0 : State Client) w resp s' err :
  c <> CallAuthLogin ->
  call_wire c (self s0) = Ok w ->
  transport fuel ctx w s0 = Returns (Ok resp) s' ->
  StatusCode resp = http_StatusOK ->
  RespBodyErr resp = Some err ->
  callCtx fuel ctx c s0 = Returns (Err (error_prefix c +:+ read_error c err)) s'.
Proof.
  intros Hc Hw Ht Hs He.
  destruct resp as [status cookies body bodyErr]. cbn in Hs, He. subst.
  destruct c; try done; cbv beta iota delta [call_wire add_wire] in Hw;
    try (match type of Hw with
         | context [buildTorrentAddForm ?b ?p] =>
             destruct (buildTorrentAddForm b p) as [[bytes ct]|] eqn:Hform;
             [|discriminate Hw]
         end);
    injection Hw as <-; wire_unfold Ht; callCtx_unfold; rewrite ?Hform;
    cbv beta iota zeta delta [bind new_reader ret get_self];
    rewrite Ht;
    cbn [StatusCode Response_ReadAll RespBody RespBodyErr fst snd ret negb Z.eqb
         http_StatusOK Pos.eqb];
    reflexivity.
Qed.

(** A method ends when its call of the pipeline does. *)
Lemma callCtx_ends fuel ctx c (s0 : State Client) w :
  call_wire c (self s0) = Ok w ->
  ends (transport fuel ctx w s0) -> ends (callCtx fuel ctx c s0).
Proof.
  destruct c;
    cbv beta iota zeta delta
      [callCtx call_wire add_wire post_form get_query transport
       wire_body wire_method wire_endpoint wire_contentType wire_opts
       returning AuthLoginCtx AuthLoginCtx_body TorrentsExportCtx
       TorrentsAddCtx TorrentsAddParamsCtx TorrentsDeleteCtx SetForceStartCtx
       TorrentsDownloadCtx TorrentsGetTagsCtx TorrentsInfoCtx TorrentsTrackersCtx
       TorrentsPropertiesCtx TorrentsAddTagsCtx TorrentsRemoveTagsCtx
       TorrentsGetAllTagsCtx TorrentsCreateTagsCtx TorrentsDeleteTagsCtx
       doTagOperationCtx SyncMainDataCtx SyncTorrentPeersCtx
       doPostValuesCtx doPostCtx doGetCtx doPostResponseCtx info_query login_form
       bind get_self new_reader decode_step panic ret ends
       set_if nonempty negb String.eqb];
    try (match goal with |- context [buildTorrentAddForm ?b ?p] =>
           destruct (buildTorrentAddForm b p) as [[? ?]|]; [|done] end);
    intros [= <-]; cbv beta iota;
    match goal with
    | |- context [doRequestCtx ?f ?c ?m ?e ?b ?ct ?o ?s] =>
        destruct (doRequestCtx f c m e b ct o s) as [[resp|err] s'|msg s'|s']
    end;
    cbv beta iota; intros Hends; repeat case_match; simplify_eq; done.
Qed.

(** When the login is never forbidden, a method ends, and it has sent
    three requests at most. *)
Lemma callCtx_bounded fuel ctx c (s0 : State Client) :
  login_never_forbidden (self s0) ->
  ends (callCtx (S (S fuel)) ctx c s0)
  /\ length (new_requests s0 (final_state (callCtx (S (S fuel)) ctx c s0))) <= 3.
Proof.
  intros HNF. destruct (call_wire_total c (self s0)) as [w Hw].
  pose proof (callCtx_ends (S (S fuel)) ctx c s0 w Hw) as Hends.
  rewrite callCtx_final, Hw. rewrite transport_unfold in *.
  destruct (retry_once_ctx fuel ctx (wire_method w) (wire_endpoint w) (wire_reader w s0)
              (wire_contentType w) (wire_opts w) (wire_start w s0))
    as (r & s' & Hrun & Hshape).
  - by rewrite wire_start_self.
  - apply wire_reader_valid.
  - rewrite Hrun in *. split; [by apply Hends|]. cbn [final_state].
    unfold new_requests in *. rewrite wire_start_net in Hshape.
    destruct (drop _ _) as [|e1 [|e2 [|e3 [|e4 l]]]]; cbn; [lia..|done].
Qed.

(** A method other than the login returns an error when the body of the
    response cannot be read to its end, whatever the status. *)
Lemma callCtx_unreadable fuel ctx c (s0 : State Client) w resp s' :
  c <> CallAuthLogin ->
  call_wire c (self s0) = Ok w ->
  transport fuel ctx w s0 = Returns (Ok resp) s' ->
  RespBodyErr resp <> None ->
  exists err, callCtx fuel ctx c s0 = Returns (Err err) s'.
Proof.
  intros Hc Hw Ht He.
  destruct resp as [status cookies body [err|]]; [clear He|done].
  destruct c; try done; cbv beta iota delta [call_wire add_wire] in Hw;
    try (match type of Hw with
         | context [buildTorrentAddForm ?b ?p] =>
             destruct (buildTorrentAddForm b p) as [[bytes ct]|] eqn:Hform;
             [|discriminate Hw]
         end);
    injection Hw as <-; wire_unfold Ht; callCtx_unfold; rewrite ?Hform;
    cbv beta iota zeta delta [bind new_reader ret get_self];
    rewrite Ht;
    cbn [StatusCode Response_ReadAll RespBody RespBodyErr fst snd ret];
    destruct (status =? http_StatusOK)%Z; cbn [negb]; by eexists.
Qed.

(** The context ended before or during a request of a method other than
    the login: with a unit of fuel more the method returns, an error. *)
Lemma callCtx_cut_short fuel ctx c (s0 : State Client) e :
  honours_cancellation -> aborts_in_flight ->
  c <> CallAuthLogin ->
  e ∈ new_requests s0 (final_state (callCtx fuel ctx c s0)) ->
  cut_short ctx e ->
  exists err s', callCtx (S fuel) ctx c s0 = Returns (Err err) s'.
Proof.
  intros Hh Ha Hc He Hcut. destruct (call_wire_total c (self s0)) as [w Hw].
  rewrite callCtx_final, Hw, transport_unfold in He.
  assert (new_requests s0 = new_requests (wire_start w s0)) as Hn.
  { unfold new_requests. by rewrite wire_start_net. }
  rewrite Hn in He.
  destruct (doRequestCtx_cut_short fuel Hh _ _ _ _ _ _ _ e
              (query_opts_keeps_ctx _ (call_wire_opts _ _ _ Hw)) He Hcut)
    as (r & s' & Hrun & Hl).
  rewrite <- transport_unfold in Hrun.
  pose proof (callCtx_factors (S fuel) ctx c s0) as Hf. rewrite Hw, Hrun in Hf.
  destruct r as [resp|err]; [|destruct Hf as [err' ->]; by eexists _, _].
  destruct Hl as (req & w' & Hctx & Hrt & Hdone).
  destruct (callCtx_unreadable (S fuel) ctx c s0 w resp s' Hc Hw Hrun) as [err ->];
    [|by eexists _, _].
  apply (Ha req w'); rewrite Hrt; [done|]. by rewrite Hctx.
Qed.

(** A method that returns a value sent every request while its context was
    live, and, unless it is the login, had every answer complete while the
    context was live. *)
Lemma callCtx_live fuel ctx c (s0 : State Client) v s' :
  honours_cancellation -> aborts_in_flight ->
  callCtx fuel ctx c s0 = Returns (Ok v) s' ->
  Forall (fun e => Context_done e.1 ctx = false
                   /\ (c <> CallAuthLogin -> Context_done (completed e) ctx = false))
         (new_requests s0 s').
Proof.
  intros Hh Ha Hrun.
  destruct (callCtx_clean fuel ctx c s0 v s' Hh Hrun) as (new & Hsent & Hall).
  rewrite (new_requests_app _ _ _ Hsent).
  apply Forall_forall. intros e He. split; [by eapply Forall_forall in Hall|].
  intros Hc. destruct (Context_done (completed e) ctx) eqn:Hd; [exfalso|done].
  destruct (call_wire_total c (self s0)) as [w Hw].
  pose proof (callCtx_factors fuel ctx c s0) as Hf. rewrite Hw, Hrun in Hf.
  destruct (transport fuel ctx w s0) as [[resp|err] s1|msg s1|s1] eqn:Ht;
    cbn in Hf; [subst s1|by destruct Hf|done|done].
  rewrite transport_unfold in Ht.
  assert (e ∈ new_requests (wire_start w s0)
                (final_state (doRequestCtx fuel ctx (wire_method w) (wire_endpoint w)
                                (wire_reader w s0) (wire_contentType w) (wire_opts w)
                                (wire_start w s0)))) as He'.
  { rewrite Ht. cbn. unfold new_requests. rewrite wire_start_net.
    fold (new_requests s0 s'). by rewrite (new_requests_app _ _ _ Hsent). }
  destruct (doRequestCtx_cut_short fuel Hh _ _ _ _ _ _ _ e
              (query_opts_keeps_ctx _ (call_wire_opts _ _ _ Hw)) He' (or_intror Hd))
    as (r & s'' & Hrun' & Hl).
  rewrite fuel_step, Ht in Hrun' by (by rewrite Ht). injection Hrun' as <- <-.
  destruct Hl as (req & w' & Hctx & Hrt & Hdone).
  rewrite <- transport_unfold in Ht.
  destruct (callCtx_unreadable fuel ctx c s0 w resp s' Hc Hw Ht) as [err Herr];
    [|congruence].
  apply (Ha req w'); rewrite Hrt; [done|]. by rewrite Hctx.
Qed.
End Calls.

Section Delete.
Context `{RoundTripper}.

Lemma TorrentsDeleteCtx_first fuel ctx infohash (s0 : State Client) base :
  url_Parse (baseURL (self s0)) = Ok base ->
  exists rest,
    new_requests s0 (final_state (TorrentsDeleteCtx (S fuel) ctx infohash s0))
    = (world (net s0),
       Client_send_request (client (self s0))
         (mkRequest ctx "POST" (api_url base delete_endpoint) form_urlencoded []
                    (Some (delete_form infohash)))) :: rest.
Proof.
  intros Hbase.
  rewrite <- (final_state_returning (fun _ => VNone)).
  change (returning _ _ s0)
    with (@callCtx _ reference_json (S fuel) ctx (CallTorrentsDelete infohash) s0).
  eapply (@callCtx_first _ reference_json); [reflexivity|exact Hbase|].
  cbn. by rewrite delete_form_encoded.
Qed.
End Delete.
End CtxProofs.

(** * The client with the [sid] field *)

Module SidProofs.
Import SidClient SidSpec CtxProofs.
Section S.
Context `{RoundTripper}.


Lemma doRequest_S fuel method endpoint body ct opts :
  doRequest (S fuel) method endpoint body ct opts
  = (c <- get_self;;
     match url_Parse (baseURL c) with
     | Err err => ret (Err ("failed to parse base URL: " +:+ err))
     | Ok base =>
         rb <- read_body body;;
         match rb with
         | Err err => ret (Err err)
         | Ok bodyBuffer =>
             attempt fuel method (api_url base endpoint) bodyBuffer ct opts
         end
     end).
Proof. reflexivity. Qed.

Lemma AuthLogin_unfold fuel :
  AuthLogin fuel
  = (c <- get_self;;
     body <- new_reader (login_form (username c) (password c));;
     r <- doRequest fuel "POST" login_endpoint (Some body) form_urlencoded [];;
     match r with
     | Err err => ret (Err ("AuthLogin error: " +:+ err))
     | Ok resp =>
         if negb (StatusCode resp =? http_StatusOK)%Z then
           ret (Err ("AuthLogin error (" +:+ strconv_Itoa (StatusCode resp) +:+ "): "
                     +:+ (Response_ReadAll resp).1))
         else
           match jar_get "SID" (SetCookies resp) with
           | Some v => _ <- store_sid v;; ret (Ok tt)
           | None => ret (Ok tt)
           end
     end).
Proof. reflexivity. Qed.

Lemma sid_makeRequest_build method apiURL bodyBuffer ct opts (s : State Client) :
  makeRequest method apiURL bodyBuffer ct opts s
  = Returns (build (sid (self s)) method apiURL bodyBuffer ct opts) s.
Proof.
  unfold makeRequest, build, bind, get_self.
  by destruct (http_NewRequest method apiURL bodyBuffer).
Qed.

Lemma sid_Do_unfold req (s : State Client) :
  Do req s = Returns (Do_result req s) (Do_state req s).
Proof.
  unfold Do, Do_state, Do_result, http_Client_Do.
  by destruct (RoundTrip (Client_send_request (client (self s)) req) (world (net s))).
Qed.

Lemma sid_sent_for_config c c' method endpoint bodyBuffer ct opts req :
  baseURL c = baseURL c' ->
  sent_for c method endpoint bodyBuffer ct opts req ->
  sent_for c' method endpoint bodyBuffer ct opts req.
Proof. unfold sent_for. by intros <-. Qed.

Lemma sid_login_sent_config c c' req :
  username c = username c' -> password c = password c' -> baseURL c = baseURL c' ->
  login_sent c req -> login_sent c' req.
Proof. unfold login_sent. intros <- <- Hb. by apply sid_sent_for_config. Qed.

Lemma sid_inv_refl method endpoint body ct opts s0 :
  doRequest_inv method endpoint body ct opts s0 s0.
Proof.
  split; try done.
  - exists []. by rewrite app_nil_r.
  - auto.
Qed.

Lemma sid_inv_Do method endpoint body ct opts base sid req s0 s1 :
  url_Parse (baseURL (self s0)) = Ok base ->
  build sid method (api_url base endpoint)
        (body ≫= fun a => pending <$> readers s0 !! a) ct opts = Ok req ->
  doRequest_inv method endpoint body ct opts s0 s1 ->
  ready body s0 s1 ->
  doRequest_inv method endpoint body ct opts s0 (Do_state req s1)
  /\ ready body s0 (Do_state req s1).
Proof.
  intros Hbase Hreq [Hcfg (new & Hsent & Hall & Hnew) Hlen Hoth Hbody] Hready.
  split; [split|]; try done.
  exists (new ++ [(world (net s1), Client_send_request (client (self s1)) req)]).
  simpl. rewrite Hsent, <- app_assoc. split; [done|]. split.
  - apply Forall_app. split; [done|]. apply Forall_singleton. left.
    by exists base, (client (self s1)), sid, req.
  - intros _. apply Hready.
Qed.

Lemma sid_inv_sid method endpoint body ct opts v s0 s :
  doRequest_inv method endpoint body ct opts s0 s -> ready body s0 s ->
  doRequest_inv method endpoint body ct opts s0 (sid_state v s)
  /\ ready body s0 (sid_state v s).
Proof. intros [Hcfg Hsent Hlen Hoth Hbody] Hready. split; [split|]; done. Qed.

Lemma sid_inv_login method endpoint body ct opts s0 s2 s4 :
  doRequest_inv method endpoint body ct opts s0 s2 ->
  ready body s0 s2 ->
  doRequest_inv "POST" login_endpoint (Some (length (readers s2))) form_urlencoded []
    (mkState (self s2)
       (readers s2 ++ [strings_NewReader (login_form (username (self s2))
                                                     (password (self s2)))])
       (net s2)) s4 ->
  doRequest_inv method endpoint body ct opts s0 s4 /\ ready body s0 s4.
Proof.
  intros [Hcfg (new & Hsent & Hall & Hnew) Hlen Hoth Hbody] Hready
         [Hcfg' (new' & Hsent' & Hall' & Hnew') Hlen' Hoth' Hbody'].
  destruct Hcfg as (Hu & Hp & Hb). destruct Hcfg' as (Hu' & Hp' & Hb'). simpl in *.
  assert (forall i, i < length (readers s2) ->
                    readers s4 !! i = readers s2 !! i) as Hkeep.
  { intros i Hi. rewrite Hoth'.
    - by apply lookup_app_l.
    - rewrite length_app. lia.
    - intros [= E]. lia. }
  assert (ready body s0 s4) as Hready4.
  { intros a rd Ha Hrd. destruct (Hready a rd Ha Hrd) as [Hf Hd]. split; [done|].
    rewrite Hkeep; [done|]. by apply lookup_lt_Some in Hd. }
  split; [split|done].
  - repeat split; congruence.
  - exists (new ++ new'). rewrite Hsent', Hsent, <- app_assoc. split; [done|]. split.
    + apply Forall_app. split; [done|].
      eapply Forall_impl; [exact Hall'|]. intros e He. right.
      assert (login_sent (self s2) e.2) as Hl.
      { destruct He as [He|He]; [|done]. unfold login_sent.
        cbn [mbind option_bind] in He.
        rewrite lookup_app_r, Nat.sub_diag in He by done. exact He. }
      eapply sid_login_sent_config; [..|exact Hl]; done.
    + intros _. apply Hready4.
  - rewrite length_app in Hlen'. simpl in Hlen'. lia.
  - intros i Hi Hne. rewrite Hkeep by lia. by apply Hoth.
  - intros a rd Ha Hrd. right. by apply Hready4.
Qed.

Lemma sid_inv_read method endpoint a ct opts rd s0 :
  readers s0 !! a = Some rd ->
  doRequest_inv method endpoint (Some a) ct opts s0
    (mkState (self s0) (<[a := Reader_drained rd]> (readers s0)) (net s0)).
Proof.
  intros Ha. pose proof (lookup_lt_Some _ _ _ Ha) as Hlt.
  split; simpl; try done.
  - exists []. by rewrite app_nil_r.
  - by rewrite length_insert.
  - intros i _ Hne. apply list_lookup_insert_ne. intros E. apply Hne. by rewrite E.
  - intros a' rd' [= <-] Hrd'. right.
    rewrite list_lookup_insert_eq by done. congruence.
Qed.

Lemma sid_attempt_inv fuel method endpoint body ct opts base s0 s1 :
  (forall method endpoint body ct opts s0,
      doRequest_inv method endpoint body ct opts s0
        (final_state (doRequest fuel method endpoint body ct opts s0))) ->
  url_Parse (baseURL (self s0)) = Ok base ->
  doRequest_inv method endpoint body ct opts s0 s1 ->
  ready body s0 s1 ->
  doRequest_inv method endpoint body ct opts s0
    (final_state (attempt fuel method (api_url base endpoint)
                    (body ≫= fun a => pending <$> readers s0 !! a) ct opts s1)).
Proof.
  intros IH Hbase Hinv1 Hready1. unfold attempt.
  unfold bind at 1. rewrite sid_makeRequest_build.
  destruct (build _ method (api_url base endpoint) _ ct opts) as [req|] eqn:Hreq;
    [|exact Hinv1].
  unfold bind at 1. rewrite sid_Do_unfold.
  destruct (sid_inv_Do _ _ _ _ _ _ _ _ _ _ Hbase Hreq Hinv1 Hready1) as [Hinv2 Hready2].
  destruct (Do_result req s1) as [resp|]; [|exact Hinv2].
  destruct (StatusCode resp =? http_StatusForbidden)%Z; [|exact Hinv2].
  unfold bind at 1. rewrite AuthLogin_unfold.
  unfold bind at 1, get_self. unfold bind at 1, new_reader. unfold bind at 1.
  match goal with
  | |- context [doRequest fuel "POST" login_endpoint ?b form_urlencoded [] ?s3] =>
      pose proof (IH "POST" login_endpoint b form_urlencoded [] s3) as Hin;
      destruct (doRequest fuel "POST" login_endpoint b form_urlencoded [] s3)
        as [r s4|msg s4|s4]
  end; cbn [final_state] in Hin;
    destruct (sid_inv_login _ _ _ _ _ _ _ _ Hinv2 Hready2 Hin) as [Hinv4 Hready4];
    try exact Hinv4.
  destruct r as [resp'|err]; [|exact Hinv4].
  destruct (negb (StatusCode resp' =? http_StatusOK)%Z); [exact Hinv4|].
  assert (forall s5, doRequest_inv method endpoint body ct opts s0 s5 ->
                     ready body s0 s5 ->
            doRequest_inv method endpoint body ct opts s0
              (final_state
                 (bind (makeRequest method (api_url base endpoint)
                          (body ≫= fun a => pending <$> readers s0 !! a) ct opts)
                       (fun r => match r with
                                 | Ok req => Do req
                                 | Err err => ret (Err err)
                                 end) s5))) as Hretry.
  { intros s5 Hinv5 Hready5. unfold bind at 1. rewrite sid_makeRequest_build.
    destruct (build (sid (self s5)) method (api_url base endpoint) _ ct opts)
      as [req'|] eqn:Hreq'; [|exact Hinv5].
    rewrite sid_Do_unfold.
    by destruct (sid_inv_Do _ _ _ _ _ _ _ _ _ _ Hbase Hreq' Hinv5 Hready5). }
  destruct (jar_get "SID" (SetCookies resp')) as [v|].
  - unfold bind at 1, store_sid. cbn [ret].
    destruct (sid_inv_sid _ _ _ _ _ v _ _ Hinv4 Hready4) as [Hinv5 Hready5].
    apply (Hretry _ Hinv5 Hready5).
  - cbn [ret]. apply (Hretry _ Hinv4 Hready4).
Qed.

Lemma doRequest_inv_holds fuel :
  forall method endpoint body ct opts s0,
    doRequest_inv method endpoint body ct opts s0
      (final_state (doRequest fuel method endpoint body ct opts s0)).
Proof.
  induction fuel as [|fuel IH]; intros method endpoint body ct opts s0.
  { apply sid_inv_refl. }
  rewrite doRequest_S. unfold bind at 1, get_self.
  destruct (url_Parse (baseURL (self s0))) as [base|] eqn:Hbase; [|apply sid_inv_refl].
  unfold bind at 1. destruct body as [a|]; unfold read_body.
  - unfold bind at 1, read_all.
    destruct (readers s0 !! a) as [rd|] eqn:Ha; [|apply sid_inv_refl].
    unfold io_ReadAll. pose proof (sid_inv_read method endpoint a ct opts rd s0 Ha) as Hinv1.
    destruct (failure rd) eqn:Hf; cbn [ret]; [exact Hinv1|].
    replace (Some (pending rd)) with (Some a ≫= fun a => pending <$> readers s0 !! a)
      by (cbn; by rewrite Ha).
    apply sid_attempt_inv; [exact IH|done|done|].
    intros a' rd' [= <-] Hrd'. assert (rd' = rd) as -> by congruence. split; [done|].
    simpl. apply list_lookup_insert_eq. by apply lookup_lt_Some in Ha.
  - cbn [ret]. change (@None string) with (@None addr ≫= fun a => pending <$> readers s0 !! a).
    apply sid_attempt_inv; [exact IH|done|apply sid_inv_refl|by intros a rd].
Qed.
Lemma sid_build_login sid base u p :
  build sid "POST" (api_url base login_endpoint) (Some (login_form u p)) form_urlencoded []
  = Ok (mkRequest Background "POST" (api_url base login_endpoint) form_urlencoded
          (if nonempty sid then [("SID", sid)] else [])
          (Some (login_form u p))).
Proof. unfold build. cbn. by destruct (nonempty sid). Qed.

Lemma sid_login_step fuel base (s : State Client) :
  url_Parse (baseURL (self s)) = Ok base ->
  login_never_forbidden (self s) ->
  AuthLogin (S fuel) s
  = Returns (login_result (Do_result (login_request base (self s)) (login_state s)))
            (login_store (Do_result (login_request base (self s)) (login_state s))
                         (Do_state (login_request base (self s)) (login_state s))).
Proof.
  intros Hbase HNF. rewrite AuthLogin_unfold.
  unfold bind at 1, get_self. unfold bind at 1, new_reader. unfold bind at 1.
  rewrite doRequest_S. unfold bind at 1, get_self. cbn [self]. rewrite Hbase.
  unfold bind at 1, read_body. unfold bind at 1, read_all. cbn [readers].
  rewrite lookup_app_r, Nat.sub_diag by done.
  cbn [lookup list_lookup io_ReadAll failure strings_NewReader pending ret].
  unfold attempt. unfold bind at 1. rewrite sid_makeRequest_build. cbn [self].
  rewrite sid_build_login.
  unfold bind at 1. rewrite sid_Do_unfold.
  cbn [self net].
  replace (<[length (readers s):=_]> _) with (readers (login_state s)).
  2:{ unfold login_state. cbn [readers].
      by rewrite insert_app_r_alt, Nat.sub_diag by done. }
  change (mkState (self s) (readers (login_state s)) (net s)) with (login_state s).
  fold (login_request base (self s)).
  unfold login_store, login_cookie.
  destruct (Do_result (login_request base (self s)) (login_state s)) as [resp|err] eqn:Hr;
    [|reflexivity].
  assert (StatusCode resp <> http_StatusForbidden) as Hnf.
  { eapply HNF; [exact Hbase| |exact Hr]. by rewrite send_Path. }
  destruct (Z.eqb_spec (StatusCode resp) http_StatusForbidden); [done|].
  cbn [ret login_result Response_ReadAll fst].
  destruct (StatusCode resp =? http_StatusOK)%Z; cbn [negb]; [|reflexivity].
  by destruct (jar_get "SID" (SetCookies resp)).
Qed.

Lemma apply_queries_same qs r1 r2 r1' :
  same_attempt r1 r2 -> apply_opts (map withQuery qs) r1 = Ok r1' ->
  exists r2', apply_opts (map withQuery qs) r2 = Ok r2' /\ same_attempt r1' r2'.
Proof.
  revert r1 r2. induction qs as [|q qs IH]; intros r1 r2 Hs; cbn.
  - intros [= <-]. by exists r2.
  - apply IH. destruct Hs as (? & ? & Hu & ? & ?). unfold same_attempt. cbn.
    by rewrite Hu.
Qed.

Lemma sid_build_same sid sid' method apiURL bodyBuffer ct qs req :
  build sid method apiURL bodyBuffer ct (map withQuery qs) = Ok req ->
  exists req', build sid' method apiURL bodyBuffer ct (map withQuery qs) = Ok req'
               /\ same_attempt req req'.
Proof.
  unfold build. destruct (http_NewRequest method apiURL bodyBuffer) as [r|]; [|done].
  cbv zeta. apply apply_queries_same.
  by destruct (nonempty ct), (nonempty sid), (nonempty sid').
Qed.

Lemma sid_login_never_forbidden_config c c' :
  baseURL c = baseURL c' -> login_never_forbidden c -> login_never_forbidden c'.
Proof. unfold login_never_forbidden. by intros <-. Qed.

Lemma same_attempt_trans r1 r2 r3 :
  same_attempt r1 r2 -> same_attempt r2 r3 -> same_attempt r1 r3.
Proof. unfold same_attempt. intros (?&?&?&?&?) (?&?&?&?&?). repeat split; congruence. Qed.

Lemma same_attempt_sym r1 r2 : same_attempt r1 r2 -> same_attempt r2 r1.
Proof. unfold same_attempt. intros (?&?&?&?&?). by repeat split. Qed.

Lemma same_attempt_sent hc req : same_attempt (Client_send_request hc req) req.
Proof. unfold Client_send_request. by destruct (Jar hc). Qed.

Lemma sid_login_store_net r (s : State Client) : net (login_store r s) = net s.
Proof. unfold login_store. by destruct (login_cookie r). Qed.

Lemma retry_once_sid fuel method endpoint body ct qs (s0 : State Client) :
  login_never_forbidden (self s0) ->
  (forall a, body = Some a -> is_Some (readers s0 !! a)) ->
  exists r s',
    doRequest (S (S fuel)) method endpoint body ct (map withQuery qs) s0 = Returns r s'
    /\ match new_requests s0 s' with
       | [] => is_Err r = true
       | [e1] => r = answer e1 /\ ~ answered e1 http_StatusForbidden
       | [e1; e2] =>
           answered e1 http_StatusForbidden
           /\ login_sent (self s0) e2.2
           /\ ~ answered e2 http_StatusOK
           /\ exists err, r = Err ("re-authentication failed: " +:+ err)
       | [e1; e2; e3] =>
           answered e1 http_StatusForbidden
           /\ login_sent (self s0) e2.2
           /\ answered e2 http_StatusOK
           /\ same_attempt e1.2 e3.2
           /\ r = answer e3
       | _ => False
       end.
Proof.
  intros HNF Hvalid. rewrite doRequest_S. unfold bind at 1, get_self.
  destruct (url_Parse (baseURL (self s0))) as [base|] eqn:Hbase.
  2:{ eexists _, _. split; [reflexivity|].
      rewrite (new_requests_app _ _ []) by (by rewrite app_nil_r). done. }
  unfold bind at 1.
  assert (exists rb s1, read_body body s0 = Returns rb s1
                        /\ self s1 = self s0 /\ net s1 = net s0) as (rb & s1 & -> & Hself & Hnet).
  { unfold read_body. destruct body as [a|]; [|by eexists _, _].
    destruct (Hvalid a eq_refl) as [rd Hrd].
    unfold bind, read_all. rewrite Hrd. unfold io_ReadAll. by eexists _, _. }
  destruct rb as [bodyBuffer|err].
  2:{ eexists _, _. split; [reflexivity|].
      rewrite (new_requests_app _ _ []) by (by rewrite app_nil_r, ?Hnet). done. }
  unfold attempt. unfold bind at 1. rewrite sid_makeRequest_build.
  destruct (build (sid (self s1)) method (api_url base endpoint) bodyBuffer ct
              (map withQuery qs)) as [req|err] eqn:Hreq.
  2:{ eexists _, _. split; [reflexivity|].
      rewrite (new_requests_app _ _ []) by (by rewrite app_nil_r, ?Hnet). done. }
  unfold bind at 1. rewrite sid_Do_unfold.
  set (e1 := (world (net s1), Client_send_request (client (self s1)) req)).
  assert (sent (net (Do_state req s1)) = sent (net s0) ++ [e1]) as Hsent2.
  { cbn. unfold e1. by rewrite Hnet. }
  change (Do_result req s1) with (answer e1).
  destruct (answer e1) as [resp|err] eqn:Hr1.
  2:{ eexists _, _. split; [reflexivity|]. rewrite (new_requests_app _ _ [e1]) by done.
      split; [by rewrite Hr1|]. intros (resp & Hresp & _). congruence. }
  destruct (Z.eqb_spec (StatusCode resp) http_StatusForbidden) as [H403|Hne].
  2:{ eexists _, _. split; [reflexivity|]. rewrite (new_requests_app _ _ [e1]) by done.
      split; [by rewrite Hr1|]. intros (resp' & Hresp & H403). congruence. }
  assert (answered e1 http_StatusForbidden) as Ha1 by (by exists resp).
  unfold bind at 1.
  set (s2 := Do_state req s1).
  assert (baseURL (self s2) = baseURL (self s0)) as Hb2 by (cbn; by rewrite Hself).
  rewrite (sid_login_step fuel base s2);
    [|by rewrite Hb2|by eapply sid_login_never_forbidden_config; [symmetry; exact Hb2|]].
  set (lreq := login_request base (self s2)).
  set (e2 := (world (net (login_state s2)),
              Client_send_request (client (self (login_state s2))) lreq)).
  assert (sent (net (Do_state lreq (login_state s2))) = sent (net s0) ++ [e1; e2]) as Hsent3.
  { cbn. cbn in Hsent2. rewrite Hsent2, <- app_assoc. done. }
  assert (login_sent (self s0) e2.2) as Hl2.
  { exists base, (client (self (login_state s2))), (sid (self s2)), lreq.
    split; [done|]. split; [|done].
    rewrite sid_build_login. unfold lreq, login_request. cbn. by rewrite Hself. }
  change (Do_result lreq (login_state s2)) with (answer e2).
  set (s3 := Do_state lreq (login_state s2)) in *.
  destruct (answer e2) as [resp2|err2] eqn:Hr2.
  2:{ eexists _, _. split; [reflexivity|].
      rewrite (new_requests_app _ _ [e1; e2]) by (by rewrite sid_login_store_net).
      split; [done|]. split; [done|]. split; [|by eexists].
      intros (resp' & Hresp & _). congruence. }
  cbn [login_result].
  destruct (Z.eqb_spec (StatusCode resp2) http_StatusOK) as [H200|Hne2]; cbn [negb].
  2:{ eexists _, _. split; [reflexivity|].
      rewrite (new_requests_app _ _ [e1; e2]) by (by rewrite sid_login_store_net).
      split; [done|]. split; [done|]. split; [|by eexists].
      intros (resp' & Hresp & H200). congruence. }
  unfold bind at 1. rewrite sid_makeRequest_build.
  set (s4 := login_store (Ok resp2) s3).
  destruct (sid_build_same _ (sid (self s4)) _ _ _ _ _ _ Hreq) as (req' & -> & Hsame).
  rewrite sid_Do_unfold.
  set (e3 := (world (net s4), Client_send_request (client (self s4)) req')).
  eexists _, _. split; [reflexivity|].
  rewrite (new_requests_app _ _ [e1; e2; e3]).
  2:{ change (sent (net (Do_state req' s4))) with (sent (net s4) ++ [e3]).
      unfold s4. by rewrite sid_login_store_net, Hsent3, <- app_assoc. }
  split; [done|]. split; [done|]. split; [by exists resp2|]. split; [|done].
  cbn. eapply same_attempt_trans; [apply same_attempt_sent|].
  eapply same_attempt_trans; [exact Hsame|apply same_attempt_sym, same_attempt_sent].
Qed.

Lemma sid_build_queries sid method apiURL bodyBuffer ct qs req :
  build sid method apiURL bodyBuffer ct (map withQuery qs) = Ok req ->
  ReqCtx req = Background /\ Path (URL req) = Path apiURL /\ ContentType req = ct
  /\ Body req = bodyBuffer.
Proof.
  unfold build, http_NewRequest, http_NewRequestWithContext.
  destruct (all_token _); [|done]. cbv zeta. intros Hq.
  destruct (apply_queries _ _ _ Hq) as (-> & _ & -> & _ & -> & _ & ->).
  by destruct ct, (nonempty sid).
Qed.

Lemma sid_sent_for_fields c method endpoint bodyBuffer ct opts req base :
  query_opts opts ->
  url_Parse (baseURL c) = Ok base ->
  sent_for c method endpoint bodyBuffer ct opts req ->
  ReqCtx req = Background /\ Path (URL req) = Path (api_url base endpoint)
  /\ ContentType req = ct /\ Body req = bodyBuffer.
Proof.
  intros [qs ->] Hbase (base' & hc & sid & req0 & Hbase' & Hbuild & ->).
  assert (base' = base) as -> by congruence.
  destruct (sid_build_queries _ _ _ _ _ _ _ Hbuild) as (Hc & Hp & Hct & Hb).
  unfold Client_send_request. by destruct (Jar hc).
Qed.

Lemma AuthLogin_grows fuel (s : State Client) :
  exists new, sent (net (final_state (AuthLogin fuel s))) = sent (net s) ++ new.
Proof.
  rewrite AuthLogin_unfold.
  unfold bind at 1, get_self. unfold bind at 1, new_reader. unfold bind at 1.
  match goal with
  | |- context [doRequest fuel "POST" login_endpoint ?b form_urlencoded [] ?s3] =>
      destruct (doRequest_inv_holds fuel "POST" login_endpoint b form_urlencoded [] s3)
        as [_ (new & Hsent & _) _ _ _];
      destruct (doRequest fuel "POST" login_endpoint b form_urlencoded [] s3)
        as [[resp|err] s4|msg s4|s4]
  end; cbn [final_state] in Hsent; cbn [net] in Hsent;
    try destruct (negb (StatusCode resp =? http_StatusOK)%Z);
    try destruct (jar_get "SID" (SetCookies resp)); by exists new.
Qed.

Lemma sid_attempt_first fuel method apiURL bodyBuffer ct qs req (s1 : State Client) :
  build (sid (self s1)) method apiURL bodyBuffer ct (map withQuery qs) = Ok req ->
  exists rest,
    sent (net (final_state (attempt fuel method apiURL bodyBuffer ct (map withQuery qs) s1)))
    = sent (net s1) ++ (world (net s1), Client_send_request (client (self s1)) req) :: rest.
Proof.
  intros Hreq. unfold attempt. unfold bind at 1. rewrite sid_makeRequest_build, Hreq.
  unfold bind at 1. rewrite sid_Do_unfold.
  set (e1 := (world (net s1), Client_send_request (client (self s1)) req)).
  set (s2 := Do_state req s1).
  assert (sent (net s2) = sent (net s1) ++ [e1]) as Hs2 by done.
  destruct (Do_result req s1) as [resp|err]; [|by exists []].
  destruct (StatusCode resp =? http_StatusForbidden)%Z; [|by exists []].
  unfold bind at 1.
  destruct (AuthLogin_grows fuel s2) as [new Hnew].
  destruct (AuthLogin fuel s2) as [[[]|err] s4|msg s4|s4]; cbn [final_state] in Hnew;
    try (exists new; cbn [final_state ret]; by rewrite Hnew, Hs2, <- app_assoc).
  unfold bind at 1. rewrite sid_makeRequest_build.
  destruct (sid_build_same _ (sid (self s4)) _ _ _ _ _ _ Hreq) as (req' & -> & _).
  rewrite sid_Do_unfold. cbn [final_state].
  exists (new ++ [(world (net s4), Client_send_request (client (self s4)) req')]).
  cbn. rewrite Hnew, Hs2, <- !app_assoc. done.
Qed.

Lemma doRequest_first fuel method endpoint body ct qs (s0 : State Client) base req :
  url_Parse (baseURL (self s0)) = Ok base ->
  (forall a, body = Some a -> exists rd, readers s0 !! a = Some rd /\ failure rd = None) ->
  build (sid (self s0)) method (api_url base endpoint)
        (body ≫= fun a => pending <$> readers s0 !! a) ct (map withQuery qs) = Ok req ->
  exists rest,
    new_requests s0 (final_state (doRequest (S fuel) method endpoint body ct
                                    (map withQuery qs) s0))
    = (world (net s0), Client_send_request (client (self s0)) req) :: rest.
Proof.
  intros Hbase Hbody Hreq. rewrite doRequest_S. unfold bind at 1, get_self.
  rewrite Hbase. unfold bind at 1.
  assert (exists s1, read_body body s0
                     = Returns (Ok (body ≫= fun a => pending <$> readers s0 !! a)) s1
                     /\ self s1 = self s0 /\ net s1 = net s0) as (s1 & -> & Hself & Hnet).
  { unfold read_body. destruct body as [a|]; [|by eexists].
    destruct (Hbody a eq_refl) as (rd & Hrd & Hf).
    unfold bind, read_all. rewrite Hrd. unfold io_ReadAll. rewrite Hf. cbn. rewrite Hrd.
    by eexists. }
  rewrite <- Hself in Hreq.
  destruct (sid_attempt_first fuel method (api_url base endpoint) _ ct qs req s1 Hreq)
    as [rest Hrest].
  exists rest. apply new_requests_app. by rewrite Hrest, Hnet, Hself.
Qed.

(** With a service that forbids the login, [AuthLogin] and [doRequest] call
    each other for as long as there is fuel: one login request for each
    unit of it. *)
Lemma AuthLogin_forbidden fuel :
  always_forbidden ->
  forall (s : State Client) base,
    url_Parse (baseURL (self s)) = Ok base ->
    exists s', AuthLogin fuel s = OutOfFuel s'
               /\ length (new_requests s s') = fuel.
Proof.
  intros Hf. induction fuel as [|fuel IH]; intros s base Hbase.
  { rewrite AuthLogin_unfold.
    unfold bind at 1, get_self. unfold bind at 1, new_reader. unfold bind at 1.
    change (doRequest 0) with (fun (_ _ : string) (_ : option addr) (_ : string)
      (_ : list (http_Request -> result http_Request)) (s : State Client) =>
      @OutOfFuel (State Client) (result http_Response) s).
    eexists. split; [reflexivity|].
    unfold new_requests. cbn. by rewrite drop_all. }
  rewrite AuthLogin_unfold.
  unfold bind at 1, get_self. unfold bind at 1, new_reader. unfold bind at 1.
  rewrite doRequest_S. unfold bind at 1, get_self. cbn [self]. rewrite Hbase.
  unfold bind at 1, read_body. unfold bind at 1, read_all. cbn [readers].
  rewrite lookup_app_r, Nat.sub_diag by done.
  cbn [lookup list_lookup io_ReadAll failure strings_NewReader pending ret].
  unfold attempt. unfold bind at 1. rewrite sid_makeRequest_build. cbn [self].
  rewrite sid_build_login.
  unfold bind at 1. rewrite sid_Do_unfold.
  match goal with |- context [Do_result ?r ?st] =>
    set (req := r); set (s1 := st) end.
  destruct (Hf (Client_send_request (client (self s1)) req) (world (net s1)))
    as (resp & Hresp & H403).
  unfold Do_result at 1. rewrite Hresp, H403. cbn [Z.eqb http_StatusForbidden Pos.eqb].
  unfold bind at 1.
  destruct (IH (Do_state req s1) base) as (s' & Hs' & Hlen).
  { cbn. exact Hbase. }
  destruct (AuthLogin_grows fuel (Do_state req s1)) as [new Hnew].
  rewrite Hs' in Hnew |- *. cbn [final_state] in Hnew.
  eexists. split; [reflexivity|].
  rewrite (new_requests_app _ _ _ Hnew) in Hlen.
  rewrite (new_requests_app s s' ((world (net s1), Client_send_request (client (self s1)) req)
                                    :: new)).
  - cbn. by rewrite Hlen.
  - rewrite Hnew. cbn. by rewrite <- app_assoc.
Qed.

Lemma sid_login_result_verdict r : login_result r = login_verdict r.
Proof.
  destruct r as [resp|err]; [|done]. cbn.
  by destruct (StatusCode resp =? http_StatusOK)%Z.
Qed.

(** [AuthLogin]: one request, its verdict, and the cookie kept. *)
Lemma AuthLogin_once fuel base (s : State Client) :
  url_Parse (baseURL (self s)) = Ok base ->
  login_never_forbidden (self s) ->
  exists s',
    AuthLogin (S fuel) s
    = Returns (login_verdict
                 (answer (world (net s),
                          Client_send_request (client (self s))
                            (login_request base (self s))))) s'
    /\ new_requests s s'
       = [(world (net s), Client_send_request (client (self s)) (login_request base (self s)))]
    /\ sid (self s')
       = default (sid (self s))
           (login_cookie (answer (world (net s),
                                  Client_send_request (client (self s))
                                    (login_request base (self s))))).
Proof.
  intros Hbase HNF. rewrite (sid_login_step fuel base s Hbase HNF).
  rewrite sid_login_result_verdict. eexists. split; [reflexivity|]. split.
  - apply new_requests_app. by rewrite sid_login_store_net.
  - unfold login_store.
    change (Do_result (login_request base (self s)) (login_state s))
      with (answer (world (net s),
                    Client_send_request (client (self s)) (login_request base (self s)))).
    by destruct (login_cookie _).
Qed.

Lemma sid_sent_for_parsed c method endpoint bodyBuffer ct opts req :
  sent_for c method endpoint bodyBuffer ct opts req ->
  exists base, url_Parse (baseURL c) = Ok base.
Proof. intros (base & _ & _ & _ & Hbase & _). by exists base. Qed.

(** The reader on the body is read once at most, and before any request
    is sent; every request that is not a login carries what was read. *)
Lemma doRequest_body_once fuel method endpoint a ct qs (s0 : State Client) rd :
  readers s0 !! a = Some rd ->
  (readers (final_state (doRequest fuel method endpoint (Some a) ct
                           (map withQuery qs) s0)) !! a = Some rd
   \/ readers (final_state (doRequest fuel method endpoint (Some a) ct
                             (map withQuery qs) s0)) !! a = Some (Reader_drained rd))
  /\ (new_requests s0 (final_state (doRequest fuel method endpoint (Some a) ct
                                      (map withQuery qs) s0)) <> [] ->
      failure rd = None
      /\ readers (final_state (doRequest fuel method endpoint (Some a) ct
                                 (map withQuery qs) s0)) !! a = Some (Reader_drained rd))
  /\ Forall (fun e => Body e.2 = Some (pending rd) \/ login_sent (self s0) e.2)
            (new_requests s0 (final_state (doRequest fuel method endpoint (Some a) ct
                                             (map withQuery qs) s0))).
Proof.
  intros Hrd.
  destruct (doRequest_inv_holds fuel method endpoint (Some a) ct (map withQuery qs) s0)
    as [_ (new & Hsent & Hall & Hnew) _ _ Hbody].
  rewrite (new_requests_app _ _ _ Hsent). split; [by apply Hbody|]. split.
  - intros Hne. by apply Hnew.
  - eapply Forall_impl; [exact Hall|]. intros e [Hs|Hl]; [left|by right].
    cbn in Hs. rewrite Hrd in Hs. cbn in Hs.
    destruct (sid_sent_for_parsed _ _ _ _ _ _ _ Hs) as [base Hbase].
    by destruct (sid_sent_for_fields _ _ _ _ _ _ _ _ ltac:(by exists qs) Hbase Hs)
      as (_ & _ & _ & Hb).
Qed.

Lemma doRequest_bad_base fuel method endpoint body ct opts (s0 : State Client) e :
  url_Parse (baseURL (self s0)) = Err e ->
  doRequest (S fuel) method endpoint body ct opts s0
  = Returns (Err ("failed to parse base URL: " +:+ e)) s0.
Proof.
  intros Hbase. rewrite doRequest_S. unfold bind at 1, get_self. by rewrite Hbase.
Qed.

Lemma doRequest_unreachable fuel method endpoint body ct opts (s0 : State Client) :
  unreachable ->
  (forall a, body = Some a -> is_Some (readers s0 !! a)) ->
  exists err s',
    doRequest (S fuel) method endpoint body ct opts s0 = Returns (Err err) s'
    /\ length (new_requests s0 s') <= 1.
Proof.
  intros Hu Hvalid. rewrite doRequest_S. unfold bind at 1, get_self.
  destruct (url_Parse (baseURL (self s0))) as [base|] eqn:Hbase.
  2:{ eexists _, _. split; [reflexivity|].
      rewrite (new_requests_app _ _ []) by (by rewrite app_nil_r). cbn. lia. }
  unfold bind at 1.
  assert (exists rb s1, read_body body s0 = Returns rb s1 /\ net s1 = net s0)
    as (rb & s1 & -> & Hnet).
  { unfold read_body. destruct body as [a|]; [|by eexists _, _].
    destruct (Hvalid a eq_refl) as [rd Hrd].
    unfold bind, read_all. rewrite Hrd. unfold io_ReadAll. by eexists _, _. }
  destruct rb as [bodyBuffer|err].
  2:{ eexists _, _. split; [reflexivity|].
      rewrite (new_requests_app _ _ []) by (by rewrite app_nil_r, ?Hnet). cbn. lia. }
  unfold attempt. unfold bind at 1. rewrite sid_makeRequest_build.
  destruct (build (sid (self s1)) method (api_url base endpoint) bodyBuffer ct opts)
    as [req|err].
  2:{ eexists _, _. split; [reflexivity|].
      rewrite (new_requests_app _ _ []) by (by rewrite app_nil_r, ?Hnet). cbn. lia. }
  unfold bind at 1. rewrite sid_Do_unfold.
  pose proof (Hu (Client_send_request (client (self s1)) req) (world (net s1))) as Herr.
  unfold Do_result at 1.
  destruct (RoundTrip (Client_send_request (client (self s1)) req) (world (net s1))).1
    as [resp|err]; [discriminate Herr|].
  eexists _, _. split; [reflexivity|].
  rewrite (new_requests_app _ _ [(world (net s1), Client_send_request (client (self s1)) req)]).
  - cbn. lia.
  - cbn. by rewrite Hnet.
Qed.

Lemma NewClient_no_credentials fuel username password baseURL httpClient (s : State Client) :
  username = "" \/ password = "" ->
  NewClient fuel username password baseURL httpClient s
  = Returns (Ok tt)
      (mkState (mkClient username password (default (mkHttpClient None) httpClient) baseURL "")
               (readers s) (net s)).
Proof.
  intros Hc. unfold NewClient.
  replace (nonempty username && nonempty password) with false; [done|].
  symmetry. apply andb_false_iff.
  destruct Hc as [->| ->]; [by left|by right].
Qed.

Lemma NewClient_login fuel username password baseURL httpClient (s : State Client) base :
  username <> "" -> password <> "" ->
  url_Parse baseURL = Ok base ->
  login_never_forbidden
    (mkClient username password (default (mkHttpClient None) httpClient) baseURL "") ->
  exists s',
    NewClient (S fuel) username password baseURL httpClient s
    = Returns (construction_verdict
                 (answer (world (net s),
                          Client_send_request (default (mkHttpClient None) httpClient)
                            (mkRequest Background "POST" (api_url base login_endpoint)
                               form_urlencoded []
                               (Some (login_form username password)))))) s'
    /\ new_requests s s'
       = [(world (net s),
           Client_send_request (default (mkHttpClient None) httpClient)
             (mkRequest Background "POST" (api_url base login_endpoint)
                form_urlencoded [] (Some (login_form username password))))].
Proof.
  intros Hu Hp Hbase HNF. unfold NewClient.
  apply nonempty_true in Hu, Hp. rewrite Hu, Hp. cbn [andb].
  set (c0 := mkClient username password (default (mkHttpClient None) httpClient) baseURL "").
  destruct (AuthLogin_once fuel base (mkState c0 (readers s) (net s)) Hbase HNF)
    as (s' & Hr & Hnew & _).
  rewrite Hr. exists s'. cbn in Hnew |- *. unfold construction_verdict.
  split; [|exact Hnew].
  by destruct (login_verdict _) as [[]|err].
Qed.

Lemma sid_build_cookies sid method apiURL bodyBuffer ct qs req :
  build sid method apiURL bodyBuffer ct (map withQuery qs) = Ok req ->
  Cookies req = sid_cookies sid.
Proof.
  unfold build, http_NewRequest, http_NewRequestWithContext, sid_cookies.
  destruct (all_token _); [|done]. cbv zeta. intros Hq.
  destruct (apply_queries _ _ _ Hq) as (_ & _ & _ & _ & _ & -> & _).
  by destruct (nonempty ct), (nonempty sid).
Qed.

Lemma sid_call_wire_build c cl w sid apiURL :
  call_wire c cl = Ok w ->
  exists req,
    build sid (wire_method w) apiURL (wire_body w) (wire_contentType w) (wire_opts w)
    = Ok req.
Proof.
  destruct c; cbv beta iota delta [call_wire add_wire];
    try (destruct (torrent_add_parts _); [|discriminate]);
    intros [= <-]; by eexists.
Qed.

(** The request sent again after a login carries the cookie of the new
    session. *)
Lemma retry_cookie_sid fuel method endpoint body ct qs (s0 : State Client) :
  login_never_forbidden (self s0) ->
  (forall a, body = Some a -> is_Some (readers s0 !! a)) ->
  exists r s',
    doRequest (S (S fuel)) method endpoint body ct (map withQuery qs) s0 = Returns r s'
    /\ forall e1 e2 e3 resp2 v,
        new_requests s0 s' = [e1; e2; e3] ->
        answer e2 = Ok resp2 ->
        jar_get "SID" (SetCookies resp2) = Some v ->
        exists jar, Cookies e3.2 = sid_cookies v ++ jar.
Proof.
  intros HNF Hvalid. rewrite doRequest_S. unfold bind at 1, get_self.
  destruct (url_Parse (baseURL (self s0))) as [base|] eqn:Hbase.
  2:{ eexists _, _. split; [reflexivity|]. intros e1 e2 e3 resp2 v Hnew.
      rewrite (new_requests_app _ _ []) in Hnew by (by rewrite app_nil_r). done. }
  unfold bind at 1.
  assert (exists rb s1, read_body body s0 = Returns rb s1
                        /\ self s1 = self s0 /\ net s1 = net s0) as (rb & s1 & -> & Hself & Hnet).
  { unfold read_body. destruct body as [a|]; [|by eexists _, _].
    destruct (Hvalid a eq_refl) as [rd Hrd].
    unfold bind, read_all. rewrite Hrd. unfold io_ReadAll. by eexists _, _. }
  destruct rb as [bodyBuffer|err].
  2:{ eexists _, _. split; [reflexivity|]. intros e1 e2 e3 resp2 v Hnew.
      rewrite (new_requests_app _ _ []) in Hnew by (by rewrite app_nil_r, ?Hnet). done. }
  unfold attempt. unfold bind at 1. rewrite sid_makeRequest_build.
  destruct (build (sid (self s1)) method (api_url base endpoint) bodyBuffer ct
              (map withQuery qs)) as [req|err] eqn:Hreq.
  2:{ eexists _, _. split; [reflexivity|]. intros e1 e2 e3 resp2 v Hnew.
      rewrite (new_requests_app _ _ []) in Hnew by (by rewrite app_nil_r, ?Hnet). done. }
  unfold bind at 1. rewrite sid_Do_unfold.
  set (e1 := (world (net s1), Client_send_request (client (self s1)) req)).
  assert (sent (net (Do_state req s1)) = sent (net s0) ++ [e1]) as Hsent2.
  { cbn. unfold e1. by rewrite Hnet. }
  change (Do_result req s1) with (answer e1).
  destruct (answer e1) as [resp|err] eqn:Hr1.
  2:{ eexists _, _. split; [reflexivity|]. intros e1' e2 e3 resp2 v Hnew.
      rewrite (new_requests_app _ _ [e1]) in Hnew by done. done. }
  destruct (Z.eqb_spec (StatusCode resp) http_StatusForbidden) as [H403|Hne].
  2:{ eexists _, _. split; [reflexivity|]. intros e1' e2 e3 resp2 v Hnew.
      rewrite (new_requests_app _ _ [e1]) in Hnew by done. done. }
  unfold bind at 1.
  set (s2 := Do_state req s1).
  assert (baseURL (self s2) = baseURL (self s0)) as Hb2 by (cbn; by rewrite Hself).
  rewrite (sid_login_step fuel base s2);
    [|by rewrite Hb2|by eapply sid_login_never_forbidden_config; [symmetry; exact Hb2|]].
  set (lreq := login_request base (self s2)).
  set (e2 := (world (net (login_state s2)),
              Client_send_request (client (self (login_state s2))) lreq)).
  assert (sent (net (Do_state lreq (login_state s2))) = sent (net s0) ++ [e1; e2]) as Hsent3.
  { cbn. cbn in Hsent2. rewrite Hsent2, <- app_assoc. done. }
  change (Do_result lreq (login_state s2)) with (answer e2).
  set (s3 := Do_state lreq (login_state s2)) in *.
  destruct (answer e2) as [resp2|err2] eqn:Hr2.
  2:{ eexists _, _. split; [reflexivity|]. intros e1' e2' e3 resp2 v Hnew.
      rewrite (new_requests_app _ _ [e1; e2]) in Hnew by (by rewrite sid_login_store_net).
      done. }
  cbn [login_result].
  destruct (Z.eqb_spec (StatusCode resp2) http_StatusOK) as [H200|Hne2]; cbn [negb].
  2:{ eexists _, _. split; [reflexivity|]. intros e1' e2' e3 resp2' v Hnew.
      rewrite (new_requests_app _ _ [e1; e2]) in Hnew by (by rewrite sid_login_store_net).
      done. }
  unfold bind at 1. rewrite sid_makeRequest_build.
  set (s4 := login_store (Ok resp2) s3).
  destruct (sid_build_same _ (sid (self s4)) _ _ _ _ _ _ Hreq) as (req' & Hreq' & Hsame).
  rewrite Hreq', sid_Do_unfold.
  set (e3 := (world (net s4), Client_send_request (client (self s4)) req')).
  eexists _, _. split; [reflexivity|].
  intros e1' e2' e3' resp2' v Hnew Hans Hv.
  rewrite (new_requests_app _ _ [e1; e2; e3]) in Hnew.
  2:{ change (sent (net (Do_state req' s4))) with (sent (net s4) ++ [e3]).
      unfold s4. by rewrite sid_login_store_net, Hsent3, <- app_assoc. }
  injection Hnew as <- <- <-.
  assert (resp2' = resp2) as -> by congruence.
  exists (jar_cookies (client (self s4))).
  unfold e3. cbn [snd]. rewrite Client_send_request_cookies. f_equal.
  rewrite (sid_build_cookies _ _ _ _ _ _ _ Hreq'). f_equal.
  unfold s4, login_store, login_cookie. rewrite H200, Hv. reflexivity.
Qed.

Lemma sid_call_wire_total c cl : exists w, call_wire c cl = Ok w.
Proof.
  destruct c; cbv beta iota delta [call_wire add_wire]; eauto;
    match goal with
    | |- context [torrent_add_parts ?p] =>
        destruct (torrent_add_parts_fields p) as (w & -> & _); cbn; eauto
    end.
Qed.

Lemma sid_build_wire sid method apiURL bodyBuffer ct qs req :
  build sid method apiURL bodyBuffer ct (map withQuery qs) = Ok req ->
  Method req = (if String.eqb method "" then "GET" else method)
  /\ RawQuery (URL req) = match last qs with
                          | Some q => url_Values_Encode q
                          | None => RawQuery apiURL
                          end.
Proof.
  unfold build, http_NewRequest, http_NewRequestWithContext.
  destruct (all_token _); [|done]. cbv zeta. intros Hq.
  destruct (apply_queries_last _ _ _ Hq) as [-> ->].
  by destruct (nonempty ct), (nonempty sid).
Qed.

(** [AuthLogin] ends where its call of [doRequest] ends, but for the cookie
    it may store. *)
Lemma AuthLogin_final fuel (s : State Client) :
  exists s4,
    doRequest_inv "POST" login_endpoint (Some (length (readers s))) form_urlencoded []
      (mkState (self s)
         (readers s ++ [strings_NewReader (login_form (username (self s))
                                                      (password (self s)))])
         (net s)) s4
    /\ (final_state (AuthLogin fuel s) = s4
        \/ exists v, final_state (AuthLogin fuel s) = sid_state v s4).
Proof.
  cut (forall st, final_state (AuthLogin fuel s) = st ->
         exists s4,
           doRequest_inv "POST" login_endpoint (Some (length (readers s))) form_urlencoded []
             (mkState (self s)
                (readers s ++ [strings_NewReader (login_form (username (self s))
                                                             (password (self s)))])
                (net s)) s4
           /\ (st = s4 \/ exists v, st = sid_state v s4)).
  { intros Hc. exact (Hc _ eq_refl). }
  intros st. rewrite AuthLogin_unfold.
  unfold bind at 1, get_self. unfold bind at 1, new_reader. unfold bind at 1.
  match goal with
  | |- context [doRequest fuel "POST" login_endpoint ?b form_urlencoded [] ?s3] =>
      pose proof (doRequest_inv_holds fuel "POST" login_endpoint b form_urlencoded [] s3)
        as Hinv;
      destruct (doRequest fuel "POST" login_endpoint b form_urlencoded [] s3)
        as [[resp|err] s4|msg s4|s4]
  end; cbn [final_state] in Hinv; intros <-; exists s4; (split; [exact Hinv|]);
    try destruct (negb (StatusCode resp =? http_StatusOK)%Z);
    try destruct (jar_get "SID" (SetCookies resp)) as [v|]; try (by left).
  right. by exists v.
Qed.

(** What [AuthLogin] sends are logins; it keeps the configuration of the
    client and the readers that were there. *)
Lemma AuthLogin_requests fuel (s : State Client) :
  exists new,
    sent (net (final_state (AuthLogin fuel s))) = sent (net s) ++ new
    /\ Forall (fun e => login_sent (self s) e.2) new
    /\ same_config s (final_state (AuthLogin fuel s))
    /\ (forall i, i < length (readers s) ->
          readers (final_state (AuthLogin fuel s)) !! i = readers s !! i).
Proof.
  destruct (AuthLogin_final fuel s)
    as (s4 & [Hcfg (new & Hsent & Hall & _) _ Hoth _] & Hfin).
  cbn [net readers self] in Hsent, Hoth, Hall.
  assert (sent (net (final_state (AuthLogin fuel s))) = sent (net s4)
          /\ readers (final_state (AuthLogin fuel s)) = readers s4
          /\ same_config s4 (final_state (AuthLogin fuel s))) as (-> & -> & Hcfg').
  { destruct Hfin as [->|[v ->]]; done. }
  exists new. split; [exact Hsent|]. split; [|split].
  - eapply Forall_impl; [exact Hall|]. intros e [He|He]; [|exact He].
    unfold login_sent. cbn [mbind option_bind] in He.
    rewrite lookup_app_r, Nat.sub_diag in He by done. exact He.
  - destruct Hcfg as (? & ? & ?), Hcfg' as (? & ? & ?). cbn [self] in *.
    repeat split; congruence.
  - intros i Hi. rewrite Hoth; [by apply lookup_app_l|rewrite length_app; lia|].
    intros [= E]. lia.
Qed.

(** The requests of [doRequest] from the first [makeRequest] on: the
    request, the logins of the re-authentication, and the request again if
    the re-authentication succeeded.  The readers that were there are not
    touched. *)
Lemma sid_attempt_trace fuel method apiURL bodyBuffer ct qs req (s1 : State Client) out :
  build (sid (self s1)) method apiURL bodyBuffer ct (map withQuery qs) = Ok req ->
  attempt fuel method apiURL bodyBuffer ct (map withQuery qs) s1 = out ->
  exists logins retried,
    new_requests s1 (final_state out)
    = (world (net s1), Client_send_request (client (self s1)) req) :: logins ++ retried
    /\ Forall (fun e => login_sent (self s1) e.2) logins
    /\ (retried = []
        \/ exists e3, retried = [e3]
                      /\ same_attempt (Client_send_request (client (self s1)) req) e3.2)
    /\ (forall i, i < length (readers s1) ->
          readers (final_state out) !! i = readers s1 !! i)
    /\ (forall r s', out = Returns r s' ->
          (~ answered (world (net s1), Client_send_request (client (self s1)) req)
               http_StatusForbidden
           /\ logins = [] /\ retried = []
           /\ r = answer (world (net s1), Client_send_request (client (self s1)) req))
          \/ (answered (world (net s1), Client_send_request (client (self s1)) req)
                http_StatusForbidden
              /\ ((retried = []
                   /\ exists err, r = Err ("re-authentication failed: " +:+ err))
                  \/ exists e3, retried = [e3] /\ r = answer e3))).
Proof.
  intros Hreq. unfold attempt. unfold bind at 1. rewrite sid_makeRequest_build, Hreq.
  unfold bind at 1. rewrite sid_Do_unfold.
  set (e1 := (world (net s1), Client_send_request (client (self s1)) req)).
  set (s2 := Do_state req s1).
  assert (sent (net s2) = sent (net s1) ++ [e1]) as Hs2 by done.
  change (Do_result req s1) with (answer e1).
  destruct (answer e1) as [resp|err] eqn:Hans.
  2:{ intros <-. exists [], []. cbn [final_state ret]. split; [by apply new_requests_app|].
      split; [done|]. split; [by left|]. split; [done|].
      intros r s' [= <- <-]. left. split; [|done].
      intros (resp & Hr & _). congruence. }
  destruct (Z.eqb_spec (StatusCode resp) http_StatusForbidden) as [H403|Hne].
  2:{ intros <-. exists [], []. cbn [final_state ret]. split; [by apply new_requests_app|].
      split; [done|]. split; [by left|]. split; [done|].
      intros r s' [= <- <-]. left. split; [|done].
      intros (resp' & Hr & Hst). congruence. }
  assert (answered e1 http_StatusForbidden) as Hfor by (by exists resp).
  unfold bind at 1.
  destruct (AuthLogin_requests fuel s2) as (new & Hnew & Hall & Hcfg & Hrd).
  assert (Forall (fun e => login_sent (self s1) e.2) new) as Hall1.
  { eapply Forall_impl; [exact Hall|]. intros e He.
    eapply sid_login_sent_config; [..|exact He]; done. }
  destruct (AuthLogin fuel s2) as [[[]|err] s4|msg s4|s4]; cbn [final_state] in Hnew, Hrd.
  2,3,4: intros <-; exists new, []; cbn [final_state ret]; rewrite app_nil_r;
    (split; [apply new_requests_app; by rewrite Hnew, Hs2, <- app_assoc|]);
    (split; [done|]); (split; [by left|]); (split; [exact Hrd|]);
    intros r s'; try done; intros [= <- <-]; right; (split; [done|]); left;
    (split; [done|by eexists]).
  unfold bind at 1. rewrite sid_makeRequest_build.
  destruct (sid_build_same _ (sid (self s4)) _ _ _ _ _ _ Hreq) as (req' & -> & Hsame).
  rewrite sid_Do_unfold. intros <-. cbn [final_state].
  set (e3 := (world (net s4), Client_send_request (client (self s4)) req')).
  exists new, [e3]. split; [|split; [done|split; [|split]]].
  - apply new_requests_app. cbn. rewrite Hnew, Hs2, <- !app_assoc. done.
  - right. exists e3. split; [done|]. cbn.
    eapply same_attempt_trans; [apply same_attempt_sent|].
    eapply same_attempt_trans; [exact Hsame|]. apply same_attempt_sym, same_attempt_sent.
  - exact Hrd.
  - intros r s' [= <- <-]. right. split; [done|]. right. by exists e3.
Qed.

(** [doRequest] reads the body it is given, once, if the base address
    parses, whatever happens next. *)
Lemma doRequest_reads fuel method endpoint a ct qs (s0 : State Client) rd base :
  readers s0 !! a = Some rd ->
  url_Parse (baseURL (self s0)) = Ok base ->
  readers (final_state (doRequest (S fuel) method endpoint (Some a) ct
                          (map withQuery qs) s0)) !! a
  = Some (Reader_drained rd).
Proof.
  intros Hrd Hbase. pose proof (lookup_lt_Some _ _ _ Hrd) as Hlt.
  rewrite doRequest_S. unfold bind at 1, get_self. rewrite Hbase.
  unfold bind at 1, read_body. unfold bind at 1, read_all. rewrite Hrd.
  unfold io_ReadAll. cbn [ret].
  set (s1 := mkState (self s0) (<[a:=Reader_drained rd]> (readers s0)) (net s0)).
  assert (readers s1 !! a = Some (Reader_drained rd)) as Hs1.
  { by apply list_lookup_insert_eq. }
  destruct (failure rd); [exact Hs1|].
  destruct (build (sid (self s1)) method (api_url base endpoint) (Some (pending rd)) ct
              (map withQuery qs)) as [req|err] eqn:Hreq.
  - destruct (sid_attempt_trace fuel _ _ _ _ _ _ _ _ Hreq eq_refl)
      as (_ & _ & _ & _ & _ & Hkeep & _).
    rewrite Hkeep; [exact Hs1|]. by apply lookup_lt_Some in Hs1.
  - unfold attempt. unfold bind at 1. rewrite sid_makeRequest_build, Hreq. exact Hs1.
Qed.

(** A body that cannot be read: the error names the cause, and nothing is
    sent. *)
Lemma doRequest_read_failure fuel method endpoint a ct opts (s0 : State Client) rd base err :
  readers s0 !! a = Some rd ->
  url_Parse (baseURL (self s0)) = Ok base ->
  failure rd = Some err ->
  exists s',
    doRequest (S fuel) method endpoint (Some a) ct opts s0
    = Returns (Err ("failed to read request body: " +:+ err)) s'
    /\ new_requests s0 s' = [].
Proof.
  intros Hrd Hbase Hf.
  rewrite doRequest_S. unfold bind at 1, get_self. rewrite Hbase.
  unfold bind at 1, read_body. unfold bind at 1, read_all. rewrite Hrd.
  unfold io_ReadAll. rewrite Hf. cbn [ret]. eexists. split; [reflexivity|].
  apply new_requests_app. cbn. by rewrite app_nil_r.
Qed.

(** The requests of one call of [doRequest] whose body can be read: the
    request with what was read, the logins of the re-authentication, and
    the same request again if the re-authentication succeeded. *)
Lemma doRequest_trace fuel method endpoint body ct qs (s0 : State Client) base req out :
  url_Parse (baseURL (self s0)) = Ok base ->
  (forall a, body = Some a -> exists rd, readers s0 !! a = Some rd /\ failure rd = None) ->
  build (sid (self s0)) method (api_url base endpoint)
        (body ≫= fun a => pending <$> readers s0 !! a) ct (map withQuery qs) = Ok req ->
  doRequest (S fuel) method endpoint body ct (map withQuery qs) s0 = out ->
  exists logins retried,
    new_requests s0 (final_state out)
    = (world (net s0), Client_send_request (client (self s0)) req) :: logins ++ retried
    /\ Forall (fun e => login_sent (self s0) e.2) logins
    /\ (retried = []
        \/ exists e3, retried = [e3]
                      /\ same_attempt (Client_send_request (client (self s0)) req) e3.2)
    /\ (forall r s', out = Returns r s' ->
          (~ answered (world (net s0), Client_send_request (client (self s0)) req)
               http_StatusForbidden
           /\ logins = [] /\ retried = []
           /\ r = answer (world (net s0), Client_send_request (client (self s0)) req))
          \/ (answered (world (net s0), Client_send_request (client (self s0)) req)
                http_StatusForbidden
              /\ ((retried = []
                   /\ exists err, r = Err ("re-authentication failed: " +:+ err))
                  \/ exists e3, retried = [e3] /\ r = answer e3))).
Proof.
  intros Hbase Hbody Hreq. rewrite doRequest_S. unfold bind at 1, get_self.
  rewrite Hbase. unfold bind at 1.
  assert (exists s1, read_body body s0
                     = Returns (Ok (body ≫= fun a => pending <$> readers s0 !! a)) s1
                     /\ self s1 = self s0 /\ net s1 = net s0) as (s1 & -> & Hself & Hnet).
  { unfold read_body. destruct body as [a|]; [|by eexists].
    destruct (Hbody a eq_refl) as (rd & Hrd & Hf).
    unfold bind, read_all. rewrite Hrd. unfold io_ReadAll. rewrite Hf. cbn. rewrite Hrd.
    by eexists. }
  rewrite <- Hself in Hreq. intros Hout.
  destruct (sid_attempt_trace fuel _ _ _ _ _ _ _ _ Hreq Hout)
    as (logins & retried & Hnew & Hall & Hret & _ & Hres).
  rewrite Hself, Hnet in Hnew, Hres. rewrite Hself in Hall, Hret.
  exists logins, retried. split; [|done].
  rewrite <- Hnew. unfold new_requests. by rewrite Hnet.
Qed.

(** At a service that forbids everything, the pipeline sends its request
    and then one login for each unit of fuel that is left, and does not
    return. *)
Lemma doRequest_forbidden fuel method endpoint body ct qs (s0 : State Client) base req :
  always_forbidden ->
  url_Parse (baseURL (self s0)) = Ok base ->
  (forall a, body = Some a -> exists rd, readers s0 !! a = Some rd /\ failure rd = None) ->
  build (sid (self s0)) method (api_url base endpoint)
        (body ≫= fun a => pending <$> readers s0 !! a) ct (map withQuery qs) = Ok req ->
  exists s' logins,
    doRequest (S fuel) method endpoint body ct (map withQuery qs) s0 = OutOfFuel s'
    /\ new_requests s0 s'
       = (world (net s0), Client_send_request (client (self s0)) req) :: logins
    /\ length logins = fuel
    /\ Forall (fun e => login_sent (self s0) e.2) logins.
Proof.
  intros Hf Hbase Hbody Hreq. rewrite doRequest_S. unfold bind at 1, get_self.
  rewrite Hbase. unfold bind at 1.
  assert (exists s1, read_body body s0
                     = Returns (Ok (body ≫= fun a => pending <$> readers s0 !! a)) s1
                     /\ self s1 = self s0 /\ net s1 = net s0) as (s1 & -> & Hself & Hnet).
  { unfold read_body. destruct body as [a|]; [|by eexists].
    destruct (Hbody a eq_refl) as (rd & Hrd & Hfl).
    unfold bind, read_all. rewrite Hrd. unfold io_ReadAll. rewrite Hfl. cbn. rewrite Hrd.
    by eexists. }
  rewrite <- Hself in Hreq.
  unfold attempt. unfold bind at 1. rewrite sid_makeRequest_build, Hreq.
  unfold bind at 1. rewrite sid_Do_unfold.
  destruct (Hf (Client_send_request (client (self s1)) req) (world (net s1)))
    as (resp & Hresp & H403).
  unfold Do_result at 1. rewrite Hresp, H403.
  set (s2 := Do_state req s1).
  cbn [Z.eqb http_StatusForbidden Pos.eqb]. unfold bind at 1.
  destruct (AuthLogin_forbidden fuel Hf s2 base) as (s' & Hs' & Hlen).
  { cbn. by rewrite Hself. }
  destruct (AuthLogin_requests fuel s2) as (new & Hnew & Hall & _).
  rewrite Hs' in Hnew |- *. cbn [final_state] in Hnew.
  rewrite (new_requests_app _ _ _ Hnew) in Hlen.
  exists s', new. split; [reflexivity|]. split; [|split; [exact Hlen|]].
  - apply new_requests_app. rewrite Hnew. cbn. rewrite <- app_assoc, Hnet, Hself. done.
  - eapply Forall_impl; [exact Hall|]. intros e He.
    eapply sid_login_sent_config; [..|exact He]; cbn; by rewrite Hself.
Qed.
End S.

Section Calls.
Context `{RoundTripper} `{JSONSyntax}.

Lemma call_factors fuel c (s0 : State Client) :
  match call_wire c (self s0) with
  | Err _ => exists err, call fuel c s0 = Returns (Err err) s0
  | Ok w => factors (call fuel c s0) (transport fuel w s0)
  end.
Proof.
  destruct c;
    cbv beta iota zeta delta
      [call call_wire add_wire post_form get_query transport
       wire_body wire_method wire_endpoint wire_contentType wire_opts
       returning AuthLogin AuthLogin_body TorrentsExport
       TorrentsAdd TorrentsAddParams TorrentsDelete SetForceStart
       TorrentsDownload TorrentsGetTags TorrentsInfo TorrentsTrackers
       TorrentsProperties TorrentsAddTags TorrentsRemoveTags
       TorrentsGetAllTags TorrentsCreateTags TorrentsDeleteTags
       SyncMainData SyncTorrentPeers
       doPostValues doPost doGet doPostResponse info_query login_form
       bind get_self new_reader decode_step panic ret factors store_sid];
    try (match goal with |- context [torrent_add_parts ?p] =>
           destruct (torrent_add_parts p) as [?|]; [|by eexists] end);
    match goal with
    | |- context [doRequest ?f ?m ?e ?b ?ct ?o ?s] =>
        destruct (doRequest f m e b ct o s) as [[resp|err] s'|msg s'|s']
    end;
    repeat case_match; simplify_eq; cbn [final_state]; eauto.
Qed.

Lemma sid_transport_unfold fuel w s0 :
  transport fuel w s0
  = doRequest fuel (wire_method w) (wire_endpoint w) (wire_reader w s0)
      (wire_contentType w) (wire_opts w) (wire_start w s0).
Proof. unfold transport, wire_reader, wire_start. by destruct (wire_body w). Qed.

Lemma sid_wire_start_self w s0 : self (wire_start w s0) = self s0.
Proof. unfold wire_start. by destruct (wire_body w). Qed.

Lemma sid_wire_start_net w s0 : net (wire_start w s0) = net s0.
Proof. unfold wire_start. by destruct (wire_body w). Qed.

Lemma sid_wire_reader_valid w s0 a :
  wire_reader w s0 = Some a -> is_Some (readers (wire_start w s0) !! a).
Proof.
  unfold wire_reader, wire_start. destruct (wire_body w); [|done]. intros [= <-].
  cbn. rewrite lookup_app_r, Nat.sub_diag by done. by eexists.
Qed.

Lemma sid_wire_reader_pending w s0 :
  (wire_reader w s0 ≫= fun a => pending <$> readers (wire_start w s0) !! a) = wire_body w.
Proof.
  unfold wire_reader, wire_start. destruct (wire_body w); [|done].
  cbn. by rewrite lookup_app_r, Nat.sub_diag by done.
Qed.

Lemma sid_call_wire_opts c cl w : call_wire c cl = Ok w -> query_opts (wire_opts w).
Proof.
  destruct c; cbn; unfold add_wire; repeat case_match; intros [= <-];
    first [by exists [] | by eexists [_]].
Qed.

Lemma call_net fuel c s0 :
  net (final_state (call fuel c s0))
  = match call_wire c (self s0) with
    | Ok w => net (final_state (transport fuel w s0))
    | Err _ => net s0
    end.
Proof.
  pose proof (call_factors fuel c s0) as Hf.
  destruct (call_wire c (self s0)) as [w|]; [|by destruct Hf as [err ->]].
  unfold factors in Hf.
  destruct (transport fuel w s0) as [[resp|err] s'|msg s'|s']; try by rewrite Hf.
  - by destruct Hf as [->|[v ->]].
  - by destruct Hf as [err' ->].
Qed.

(** Every request a method sends is the one its endpoint asks for, or a
    login. *)
Lemma call_requests fuel c s0 :
  match call_wire c (self s0) with
  | Ok w =>
      Forall (fun e => sent_for (self s0) (wire_method w) (wire_endpoint w) (wire_body w)
                         (wire_contentType w) (wire_opts w) e.2
                       \/ login_sent (self s0) e.2)
             (new_requests s0 (final_state (call fuel c s0)))
  | Err _ => new_requests s0 (final_state (call fuel c s0)) = []
  end.
Proof.
  unfold new_requests. rewrite call_net. destruct (call_wire c (self s0)) as [w|].
  2:{ by rewrite drop_all. }
  rewrite sid_transport_unfold.
  destruct (doRequest_inv_holds fuel (wire_method w) (wire_endpoint w) (wire_reader w s0)
              (wire_contentType w) (wire_opts w) (wire_start w s0))
    as [_ (new & Hsent & Hall & _) _ _ _].
  rewrite sid_wire_start_net in Hsent. rewrite Hsent, drop_app_length.
  by rewrite sid_wire_reader_pending, sid_wire_start_self in Hall.
Qed.

Lemma call_empty_body fuel c (s0 : State Client) w resp s' :
  expects_json c = true ->
  call_wire c (self s0) = Ok w ->
  transport fuel w s0 = Returns (Ok resp) s' ->
  empty_success resp ->
  call fuel c s0 = Returns (Err (empty_body_error c)) s'.
Proof.
  intros Hj Hw Ht (Hs & Hb & He).
  destruct resp as [status cookies body bodyErr]. cbn in Hs, Hb, He. subst.
  destruct c; try discriminate Hj; injection Hw as <-;
    cbv beta iota zeta delta
      [transport get_query wire_body wire_method wire_endpoint wire_contentType wire_opts
       info_query] in Ht;
    cbv beta iota zeta delta
      [call returning TorrentsGetTags TorrentsInfo TorrentsTrackers
       TorrentsProperties TorrentsGetAllTags SyncMainData SyncTorrentPeers
       doGet bind];
    rewrite Ht;
    cbn [StatusCode Response_ReadAll RespBody RespBodyErr negb Z.eqb http_StatusOK
         Pos.eqb String.length Nat.eqb ret fst snd];
    unfold Unmarshal_TorrentInfos, Unmarshal_TrackerInfos, Unmarshal_strings,
      Unmarshal_MainData, Unmarshal_TorrentPeers, result_bind;
    rewrite ?json_parse_empty; reflexivity.
Qed.

Lemma call_delete_requests fuel c (s0 : State Client) base e :
  url_Parse (baseURL (self s0)) = Ok base ->
  e ∈ new_requests s0 (final_state (call fuel c s0)) ->
  Path (URL e.2) = Path (api_url base delete_endpoint) ->
  exists infohash, c = CallTorrentsDelete infohash /\ Body e.2 = Some (delete_form infohash).
Proof.
  intros Hbase He Hpath. pose proof (call_requests fuel c s0) as Hall.
  destruct (call_wire c (self s0)) as [w|] eqn:Hw.
  2:{ rewrite Hall in He. by apply elem_of_nil in He. }
  rewrite Forall_forall in Hall. destruct (Hall e He) as [Hs|Hl].
  - destruct (sid_sent_for_fields _ _ _ _ _ _ _ _ (sid_call_wire_opts _ _ _ Hw) Hbase Hs)
      as (_ & Hp & _ & Hb).
    rewrite Hp in Hpath. apply api_url_endpoint in Hpath.
    destruct c; cbn in Hw; unfold add_wire in Hw; repeat case_match; simplify_eq;
      try discriminate Hpath.
    eexists. split; [done|]. rewrite Hb. cbn. by rewrite delete_form_encoded.
  - destruct (sid_sent_for_fields _ _ _ _ _ _ _ _ ltac:(by exists []) Hbase Hl) as (_ & Hp & _).
    rewrite Hp in Hpath. by apply api_url_endpoint in Hpath.
Qed.

Lemma sid_wire_reader_sound w (s0 : State Client) a :
  wire_reader w s0 = Some a ->
  exists rd, readers (wire_start w s0) !! a = Some rd /\ failure rd = None.
Proof.
  unfold wire_reader, wire_start. destruct (wire_body w); [|done]. intros [= <-].
  cbn. rewrite lookup_app_r, Nat.sub_diag by done. by eexists.
Qed.

(** The first request of a method is the one its endpoint asks for. *)
Lemma call_first fuel c (s0 : State Client) w base req :
  call_wire c (self s0) = Ok w ->
  url_Parse (baseURL (self s0)) = Ok base ->
  build (sid (self s0)) (wire_method w) (api_url base (wire_endpoint w)) (wire_body w)
        (wire_contentType w) (wire_opts w) = Ok req ->
  exists rest,
    new_requests s0 (final_state (call (S fuel) c s0))
    = (world (net s0), Client_send_request (client (self s0)) req) :: rest.
Proof.
  intros Hw Hbase Hreq. unfold new_requests. rewrite call_net, Hw, sid_transport_unfold.
  destruct (sid_call_wire_opts _ _ _ Hw) as [qs Hqs]. rewrite Hqs in *.
  destruct (doRequest_first fuel (wire_method w) (wire_endpoint w) (wire_reader w s0)
              (wire_contentType w) qs (wire_start w s0) base req) as [rest Hrest].
  - by rewrite sid_wire_start_self.
  - apply sid_wire_reader_sound.
  - by rewrite sid_wire_reader_pending, sid_wire_start_self.
  - exists rest. unfold new_requests in *.
    by rewrite sid_wire_start_net, sid_wire_start_self in Hrest.
Qed.

Ltac call_unfold :=
  cbv beta iota zeta delta
    [call returning AuthLogin AuthLogin_body TorrentsExport
     TorrentsAdd TorrentsAddParams TorrentsDelete SetForceStart
     TorrentsDownload TorrentsGetTags TorrentsInfo TorrentsTrackers
     TorrentsProperties TorrentsAddTags TorrentsRemoveTags
     TorrentsGetAllTags TorrentsCreateTags TorrentsDeleteTags
     SyncMainData SyncTorrentPeers
     doPostValues doPost doGet doPostResponse info_query login_form
     bind get_self new_reader ret set_if nonempty negb String.eqb].

Ltac sid_wire_unfold H :=
  cbv beta iota zeta delta
    [transport post_form get_query wire_body wire_method wire_endpoint
     wire_contentType wire_opts info_query login_form
     set_if nonempty negb String.eqb] in H.

Lemma call_status_error fuel c (s0 : State Client) w resp s' :
  call_wire c (self s0) = Ok w ->
  transport fuel w s0 = Returns (Ok resp) s' ->
  StatusCode resp <> http_StatusOK ->
  RespBodyErr resp = None ->
  call fuel c s0 = Returns (Err (error_prefix c +:+ status_error c resp)) s'.
Proof.
  intros Hw Ht Hs He. apply Z.eqb_neq in Hs.
  destruct resp as [status cookies body bodyErr]. cbn in Hs, He. subst bodyErr.
  destruct c; cbv beta iota delta [call_wire add_wire] in Hw;
    try (match type of Hw with
         | context [torrent_add_parts ?p] =>
             destruct (torrent_add_parts p) as [writer|] eqn:Hform; [|discriminate Hw]
         end);
    injection Hw as <-; sid_wire_unfold Ht; call_unfold; rewrite ?Hform;
    cbv beta iota zeta delta [bind new_reader ret get_self];
    rewrite Ht;
    cbn [StatusCode Response_ReadAll RespBody RespBodyErr fst snd ret];
    rewrite Hs; reflexivity.
Qed.

Lemma call_plain_success fuel c (s0 : State Client) w resp s' :
  expects_json c = false ->
  c <> CallAuthLogin ->
  call_wire c (self s0) = Ok w ->
  transport fuel w s0 = Returns (Ok resp) s' ->
  StatusCode resp = http_StatusOK ->
  RespBodyErr resp = None ->
  call fuel c s0 = Returns (Ok (plain_value c resp)) s'.
Proof.
  intros Hj Hl Hw Ht Hs He.
  destruct resp as [status cookies body bodyErr]. cbn in Hs, He. subst status bodyErr.
  destruct c; try discriminate Hj; try done;
    cbv beta iota delta [call_wire add_wire] in Hw;
    try (match type of Hw with
         | context [torrent_add_parts ?p] =>
             destruct (torrent_add_parts p) as [writer|] eqn:Hform; [|discriminate Hw]
         end);
    injection Hw as <-; sid_wire_unfold Ht; call_unfold; rewrite ?Hform;
    cbv beta iota zeta delta [bind new_reader ret get_self];
    rewrite Ht; reflexivity.
Qed.

Lemma call_bad_base fuel c (s0 : State Client) e :
  url_Parse (baseURL (self s0)) = Err e ->
  exists err s',
    call (S fuel) c s0 = Returns (Err err) s' /\ new_requests s0 s' = [].
Proof.
  intros Hbase. pose proof (call_factors (S fuel) c s0) as Hf.
  destruct (call_wire c (self s0)) as [w|] eqn:Hw.
  2:{ destruct Hf as [err Hf]. eexists _, _. split; [exact Hf|].
      apply new_requests_app. by rewrite app_nil_r. }
  unfold factors in Hf. rewrite sid_transport_unfold in Hf.
  rewrite (doRequest_bad_base _ _ _ _ _ _ _ e) in Hf by (by rewrite sid_wire_start_self).
  destruct Hf as [err Hf]. eexists _, _. split; [exact Hf|].
  apply new_requests_app. by rewrite sid_wire_start_net, app_nil_r.
Qed.

Lemma call_unreachable fuel c (s0 : State Client) :
  unreachable ->
  exists err s',
    call (S fuel) c s0 = Returns (Err err) s' /\ length (new_requests s0 s') <= 1.
Proof.
  intros Hu. pose proof (call_factors (S fuel) c s0) as Hf.
  destruct (call_wire c (self s0)) as [w|] eqn:Hw.
  2:{ destruct Hf as [err Hf]. eexists _, _. split; [exact Hf|].
      rewrite (new_requests_app _ _ []) by (by rewrite app_nil_r). cbn. lia. }
  unfold factors in Hf. rewrite sid_transport_unfold in Hf.
  destruct (doRequest_unreachable fuel (wire_method w) (wire_endpoint w)
              (wire_reader w s0) (wire_contentType w) (wire_opts w) (wire_start w s0) Hu
              (sid_wire_reader_valid w s0)) as (err & s' & Ht & Hlen).
  rewrite Ht in Hf. destruct Hf as [err' Hf]. eexists _, _. split; [exact Hf|].
  unfold new_requests in *. by rewrite sid_wire_start_net in Hlen.
Qed.

Lemma TorrentsInfo_first fuel params (s0 : State Client) base :
  url_Parse (baseURL (self s0)) = Ok base ->
  exists rest,
    new_requests s0 (final_state (TorrentsInfo (S fuel) params s0))
    = (world (net s0),
       Client_send_request (client (self s0))
         (mkRequest Background "GET"
            (mkURL (Origin base) (Path (api_url base "/api/v2/torrents/info"))
                   (url_Values_Encode (info_query params)))
            "" (if nonempty (sid (self s0)) then [("SID", sid (self s0))] else [])
            None)) :: rest.
Proof.
  intros Hbase.
  rewrite <- (final_state_returning VTorrents).
  change (returning _ _ s0) with (call (S fuel) (CallTorrentsInfo params) s0).
  eapply call_first; [reflexivity|exact Hbase|].
  unfold build. cbn. by destruct (nonempty (sid (self s0))).
Qed.

(** The first request of a method carries the cookie of the session the
    client holds, then the cookies of the jar. *)
Lemma call_first_cookies fuel c (s0 : State Client) w base :
  call_wire c (self s0) = Ok w ->
  url_Parse (baseURL (self s0)) = Ok base ->
  exists e rest,
    new_requests s0 (final_state (call (S fuel) c s0)) = e :: rest
    /\ Cookies e.2 = sid_cookies (sid (self s0)) ++ jar_cookies (client (self s0)).
Proof.
  intros Hw Hbase.
  destruct (sid_call_wire_build c (self s0) w (sid (self s0))
              (api_url base (wire_endpoint w)) Hw) as [req Hreq].
  destruct (call_first fuel c s0 w base req Hw Hbase Hreq) as [rest Hrest].
  eexists _, rest. split; [exact Hrest|]. cbn [snd].
  rewrite Client_send_request_cookies. f_equal.
  destruct (sid_call_wire_opts _ _ _ Hw) as [qs Hqs]. rewrite Hqs in Hreq.
  by eapply sid_build_cookies.
Qed.

(** After a login answered with status 200 and the cookie [SID], the first
    request of the next method carries that cookie. *)
Lemma login_then_call fuel fuel' base (s : State Client) resp v :
  url_Parse (baseURL (self s)) = Ok base ->
  login_never_forbidden (self s) ->
  answer (world (net s),
          Client_send_request (client (self s)) (login_request base (self s))) = Ok resp ->
  StatusCode resp = http_StatusOK ->
  jar_get "SID" (SetCookies resp) = Some v ->
  exists s1,
    AuthLogin (S fuel) s = Returns (Ok tt) s1
    /\ sid (self s1) = v
    /\ forall c w,
        call_wire c (self s1) = Ok w ->
        exists e rest,
          new_requests s1 (final_state (call (S fuel') c s1)) = e :: rest
          /\ Cookies e.2 = sid_cookies v ++ jar_cookies (client (self s1)).
Proof.
  intros Hbase HNF Hans H200 Hv.
  rewrite (sid_login_step fuel base s Hbase HNF).
  change (Do_result (login_request base (self s)) (login_state s))
    with (answer (world (net s),
                  Client_send_request (client (self s)) (login_request base (self s)))).
  rewrite Hans. unfold login_store, login_cookie, login_result.
  rewrite H200, Hv. cbn [Z.eqb http_StatusOK Pos.eqb negb].
  eexists. split; [reflexivity|]. split; [reflexivity|].
  intros c w Hw.
  destruct (call_first_cookies fuel' c _ w base Hw) as (e & rest & Hnew & Hc).
  { exact Hbase. }
  by exists e, rest.
Qed.

(** The first request of each method carries the form or the query of the
    method. *)
Lemma call_carries fuel c (s0 : State Client) base text :
  url_Parse (baseURL (self s0)) = Ok base ->
  expected_text true (username (self s0)) (password (self s0)) c = Some text ->
  exists e rest,
    new_requests s0 (final_state (call (S fuel) c s0)) = e :: rest
    /\ ReqCtx e.2 = Background
    /\ carries c base text e.2.
Proof.
  intros Hbase Htext.
  destruct (sid_call_wire_total c (self s0)) as [w Hw].
  destruct (sid_call_wire_build c (self s0) w (sid (self s0))
              (api_url base (wire_endpoint w)) Hw) as [req Hreq].
  destruct (call_first fuel c s0 w base req Hw Hbase Hreq) as [rest Hrest].
  eexists _, rest. split; [exact Hrest|]. cbn [snd].
  assert (ReqCtx req = Background /\ carries c base text req) as Hgoal.
  2:{ unfold carries, Client_send_request in *. by destruct (Jar _), (is_get c). }
  unfold carries.
  destruct c; cbn in Htext; try discriminate Htext;
    cbv beta iota delta [call_wire] in Hw; injection Hw as <-;
    cbv beta iota delta [post_form get_query wire_method wire_endpoint wire_body
                         wire_contentType wire_opts] in Hreq;
    match type of Hreq with
    | build _ _ _ _ _ [] = _ =>
        destruct (sid_build_queries _ _ _ _ _ [] _ Hreq) as (Hc & Hp & Hct & Hb);
        destruct (sid_build_wire _ _ _ _ _ [] _ Hreq) as [Hm Hr]
    | build _ _ _ _ _ [withQuery ?q] = _ =>
        destruct (sid_build_queries _ _ _ _ _ [q] _ Hreq) as (Hc & Hp & Hct & Hb);
        destruct (sid_build_wire _ _ _ _ _ [q] _ Hreq) as [Hm Hr]
    end;
    cbn [is_get expected_endpoint last] in *;
    rewrite ?login_form_text, ?encode_one, ?encode_singleton, ?delete_form_encoded,
      ?force_start_form_text, ?peers_query_text, ?tags_query_text, ?encode_empty,
      ?tags_form_encoded in *;
    repeat case_match; simplify_eq; try done.
Qed.

(** A body that is not a JSON document is an error of every method that
    decodes. *)
Lemma call_syntax_error fuel c (s0 : State Client) w resp s' err :
  expects_json c = true ->
  call_wire c (self s0) = Ok w ->
  transport fuel w s0 = Returns (Ok resp) s' ->
  StatusCode resp = http_StatusOK ->
  RespBodyErr resp = None ->
  RespBody resp <> "" ->
  json_parse (RespBody resp) = Err err ->
  call fuel c s0 = Returns (Err (syntax_error c err)) s'.
Proof.
  intros Hj Hw Ht Hs He Hb Hp.
  destruct resp as [status cookies body bodyErr]. cbn in Hs, Hb, He, Hp. subst.
  apply length_nonempty in Hb.
  destruct c; try discriminate Hj; injection Hw as <-;
    cbv beta iota zeta delta
      [transport get_query wire_body wire_method wire_endpoint wire_contentType wire_opts
       info_query] in Ht;
    cbv beta iota zeta delta
      [call returning TorrentsGetTags TorrentsInfo TorrentsTrackers
       TorrentsProperties TorrentsGetAllTags SyncMainData SyncTorrentPeers
       doGet bind];
    rewrite Ht;
    cbn [StatusCode Response_ReadAll RespBody RespBodyErr negb Z.eqb http_StatusOK
         Pos.eqb ret fst snd];
    rewrite ?Hb;
    unfold Unmarshal_TorrentInfos, Unmarshal_TrackerInfos, Unmarshal_strings,
      Unmarshal_MainData, Unmarshal_TorrentPeers, Unmarshal_TorrentsProperties,
      TorrentsProperties_UnmarshalJSON, result_bind;
    rewrite ?Hp; reflexivity.
Qed.

(** A response with status 200 whose body cannot be read is an error of
    every method but the login. *)
Lemma call_read_error fuel c (s0 : State Client) w resp s' err :
  c <> CallAuthLogin ->
  call_wire c (self s0) = Ok w ->
  transport fuel w s0 = Returns (Ok resp) s' ->
  StatusCode resp = http_StatusOK ->
  RespBodyErr resp = Some err ->
  call fuel c s0 = Returns (Err (error_prefix c +:+ read_error c err)) s'.
Proof.
  intros Hc Hw Ht Hs He.
  destruct resp as [status cookies body bodyErr]. cbn in Hs, He. subst.
  destruct c; try done; cbv beta iota delta [call_wire add_wire] in Hw;
    try (match type of Hw with
         | context [torrent_add_parts ?p] =>
             destruct (torrent_add_parts p) as [writer|] eqn:Hform; [|discriminate Hw]
         end);
    injection Hw as <-; sid_wire_unfold Ht; call_unfold; rewrite ?Hform;
    cbv beta iota zeta delta [bind new_reader ret get_self];
    rewrite Ht;
    cbn [StatusCode Response_ReadAll RespBody RespBodyErr fst snd ret negb Z.eqb
         http_StatusOK Pos.eqb];
    reflexivity.
Qed.

(** A method ends when its call of the pipeline does. *)
Lemma call_ends fuel c (s0 : State Client) w :
  call_wire c (self s0) = Ok w ->
  ends (transport fuel w s0) -> ends (call fuel c s0).
Proof.
  destruct c;
    cbv beta iota zeta delta
      [call call_wire add_wire post_form get_query transport
       wire_body wire_method wire_endpoint wire_contentType wire_opts
       returning AuthLogin AuthLogin_body TorrentsExport
       TorrentsAdd TorrentsAddParams TorrentsDelete SetForceStart
       TorrentsDownload TorrentsGetTags TorrentsInfo TorrentsTrackers
       TorrentsProperties TorrentsAddTags TorrentsRemoveTags
       TorrentsGetAllTags TorrentsCreateTags TorrentsDeleteTags
       SyncMainData SyncTorrentPeers
       doPostValues doPost doGet doPostResponse info_query login_form
       bind get_self new_reader decode_step panic ret ends store_sid
       set_if nonempty negb String.eqb];
    try (match goal with |- context [torrent_add_parts ?p] =>
           destruct (torrent_add_parts p) as [?|]; [|done] end);
    intros [= <-]; cbv beta iota;
    match goal with
    | |- context [doRequest ?f ?m ?e ?b ?ct ?o ?s] =>
        destruct (doRequest f m e b ct o s) as [[resp|err] s'|msg s'|s']
    end;
    cbv beta iota; intros Hends; repeat case_match; simplify_eq; done.
Qed.

(** When the login is never forbidden, a method ends, and it has sent
    three requests at most. *)
Lemma call_bounded fuel c (s0 : State Client) :
  login_never_forbidden (self s0) ->
  ends (call (S (S fuel)) c s0)
  /\ length (new_requests s0 (final_state (call (S (S fuel)) c s0))) <= 3.
Proof.
  intros HNF. destruct (sid_call_wire_total c (self s0)) as [w Hw].
  pose proof (call_ends (S (S fuel)) c s0 w Hw) as Hends.
  unfold new_requests. rewrite call_net, Hw. rewrite sid_transport_unfold in *.
  destruct (sid_call_wire_opts _ _ _ Hw) as [qs Hqs]. rewrite Hqs in *.
  destruct (retry_once_sid fuel (wire_method w) (wire_endpoint w) (wire_reader w s0)
              (wire_contentType w) qs (wire_start w s0))
    as (r & s' & Hrun & Hshape).
  - by rewrite sid_wire_start_self.
  - apply sid_wire_reader_valid.
  - rewrite Hrun in *. split; [by apply Hends|]. cbn [final_state].
    unfold new_requests in *. rewrite sid_wire_start_net in Hshape.
    destruct (drop _ _) as [|e1 [|e2 [|e3 [|e4 l]]]]; cbn; [lia..|done].
Qed.

(** Every request of a method of [client.go] is built by [http.NewRequest]:
    its context is the background context. *)
Lemma call_background fuel c (s0 : State Client) :
  Forall (fun e => ReqCtx e.2 = Background)
         (new_requests s0 (final_state (call fuel c s0))).
Proof.
  pose proof (call_requests fuel c s0) as Hall.
  destruct (call_wire c (self s0)) as [w|] eqn:Hw; [|by rewrite Hall].
  eapply Forall_impl; [exact Hall|]. intros e [Hs|Hl].
  - destruct (sid_sent_for_parsed _ _ _ _ _ _ _ Hs) as [base Hbase].
    by destruct (sid_sent_for_fields _ _ _ _ _ _ _ _ (sid_call_wire_opts _ _ _ Hw) Hbase Hs).
  - destruct (sid_sent_for_parsed _ _ _ _ _ _ _ Hl) as [base Hbase].
    by destruct (sid_sent_for_fields _ _ _ _ _ _ _ _ ltac:(by exists []) Hbase Hl).
Qed.
End Calls.

Section Delete.
Context `{RoundTripper}.

Lemma TorrentsDelete_first fuel infohash (s0 : State Client) base :
  url_Parse (baseURL (self s0)) = Ok base ->
  exists rest,
    new_requests s0 (final_state (TorrentsDelete (S fuel) infohash s0))
    = (world (net s0),
       Client_send_request (client (self s0))
         (mkRequest Background "POST" (api_url base delete_endpoint) form_urlencoded
                    (if nonempty (sid (self s0)) then [("SID", sid (self s0))] else [])
                    (Some (delete_form infohash)))) :: rest.
Proof.
  intros Hbase.
  rewrite <- (final_state_returning (fun _ => VNone)).
  change (returning _ _ s0)
    with (@call _ reference_json (S fuel) (CallTorrentsDelete infohash) s0).
  eapply (@call_first _ reference_json); [reflexivity|exact Hbase|].
  cbn. rewrite delete_form_encoded. unfold build. cbn. by destruct (nonempty (sid (self s0))).
Qed.
End Delete.
End SidProofs.

(** * The two revisions side by side *)

Section Revisions.
Context `{RoundTripper} `{JSONSyntax}.

Lemma call_wire_same c (cl1 : SidClient.Client) (cl2 : CtxClient.Client) :
  SidClient.username cl1 = CtxClient.username cl2 ->
  SidClient.password cl1 = CtxClient.password cl2 ->
  tags_without_hashes c = false ->
  SidSpec.call_wire c cl1 = CtxSpec.call_wire c cl2.
Proof.
  intros Hu Hp Hc.
  destruct c; cbn in Hc |- *; rewrite ?Hu, ?Hp; try reflexivity;
    try (apply negb_false_iff in Hc; by rewrite Hc);
    unfold SidSpec.add_wire, CtxSpec.add_wire, CtxClient.buildTorrentAddForm;
    by destruct (torrent_add_parts _).
Qed.

Lemma build_same_revisions sid method apiURL bodyBuffer ct qs req :
  SidSpec.build sid method apiURL bodyBuffer ct (map withQuery qs) = Ok req ->
  exists req',
    CtxSpec.build Background method apiURL bodyBuffer ct (map withQuery qs) = Ok req'
    /\ same_attempt req req'.
Proof.
  unfold SidSpec.build, CtxSpec.build, http_NewRequest.
  destruct (http_NewRequestWithContext Background method apiURL bodyBuffer) as [r|]; [|done].
  cbv zeta. apply SidProofs.apply_queries_same.
  by destruct (nonempty ct), (nonempty sid).
Qed.

(** The first request of a method is the same in both revisions, the
    cookies apart. *)
Lemma revisions_first_request fuel c (s1 : State SidClient.Client)
    (s2 : State CtxClient.Client) base w :
  SidClient.username (self s1) = CtxClient.username (self s2) ->
  SidClient.password (self s1) = CtxClient.password (self s2) ->
  url_Parse (SidClient.baseURL (self s1)) = Ok base ->
  url_Parse (CtxClient.baseURL (self s2)) = Ok base ->
  tags_without_hashes c = false ->
  SidSpec.call_wire c (self s1) = Ok w ->
  exists e1 rest1 e2 rest2,
    new_requests s1 (final_state (SidClient.call (S fuel) c s1)) = e1 :: rest1
    /\ new_requests s2 (final_state (CtxClient.callCtx (S fuel) Background c s2)) = e2 :: rest2
    /\ same_attempt e1.2 e2.2.
Proof.
  intros Hu Hp Hb1 Hb2 Hc Hw1.
  pose proof Hw1 as Hw2. rewrite (call_wire_same c _ (self s2) Hu Hp Hc) in Hw2.
  destruct (SidProofs.sid_call_wire_build c (self s1) w (SidClient.sid (self s1))
              (api_url base (wire_endpoint w)) Hw1) as [req1 Hreq1].
  destruct (SidProofs.sid_call_wire_opts _ _ _ Hw1) as [qs Hqs].
  pose proof Hreq1 as Hreq1'. rewrite Hqs in Hreq1'.
  destruct (build_same_revisions _ _ _ _ _ _ _ Hreq1') as (req2 & Hreq2 & Hsame).
  rewrite <- Hqs in Hreq2.
  destruct (SidProofs.call_first fuel c s1 w base req1 Hw1 Hb1 Hreq1) as [rest1 Hr1].
  destruct (CtxProofs.callCtx_first fuel Background c s2 w base req2 Hw2 Hb2 Hreq2)
    as [rest2 Hr2].
  eexists _, rest1, _, rest2. split; [exact Hr1|]. split; [exact Hr2|]. cbn [snd].
  eapply SidProofs.same_attempt_trans; [apply SidProofs.same_attempt_sent|].
  eapply SidProofs.same_attempt_trans; [exact Hsame|].
  apply SidProofs.same_attempt_sym, SidProofs.same_attempt_sent.
Qed.
End Revisions.

(** * The claims *)

(** C1.  The pipeline does not stop at one re-authentication when the
    service answers the login itself with "forbidden".  Let the service
    answer every request so, and let the request be one that can be built
    and sent.  Then, whatever the fuel, the pipeline does not return: it
    has sent the request, and after it one login for each unit of fuel that
    was left, each of them answered with "forbidden" and followed by the
    next.  There is no bound on the logins of one call, and the request is
    never sent again.  This holds of [doRequest] of [client.go] and of
    [doRequestCtx]. *)
Theorem reauthentication_is_unbounded `{RoundTripper} :
  always_forbidden ->
  (forall fuel method endpoint body ct qs (s0 : State SidClient.Client) base req,
      url_Parse (SidClient.baseURL (self s0)) = Ok base ->
      (forall a, body = Some a ->
                 exists rd, readers s0 !! a = Some rd /\ failure rd = None) ->
      SidSpec.build (SidClient.sid (self s0)) method (api_url base endpoint)
        (body ≫= fun a => pending <$> readers s0 !! a) ct (map withQuery qs) = Ok req ->
      exists s' logins,
        SidClient.doRequest (S fuel) method endpoint body ct (map withQuery qs) s0
        = OutOfFuel s'
        /\ new_requests s0 s'
           = (world (net s0), Client_send_request (SidClient.client (self s0)) req) :: logins
        /\ length logins = fuel
        /\ Forall (fun e => SidSpec.login_sent (self s0) e.2) logins)
  /\ (forall fuel ctx method endpoint body ct opts (s0 : State CtxClient.Client) base req,
         url_Parse (CtxClient.baseURL (self s0)) = Ok base ->
         (forall a, body = Some a ->
                    exists rd, readers s0 !! a = Some rd /\ failure rd = None) ->
         CtxSpec.build ctx method (api_url base endpoint)
           (body ≫= fun a => pending <$> readers s0 !! a) ct opts = Ok req ->
         exists s' logins,
           CtxClient.doRequestCtx (S fuel) ctx method endpoint body ct opts s0 = OutOfFuel s'
           /\ new_requests s0 s'
              = (world (net s0), Client_send_request (CtxClient.client (self s0)) req)
                  :: logins
           /\ length logins = fuel
           /\ Forall (fun e => CtxSpec.login_sent (self s0) ctx e.2) logins).
Proof.
  intros Hf. split.
  - intros. by eapply SidProofs.doRequest_forbidden.
  - intros. by eapply CtxProofs.doRequestCtx_forbidden.
Qed.

(** The sample service that forbids everything does so. *)
Lemma forbidding_service_forbids : @always_forbidden forbidding_service.
Proof. intros req w. by eexists. Qed.

(** The list request of the sample clients at the service that forbids
    everything, with fuel for the request and three logins. *)
Lemma reauthentication_is_unbounded_witness :
  @always_forbidden forbidding_service
  /\ (exists s' logins,
         @SidClient.doRequest forbidding_service 4 "GET" info_endpoint None ""
           (map withQuery [∅]) (@start forbidding_service _ sid_client 0%nat)
         = OutOfFuel s'
         /\ @new_requests forbidding_service _
              (@start forbidding_service _ sid_client 0%nat) s'
            = (0%nat, mkRequest Background "GET"
                        (mkURL "http://localhost:8080" "/api/v2/torrents/info" "")
                        "" [] None) :: logins
         /\ length logins = 3%nat
         /\ Forall (fun e => SidSpec.login_sent sid_client e.2) logins)
  /\ (exists s' logins,
         @CtxClient.doRequestCtx forbidding_service 4 Background "GET" info_endpoint None ""
           [withQuery ∅] (@start forbidding_service _ ctx_client 0%nat)
         = OutOfFuel s'
         /\ @new_requests forbidding_service _
              (@start forbidding_service _ ctx_client 0%nat) s'
            = (0%nat, mkRequest Background "GET"
                        (mkURL "http://localhost:8080" "/api/v2/torrents/info" "")
                        "" [] None) :: logins
         /\ length logins = 3%nat
         /\ Forall (fun e => CtxSpec.login_sent ctx_client Background e.2) logins).
Proof.
  split; [exact forbidding_service_forbids|].
  destruct (@reauthentication_is_unbounded forbidding_service forbidding_service_forbids)
    as [Hsid Hctx].
  split.
  - apply (Hsid 3%nat "GET" info_endpoint None "" [∅]
             (@start forbidding_service _ sid_client 0%nat)
             (mkURL "http://localhost:8080" "" "")
             (mkRequest Background "GET"
                (mkURL "http://localhost:8080" "/api/v2/torrents/info" "") "" [] None)).
    + vm_compute. reflexivity.
    + intros a Ha. discriminate Ha.
    + vm_compute. reflexivity.
  - apply (Hctx 3%nat Background "GET" info_endpoint None "" [withQuery ∅]
             (@start forbidding_service _ ctx_client 0%nat)
             (mkURL "http://localhost:8080" "" "")
             (mkRequest Background "GET"
                (mkURL "http://localhost:8080" "/api/v2/torrents/info" "") "" [] None)).
    + vm_compute. reflexivity.
    + intros a Ha. discriminate Ha.
    + vm_compute. reflexivity.
Defined.

(** The list call of both revisions at the service that forbids
    everything: with fuel for six calls of the pipeline, the request and
    five logins, and no result. *)
Example forbidden_list_call :
  (exists s',
      @SidClient.call forbidding_service reference_json 6 (CallTorrentsInfo [])
        (@start forbidding_service _ sid_client 0%nat) = OutOfFuel s'
      /\ @paths forbidding_service (sent (net s'))
         = ["/api/v2/torrents/info"; "/api/v2/auth/login"; "/api/v2/auth/login";
            "/api/v2/auth/login"; "/api/v2/auth/login"; "/api/v2/auth/login"])
  /\ (exists s',
         @CtxClient.callCtx forbidding_service reference_json 6 Background
           (CallTorrentsInfo []) (@start forbidding_service _ ctx_client 0%nat)
         = OutOfFuel s'
         /\ @paths forbidding_service (sent (net s'))
            = ["/api/v2/torrents/info"; "/api/v2/auth/login"; "/api/v2/auth/login";
               "/api/v2/auth/login"; "/api/v2/auth/login"; "/api/v2/auth/login"]).
Proof. split; eexists; split; vm_compute; reflexivity. Qed.

(** X20.  Let the service never answer the login with "forbidden".  Then a
    call of the request pipeline returns, and the requests it has sent are
    in one of four shapes.  None: the call failed before sending.  One, not
    answered with "forbidden": its answer is the result.  Two: the first
    was answered with "forbidden", the second is the login, the login was
    not answered with status 200, and the result is the error
    "re-authentication failed".  Three: the first was answered with
    "forbidden", the second is the login and was answered with 200, the
    third is the first again (same context, method, address, content type
    and body), and its answer is the result whatever its status.  There is
    never a fourth request.  This holds of [doRequest] of [client.go], whose
    request modifiers are queries, and of [doRequestCtx]. *)
Theorem retry_on_forbidden `{RoundTripper} :
  (forall fuel method endpoint body ct qs (s0 : State SidClient.Client),
      SidSpec.login_never_forbidden (self s0) ->
      (forall a, body = Some a -> is_Some (readers s0 !! a)) ->
      exists r s',
        SidClient.doRequest (S (S fuel)) method endpoint body ct (map withQuery qs) s0
        = Returns r s'
        /\ retried_once (SidSpec.login_sent (self s0)) (new_requests s0 s') r)
  /\ (forall fuel ctx method endpoint body ct opts (s0 : State CtxClient.Client),
         CtxSpec.login_never_forbidden (self s0) ->
         (forall a, body = Some a -> is_Some (readers s0 !! a)) ->
         exists r s',
           CtxClient.doRequestCtx (S (S fuel)) ctx method endpoint body ct opts s0
           = Returns r s'
           /\ retried_once (CtxSpec.login_sent (self s0) ctx) (new_requests s0 s') r).
Proof.
  split.
  - intros. by apply SidProofs.retry_once_sid.
  - intros. by apply CtxProofs.retry_once_ctx.
Qed.

(** The session service never forbids a login. *)
Lemma session_service_login_sid :
  @SidSpec.login_never_forbidden session_service sid_client.
Proof.
  intros base req w resp Hbase Hpath Hr.
  vm_compute in Hbase. injection Hbase as <-.
  change (Path (URL req) = login_endpoint) in Hpath.
  cbn in Hr. unfold with_session, is_login in Hr. rewrite Hpath in Hr.
  destruct (ReqCtx req) as [|k]; [|destruct (k <=? w)%nat]; cbn in Hr;
    try discriminate Hr; by injection Hr as <-.
Qed.

Lemma session_service_login_ctx :
  @CtxSpec.login_never_forbidden session_service ctx_client.
Proof.
  intros base req w resp Hbase Hpath Hr.
  vm_compute in Hbase. injection Hbase as <-.
  change (Path (URL req) = login_endpoint) in Hpath.
  cbn in Hr. unfold with_session, is_login in Hr. rewrite Hpath in Hr.
  destruct (ReqCtx req) as [|k]; [|destruct (k <=? w)%nat]; cbn in Hr;
    try discriminate Hr; by injection Hr as <-.
Qed.

(** The list call against the session service, by a client without a
    session: three requests. *)
Lemma retry_on_forbidden_witness :
  (exists r s',
      @SidClient.doRequest session_service 2 "GET" info_endpoint None "" (map withQuery [∅])
        (@start session_service _ sid_client 0%nat) = Returns r s'
      /\ @retried_once session_service (@SidSpec.login_sent sid_client)
           (@new_requests session_service _ (@start session_service _ sid_client 0%nat) s') r)
  /\ (exists r s',
         @CtxClient.doRequestCtx session_service 2 Background "GET" info_endpoint None ""
           [withQuery ∅] (@start session_service _ ctx_client 0%nat) = Returns r s'
         /\ @retried_once session_service (@CtxSpec.login_sent ctx_client Background)
              (@new_requests session_service _ (@start session_service _ ctx_client 0%nat) s')
              r).
Proof.
  destruct (@retry_on_forbidden session_service) as [Hsid Hctx]. split.
  - apply (Hsid 0%nat "GET" info_endpoint None "" [∅]
             (@start session_service _ sid_client 0%nat)).
    + exact session_service_login_sid.
    + intros a Ha. discriminate Ha.
  - apply (Hctx 0%nat Background "GET" info_endpoint None "" [withQuery ∅]
             (@start session_service _ ctx_client 0%nat)).
    + exact session_service_login_ctx.
    + intros a Ha. discriminate Ha.
Defined.

(** A login that is rejected: the first response is "forbidden", the login
    is answered with 401, and the request is not sent again. *)
Example forbidden_without_resubmission :
  (exists s',
      @SidClient.doRequest rejecting_service 3 "GET" info_endpoint None "" [withQuery ∅]
        (@start rejecting_service _ sid_client 0%nat)
      = Returns (Err "re-authentication failed: AuthLogin error (401): Unauthorized") s'
      /\ @paths rejecting_service (sent (net s'))
         = ["/api/v2/torrents/info"; "/api/v2/auth/login"])
  /\ (exists s',
         @CtxClient.doRequestCtx rejecting_service 3 Background "GET" info_endpoint None ""
           [withQuery ∅] (@start rejecting_service _ ctx_client 0%nat)
         = Returns (Err "re-authentication failed: AuthLogin error (401): Unauthorized") s'
         /\ @paths rejecting_service (sent (net s'))
            = ["/api/v2/torrents/info"; "/api/v2/auth/login"]).
Proof. split; eexists; split; vm_compute; reflexivity. Qed.

(** X1.  With a service that answers every request with "forbidden", the
    login too, the pipeline and the login call each other without bound:
    the answer to the login makes the pipeline log in again.  Whatever the
    fuel, the login of a client whose base address parses does not return,
    and it has sent one login request for each unit of fuel.  This holds of
    [AuthLogin] of [client.go] and of [AuthLoginCtx]. *)
Theorem forbidden_login_never_returns `{RoundTripper} (fuel : nat) :
  always_forbidden ->
  (forall (s : State SidClient.Client) base,
      url_Parse (SidClient.baseURL (self s)) = Ok base ->
      exists s',
        SidClient.AuthLogin fuel s = OutOfFuel s'
        /\ length (new_requests s s') = fuel)
  /\ (forall ctx (s : State CtxClient.Client) base,
         url_Parse (CtxClient.baseURL (self s)) = Ok base ->
         exists s',
           CtxClient.AuthLoginCtx fuel ctx s = OutOfFuel s'
           /\ length (new_requests s s') = fuel).
Proof.
  intros Hf. split.
  - intros s base Hbase. by eapply SidProofs.AuthLogin_forbidden.
  - intros ctx s base Hbase. by eapply CtxProofs.AuthLoginCtx_forbidden.
Qed.

(** The login of the sample clients at the service that forbids
    everything, with fuel for five calls. *)
Lemma forbidden_login_never_returns_witness :
  @always_forbidden forbidding_service
  /\ (exists s',
         @SidClient.AuthLogin forbidding_service 5
           (@start forbidding_service _ sid_client 0%nat) = OutOfFuel s'
         /\ length (@new_requests forbidding_service _
                      (@start forbidding_service _ sid_client 0%nat) s') = 5%nat)
  /\ (exists s',
         @CtxClient.AuthLoginCtx forbidding_service 5 Background
           (@start forbidding_service _ ctx_client 0%nat) = OutOfFuel s'
         /\ length (@new_requests forbidding_service _
                      (@start forbidding_service _ ctx_client 0%nat) s') = 5%nat).
Proof.
  split; [exact forbidding_service_forbids|].
  destruct (@forbidden_login_never_returns forbidding_service 5
              forbidding_service_forbids) as [Hsid Hctx].
  split.
  - apply (Hsid (@start forbidding_service _ sid_client 0%nat)
             (mkURL "http://localhost:8080" "" "")).
    vm_compute. reflexivity.
  - apply (Hctx Background (@start forbidding_service _ ctx_client 0%nat)
             (mkURL "http://localhost:8080" "" "")).
    vm_compute. reflexivity.
Defined.

(** C2, amended.  The add form holds, under each field name, what
    [expected_fields] says: a text parameter when it is not empty, a flag
    when it is true, the root folder when the pointer is not nil, and a
    limit (upload, download, ratio, seeding time) when it is strictly
    positive, so that a negative limit is left out like a zero one.  The
    integer limits are written in decimal, and the ratio limit with two
    digits after the point.  [buildTorrentAddForm] returns the bytes of
    these parts. *)
Theorem add_form_fields (p : TorrentsAddParams.t) :
  exists w,
    torrent_add_parts p = Ok w
    /\ (forall boundary,
          CtxClient.buildTorrentAddForm boundary p
          = Ok (multipart_bytes boundary w, multipart_FormDataContentType boundary))
    /\ (forall name, form_values name w = expected_fields p name)
    /\ (forall m e,
          fmt_2f (S754_finite false m e)
          = strconv_Itoa (scale100_round m e / 100) +:+ "." +:+
            two_digits (scale100_round m e mod 100)
          /\ String.length (two_digits (scale100_round m e mod 100)) = 2%nat).
Proof.
  destruct (torrent_add_parts_fields p) as (w & Hw & Hfields & Hfmt).
  exists w. split; [done|]. split; [|done].
  intros boundary. unfold CtxClient.buildTorrentAddForm. by rewrite Hw.
Qed.

(** C2, as stated, fails for negative limits: they are not the zero value
    of their type, and the form does not hold them. *)
Lemma negative_limit_omitted :
  exists w, torrent_add_parts negative_limits = Ok w
    /\ TorrentsAddParams.UpLimit negative_limits <> 0%Z
    /\ TorrentsAddParams.SeedingTime negative_limits <> 0%Z
    /\ TorrentsAddParams.RatioLimit negative_limits <> S754_zero false
    /\ form_values "upLimit" w = []
    /\ form_values "ratioLimit" w = []
    /\ form_values "seedingTimeLimit" w = [].
Proof. eexists. split; [vm_compute; reflexivity|]. repeat split; done. Qed.

(** C3.  When [TorrentInfo.UnmarshalJSON] decodes a payload, the payload is
    an object; if the text under ["tags"] is empty the tags are the empty
    slice, not nil and with no element; if it is made of items joined by
    commas, the tags are these items, as many and in that order. *)
Theorem tags_decode `{JSONSyntax} (data : string) (t r : TorrentInfo.t) :
  TorrentInfo_UnmarshalJSON data t = Decoded r ->
  exists ms raw,
    json_parse data = Ok (JObject ms)
    /\ store_string "" (member "tags" ms) = Ok raw
    /\ (raw = "" -> TorrentInfo.Tags r = Some [])
    /\ (forall items,
          items <> [] -> forallb no_comma items = true ->
          raw = strings_Join items "," -> raw <> "" ->
          TorrentInfo.Tags r = Some items
          /\ length (slice_elems (TorrentInfo.Tags r)) = length items).
Proof.
  unfold TorrentInfo_UnmarshalJSON.
  destruct (json_parse data) as [j|]; [|done]. intros Hd.
  destruct (TorrentInfo_tags_value j t r Hd) as (ms & raw & -> & Hrest).
  by exists ms, raw.
Qed.

(** A payload with three tags. *)
Lemma tags_decode_witness :
  exists r,
    TorrentInfo_UnmarshalJSON tagged_torrent TorrentInfo.zero = Decoded r
    /\ TorrentInfo.Tags r = Some ["linux"; "iso"; "lts"]
    /\ exists ms raw,
        json_parse tagged_torrent = Ok (JObject ms)
        /\ store_string "" (member "tags" ms) = Ok raw
        /\ (raw = "" -> TorrentInfo.Tags r = Some [])
        /\ (forall items,
              items <> [] -> forallb no_comma items = true ->
              raw = strings_Join items "," -> raw <> "" ->
              TorrentInfo.Tags r = Some items
              /\ length (slice_elems (TorrentInfo.Tags r)) = length items).
Proof.
  eexists. split; [vm_compute; reflexivity|]. split; [reflexivity|].
  apply (tags_decode tagged_torrent TorrentInfo.zero). vm_compute. reflexivity.
Defined.

(** The empty tag text gives the empty slice. *)
Example no_tags :
  TorrentInfo_UnmarshalJSON untagged_torrent TorrentInfo.zero
  = Decoded (TorrentInfo.mk 0 false "" "" "ubuntu" 0 "" (Some [])).
Proof. vm_compute. reflexivity. Qed.

(** C4.  When [TorrentsProperties.UnmarshalJSON] decodes a payload, each of
    the four dates is the instant of its wire value [v]: for [-1] the zero
    [time.Time], which [IsZero] and is not the Unix epoch; for any other
    [v] the instant [time.Unix(v, 0)], whose Unix time is [v] again and
    whose nanoseconds are zero. *)
Theorem timestamps_decode `{JSONSyntax} (data : string) (t r : TorrentsProperties.t) :
  TorrentsProperties_UnmarshalJSON data t = Decoded r ->
  exists ms a c cr l,
    json_parse data = Ok (JObject ms)
    /\ store_int64 0 (member "addition_date" ms) = Ok a
    /\ store_int64 0 (member "completion_date" ms) = Ok c
    /\ store_int64 0 (member "creation_date" ms) = Ok cr
    /\ store_int64 0 (member "last_seen" ms) = Ok l
    /\ stamp_of a (TorrentsProperties.AdditionDate r)
    /\ stamp_of c (TorrentsProperties.CompletionDate r)
    /\ stamp_of cr (TorrentsProperties.CreationDate r)
    /\ stamp_of l (TorrentsProperties.LastSeen r).
Proof. apply TorrentsProperties_dates. Qed.

(** A payload with a date and with the value [-1]. *)
Lemma timestamps_decode_witness :
  exists r,
    TorrentsProperties_UnmarshalJSON dated_properties TorrentsProperties.zero = Decoded r
    /\ Time_Unix (TorrentsProperties.AdditionDate r) = 1700000000%Z
    /\ TorrentsProperties.CreationDate r = time_zero
    /\ exists ms a c cr l,
        json_parse dated_properties = Ok (JObject ms)
        /\ store_int64 0 (member "addition_date" ms) = Ok a
        /\ store_int64 0 (member "completion_date" ms) = Ok c
        /\ store_int64 0 (member "creation_date" ms) = Ok cr
        /\ store_int64 0 (member "last_seen" ms) = Ok l
        /\ stamp_of a (TorrentsProperties.AdditionDate r)
        /\ stamp_of c (TorrentsProperties.CompletionDate r)
        /\ stamp_of cr (TorrentsProperties.CreationDate r)
        /\ stamp_of l (TorrentsProperties.LastSeen r).
Proof.
  eexists. split; [vm_compute; reflexivity|]. split; [vm_compute; reflexivity|].
  split; [reflexivity|].
  apply (timestamps_decode dated_properties TorrentsProperties.zero). vm_compute. reflexivity.
Defined.

(** C5.  Let a method that decodes JSON be handed, by the request pipeline,
    a response with status 200 and an empty body.  Then the method returns
    an error, and no value: [TorrentsProperties] its own "empty response"
    error, the other methods the decoder's "unexpected end of JSON input"
    in their wrapping.  This holds of the methods of both revisions. *)
Theorem empty_body_is_an_error `{RoundTripper} `{JSONSyntax} (c : Call) :
  expects_json c = true ->
  (forall fuel (s0 : State SidClient.Client) w resp s',
      SidSpec.call_wire c (self s0) = Ok w ->
      SidSpec.transport fuel w s0 = Returns (Ok resp) s' ->
      empty_success resp ->
      SidClient.call fuel c s0 = Returns (Err (empty_body_error c)) s')
  /\ (forall fuel ctx (s0 : State CtxClient.Client) w resp s',
         CtxSpec.call_wire c (self s0) = Ok w ->
         CtxSpec.transport fuel ctx w s0 = Returns (Ok resp) s' ->
         empty_success resp ->
         CtxClient.callCtx fuel ctx c s0 = Returns (Err (empty_body_error c)) s').
Proof.
  intros Hc. split.
  - intros. by eapply SidProofs.call_empty_body.
  - intros. by eapply CtxProofs.callCtx_empty_body.
Qed.

(** The properties call against the session service, which answers it with
    status 200 and an empty body. *)
Lemma empty_body_is_an_error_witness :
  expects_json (CallTorrentsProperties "abc") = true
  /\ (exists s',
         @SidClient.call session_service reference_json 2 (CallTorrentsProperties "abc")
           (@start session_service _ sid_client 0%nat)
         = Returns (Err "TorrentsProperties error: empty response") s')
  /\ (exists s',
         @CtxClient.callCtx session_service reference_json 2 Background
           (CallTorrentsProperties "abc") (@start session_service _ ctx_client 0%nat)
         = Returns (Err "TorrentsProperties error: empty response") s').
Proof.
  split; [reflexivity|].
  destruct (@empty_body_is_an_error session_service reference_json
              (CallTorrentsProperties "abc") eq_refl) as [Hsid Hctx].
  split.
  - eexists. eapply Hsid; [reflexivity|vm_compute; reflexivity|by vm_compute].
  - eexists. eapply Hctx; [reflexivity|vm_compute; reflexivity|by vm_compute].
Defined.

(** The list call answered with status 200 and an empty body. *)
Example empty_list_body :
  exists s',
    @SidClient.TorrentsInfo (mock_transport (by_path [(info_endpoint, (200%Z, ""))]))
      reference_json 1 []
      (@start (mock_transport (by_path [(info_endpoint, (200%Z, ""))])) _ sid_client 0%nat)
    = Returns (Err "failed to decode response: unexpected end of JSON input") s'.
Proof. eexists. vm_compute. reflexivity. Qed.

(** C6, amended.  Let the base address parse and the service never answer
    the login with "forbidden".  Then [AuthLogin] sends one request, the
    login, and returns [login_verdict] of its answer: success exactly when
    the status is 200, whatever the body; for another status an error with
    that status and the body; for a failure of the transport an error with
    the cause, and neither status nor body.  In [client.go] the value of the
    cookie [SID] of a response with status 200 becomes the [sid] of the
    client, which is otherwise left as it is; in the other revision the
    cookies of the response go to the jar of the HTTP client.  [AuthLogin]
    asks nothing of the session it starts in, and storing the cookies of an
    answer a second time changes nothing. *)
Theorem login_sends_one_request `{RoundTripper} :
  (forall fuel base (s : State SidClient.Client),
      url_Parse (SidClient.baseURL (self s)) = Ok base ->
      SidSpec.login_never_forbidden (self s) ->
      exists s',
        SidClient.AuthLogin (S fuel) s
        = Returns (login_verdict
                     (answer (world (net s),
                              Client_send_request (SidClient.client (self s))
                                (SidSpec.login_request base (self s))))) s'
        /\ new_requests s s'
           = [(world (net s),
               Client_send_request (SidClient.client (self s))
                 (SidSpec.login_request base (self s)))]
        /\ SidClient.sid (self s')
           = default (SidClient.sid (self s))
               (SidSpec.login_cookie
                  (answer (world (net s),
                           Client_send_request (SidClient.client (self s))
                             (SidSpec.login_request base (self s))))))
  /\ (forall fuel ctx base (s : State CtxClient.Client),
         url_Parse (CtxClient.baseURL (self s)) = Ok base ->
         CtxSpec.login_never_forbidden (self s) ->
         exists s',
           CtxClient.AuthLoginCtx (S fuel) ctx s
           = Returns (login_verdict
                        (answer (world (net s),
                                 Client_send_request (CtxClient.client (self s))
                                   (CtxSpec.login_request ctx base (self s))))) s'
           /\ new_requests s s'
              = [(world (net s),
                  Client_send_request (CtxClient.client (self s))
                    (CtxSpec.login_request ctx base (self s)))]
           /\ CtxClient.client (self s')
              = Client_store_cookies (CtxClient.client (self s))
                  (answer (world (net s),
                           Client_send_request (CtxClient.client (self s))
                             (CtxSpec.login_request ctx base (self s)))))
  /\ (forall name cs jar,
         jar_get name (jar_SetCookies cs (jar_SetCookies cs jar))
         = jar_get name (jar_SetCookies cs jar)).
Proof.
  split; [|split].
  - intros. by apply SidProofs.AuthLogin_once.
  - intros. by apply CtxProofs.AuthLoginCtx_once.
  - apply jar_SetCookies_twice.
Qed.

(** The login against the session service: it succeeds, and the cookie of
    the session is kept. *)
Lemma login_sends_one_request_witness :
  (exists s',
      @SidClient.AuthLogin session_service 1 (@start session_service _ sid_client 0%nat)
      = Returns (Ok tt) s'
      /\ @paths session_service (@new_requests session_service _
                                   (@start session_service _ sid_client 0%nat) s')
         = ["/api/v2/auth/login"]
      /\ SidClient.sid (self s') = session_id)
  /\ (exists s',
         @CtxClient.AuthLoginCtx session_service 1 Background
           (@start session_service _ ctx_client 0%nat)
         = Returns (Ok tt) s'
         /\ @paths session_service (@new_requests session_service _
                                      (@start session_service _ ctx_client 0%nat) s')
            = ["/api/v2/auth/login"]
         /\ CtxClient.client (self s') = mkHttpClient (Some [("SID", session_id)])).
Proof.
  destruct (@login_sends_one_request session_service) as (Hsid & Hctx & _). split.
  - destruct (Hsid 0%nat _ (@start session_service _ sid_client 0%nat) eq_refl
                session_service_login_sid) as (s' & Hr & Hnew & Hs).
    exists s'. split; [exact Hr|]. split; [by rewrite Hnew|exact Hs].
  - destruct (Hctx 0%nat Background _ (@start session_service _ ctx_client 0%nat) eq_refl
                session_service_login_ctx) as (s' & Hr & Hnew & Hs).
    exists s'. split; [exact Hr|]. split; [by rewrite Hnew|exact Hs].
Defined.

(** C6, as stated, fails for a login answered with status 200 and an error
    in the body: [AuthLogin] succeeds. *)
Lemma login_accepts_error_body :
  (exists s',
      @SidClient.AuthLogin failing_login_service 2
        (@start failing_login_service _ sid_client 0%nat) = Returns (Ok tt) s'
      /\ map (@answer failing_login_service) (sent (net s'))
         = [Ok (mkResponse 200 [] "Fails." None)])
  /\ (exists s',
         @CtxClient.AuthLoginCtx failing_login_service 2 Background
           (@start failing_login_service _ ctx_client 0%nat) = Returns (Ok tt) s'
         /\ map (@answer failing_login_service) (sent (net s'))
            = [Ok (mkResponse 200 [] "Fails." None)]).
Proof. split; eexists; split; vm_compute; reflexivity. Qed.

(** C7, amended.  The methods of [client.go] take no context: every request
    they send carries the background context.  In the revision with
    contexts every method has a form that takes a context, [callCtx], and
    the form without one is that form called with the background context.
    Let the transport answer a request whose context is done with an error,
    and let the body of a response be unreadable when the context of its
    request is done by the time the response is complete.  Then: a method
    called with a context that is done returns an error; when the context
    ended before or during a request of a method other than the login, the
    method returns an error, with one unit of fuel more than it took to
    send that request; a method that returns a value has sent every request
    while its context was live and, unless it is the login, has had every
    answer complete while the context was live; and every request of a
    method, the login too, carries the context of the call. *)
Theorem cancelled_context_is_an_error `{RoundTripper} `{JSONSyntax} :
  (forall fuel c (s1 : State SidClient.Client),
      Forall (fun e => ReqCtx e.2 = Background)
             (new_requests s1 (final_state (SidClient.call fuel c s1))))
  /\ (honours_cancellation -> aborts_in_flight ->
      forall fuel ctx c (s0 : State CtxClient.Client),
        (Context_done (world (net s0)) ctx = true ->
         exists err s', CtxClient.callCtx (S fuel) ctx c s0 = Returns (Err err) s')
        /\ (forall e,
              c <> CallAuthLogin ->
              e ∈ new_requests s0 (final_state (CtxClient.callCtx fuel ctx c s0)) ->
              cut_short ctx e ->
              exists err s', CtxClient.callCtx (S fuel) ctx c s0 = Returns (Err err) s')
        /\ (forall v s',
              CtxClient.callCtx fuel ctx c s0 = Returns (Ok v) s' ->
              Forall (fun e => Context_done e.1 ctx = false
                               /\ (c <> CallAuthLogin ->
                                   Context_done (completed e) ctx = false))
                     (new_requests s0 s'))
        /\ Forall (fun e => ReqCtx e.2 = ctx)
                  (new_requests s0 (final_state (CtxClient.callCtx fuel ctx c s0)))
        /\ CtxClient.call fuel c s0 = CtxClient.callCtx fuel Background c s0).
Proof.
  split; [intros; apply SidProofs.call_background|].
  intros Hh Ha fuel ctx c s0. split; [|split; [|split; [|split]]].
  - intros Hdone. by apply CtxProofs.callCtx_cancelled.
  - intros e Hc He Hcut. by eapply CtxProofs.callCtx_cut_short.
  - intros v s' Hr. by eapply CtxProofs.callCtx_live.
  - apply CtxProofs.callCtx_requests_ctx.
  - by rewrite CtxProofs.call_is_callCtx.
Qed.

(** A mock transport answers a request whose context is done with an
    error. *)
Lemma mock_honours_cancellation handler : @honours_cancellation (mock_transport handler).
Proof.
  intros req w Hdone. cbn in *. destruct (ReqCtx req) as [|k]; [done|].
  cbn in Hdone. by rewrite Hdone.
Qed.

(** So does the slow transport, and the body of an answer that was
    complete only after the context was done cannot be read. *)
Lemma slow_honours_cancellation handler : @honours_cancellation (slow_transport handler).
Proof.
  intros req w Hdone. cbn in *. destruct (ReqCtx req) as [|k]; [done|].
  cbn in Hdone. by rewrite Hdone.
Qed.

Lemma slow_aborts_in_flight handler : @aborts_in_flight (slow_transport handler).
Proof.
  intros req w resp Hr Hdone. cbn in *. destruct (ReqCtx req) as [|k]; [done|].
  destruct (k <=? w)%nat eqn:Hk; [done|].
  destruct (k <=? S w)%nat eqn:Hk'; cbn in Hr, Hdone; [|congruence].
  destruct (handler req); [|done]. by injection Hr as <-.
Qed.

(** The list call at the slow service without sessions: with a context that
    is done from the start; and with a context that ends while the answer
    to the only request is in flight. *)
Lemma cancelled_context_is_an_error_witness :
  @honours_cancellation slow_open_service
  /\ @aborts_in_flight slow_open_service
  /\ (@Context_done slow_open_service 0%nat (Cancellable 0) = true
      /\ exists err s',
          @CtxClient.callCtx slow_open_service reference_json 1 (Cancellable 0)
            (CallTorrentsInfo []) (@start slow_open_service _ ctx_client 0%nat)
          = Returns (Err err) s')
  /\ (@cut_short slow_open_service (Cancellable 1) (0%nat, cancellable_list_request)
      /\ exists err s',
          @CtxClient.callCtx slow_open_service reference_json 2 (Cancellable 1)
            (CallTorrentsInfo []) (@start slow_open_service _ ctx_client 0%nat)
          = Returns (Err err) s').
Proof.
  split; [apply slow_honours_cancellation|]. split; [apply slow_aborts_in_flight|].
  destruct (@cancelled_context_is_an_error slow_open_service reference_json) as [_ Hctx].
  specialize (Hctx (slow_honours_cancellation _) (slow_aborts_in_flight _)).
  split.
  - split; [reflexivity|].
    destruct (Hctx 0%nat (Cancellable 0) (CallTorrentsInfo [])
                (@start slow_open_service _ ctx_client 0%nat)) as (Hbefore & _).
    by apply Hbefore.
  - assert (@cut_short slow_open_service (Cancellable 1) (0%nat, cancellable_list_request))
      as Hcut by (right; reflexivity).
    split; [exact Hcut|].
    destruct (Hctx 1%nat (Cancellable 1) (CallTorrentsInfo [])
                (@start slow_open_service _ ctx_client 0%nat)) as (_ & Hduring & _).
    apply (Hduring (0%nat, cancellable_list_request)); [discriminate| |exact Hcut].
    vm_compute. constructor.
Defined.

(** C7, as stated, fails in two ways.  A method of [client.go] cannot be
    given a context: the list call succeeds, with a request in the
    background context, in a world where the context [Cancellable 0] is
    done.  And the login of the revision with contexts does not read the
    answer it gets with status 200: it succeeds although its context ended
    while that answer was in flight, on a transport that answers a request
    whose context is done with an error and breaks off the body of an
    answer in flight. *)
Lemma login_outlives_its_context :
  (@Context_done slow_open_service 5%nat (Cancellable 0) = true
   /\ exists v s',
       @SidClient.call slow_open_service reference_json 1 (CallTorrentsInfo [])
         (@start slow_open_service _ sid_client 5%nat) = Returns (Ok v) s'
       /\ map (fun e => ReqCtx e.2) (sent (net s')) = [Background])
  /\ (@honours_cancellation slow_open_service
      /\ @aborts_in_flight slow_open_service
      /\ exists s',
          @CtxClient.callCtx slow_open_service reference_json 1 (Cancellable 1)
            CallAuthLogin (@start slow_open_service _ ctx_client 0%nat)
          = Returns (Ok VNone) s'
          /\ Forall (@cut_short slow_open_service (Cancellable 1)) (sent (net s'))
          /\ @Context_done slow_open_service (world (net s')) (Cancellable 1) = true).
Proof.
  split.
  - split; [reflexivity|]. eexists _, _. split; vm_compute; reflexivity.
  - split; [apply slow_honours_cancellation|]. split; [apply slow_aborts_in_flight|].
    eexists. split; [vm_compute; reflexivity|]. split; [|reflexivity].
    apply Forall_singleton. right. reflexivity.
Qed.

(** A context that ends during the call of the list method at the session
    service, a client without a session: while the first request is in
    flight, while the login is, and while the request sent again is.  The
    call fails each time, and succeeds when the context outlasts it. *)
Example cancelled_during_call :
  (exists s',
      @CtxClient.callCtx slow_session_service reference_json 3 (Cancellable 1)
        (CallTorrentsInfo []) (@start slow_session_service _ ctx_client 0%nat)
      = Returns (Err "re-authentication failed: AuthLogin error: context canceled") s'
      /\ @paths slow_session_service (sent (net s'))
         = ["/api/v2/torrents/info"; "/api/v2/auth/login"])
  /\ (exists s',
         @CtxClient.callCtx slow_session_service reference_json 3 (Cancellable 2)
           (CallTorrentsInfo []) (@start slow_session_service _ ctx_client 0%nat)
         = Returns (Err "context canceled") s'
         /\ @paths slow_session_service (sent (net s'))
            = ["/api/v2/torrents/info"; "/api/v2/auth/login"; "/api/v2/torrents/info"])
  /\ (exists s',
         @CtxClient.callCtx slow_session_service reference_json 3 (Cancellable 3)
           (CallTorrentsInfo []) (@start slow_session_service _ ctx_client 0%nat)
         = Returns (Err "ReadAll error: context canceled") s'
         /\ @paths slow_session_service (sent (net s'))
            = ["/api/v2/torrents/info"; "/api/v2/auth/login"; "/api/v2/torrents/info"])
  /\ (exists v s',
         @CtxClient.callCtx slow_session_service reference_json 3 (Cancellable 4)
           (CallTorrentsInfo []) (@start slow_session_service _ ctx_client 0%nat)
         = Returns (Ok v) s'
         /\ @paths slow_session_service (sent (net s'))
            = ["/api/v2/torrents/info"; "/api/v2/auth/login"; "/api/v2/torrents/info"]).
Proof. repeat split; repeat eexists; vm_compute; reflexivity. Qed.

(** C8.  The deprecated form of every method is the form with a context,
    called with the background context: the same result, the same requests,
    the same state. *)
Theorem deprecated_form_is_background `{RoundTripper} `{JSONSyntax}
    (fuel : nat) (c : Call) (s : State CtxClient.Client) :
  CtxClient.call fuel c s = CtxClient.callCtx fuel Background c s.
Proof. by rewrite CtxProofs.call_is_callCtx. Qed.

(** C9.  Let the body of a request be a reader, and let the base address of
    the client parse.  When the pipeline is done, whatever its outcome, the
    reader has been read to its end, once: [io.ReadAll] has been called on
    it one time more than before, and nothing is left in it.  If the read
    fails, the pipeline returns the error of the reader, wrapped, and sends
    nothing.  If the read succeeds and the request can be built, the first
    request sent carries what was read; after it come the logins of the
    re-authentication, and after them, at most once, the request again,
    the same in context, method, address, content type and body.  When the
    pipeline returns after a first answer "forbidden", either the
    re-authentication has failed, or the request was sent again, with the
    bytes of the first attempt, and its answer is the result.  This holds
    of [doRequest] of [client.go] and of [doRequestCtx]. *)
Theorem body_is_read_once `{RoundTripper} :
  (forall fuel method endpoint a ct qs (s0 : State SidClient.Client) rd base,
      readers s0 !! a = Some rd ->
      url_Parse (SidClient.baseURL (self s0)) = Ok base ->
      readers (final_state (SidClient.doRequest (S fuel) method endpoint (Some a) ct
                              (map withQuery qs) s0)) !! a
      = Some (Reader_drained rd)
      /\ (forall err,
            failure rd = Some err ->
            exists s',
              SidClient.doRequest (S fuel) method endpoint (Some a) ct (map withQuery qs) s0
              = Returns (Err ("failed to read request body: " +:+ err)) s'
              /\ new_requests s0 s' = [])
      /\ (forall req,
            failure rd = None ->
            SidSpec.build (SidClient.sid (self s0)) method (api_url base endpoint)
              (Some (pending rd)) ct (map withQuery qs) = Ok req ->
            exists e1 logins retried,
              new_requests s0
                (final_state (SidClient.doRequest (S fuel) method endpoint (Some a) ct
                                (map withQuery qs) s0))
              = e1 :: logins ++ retried
              /\ e1 = (world (net s0), Client_send_request (SidClient.client (self s0)) req)
              /\ Body e1.2 = Some (pending rd)
              /\ Forall (fun e => SidSpec.login_sent (self s0) e.2) logins
              /\ (retried = []
                  \/ exists e3, retried = [e3] /\ same_attempt e1.2 e3.2
                                /\ Body e3.2 = Some (pending rd))
              /\ (forall r s',
                    SidClient.doRequest (S fuel) method endpoint (Some a) ct
                      (map withQuery qs) s0 = Returns r s' ->
                    answered e1 http_StatusForbidden ->
                    (retried = []
                     /\ exists err, r = Err ("re-authentication failed: " +:+ err))
                    \/ exists e3, retried = [e3] /\ r = answer e3)))
  /\ (forall fuel ctx method endpoint a ct qs (s0 : State CtxClient.Client) rd base,
         readers s0 !! a = Some rd ->
         url_Parse (CtxClient.baseURL (self s0)) = Ok base ->
         readers (final_state (CtxClient.doRequestCtx (S fuel) ctx method endpoint (Some a) ct
                                 (map withQuery qs) s0)) !! a
         = Some (Reader_drained rd)
         /\ (forall err,
               failure rd = Some err ->
               exists s',
                 CtxClient.doRequestCtx (S fuel) ctx method endpoint (Some a) ct
                   (map withQuery qs) s0
                 = Returns (Err ("failed to read request body: " +:+ err)) s'
                 /\ new_requests s0 s' = [])
         /\ (forall req,
               failure rd = None ->
               CtxSpec.build ctx method (api_url base endpoint)
                 (Some (pending rd)) ct (map withQuery qs) = Ok req ->
               exists e1 logins retried,
                 new_requests s0
                   (final_state (CtxClient.doRequestCtx (S fuel) ctx method endpoint (Some a)
                                   ct (map withQuery qs) s0))
                 = e1 :: logins ++ retried
                 /\ e1 = (world (net s0),
                          Client_send_request (CtxClient.client (self s0)) req)
                 /\ Body e1.2 = Some (pending rd)
                 /\ Forall (fun e => CtxSpec.login_sent (self s0) ctx e.2) logins
                 /\ (retried = []
                     \/ exists e3, retried = [e3] /\ same_attempt e1.2 e3.2
                                   /\ Body e3.2 = Some (pending rd))
                 /\ (forall r s',
                       CtxClient.doRequestCtx (S fuel) ctx method endpoint (Some a) ct
                         (map withQuery qs) s0 = Returns r s' ->
                       answered e1 http_StatusForbidden ->
                       (retried = []
                        /\ exists err, r = Err ("re-authentication failed: " +:+ err))
                       \/ exists e3, retried = [e3] /\ r = answer e3))).
Proof.
  split.
  - intros fuel method endpoint a ct qs s0 rd base Hrd Hbase.
    split; [by eapply SidProofs.doRequest_reads|]. split.
    { intros err Hf. by eapply SidProofs.doRequest_read_failure. }
    intros req Hf Hreq.
    destruct (SidProofs.doRequest_trace fuel method endpoint (Some a) ct qs s0 base req
                (SidClient.doRequest (S fuel) method endpoint (Some a) ct
                   (map withQuery qs) s0) Hbase)
      as (logins & retried & Hnew & Hall & Hret & Hres); [| |reflexivity|].
    { intros a' [= <-]. by exists rd. }
    { cbn. by rewrite Hrd. }
    destruct (SidProofs.sid_build_queries _ _ _ _ _ _ _ Hreq) as (_ & _ & _ & Hbody).
    assert (Body (Client_send_request (SidClient.client (self s0)) req) = Some (pending rd))
      as Hb1.
    { rewrite <- Hbody. apply SidProofs.same_attempt_sent. }
    eexists _, logins, retried. split; [exact Hnew|]. split; [reflexivity|].
    split; [exact Hb1|]. split; [exact Hall|]. split.
    + destruct Hret as [->|(e3 & -> & Hsame)]; [by left|]. right. exists e3.
      split; [done|]. split; [done|]. rewrite <- Hb1. symmetry. apply Hsame.
    + intros r s' Hrun Hfor. destruct (Hres r s' Hrun) as [(Hnf & _)|(_ & Hr)]; done.
  - intros fuel ctx method endpoint a ct qs s0 rd base Hrd Hbase.
    split; [by eapply CtxProofs.doRequestCtx_reads|]. split.
    { intros err Hf. by eapply CtxProofs.doRequestCtx_read_failure. }
    intros req Hf Hreq.
    destruct (CtxProofs.doRequestCtx_trace fuel ctx method endpoint (Some a) ct
                (map withQuery qs) s0 base req
                (CtxClient.doRequestCtx (S fuel) ctx method endpoint (Some a) ct
                   (map withQuery qs) s0) Hbase)
      as (logins & retried & Hnew & Hall & Hret & Hres); [| |reflexivity|].
    { intros a' [= <-]. by exists rd. }
    { cbn. by rewrite Hrd. }
    destruct (CtxProofs.build_queries _ _ _ _ _ _ _ Hreq) as (_ & _ & _ & _ & Hbody).
    assert (Body (Client_send_request (CtxClient.client (self s0)) req) = Some (pending rd))
      as Hb1.
    { rewrite <- Hbody. apply SidProofs.same_attempt_sent. }
    eexists _, logins, retried. split; [exact Hnew|]. split; [reflexivity|].
    split; [exact Hb1|]. split; [exact Hall|]. split.
    + destruct Hret as [->|(e3 & -> & Hsame)]; [by left|]. right. exists e3.
      split; [done|]. split; [done|]. rewrite <- Hb1. symmetry. apply Hsame.
    + intros r s' Hrun Hfor. destruct (Hres r s' Hrun) as [(Hnf & _)|(_ & Hr)]; done.
Qed.

(** The force-start form posted to the session service by the sample
    clients, which hold no session: the reader is read once; the first
    request carries the form, and so does the request sent again after the
    login.  And the same call with a reader that fails: nothing is sent. *)
Lemma body_is_read_once_witness :
  (@readers session_service _ force_start_state !! 0%nat
   = Some (strings_NewReader "hashes=abc&value=true")
   /\ @readers session_service _
        (final_state
           (@SidClient.doRequest session_service 2 "POST" "/api/v2/torrents/setForceStart"
              (Some 0%nat) form_urlencoded (map withQuery []) force_start_state)) !! 0%nat
      = Some (Reader_drained (strings_NewReader "hashes=abc&value=true"))
   /\ exists e1 logins retried,
       @new_requests session_service _ force_start_state
         (final_state
            (@SidClient.doRequest session_service 2 "POST" "/api/v2/torrents/setForceStart"
               (Some 0%nat) form_urlencoded (map withQuery []) force_start_state))
       = e1 :: logins ++ retried
       /\ Body e1.2 = Some "hashes=abc&value=true"
       /\ (retried = []
           \/ exists e3, retried = [e3] /\ same_attempt e1.2 e3.2
                         /\ Body e3.2 = Some "hashes=abc&value=true"))
  /\ (@readers session_service _ force_start_state_ctx !! 0%nat
      = Some (strings_NewReader "hashes=abc&value=true")
      /\ @readers session_service _
           (final_state
              (@CtxClient.doRequestCtx session_service 2 Background "POST"
                 "/api/v2/torrents/setForceStart" (Some 0%nat) form_urlencoded
                 (map withQuery []) force_start_state_ctx)) !! 0%nat
         = Some (Reader_drained (strings_NewReader "hashes=abc&value=true"))
      /\ exists e1 logins retried,
          @new_requests session_service _ force_start_state_ctx
            (final_state
               (@CtxClient.doRequestCtx session_service 2 Background "POST"
                  "/api/v2/torrents/setForceStart" (Some 0%nat) form_urlencoded
                  (map withQuery []) force_start_state_ctx))
          = e1 :: logins ++ retried
          /\ Body e1.2 = Some "hashes=abc&value=true"
          /\ (retried = []
              \/ exists e3, retried = [e3] /\ same_attempt e1.2 e3.2
                            /\ Body e3.2 = Some "hashes=abc&value=true"))
  /\ (@readers session_service _ broken_form_state !! 0%nat
      = Some (mkReader "hashes=" (Some "unexpected EOF") 0)
      /\ exists s',
          @SidClient.doRequest session_service 2 "POST" "/api/v2/torrents/setForceStart"
            (Some 0%nat) form_urlencoded (map withQuery []) broken_form_state
          = Returns (Err "failed to read request body: unexpected EOF") s'
          /\ @new_requests session_service _ broken_form_state s' = []).
Proof.
  destruct (@body_is_read_once session_service) as [Hsid Hctx].
  split; [|split].
  - split; [reflexivity|].
    destruct (Hsid 1%nat "POST" "/api/v2/torrents/setForceStart" 0%nat form_urlencoded []
                force_start_state (strings_NewReader "hashes=abc&value=true")
                (mkURL "http://localhost:8080" "" "") eq_refl)
      as (Hread & _ & Hsent); [vm_compute; reflexivity|].
    split; [exact Hread|].
    destruct (Hsent (mkRequest Background "POST"
                       (mkURL "http://localhost:8080" "/api/v2/torrents/setForceStart" "")
                       form_urlencoded [] (Some "hashes=abc&value=true")) eq_refl)
      as (e1 & logins & retried & Hnew & _ & Hb1 & _ & Hret & _);
      [vm_compute; reflexivity|].
    by exists e1, logins, retried.
  - split; [reflexivity|].
    destruct (Hctx 1%nat Background "POST" "/api/v2/torrents/setForceStart" 0%nat
                form_urlencoded [] force_start_state_ctx
                (strings_NewReader "hashes=abc&value=true")
                (mkURL "http://localhost:8080" "" "") eq_refl)
      as (Hread & _ & Hsent); [vm_compute; reflexivity|].
    split; [exact Hread|].
    destruct (Hsent (mkRequest Background "POST"
                       (mkURL "http://localhost:8080" "/api/v2/torrents/setForceStart" "")
                       form_urlencoded [] (Some "hashes=abc&value=true")) eq_refl)
      as (e1 & logins & retried & Hnew & _ & Hb1 & _ & Hret & _);
      [vm_compute; reflexivity|].
    by exists e1, logins, retried.
  - split; [reflexivity|].
    destruct (Hsid 1%nat "POST" "/api/v2/torrents/setForceStart" 0%nat form_urlencoded []
                broken_form_state (mkReader "hashes=" (Some "unexpected EOF") 0)
                (mkURL "http://localhost:8080" "" "") eq_refl)
      as (_ & Hfail & _); [vm_compute; reflexivity|].
    exact (Hfail "unexpected EOF" eq_refl).
Defined.

(** What the two sample calls send: the form, the login, and the form
    again. *)
Example force_start_bodies :
  map (fun e => Body e.2)
    (@new_requests session_service _ force_start_state
       (final_state
          (@SidClient.doRequest session_service 2 "POST" "/api/v2/torrents/setForceStart"
             (Some 0%nat) form_urlencoded (map withQuery []) force_start_state)))
  = [Some "hashes=abc&value=true"; Some "password=secret&username=admin";
     Some "hashes=abc&value=true"]
  /\ map (fun e => Body e.2)
       (@new_requests session_service _ force_start_state_ctx
          (final_state
             (@CtxClient.doRequestCtx session_service 2 Background "POST"
                "/api/v2/torrents/setForceStart" (Some 0%nat) form_urlencoded
                (map withQuery []) force_start_state_ctx)))
     = [Some "hashes=abc&value=true"; Some "password=secret&username=admin";
        Some "hashes=abc&value=true"].
Proof. split; vm_compute; reflexivity. Qed.

(** C10.  The first request of [TorrentsDelete] and of [TorrentsDeleteCtx]
    is a POST to the delete endpoint whose form is [deleteFiles=true] and
    the hash; and whatever method is called, with whatever arguments, a
    request it sends to the delete endpoint is sent by the deletion and has
    that form: no method deletes a torrent and keeps its files. *)
Theorem delete_sends_deleteFiles `{RoundTripper} `{JSONSyntax} :
  (forall fuel infohash (s0 : State SidClient.Client) base,
      url_Parse (SidClient.baseURL (self s0)) = Ok base ->
      exists e rest,
        new_requests s0 (final_state (SidClient.TorrentsDelete (S fuel) infohash s0))
        = e :: rest
        /\ Method e.2 = "POST"
        /\ Path (URL e.2) = Path (api_url base delete_endpoint)
        /\ Body e.2 = Some ("deleteFiles=true&hashes=" +:+ url_QueryEscape infohash))
  /\ (forall fuel c (s0 : State SidClient.Client) base e,
         url_Parse (SidClient.baseURL (self s0)) = Ok base ->
         e ∈ new_requests s0 (final_state (SidClient.call fuel c s0)) ->
         Path (URL e.2) = Path (api_url base delete_endpoint) ->
         exists infohash,
           c = CallTorrentsDelete infohash
           /\ Body e.2 = Some ("deleteFiles=true&hashes=" +:+ url_QueryEscape infohash))
  /\ (forall fuel ctx infohash (s0 : State CtxClient.Client) base,
         url_Parse (CtxClient.baseURL (self s0)) = Ok base ->
         exists e rest,
           new_requests s0 (final_state (CtxClient.TorrentsDeleteCtx (S fuel) ctx infohash s0))
           = e :: rest
           /\ Method e.2 = "POST"
           /\ Path (URL e.2) = Path (api_url base delete_endpoint)
           /\ Body e.2 = Some ("deleteFiles=true&hashes=" +:+ url_QueryEscape infohash))
  /\ (forall fuel ctx c (s0 : State CtxClient.Client) base e,
         url_Parse (CtxClient.baseURL (self s0)) = Ok base ->
         e ∈ new_requests s0 (final_state (CtxClient.callCtx fuel ctx c s0)) ->
         Path (URL e.2) = Path (api_url base delete_endpoint) ->
         exists infohash,
           c = CallTorrentsDelete infohash
           /\ Body e.2 = Some ("deleteFiles=true&hashes=" +:+ url_QueryEscape infohash)).
Proof.
  split; [|split; [|split]].
  - intros fuel infohash s0 base Hbase.
    destruct (SidProofs.TorrentsDelete_first fuel infohash s0 base Hbase) as [rest Hrest].
    eexists _, rest. split; [exact Hrest|]. cbn.
    unfold Client_send_request. by destruct (Jar _).
  - intros fuel c s0 base e Hbase He Hpath.
    by apply (SidProofs.call_delete_requests fuel c s0 base e).
  - intros fuel ctx infohash s0 base Hbase.
    destruct (CtxProofs.TorrentsDeleteCtx_first fuel ctx infohash s0 base Hbase)
      as [rest Hrest].
    eexists _, rest. split; [exact Hrest|]. cbn.
    unfold Client_send_request. by destruct (Jar _).
  - intros fuel ctx c s0 base e Hbase He Hpath.
    by apply (CtxProofs.callCtx_delete_requests fuel ctx c s0 base e).
Qed.

(** The deletion of the torrent [abc] at the session service. *)
Lemma delete_sends_deleteFiles_witness :
  (exists e rest,
      @new_requests session_service _ (@start session_service _ sid_client 0%nat)
        (final_state (@SidClient.TorrentsDelete session_service 2 "abc"
                        (@start session_service _ sid_client 0%nat)))
      = e :: rest
      /\ Method e.2 = "POST"
      /\ Path (URL e.2) = "/api/v2/torrents/delete"
      /\ Body e.2 = Some "deleteFiles=true&hashes=abc")
  /\ (exists infohash,
         CallTorrentsDelete "abc" = CallTorrentsDelete infohash
         /\ Body sample_delete_request = Some ("deleteFiles=true&hashes=" +:+
                                               url_QueryEscape infohash)).
Proof.
  destruct (@delete_sends_deleteFiles session_service reference_json)
    as (Hfirst & Hall & _ & _).
  split.
  - apply (Hfirst 1%nat "abc" (@start session_service _ sid_client 0%nat) _ eq_refl).
  - apply (Hall 2%nat (CallTorrentsDelete "abc") (@start session_service _ sid_client 0%nat)
             _ (0%nat, sample_delete_request) eq_refl).
    + vm_compute. constructor.
    + reflexivity.
Defined.

(** * Further properties of the code *)

(** X2.  Let the request pipeline hand a method a response whose status is
    not 200, and whose body can be read.  Then the method returns an error
    that holds the status and the body of the response: "AuthLogin error
    (status): body" for the login, "POST error (status): body" for a method
    that posts, "unexpected response code: status, response: body" for a
    method that gets, behind the name of the method where the method wraps
    the errors of the layer below ([error_prefix]).  No method takes such a
    response for a success.  This holds of every method of both
    revisions. *)
Theorem other_status_is_an_error `{RoundTripper} `{JSONSyntax} (c : Call) :
  (forall fuel (s0 : State SidClient.Client) w resp s',
      SidSpec.call_wire c (self s0) = Ok w ->
      SidSpec.transport fuel w s0 = Returns (Ok resp) s' ->
      StatusCode resp <> http_StatusOK ->
      RespBodyErr resp = None ->
      SidClient.call fuel c s0
      = Returns (Err (error_prefix c +:+ status_error c resp)) s')
  /\ (forall fuel ctx (s0 : State CtxClient.Client) w resp s',
         CtxSpec.call_wire c (self s0) = Ok w ->
         CtxSpec.transport fuel ctx w s0 = Returns (Ok resp) s' ->
         StatusCode resp <> http_StatusOK ->
         RespBodyErr resp = None ->
         CtxClient.callCtx fuel ctx c s0
         = Returns (Err (error_prefix c +:+ status_error c resp)) s').
Proof.
  split.
  - intros. by eapply SidProofs.call_status_error.
  - intros. by eapply CtxProofs.callCtx_status_error.
Qed.

(** The deletion and the list call at a service that answers with status
    500. *)
Lemma other_status_is_an_error_witness :
  (exists s',
      @SidClient.call broken_service reference_json 1 (CallTorrentsDelete "abc")
        (@start broken_service _ sid_client 0%nat)
      = Returns (Err "TorrentsDelete error: POST error (500): Internal Server Error") s')
  /\ (exists s',
         @CtxClient.callCtx broken_service reference_json 1 Background (CallTorrentsInfo [])
           (@start broken_service _ ctx_client 0%nat)
         = Returns (Err "unexpected response code: 500, response: Internal Server Error") s').
Proof.
  split.
  - destruct (@other_status_is_an_error broken_service reference_json
                (CallTorrentsDelete "abc")) as [Hsid _].
    eexists.
    apply (Hsid 1%nat (@start broken_service _ sid_client 0%nat) _
             (mkResponse 500 [] "Internal Server Error" None) _ eq_refl).
    + vm_compute. reflexivity.
    + vm_compute. discriminate.
    + reflexivity.
  - destruct (@other_status_is_an_error broken_service reference_json
                (CallTorrentsInfo [])) as [_ Hctx].
    eexists.
    apply (Hctx 1%nat Background (@start broken_service _ ctx_client 0%nat) _
             (mkResponse 500 [] "Internal Server Error" None) _ eq_refl).
    + vm_compute. reflexivity.
    + vm_compute. discriminate.
    + reflexivity.
Defined.

(** X3.  Let the request pipeline hand a method that decodes nothing a
    response with status 200 whose body can be read.  Then the method
    succeeds: [TorrentsExport] and [TorrentsDownload] return the bytes of
    the body as they are, and the other methods return nothing, whatever
    the body says.  The state is the one the pipeline left.  This holds of
    the methods of both revisions, the login of [client.go] apart, which
    changes the client: it stores the session. *)
Theorem plain_methods_return_the_body `{RoundTripper} `{JSONSyntax} (c : Call) :
  expects_json c = false ->
  (forall fuel (s0 : State SidClient.Client) w resp s',
      c <> CallAuthLogin ->
      SidSpec.call_wire c (self s0) = Ok w ->
      SidSpec.transport fuel w s0 = Returns (Ok resp) s' ->
      StatusCode resp = http_StatusOK ->
      RespBodyErr resp = None ->
      SidClient.call fuel c s0 = Returns (Ok (plain_value c resp)) s')
  /\ (forall fuel ctx (s0 : State CtxClient.Client) w resp s',
         CtxSpec.call_wire c (self s0) = Ok w ->
         CtxSpec.transport fuel ctx w s0 = Returns (Ok resp) s' ->
         StatusCode resp = http_StatusOK ->
         RespBodyErr resp = None ->
         CtxClient.callCtx fuel ctx c s0 = Returns (Ok (plain_value c resp)) s').
Proof.
  intros Hc. split.
  - intros. by eapply SidProofs.call_plain_success.
  - intros. by eapply CtxProofs.callCtx_plain_success.
Qed.

(** The export of a torrent: the bytes of the response. *)
Lemma plain_methods_return_the_body_witness :
  expects_json (CallTorrentsExport "abc") = false
  /\ (exists s',
         @SidClient.call export_service reference_json 1 (CallTorrentsExport "abc")
           (@start export_service _ sid_client 0%nat)
         = Returns (Ok (VBytes "d4:infod4:name1:aee")) s')
  /\ (exists s',
         @CtxClient.callCtx export_service reference_json 1 Background
           (CallTorrentsExport "abc") (@start export_service _ ctx_client 0%nat)
         = Returns (Ok (VBytes "d4:infod4:name1:aee")) s').
Proof.
  split; [reflexivity|].
  destruct (@plain_methods_return_the_body export_service reference_json
              (CallTorrentsExport "abc") eq_refl) as [Hsid Hctx].
  split.
  - eexists.
    apply (Hsid 1%nat (@start export_service _ sid_client 0%nat) _
             (mkResponse 200 [] "d4:infod4:name1:aee" None) _ ltac:(discriminate) eq_refl).
    + vm_compute. reflexivity.
    + reflexivity.
    + reflexivity.
  - eexists.
    apply (Hctx 1%nat Background (@start export_service _ ctx_client 0%nat) _
             (mkResponse 200 [] "d4:infod4:name1:aee" None) _ eq_refl).
    + vm_compute. reflexivity.
    + reflexivity.
    + reflexivity.
Defined.

(** X4.  When the base address of the client does not parse, every method
    of both revisions returns an error and sends no request, the login
    neither. *)
Theorem malformed_base_address_sends_nothing `{RoundTripper} `{JSONSyntax}
    (fuel : nat) (c : Call) :
  (forall (s0 : State SidClient.Client) e,
      url_Parse (SidClient.baseURL (self s0)) = Err e ->
      exists err s',
        SidClient.call (S fuel) c s0 = Returns (Err err) s'
        /\ new_requests s0 s' = [])
  /\ (forall ctx (s0 : State CtxClient.Client) e,
         url_Parse (CtxClient.baseURL (self s0)) = Err e ->
         exists err s',
           CtxClient.callCtx (S fuel) ctx c s0 = Returns (Err err) s'
           /\ new_requests s0 s' = []).
Proof.
  split.
  - intros. by eapply SidProofs.call_bad_base.
  - intros. by eapply CtxProofs.callCtx_bad_base.
Qed.

(** The list call of a client whose address has no scheme. *)
Lemma malformed_base_address_sends_nothing_witness :
  url_Parse "127.0.0.1:8080" = Err "first path segment in URL cannot contain colon"
  /\ (exists err s',
         @SidClient.call session_service reference_json 1 (CallTorrentsInfo [])
           (@start session_service _ sid_client_without_scheme 0%nat) = Returns (Err err) s'
         /\ @new_requests session_service _
              (@start session_service _ sid_client_without_scheme 0%nat) s' = [])
  /\ (exists err s',
         @CtxClient.callCtx session_service reference_json 1 Background (CallTorrentsInfo [])
           (@start session_service _ ctx_client_without_scheme 0%nat) = Returns (Err err) s'
         /\ @new_requests session_service _
              (@start session_service _ ctx_client_without_scheme 0%nat) s' = []).
Proof.
  split; [vm_compute; reflexivity|].
  destruct (@malformed_base_address_sends_nothing session_service reference_json 0%nat
              (CallTorrentsInfo [])) as [Hsid Hctx].
  split.
  - apply (Hsid (@start session_service _ sid_client_without_scheme 0%nat)
             "first path segment in URL cannot contain colon").
    vm_compute. reflexivity.
  - apply (Hctx Background (@start session_service _ ctx_client_without_scheme 0%nat)
             "first path segment in URL cannot contain colon").
    vm_compute. reflexivity.
Defined.

(** X5.  When the service cannot be reached, so that the transport fails on
    every request, every method of both revisions returns an error after
    one request at most: a failure of the transport is not retried, and
    does not lead to a login. *)
Theorem unreachable_service_is_asked_once `{RoundTripper} `{JSONSyntax}
    (fuel : nat) (c : Call) :
  unreachable ->
  (forall s0 : State SidClient.Client,
      exists err s',
        SidClient.call (S fuel) c s0 = Returns (Err err) s'
        /\ length (new_requests s0 s') <= 1)
  /\ (forall ctx (s0 : State CtxClient.Client),
         exists err s',
           CtxClient.callCtx (S fuel) ctx c s0 = Returns (Err err) s'
           /\ length (new_requests s0 s') <= 1).
Proof.
  intros Hu. split.
  - intros. by apply SidProofs.call_unreachable.
  - intros. by apply CtxProofs.callCtx_unreachable.
Qed.

(** No request to the sample service that is down gets a response. *)
Lemma down_service_unreachable : @unreachable down_service.
Proof.
  intros req w. cbn. destruct (ReqCtx req) as [|k]; [done|]. by destruct (k <=? w)%nat.
Qed.

(** The list call while the service is down. *)
Lemma unreachable_service_is_asked_once_witness :
  @unreachable down_service
  /\ (exists err s',
         @SidClient.call down_service reference_json 1 (CallTorrentsInfo [])
           (@start down_service _ sid_client 0%nat) = Returns (Err err) s'
         /\ length (@new_requests down_service _
                      (@start down_service _ sid_client 0%nat) s') <= 1)
  /\ (exists err s',
         @CtxClient.callCtx down_service reference_json 1 Background (CallTorrentsInfo [])
           (@start down_service _ ctx_client 0%nat) = Returns (Err err) s'
         /\ length (@new_requests down_service _
                      (@start down_service _ ctx_client 0%nat) s') <= 1).
Proof.
  split; [exact down_service_unreachable|].
  destruct (@unreachable_service_is_asked_once down_service reference_json 0%nat
              (CallTorrentsInfo []) down_service_unreachable) as [Hsid Hctx].
  split.
  - apply (Hsid (@start down_service _ sid_client 0%nat)).
  - apply (Hctx Background (@start down_service _ ctx_client 0%nat)).
Defined.

(** What the list call returns while the service is down, and what it has
    sent. *)
Example list_call_while_down :
  exists s',
    @SidClient.call down_service reference_json 1 (CallTorrentsInfo [])
      (@start down_service _ sid_client 0%nat)
    = Returns (Err "connection refused") s'
    /\ @paths down_service (sent (net s')) = ["/api/v2/torrents/info"].
Proof. eexists. split; vm_compute; reflexivity. Qed.

(** X6.  [NewClient] logs in when, and only when, both the user name and
    the password are given.  Without one of them it sends nothing and
    returns the client, which holds no session.  With both, when the base
    address parses and the service never answers the login with
    "forbidden", it sends one request, the login with these credentials in
    the background context, and returns what the login returns, an error
    of the login behind a second "AuthLogin error: ".  In [client.go] an
    absent HTTP client is replaced by one without cookie jar; in the other
    revision the client always ends with a jar, an empty one where none was
    given. *)
Theorem NewClient_logs_in_once `{RoundTripper}
    (fuel : nat) (username password baseURL : string) (httpClient : option http_Client) :
  (forall s : State SidClient.Client,
      (username = "" \/ password = "" ->
       exists s',
         SidClient.NewClient (S fuel) username password baseURL httpClient s
         = Returns (Ok tt) s'
         /\ new_requests s s' = []
         /\ self s' = SidClient.mkClient username password
                        (default (mkHttpClient None) httpClient) baseURL "")
      /\ (forall base,
             username <> "" -> password <> "" ->
             url_Parse baseURL = Ok base ->
             SidSpec.login_never_forbidden
               (SidClient.mkClient username password
                  (default (mkHttpClient None) httpClient) baseURL "") ->
             exists e s',
               SidClient.NewClient (S fuel) username password baseURL httpClient s
               = Returns (construction_verdict (answer e)) s'
               /\ new_requests s s' = [e]
               /\ same_attempt e.2 (first_login base username password)))
  /\ (forall s : State CtxClient.Client,
         (username = "" \/ password = "" ->
          exists s',
            CtxClient.NewClient (S fuel) username password baseURL httpClient s
            = Returns (Ok tt) s'
            /\ new_requests s s' = []
            /\ self s' = CtxClient.mkClient username password (with_jar httpClient) baseURL)
         /\ (forall base,
                username <> "" -> password <> "" ->
                url_Parse baseURL = Ok base ->
                CtxSpec.login_never_forbidden
                  (CtxClient.mkClient username password (with_jar httpClient) baseURL) ->
                exists e s',
                  CtxClient.NewClient (S fuel) username password baseURL httpClient s
                  = Returns (construction_verdict (answer e)) s'
                  /\ new_requests s s' = [e]
                  /\ same_attempt e.2 (first_login base username password)
                  /\ is_Some (Jar (CtxClient.client (self s'))))).
Proof.
  split; intros s; split.
  - intros Hno. eexists. split; [by apply SidProofs.NewClient_no_credentials|].
    split; [|done]. unfold new_requests. cbn. by rewrite drop_all.
  - intros base Hu Hp Hbase HNF.
    destruct (SidProofs.NewClient_login fuel username password baseURL httpClient s base
                Hu Hp Hbase HNF) as (s' & Hrun & Hnew).
    eexists _, s'. split; [exact Hrun|]. split; [exact Hnew|].
    apply SidProofs.same_attempt_sent.
  - intros Hno. eexists. split; [by apply CtxProofs.ctx_NewClient_no_credentials|].
    split; [|done]. unfold new_requests. cbn. by rewrite drop_all.
  - intros base Hu Hp Hbase HNF.
    destruct (CtxProofs.ctx_NewClient_login fuel username password baseURL httpClient s base
                Hu Hp Hbase HNF) as (s' & Hrun & Hnew & Hjar).
    eexists _, s'. split; [exact Hrun|]. split; [exact Hnew|].
    split; [apply SidProofs.same_attempt_sent|done].
Qed.

(** A client made without password, and a client made with the sample
    credentials at the session service. *)
Lemma NewClient_logs_in_once_witness :
  (exists s',
      @SidClient.NewClient session_service 1 "admin" "" "http://localhost:8080" None
        (@start session_service _ sid_client 0%nat) = Returns (Ok tt) s'
      /\ @new_requests session_service _ (@start session_service _ sid_client 0%nat) s' = []
      /\ self s' = SidClient.mkClient "admin" "" (mkHttpClient None)
                     "http://localhost:8080" "")
  /\ (exists e s',
         @CtxClient.NewClient session_service 1 "admin" "secret" "http://localhost:8080" None
           (@start session_service _ ctx_client 0%nat)
         = Returns (construction_verdict (@answer session_service e)) s'
         /\ @new_requests session_service _ (@start session_service _ ctx_client 0%nat) s'
            = [e]
         /\ same_attempt e.2
              (first_login (mkURL "http://localhost:8080" "" "") "admin" "secret")
         /\ is_Some (Jar (CtxClient.client (self s')))).
Proof.
  split.
  - destruct (@NewClient_logs_in_once session_service 0%nat "admin" ""
                "http://localhost:8080" None) as [Hsid _].
    destruct (Hsid (@start session_service _ sid_client 0%nat)) as [Hno _].
    apply Hno. right. reflexivity.
  - destruct (@NewClient_logs_in_once session_service 0%nat "admin" "secret"
                "http://localhost:8080" None) as [_ Hctx].
    destruct (Hctx (@start session_service _ ctx_client 0%nat)) as [_ Hlogin].
    apply Hlogin.
    + discriminate.
    + discriminate.
    + vm_compute. reflexivity.
    + exact session_service_login_ctx.
Defined.

(** A client made with credentials the service rejects: the error of the
    login is wrapped twice. *)
Example new_client_rejected :
  exists s',
    @SidClient.NewClient rejecting_service 1 "admin" "wrong" "http://localhost:8080" None
      (@start rejecting_service _ sid_client 0%nat)
    = Returns (Err "AuthLogin error: AuthLogin error (401): Unauthorized") s'.
Proof. eexists. vm_compute. reflexivity. Qed.

(** X7.  The query of the list call holds, under each key, what
    [expected_query] says: a text parameter when it is not empty, "reverse"
    when it is set, the hashes joined by a bar when there are some, the
    limit when it is strictly positive, and the offset when it is not zero,
    so that a negative offset is sent and a negative limit is not.  When the
    base address parses, the first request of [TorrentsInfo] and of
    [TorrentsInfoCtx] is a GET of the list endpoint without body, whose
    query is the encoding of these parameters, those of the first argument,
    or nothing when there is none or it is nil. *)
Theorem info_query_parameters `{RoundTripper} `{JSONSyntax} :
  (forall p key, buildTorrentsInfoQuery p !! key = expected_query p key)
  /\ (forall fuel params (s0 : State SidClient.Client) base,
         url_Parse (SidClient.baseURL (self s0)) = Ok base ->
         exists e rest,
           new_requests s0 (final_state (SidClient.TorrentsInfo (S fuel) params s0))
           = e :: rest
           /\ Method e.2 = "GET"
           /\ Path (URL e.2) = Path (api_url base "/api/v2/torrents/info")
           /\ RawQuery (URL e.2) = url_Values_Encode (info_query params)
           /\ Body e.2 = None)
  /\ (forall fuel ctx params (s0 : State CtxClient.Client) base,
         url_Parse (CtxClient.baseURL (self s0)) = Ok base ->
         exists e rest,
           new_requests s0 (final_state (CtxClient.TorrentsInfoCtx (S fuel) ctx params s0))
           = e :: rest
           /\ ReqCtx e.2 = ctx
           /\ Method e.2 = "GET"
           /\ Path (URL e.2) = Path (api_url base "/api/v2/torrents/info")
           /\ RawQuery (URL e.2) = url_Values_Encode (info_query params)
           /\ Body e.2 = None).
Proof.
  split; [exact buildTorrentsInfoQuery_lookup|]. split.
  - intros fuel params s0 base Hbase.
    destruct (SidProofs.TorrentsInfo_first fuel params s0 base Hbase) as [rest Hrest].
    eexists _, rest. split; [exact Hrest|]. cbn.
    unfold Client_send_request. by destruct (Jar _).
  - intros fuel ctx params s0 base Hbase.
    destruct (CtxProofs.TorrentsInfoCtx_first fuel ctx params s0 base Hbase) as [rest Hrest].
    eexists _, rest. split; [exact Hrest|]. cbn.
    unfold Client_send_request. by destruct (Jar _).
Qed.

(** The list call with a negative limit and a negative offset. *)
Lemma info_query_parameters_witness :
  exists e rest,
    @new_requests session_service _ (@start session_service _ sid_client 0%nat)
      (final_state (@SidClient.TorrentsInfo session_service reference_json 1
                      [Some negative_window] (@start session_service _ sid_client 0%nat)))
    = e :: rest
    /\ Method e.2 = "GET"
    /\ Path (URL e.2) = "/api/v2/torrents/info"
    /\ RawQuery (URL e.2) = "filter=downloading&hashes=a%7Cb&offset=-1"
    /\ Body e.2 = None.
Proof.
  destruct (@info_query_parameters session_service reference_json) as (_ & Hsid & _).
  apply (Hsid 0%nat [Some negative_window] (@start session_service _ sid_client 0%nat)
           (mkURL "http://localhost:8080" "" "")).
  vm_compute. reflexivity.
Defined.

(** X8.  When the list call for the given hashes returns torrents,
    [TorrentsGetTags] returns, in the same state, the tags of these
    torrents: each tag of each torrent, no other text, and none twice.  The
    result is nil when no torrent has a tag.  This holds of both
    revisions. *)
Theorem GetTags_collects_each_tag_once `{RoundTripper} `{JSONSyntax} :
  (forall fuel hashes (s0 : State SidClient.Client) torrents s',
      SidClient.TorrentsInfo fuel [Some (tags_params hashes)] s0
      = Returns (Ok torrents) s' ->
      exists tags,
        SidClient.TorrentsGetTags fuel hashes s0 = Returns (Ok tags) s'
        /\ NoDup (slice_elems tags)
        /\ (forall tag,
              tag ∈ slice_elems tags
              <-> exists t, t ∈ slice_elems torrents
                            /\ tag ∈ slice_elems (TorrentInfo.Tags t))
        /\ (tags = None
            <-> forall t, t ∈ slice_elems torrents
                          -> slice_elems (TorrentInfo.Tags t) = []))
  /\ (forall fuel ctx hashes (s0 : State CtxClient.Client) torrents s',
         CtxClient.TorrentsInfoCtx fuel ctx [Some (tags_params hashes)] s0
         = Returns (Ok torrents) s' ->
         exists tags,
           CtxClient.TorrentsGetTagsCtx fuel ctx hashes s0 = Returns (Ok tags) s'
           /\ NoDup (slice_elems tags)
           /\ (forall tag,
                 tag ∈ slice_elems tags
                 <-> exists t, t ∈ slice_elems torrents
                               /\ tag ∈ slice_elems (TorrentInfo.Tags t))
           /\ (tags = None
               <-> forall t, t ∈ slice_elems torrents
                             -> slice_elems (TorrentInfo.Tags t) = [])).
Proof.
  split.
  - intros fuel hashes s0 torrents s' Hinfo. exists (collect_tags torrents). split.
    + unfold SidClient.TorrentsGetTags, bind. fold (tags_params hashes). by rewrite Hinfo.
    + split; [apply collect_tags_NoDup|]. split; [apply collect_tags_elems|].
      apply collect_tags_nil.
  - intros fuel ctx hashes s0 torrents s' Hinfo. exists (collect_tags torrents). split.
    + unfold CtxClient.TorrentsGetTagsCtx, bind. fold (tags_params hashes). by rewrite Hinfo.
    + split; [apply collect_tags_NoDup|]. split; [apply collect_tags_elems|].
      apply collect_tags_nil.
Qed.

(** The tags of the two torrents of the session service. *)
Lemma GetTags_collects_each_tag_once_witness :
  exists tags s',
    @SidClient.TorrentsGetTags session_service reference_json 2 "abc"
      (@start session_service _ sid_client 0%nat) = Returns (Ok tags) s'
    /\ NoDup (slice_elems tags)
    /\ (forall tag,
          tag ∈ slice_elems tags
          <-> exists t,
              t ∈ [TorrentInfo.mk 0 false "" "" "a" 0 "" (Some ["x"; "y"]);
                   TorrentInfo.mk 0 false "" "" "b" 0 "" (Some [])]
              /\ tag ∈ slice_elems (TorrentInfo.Tags t)).
Proof.
  destruct (@GetTags_collects_each_tag_once session_service reference_json) as [Hsid _].
  destruct (Hsid 2%nat "abc" (@start session_service _ sid_client 0%nat)
              (Some [TorrentInfo.mk 0 false "" "" "a" 0 "" (Some ["x"; "y"]);
                     TorrentInfo.mk 0 false "" "" "b" 0 "" (Some [])])
              _ ltac:(vm_compute; reflexivity)) as (tags & Hrun & Hnd & Hel & _).
  exists tags. eexists. split; [exact Hrun|]. split; [exact Hnd|exact Hel].
Defined.

(** X9.  The add form is always built, and its files are the torrents of
    the parameters, in their order, all under the field "torrents", the
    file at index [i] under the name "torrent[i].torrent" with the bytes
    handed in; there is no file under another field, and no file when the
    parameters hold no torrent. *)
Theorem add_form_torrent_files (p : TorrentsAddParams.t) :
  exists w,
    torrent_add_parts p = Ok w
    /\ (forall boundary,
          CtxClient.buildTorrentAddForm boundary p
          = Ok (multipart_bytes boundary w, multipart_FormDataContentType boundary))
    /\ (forall name,
          form_files name w
          = if String.eqb name "torrents"
            then imap (fun i data => (torrent_filename i, data))
                      (TorrentsAddParams.Torrents p)
            else []).
Proof.
  destruct (torrent_add_parts_fields p) as (w & Hw & _).
  exists w. split; [done|]. split.
  - intros boundary. unfold CtxClient.buildTorrentAddForm. by rewrite Hw.
  - intros name. by apply form_files_torrents.
Qed.

(** The files of a form with two torrents and a category. *)
Example two_torrent_files :
  exists w,
    torrent_add_parts
      (TorrentsAddParams.mk ["first"; "second"] [] "" "" "tv" "" false false None "" 0 0
         (S754_zero false) 0 false false false) = Ok w
    /\ form_files "torrents" w = [("torrent0.torrent", "first"); ("torrent1.torrent", "second")]
    /\ form_files "category" w = [].
Proof. eexists. split; [vm_compute; reflexivity|]. split; reflexivity. Qed.

(** X10.  When the base address parses, the first request of [TorrentsAdd],
    in both revisions, is a POST to the add endpoint of a multipart form
    with two parts: the file "torrent0.torrent" with the data, under the
    field "torrents", and the field "skip_checking" with the value "true".
    The file name handed to [TorrentsAdd] is not sent, and the service is
    always told to skip the check of the data. *)
Theorem TorrentsAdd_form `{RoundTripper} `{JSONSyntax} :
  (forall fuel boundary torrentFile fileData (s0 : State SidClient.Client) base,
      url_Parse (SidClient.baseURL (self s0)) = Ok base ->
      exists e rest,
        new_requests s0
          (final_state (SidClient.TorrentsAdd (S fuel) boundary torrentFile fileData s0))
        = e :: rest
        /\ Method e.2 = "POST"
        /\ Path (URL e.2) = Path (api_url base "/api/v2/torrents/add")
        /\ ContentType e.2 = multipart_FormDataContentType boundary
        /\ Body e.2 = Some (multipart_bytes boundary (single_torrent_parts fileData)))
  /\ (forall fuel boundary ctx torrentFile fileData (s0 : State CtxClient.Client) base,
         url_Parse (CtxClient.baseURL (self s0)) = Ok base ->
         exists e rest,
           new_requests s0
             (final_state
                (CtxClient.TorrentsAddCtx (S fuel) boundary ctx torrentFile fileData s0))
           = e :: rest
           /\ Method e.2 = "POST"
           /\ Path (URL e.2) = Path (api_url base "/api/v2/torrents/add")
           /\ ContentType e.2 = multipart_FormDataContentType boundary
           /\ Body e.2 = Some (multipart_bytes boundary (single_torrent_parts fileData))).
Proof.
  split.
  - intros fuel boundary torrentFile fileData s0 base Hbase.
    rewrite <- (CtxProofs.final_state_returning (fun _ => VNone)).
    change (returning _ _ s0)
      with (SidClient.call (S fuel) (CallTorrentsAdd boundary torrentFile fileData) s0).
    destruct (SidProofs.call_first fuel (CallTorrentsAdd boundary torrentFile fileData) s0 _
                base
                (mkRequest Background "POST" (api_url base "/api/v2/torrents/add")
                   (multipart_FormDataContentType boundary)
                   (if nonempty (SidClient.sid (self s0))
                    then [("SID", SidClient.sid (self s0))] else [])
                   (Some (multipart_bytes boundary (single_torrent_parts fileData))))
                eq_refl Hbase) as [rest Hrest].
    { unfold SidSpec.build. by destruct (nonempty (SidClient.sid (self s0))). }
    eexists _, rest. split; [exact Hrest|]. cbn.
    unfold Client_send_request. by destruct (Jar _).
  - intros fuel boundary ctx torrentFile fileData s0 base Hbase.
    rewrite <- (CtxProofs.final_state_returning (fun _ => VNone)).
    change (returning _ _ s0)
      with (CtxClient.callCtx (S fuel) ctx (CallTorrentsAdd boundary torrentFile fileData) s0).
    destruct (CtxProofs.callCtx_first fuel ctx (CallTorrentsAdd boundary torrentFile fileData)
                s0 _ base
                (mkRequest ctx "POST" (api_url base "/api/v2/torrents/add")
                   (multipart_FormDataContentType boundary) []
                   (Some (multipart_bytes boundary (single_torrent_parts fileData))))
                eq_refl Hbase eq_refl) as [rest Hrest].
    eexists _, rest. split; [exact Hrest|]. cbn.
    unfold Client_send_request. by destruct (Jar _).
Qed.

(** A torrent added at the session service under the name [ubuntu.torrent]:
    the name is not in the body. *)
Lemma TorrentsAdd_form_witness :
  exists e rest,
    @new_requests session_service _ (@start session_service _ sid_client 0%nat)
      (final_state
         (@SidClient.TorrentsAdd session_service 1 "xyz" "ubuntu.torrent" "d4:infoe"
            (@start session_service _ sid_client 0%nat)))
    = e :: rest
    /\ Method e.2 = "POST"
    /\ Path (URL e.2) = "/api/v2/torrents/add"
    /\ ContentType e.2 = "multipart/form-data; boundary=xyz"
    /\ Body e.2 = Some (multipart_bytes "xyz" (single_torrent_parts "d4:infoe")).
Proof.
  destruct (@TorrentsAdd_form session_service reference_json) as [Hsid _].
  apply (Hsid 0%nat "xyz" "ubuntu.torrent" "d4:infoe"
           (@start session_service _ sid_client 0%nat)
           (mkURL "http://localhost:8080" "" "")).
  vm_compute. reflexivity.
Defined.

(** X11.  When [TorrentInfo.UnmarshalJSON] decodes a payload, the tags it
    stores, joined by commas, are the text the payload holds under "tags":
    nothing of the text is lost, trimmed or reordered.  No tag holds a
    comma, the tags are never nil, and there is no tag exactly when the
    text is empty. *)
Theorem tags_join_back `{JSONSyntax} (data : string) (t r : TorrentInfo.t) :
  TorrentInfo_UnmarshalJSON data t = Decoded r ->
  exists ms raw tags,
    json_parse data = Ok (JObject ms)
    /\ store_string "" (member "tags" ms) = Ok raw
    /\ TorrentInfo.Tags r = Some tags
    /\ strings_Join tags "," = raw
    /\ forallb no_comma tags = true
    /\ (tags = [] <-> raw = "").
Proof. apply TorrentInfo_tags_joined. Qed.

(** A payload with three tags. *)
Lemma tags_join_back_witness :
  exists ms raw tags,
    json_parse tagged_torrent = Ok (JObject ms)
    /\ store_string "" (member "tags" ms) = Ok raw
    /\ TorrentInfo.Tags (TorrentInfo.mk 0 false "" "" "ubuntu" 0 ""
                           (Some ["linux"; "iso"; "lts"])) = Some tags
    /\ strings_Join tags "," = raw
    /\ forallb no_comma tags = true
    /\ (tags = [] <-> raw = "").
Proof.
  apply (tags_join_back tagged_torrent TorrentInfo.zero). vm_compute. reflexivity.
Defined.

(** A tag text with empty items: they are kept. *)
Example tags_with_empty_items :
  TorrentInfo.Tags <$> (match TorrentInfo_UnmarshalJSON (js "{'tags':',a,,b,'}")
                                TorrentInfo.zero with
                        | Decoded r => Some r
                        | _ => None
                        end) = Some (Some [""; "a"; ""; "b"; ""]).
Proof. vm_compute. reflexivity. Qed.

(** X12.  In [client.go] the session a login opens is shown on the next
    call.  After a login answered with status 200 and the cookie [SID], the
    client holds the value of that cookie, and the first request of any
    method called next carries it in the cookie [SID], ahead of any cookie
    the HTTP client adds; when the value is empty, the method adds no
    cookie. *)
Theorem session_cookie_is_sent_back `{RoundTripper} `{JSONSyntax} :
  forall fuel fuel' base (s : State SidClient.Client) resp v,
    url_Parse (SidClient.baseURL (self s)) = Ok base ->
    SidSpec.login_never_forbidden (self s) ->
    answer (world (net s),
            Client_send_request (SidClient.client (self s))
              (SidSpec.login_request base (self s))) = Ok resp ->
    StatusCode resp = http_StatusOK ->
    jar_get "SID" (SetCookies resp) = Some v ->
    exists s1,
      SidClient.AuthLogin (S fuel) s = Returns (Ok tt) s1
      /\ SidClient.sid (self s1) = v
      /\ forall c,
          exists e rest others,
            new_requests s1 (final_state (SidClient.call (S fuel') c s1)) = e :: rest
            /\ Cookies e.2 = sid_cookies v ++ others.
Proof.
  intros fuel fuel' base s resp v Hbase HNF Hans H200 Hv.
  destruct (SidProofs.login_then_call fuel fuel' base s resp v Hbase HNF Hans H200 Hv)
    as (s1 & Hrun & Hsid & Hcall).
  exists s1. split; [done|]. split; [done|]. intros c.
  destruct (SidProofs.sid_call_wire_total c (self s1)) as [w Hw].
  destruct (Hcall c w Hw) as (e & rest & Hnew & Hc).
  by exists e, rest, (jar_cookies (SidClient.client (self s1))).
Qed.

(** The login of the sample client at the session service, and any call
    after it. *)
Lemma session_cookie_is_sent_back_witness :
  exists s1,
    @SidClient.AuthLogin session_service 1 (@start session_service _ sid_client 0%nat)
    = Returns (Ok tt) s1
    /\ SidClient.sid (self s1) = session_id
    /\ forall c,
        exists e rest others,
          @new_requests session_service _ s1
            (final_state (@SidClient.call session_service reference_json 1 c s1))
          = e :: rest
          /\ Cookies e.2 = sid_cookies session_id ++ others.
Proof.
  apply (@session_cookie_is_sent_back session_service reference_json 0%nat 0%nat
           (mkURL "http://localhost:8080" "" "")
           (@start session_service _ sid_client 0%nat)
           (mkResponse 200 [("SID", session_id)] "Ok." None)).
  - vm_compute. reflexivity.
  - exact session_service_login_sid.
  - vm_compute. reflexivity.
  - reflexivity.
  - vm_compute. reflexivity.
Defined.

(** X13.  In [client.go], let the service never answer the login with
    "forbidden".  When the pipeline has sent three requests (the request,
    the login, the request again) and the answer to the login has set the
    cookie [SID], the request sent again carries that cookie with the new
    value: the retry is made with the session the login has just opened. *)
Theorem retried_request_has_new_cookie `{RoundTripper} :
  forall fuel method endpoint body ct qs (s0 : State SidClient.Client),
    SidSpec.login_never_forbidden (self s0) ->
    (forall a, body = Some a -> is_Some (readers s0 !! a)) ->
    exists r s',
      SidClient.doRequest (S (S fuel)) method endpoint body ct (map withQuery qs) s0
      = Returns r s'
      /\ forall e1 e2 e3 resp2 v,
          new_requests s0 s' = [e1; e2; e3] ->
          answer e2 = Ok resp2 ->
          jar_get "SID" (SetCookies resp2) = Some v ->
          exists jar, Cookies e3.2 = sid_cookies v ++ jar.
Proof. intros. by apply SidProofs.retry_cookie_sid. Qed.

(** The list call at the session service by a client without session. *)
Lemma retried_request_has_new_cookie_witness :
  exists r s',
    @SidClient.doRequest session_service 2 "GET" info_endpoint None "" (map withQuery [∅])
      (@start session_service _ sid_client 0%nat) = Returns r s'
    /\ forall e1 e2 e3 resp2 v,
        @new_requests session_service _ (@start session_service _ sid_client 0%nat) s'
        = [e1; e2; e3] ->
        @answer session_service e2 = Ok resp2 ->
        jar_get "SID" (SetCookies resp2) = Some v ->
        exists jar, Cookies e3.2 = sid_cookies v ++ jar.
Proof.
  apply (@retried_request_has_new_cookie session_service 0%nat "GET" info_endpoint None ""
           [∅] (@start session_service _ sid_client 0%nat)).
  - exact session_service_login_sid.
  - intros a Ha. discriminate Ha.
Defined.

(** The cookies of the three requests of that call. *)
Example cookies_of_the_retry :
  map (fun e => Cookies e.2)
    (sent (net (final_state
                  (@SidClient.doRequest session_service 2 "GET" info_endpoint None ""
                     (map withQuery [∅]) (@start session_service _ sid_client 0%nat)))))
  = [[]; []; [("SID", session_id)]].
Proof. vm_compute. reflexivity. Qed.

(** X14.  The two revisions put the same request on the wire.  For clients
    with the same credentials and base address, the first request of a
    method of [client.go] and the first request of the same method of the
    other revision, called with the same arguments, have the same method,
    address, content type and body, and the background context.  The
    exception is the addition or removal of tags with an empty list of
    hashes, where only [client.go] sends the field "hashes". *)
Theorem revisions_send_the_same_request `{RoundTripper} `{JSONSyntax} :
  forall fuel c (s1 : State SidClient.Client) (s2 : State CtxClient.Client) base,
    SidClient.username (self s1) = CtxClient.username (self s2) ->
    SidClient.password (self s1) = CtxClient.password (self s2) ->
    url_Parse (SidClient.baseURL (self s1)) = Ok base ->
    url_Parse (CtxClient.baseURL (self s2)) = Ok base ->
    tags_without_hashes c = false ->
    exists e1 rest1 e2 rest2,
      new_requests s1 (final_state (SidClient.call (S fuel) c s1)) = e1 :: rest1
      /\ new_requests s2 (final_state (CtxClient.callCtx (S fuel) Background c s2))
         = e2 :: rest2
      /\ same_attempt e1.2 e2.2.
Proof.
  intros fuel c s1 s2 base Hu Hp Hb1 Hb2 Hc.
  destruct (SidProofs.sid_call_wire_total c (self s1)) as [w Hw].
  by eapply revisions_first_request.
Qed.

(** The addition of a tag by the two sample clients. *)
Lemma revisions_send_the_same_request_witness :
  exists e1 rest1 e2 rest2,
    @new_requests session_service _ (@start session_service _ sid_client 0%nat)
      (final_state (@SidClient.call session_service reference_json 1
                      (CallTorrentsAddTags "abc" "x")
                      (@start session_service _ sid_client 0%nat)))
    = e1 :: rest1
    /\ @new_requests session_service _ (@start session_service _ ctx_client 0%nat)
         (final_state (@CtxClient.callCtx session_service reference_json 1 Background
                         (CallTorrentsAddTags "abc" "x")
                         (@start session_service _ ctx_client 0%nat)))
       = e2 :: rest2
    /\ same_attempt e1.2 e2.2.
Proof.
  apply (@revisions_send_the_same_request session_service reference_json 0%nat
           (CallTorrentsAddTags "abc" "x")
           (@start session_service _ sid_client 0%nat)
           (@start session_service _ ctx_client 0%nat)
           (mkURL "http://localhost:8080" "" "")).
  - reflexivity.
  - reflexivity.
  - vm_compute. reflexivity.
  - vm_compute. reflexivity.
  - reflexivity.
Defined.

(** The exception: a tag added without hashes. *)
Example tags_without_hashes_differ :
  map (fun e => Body e.2)
    (sent (net (final_state
                  (@SidClient.call session_service reference_json 1
                     (CallTorrentsAddTags "" "x")
                     (@start session_service _ sid_client 0%nat)))))
  = [Some "hashes=&tags=x"]
  /\ map (fun e => Body e.2)
       (sent (net (final_state
                     (@CtxClient.callCtx session_service reference_json 1 Background
                        (CallTorrentsAddTags "" "x")
                        (@start session_service _ ctx_client 0%nat)))))
     = [Some "tags=x"].
Proof. split; vm_compute; reflexivity. Qed.

(** X15.  A method talks to its own endpoint and to the login endpoint, and
    to nothing else.  Whatever the service answers and however the call
    ends, every request a method has sent is either the request of the
    method (the path of its endpoint, its content type, its body) or the
    login with the credentials of the client, as a form.  In [client.go]
    every request carries the background context, in the other revision the
    context of the call. *)
Theorem requests_of_a_method `{RoundTripper} `{JSONSyntax} :
  (forall fuel c (s0 : State SidClient.Client) w base e,
      SidSpec.call_wire c (self s0) = Ok w ->
      url_Parse (SidClient.baseURL (self s0)) = Ok base ->
      e ∈ new_requests s0 (final_state (SidClient.call fuel c s0)) ->
      ReqCtx e.2 = Background
      /\ ((Path (URL e.2) = Path (api_url base (wire_endpoint w))
           /\ ContentType e.2 = wire_contentType w
           /\ Body e.2 = wire_body w)
          \/ (Path (URL e.2) = Path (api_url base login_endpoint)
              /\ ContentType e.2 = form_urlencoded
              /\ Body e.2 = Some (login_form (SidClient.username (self s0))
                                             (SidClient.password (self s0))))))
  /\ (forall fuel ctx c (s0 : State CtxClient.Client) w base e,
         CtxSpec.call_wire c (self s0) = Ok w ->
         url_Parse (CtxClient.baseURL (self s0)) = Ok base ->
         e ∈ new_requests s0 (final_state (CtxClient.callCtx fuel ctx c s0)) ->
         ReqCtx e.2 = ctx
         /\ ((Path (URL e.2) = Path (api_url base (wire_endpoint w))
              /\ ContentType e.2 = wire_contentType w
              /\ Body e.2 = wire_body w)
             \/ (Path (URL e.2) = Path (api_url base login_endpoint)
                 /\ ContentType e.2 = form_urlencoded
                 /\ Body e.2 = Some (login_form (CtxClient.username (self s0))
                                                (CtxClient.password (self s0)))))).
Proof.
  split.
  - intros fuel c s0 w base e Hw Hbase He.
    pose proof (SidProofs.call_requests fuel c s0) as Hall. rewrite Hw in Hall.
    rewrite Forall_forall in Hall. destruct (Hall e He) as [Hs|Hl].
    + destruct (SidProofs.sid_sent_for_fields _ _ _ _ _ _ _ _
                  (SidProofs.sid_call_wire_opts _ _ _ Hw) Hbase Hs) as (Hc & Hp & Hct & Hb).
      split; [done|]. by left.
    + destruct (SidProofs.sid_sent_for_fields _ _ _ _ _ _ _ _ ltac:(by exists []) Hbase Hl)
        as (Hc & Hp & Hct & Hb).
      split; [done|]. by right.
  - intros fuel ctx c s0 w base e Hw Hbase He.
    pose proof (CtxProofs.callCtx_requests fuel ctx c s0) as Hall. rewrite Hw in Hall.
    rewrite Forall_forall in Hall. destruct (Hall e He) as [Hs|Hl].
    + destruct (CtxProofs.sent_for_fields _ _ _ _ _ _ _ _ _
                  (CtxProofs.call_wire_opts _ _ _ Hw) Hbase Hs) as (Hc & Hp & Hct & Hb).
      split; [done|]. by left.
    + destruct (CtxProofs.sent_for_fields _ _ _ _ _ _ _ _ _ ltac:(by exists []) Hbase Hl)
        as (Hc & Hp & Hct & Hb).
      split; [done|]. by right.
Qed.

(** The login the list call of a client without session makes at the
    session service. *)
Lemma requests_of_a_method_witness :
  ReqCtx sample_login_request = Background
  /\ ((Path (URL sample_login_request) = "/api/v2/torrents/info"
       /\ ContentType sample_login_request = ""
       /\ Body sample_login_request = None)
      \/ (Path (URL sample_login_request) = "/api/v2/auth/login"
          /\ ContentType sample_login_request = form_urlencoded
          /\ Body sample_login_request = Some (login_form "admin" "secret"))).
Proof.
  destruct (@requests_of_a_method session_service reference_json) as [Hsid _].
  apply (Hsid 2%nat (CallTorrentsInfo []) (@start session_service _ sid_client 0%nat)
           (get_query "/api/v2/torrents/info" ∅) (mkURL "http://localhost:8080" "" "")
           (1%nat, sample_login_request)).
  - reflexivity.
  - vm_compute. reflexivity.
  - vm_compute. constructor. constructor.
Defined.

(** X16.  The wire format of the methods.  When the base address parses,
    the first request of every method but the addition of torrents goes to
    the endpoint of the method ([expected_endpoint]) and carries the text
    [expected_text] gives: the fields of the method, in the order of their
    names, each as [name=value] with the value escaped, joined by [&].  A
    method that reads sends a GET whose query is this text, without body,
    and the query of the base address is dropped; another method sends a
    POST whose body is this text, as a form.  The two revisions differ for
    the addition and removal of tags with an empty list of hashes: only
    [client.go] sends the field "hashes" then. *)
Theorem wire_of_each_method `{RoundTripper} `{JSONSyntax} (c : Call) :
  (forall fuel (s0 : State SidClient.Client) base text,
      url_Parse (SidClient.baseURL (self s0)) = Ok base ->
      expected_text true (SidClient.username (self s0)) (SidClient.password (self s0)) c
      = Some text ->
      exists e rest,
        new_requests s0 (final_state (SidClient.call (S fuel) c s0)) = e :: rest
        /\ ReqCtx e.2 = Background
        /\ carries c base text e.2)
  /\ (forall fuel ctx (s0 : State CtxClient.Client) base text,
         url_Parse (CtxClient.baseURL (self s0)) = Ok base ->
         expected_text false (CtxClient.username (self s0)) (CtxClient.password (self s0)) c
         = Some text ->
         exists e rest,
           new_requests s0 (final_state (CtxClient.callCtx (S fuel) ctx c s0)) = e :: rest
           /\ ReqCtx e.2 = ctx
           /\ carries c base text e.2).
Proof.
  split.
  - intros. by apply SidProofs.call_carries.
  - intros. by apply CtxProofs.callCtx_carries.
Qed.

(** The peers of a torrent, asked of the session service. *)
Lemma wire_of_each_method_witness :
  exists e rest,
    @new_requests session_service _ (@start session_service _ sid_client 0%nat)
      (final_state (@SidClient.call session_service reference_json 1
                      (CallSyncTorrentPeers "abc" 7)
                      (@start session_service _ sid_client 0%nat)))
    = e :: rest
    /\ ReqCtx e.2 = Background
    /\ Path (URL e.2) = "/api/v2/sync/torrentPeers"
    /\ Method e.2 = "GET" /\ RawQuery (URL e.2) = "hash=abc&rid=7" /\ Body e.2 = None.
Proof.
  destruct (@wire_of_each_method session_service reference_json
              (CallSyncTorrentPeers "abc" 7)) as [Hsid _].
  apply (Hsid 0%nat (@start session_service _ sid_client 0%nat)
           (mkURL "http://localhost:8080" "" "") "hash=abc&rid=7").
  - vm_compute. reflexivity.
  - vm_compute. reflexivity.
Defined.

(** X17.  Let the request pipeline hand a method that decodes JSON a
    response with status 200 whose body is not empty and is not a JSON
    document.  Then the method returns an error, and no value: the error of
    the decoder behind "failed to decode response: ", or behind the
    method's own form of it for the trackers, the properties and the list
    of all tags; [TorrentsGetTags] puts its name before the error of the
    list call.  This holds of the methods of both revisions. *)
Theorem malformed_body_is_an_error `{RoundTripper} `{JSONSyntax} (c : Call) :
  expects_json c = true ->
  (forall fuel (s0 : State SidClient.Client) w resp s' err,
      SidSpec.call_wire c (self s0) = Ok w ->
      SidSpec.transport fuel w s0 = Returns (Ok resp) s' ->
      StatusCode resp = http_StatusOK ->
      RespBodyErr resp = None ->
      RespBody resp <> "" ->
      json_parse (RespBody resp) = Err err ->
      SidClient.call fuel c s0 = Returns (Err (syntax_error c err)) s')
  /\ (forall fuel ctx (s0 : State CtxClient.Client) w resp s' err,
         CtxSpec.call_wire c (self s0) = Ok w ->
         CtxSpec.transport fuel ctx w s0 = Returns (Ok resp) s' ->
         StatusCode resp = http_StatusOK ->
         RespBodyErr resp = None ->
         RespBody resp <> "" ->
         json_parse (RespBody resp) = Err err ->
         CtxClient.callCtx fuel ctx c s0 = Returns (Err (syntax_error c err)) s').
Proof.
  intros Hc. split.
  - intros. by eapply SidProofs.call_syntax_error.
  - intros. by eapply CtxProofs.callCtx_syntax_error.
Qed.

(** The properties and the tags of a torrent, asked of a service that
    answers with a page of HTML. *)
Lemma malformed_body_is_an_error_witness :
  expects_json (CallTorrentsProperties "abc") = true
  /\ (exists err s',
         @SidClient.call proxy_service reference_json 1 (CallTorrentsProperties "abc")
           (@start proxy_service _ sid_client 0%nat)
         = Returns (Err ("failed to decode properties response: " +:+ err)) s')
  /\ (exists err s',
         @CtxClient.callCtx proxy_service reference_json 1 Background
           (CallTorrentsGetTags "abc") (@start proxy_service _ ctx_client 0%nat)
         = Returns (Err ("TorrentsGetTags error: failed to decode response: " +:+ err)) s').
Proof.
  split; [reflexivity|]. split.
  - destruct (@malformed_body_is_an_error proxy_service reference_json
                (CallTorrentsProperties "abc") eq_refl) as [Hsid _].
    eexists _, _.
    apply (Hsid 1%nat (@start proxy_service _ sid_client 0%nat) _
             (mkResponse 200 [] "<html>Bad Gateway</html>" None) _ _ eq_refl).
    + vm_compute. reflexivity.
    + reflexivity.
    + reflexivity.
    + discriminate.
    + vm_compute. reflexivity.
  - destruct (@malformed_body_is_an_error proxy_service reference_json
                (CallTorrentsGetTags "abc") eq_refl) as [_ Hctx].
    eexists _, _.
    apply (Hctx 1%nat Background (@start proxy_service _ ctx_client 0%nat) _
             (mkResponse 200 [] "<html>Bad Gateway</html>" None) _ _ eq_refl).
    + vm_compute. reflexivity.
    + reflexivity.
    + reflexivity.
    + discriminate.
    + vm_compute. reflexivity.
Defined.

(** X18.  Let the request pipeline hand a method a response with status
    200 whose body cannot be read to its end.  Then every method but the
    login returns an error, and neither the bytes read so far nor a value
    decoded from them: a method that posts returns the error of the reader
    as it is, a method that gets returns it behind "ReadAll error: ", each
    behind the name of the method where the method wraps the errors of the
    layer below.  This holds of the methods of both revisions. *)
Theorem unreadable_body_is_an_error `{RoundTripper} `{JSONSyntax} (c : Call) :
  c <> CallAuthLogin ->
  (forall fuel (s0 : State SidClient.Client) w resp s' err,
      SidSpec.call_wire c (self s0) = Ok w ->
      SidSpec.transport fuel w s0 = Returns (Ok resp) s' ->
      StatusCode resp = http_StatusOK ->
      RespBodyErr resp = Some err ->
      SidClient.call fuel c s0
      = Returns (Err (error_prefix c +:+ read_error c err)) s')
  /\ (forall fuel ctx (s0 : State CtxClient.Client) w resp s' err,
         CtxSpec.call_wire c (self s0) = Ok w ->
         CtxSpec.transport fuel ctx w s0 = Returns (Ok resp) s' ->
         StatusCode resp = http_StatusOK ->
         RespBodyErr resp = Some err ->
         CtxClient.callCtx fuel ctx c s0
         = Returns (Err (error_prefix c +:+ read_error c err)) s').
Proof.
  intros Hc. split.
  - intros. by eapply SidProofs.call_read_error.
  - intros. by eapply CtxProofs.callCtx_read_error.
Qed.

(** The trackers of a torrent and its deletion, at a service whose
    responses break off. *)
Lemma unreadable_body_is_an_error_witness :
  CallTorrentsTrackers "abc" <> CallAuthLogin
  /\ (exists s',
         @SidClient.call truncating_service reference_json 1 (CallTorrentsTrackers "abc")
           (@start truncating_service _ sid_client 0%nat)
         = Returns (Err "TorrentsTrackers error: ReadAll error: unexpected EOF") s')
  /\ (exists s',
         @CtxClient.callCtx truncating_service reference_json 1 Background
           (CallTorrentsDelete "abc") (@start truncating_service _ ctx_client 0%nat)
         = Returns (Err "TorrentsDelete error: unexpected EOF") s').
Proof.
  split; [discriminate|]. split.
  - destruct (@unreadable_body_is_an_error truncating_service reference_json
                (CallTorrentsTrackers "abc") ltac:(discriminate)) as [Hsid _].
    eexists.
    apply (Hsid 1%nat (@start truncating_service _ sid_client 0%nat) _
             (mkResponse 200 [] "[{" (Some "unexpected EOF")) _ "unexpected EOF" eq_refl).
    + vm_compute. reflexivity.
    + reflexivity.
    + reflexivity.
  - destruct (@unreadable_body_is_an_error truncating_service reference_json
                (CallTorrentsDelete "abc") ltac:(discriminate)) as [_ Hctx].
    eexists.
    apply (Hctx 1%nat Background (@start truncating_service _ ctx_client 0%nat) _
             (mkResponse 200 [] "[{" (Some "unexpected EOF")) _ "unexpected EOF" eq_refl).
    + vm_compute. reflexivity.
    + reflexivity.
    + reflexivity.
Defined.

(** X19.  Let the service never answer the login with "forbidden".  Then
    every method of both revisions ends, whatever the service answers: it
    returns, or the decoder of the response panics; and when it ends it
    has sent three requests at most (the request, a login, the request
    again).  No method calls the pipeline in a loop. *)
Theorem methods_end_within_three_requests `{RoundTripper} `{JSONSyntax}
    (fuel : nat) (c : Call) :
  (forall s0 : State SidClient.Client,
      SidSpec.login_never_forbidden (self s0) ->
      ends (SidClient.call (S (S fuel)) c s0)
      /\ length (new_requests s0 (final_state (SidClient.call (S (S fuel)) c s0))) <= 3)
  /\ (forall ctx (s0 : State CtxClient.Client),
         CtxSpec.login_never_forbidden (self s0) ->
         ends (CtxClient.callCtx (S (S fuel)) ctx c s0)
         /\ length (new_requests s0
                      (final_state (CtxClient.callCtx (S (S fuel)) ctx c s0))) <= 3).
Proof.
  split.
  - intros s0 HNF. by apply SidProofs.call_bounded.
  - intros ctx s0 HNF. by apply CtxProofs.callCtx_bounded.
Qed.

(** The tags of a torrent, asked of the session service by the sample
    clients, which hold no session. *)
Lemma methods_end_within_three_requests_witness :
  (ends (@SidClient.call session_service reference_json 2 (CallTorrentsGetTags "abc")
           (@start session_service _ sid_client 0%nat))
   /\ length (@new_requests session_service _ (@start session_service _ sid_client 0%nat)
                (final_state
                   (@SidClient.call session_service reference_json 2
                      (CallTorrentsGetTags "abc")
                      (@start session_service _ sid_client 0%nat)))) <= 3)
  /\ (ends (@CtxClient.callCtx session_service reference_json 2 Background
              (CallTorrentsGetTags "abc") (@start session_service _ ctx_client 0%nat))
      /\ length (@new_requests session_service _ (@start session_service _ ctx_client 0%nat)
                   (final_state
                      (@CtxClient.callCtx session_service reference_json 2 Background
                         (CallTorrentsGetTags "abc")
                         (@start session_service _ ctx_client 0%nat)))) <= 3).
Proof.
  destruct (@methods_end_within_three_requests session_service reference_json 0%nat
              (CallTorrentsGetTags "abc")) as [Hsid Hctx].
  split.
  - apply (Hsid (@start session_service _ sid_client 0%nat)).
    exact session_service_login_sid.
  - apply (Hctx Background (@start session_service _ ctx_client 0%nat)).
    exact session_service_login_ctx.
Defined.

(** The paths of the three requests of that call. *)
Example tags_after_a_login :
  @paths session_service
    (sent (net (final_state
                  (@SidClient.call session_service reference_json 2
                     (CallTorrentsGetTags "abc")
                     (@start session_service _ sid_client 0%nat)))))
  = ["/api/v2/torrents/info"; "/api/v2/auth/login"; "/api/v2/torrents/info"].
Proof. vm_compute. reflexivity. Qed.

